(* ===== verification/_CoqProject ===== *)
-Q . S2P
Prelude.v
Double.v
Blitz.v
Channel.v
RangePolicy.v
ChannelSet.v
TimeAxis.v
ScanDriver.v
DataFile.v
ScanRun.v
Panel.v
MainWindow.v
Script.v
Legacy.v
PanelLife.v
LegacyWindow.v
LegacyScan.v
