(* ===== verification/Prelude.v ===== *)
(** * TimeScan: a verification development of the TimeScanMX sources

    TimeScanMX polls EPICS process variables at a fixed interval, draws
    their recent history over a window of [period] seconds, fills a table
    and a data file, and keeps its settings between runs.  The sources are
    - [src/lib/timescan.cpp], [timescan.h]: the widget [QChartMX] and its
      nested [Signal] (one PV, its sample buffers and running extrema);
    - [src/bin/TimeScanMX_mainwindow.cpp], [.h]: the window, the command
      line ([clargs]) and the settings file ([updateConfiguration]);
    - [src/lib/script.cpp], [script.h]: the [Script] widget (a shell
      script run as a process) and [ColumnResizer];
    - [src/qchartmx.cpp], [qchartmx.h]: the older single-window chart.
    A tick of the timer runs [QChartMX::getData]: every [Signal::get]
    pushes a reading into its buffer and maintains its extrema and
    normalised buffer, [dataMin]/[dataMax] aggregate the extrema,
    [setRanges] computes the axis bounds, the table and the file get a
    row; [startStop] and [getData] call each other.  The slots of the
    panel change the configuration and emit [configurationChanged],
    which the window writes to the settings.

    ** Files, in dependency order
    - [Prelude] (this file): the notation scope [timescan_scope], the hint
      databases [timescan] and [timescan_rw], and list and string lemmas
      shared by the components.
    - [Double]: C++ doubles as [Fin q] or [NaN] with IEEE comparisons
      (every comparison with NaN false, [!=] true), [DBL_MAX] and the
      [qcmp] tactic.  Arithmetic is exact rational arithmetic: no rounding
      and no infinities (the code divides only by values it tested).
    - [Blitz]: the [blitz::Array] operations the code calls (fill, the
      shift loop of [Signal::get], [min]/[max] reductions that skip NaN,
      [first(isnan)]); [shift_take] proves the in-place loop is
      [take points (value :: data)].
    - [Channel], Module [Signal]: [Signal::Signal], [get], [resetData],
      [preparePlot] and the display flags, on the record of its members.
      Theorems: the window of a scan and the extrema as the window's
      least and greatest defined samples ([scan_spec]), the incremental
      extrema equal a recompute ([get_extrema_recompute]), the
      normalised buffer stays consistent ([get_norm_consistent]), and
      the edge cases of the code ([get_blank_window],
      [log_zero_first_point], [normalized_degenerate]).
    - [RangePolicy], Module [Ranges]: [QChartMX::setRanges]; its
      idempotence and the bounds in each mode, with the inverted bounds
      of a constant negative window and the NaN bounds without data.
    - [ChannelSet]: [dataMin]/[dataMax], proved against the class
      [ChannelSpec] that [Signal] instantiates.
    - [TimeAxis]: Module [Axis] ([preparePlot]'s [timeData] and the tick
      shift), and the re-entrant [setInterval]/[setPeriod] slots as a
      mutual fuel-bounded [Fixpoint] over the class [SpinPair].
    - [ScanDriver]: Modules [Driver] (the chart record, [startStop] and
      [getData] as a mutual [Fixpoint] with the static [gettingData]
      flag as a field, the table rows, the data file text) and [Scan]
      (the events: tick, start, stop, spin boxes, continuous box, as a
      [step] function with [reachable] states and the invariant [inv]).
    - [DataFile]: the data file read back as lines ([header_lines]).
    - [ScanRun]: whole scans: the invariant of reachable charts, no
      event runs out of fuel, fixed scans stop and continuous ones do
      not, the table and file contents, and the refinement of the
      specification's machine [Abstract] ([step_refines],
      [run_refines]).
    - [Panel], Module [Panel]: the slots of [QChartMX] around the chart
      (colour pool, pens, file name and directory checks against a
      file system [gmap string entry], automatic names, range widgets,
      log and normalisation, grid, [addSignal], [removeSignal] with its
      two ways of finding the signal: by [sender()] for an empty name,
      by PV otherwise), each
      in its called-from-code and its slot form, with every emission of
      [configurationChanged] recorded with the configuration the getters
      return.  Theorems: the pens stay distinct ([pens_distinct]), the
      name search terminates on a fresh name ([auto_name_fresh]), and
      [removeSignal] removes the signal the code selects
      ([removeSignal_sender_or_name]), and findings on [addSignal] and
      [start].
    - [MainWindow]: Modules [Settings] ([QSettings] as a [gmap string
      value] with Qt's array layout), [Args] ([clargs] and its exclusive
      pairs) and [Window] (the constructor's two branches, the
      connection to [updateConfiguration], a [step] per slot call).
      Theorems: restoring gives back the saved configuration
      ([settings_roundtrip]), the settings follow every slot but
      [setContinious] ([settings_follow], [continuous_not_saved]),
      construction fails exactly on the exclusive options, the first
      pair in [clargs]' order ([construct_total]), and [--min]
      absent means a manual minimum ([min_not_automatic]).
    - [Script]: Modules [Script] (the widget as a state machine over the
      process state, with [execute] and [waitStop]) and [ColumnResizer].
      Theorems: the widgets follow the process ([reachable_ui]), a path
      set during a run is never run ([stale_script]), [execute] on an
      empty path and on a script that cannot start.
    - [Legacy]: Modules [LSignal] (the older [Signal]) and [LChart]
      ([updateTimes], [prepareAutoSave]).  Theorems: the library's
      [Signal::get] computes what the legacy one computed
      ([get_refines]), and the legacy chart's file and window guards.
    - [PanelLife]: Modules [Life] ([~QChartMX]: [delete ui], then the
      removal loop [removeSignal(signalsE.at(0)->pv())] outside any
      signal, so with no [sender()], ending in [Done], [UseAfterFree]
      or [OutOfFuel]) and [Detectors] ([initQti], and [initDetectors]
      reading the detector file line by line).  Theorems: the
      destructor ends at once without signals, reads the freed Ui
      object when the first signal has a PV, and never ends when it has
      none, as the "+" button leaves it ([destructor_outcome]); lines
      written one per line are read back unchanged
      ([initDetectors_roundtrip]).
    - [LegacyWindow]: the whole legacy window of [src/qchartmx.cpp].
      Module [QS] is Qt's [QSettings] with its group stack
      ([beginWriteArray], [beginReadArray], [setArrayIndex],
      [endArray]: the key prefix is the open groups, an index group
      is [i+1]).  Module [LWindow] is the window: its widgets and
      members as a record, [storeSettings], [addSignal],
      [removeSignal], [constructSignalsLayout] (which calls
      [storeSettings] directly), [preparePlot], [setRanges], the
      display slots, and each widget setter with the slots its
      [toggled]/[textChanged] signal runs.  The [storeSettings]
      connections made at the end of the constructor are the [wired]
      flag.  [create] is the constructor with both branches and the
      global detector list.  Module [LWindowFacts] works on [config]
      (what [storeSettings] writes), with one lemma per setter saying
      how it changes the configuration ([frame]).  Theorems: restoring
      the file [storeSettings] wrote gives back the configuration
      ([legacy_settings_roundtrip]); restoring writes a copy of the
      configuration under [detectors/1/] ([restore_writes_into_array]);
      the options branch takes each option and never opens the
      settings ([legacy_args_config]).
    - [LegacyScan]: Module [LScan] is the legacy [startStop] and
      [getData] around the window of [LegacyWindow]: the timer, the
      static [gettingData] flag, [point], the table, the data file and
      [tableWasSavedTo], the two slots as a mutual fuel-bounded
      [Fixpoint], and the two events that reach them (a timeout, a
      click on [ui->startStop]).  [LScan.alpha] maps a legacy scan into
      the specification's machine [ScanRun.Abstract].  Theorems: on a
      window of at least two points every event completes and refines
      the specification's step ([legacy_step_refines]); a one-point
      fixed scan restarts inside its first sample
      ([legacy_single_point_restart]); a window without points, which
      [-i]/[-p] can produce, reads [timeData(points-1)] out of range at
      start, before any signal ([legacy_start_no_point], with
      [LScan.read_tick] the reads of a tick in the code's order); with automatic names every start opens
      a fresh file ([legacy_start_fresh_file]).

    ** Fuel
    [startStop] calls [getData] (which may call [startStop] back to stop
    a full fixed scan), and [setInterval] re-enters [setPeriod] once
    (four nested calls); the fuel [Scan.fuel = 4] covers both, and
    [ScanRun.reachable_step_total] proves no reachable event runs out
    of it.  The name search of
    [setAutoName] gets [S (size fs)] tries, one more than the entries of
    the file system, which [auto_name_fresh] proves enough.  [Window]
    runs slot calls in sequence with the same fuel.  [Script.waitStop]
    returns [None] for the one case where the code never returns.  The
    destructor's loop gets one turn more than there are signals, enough
    when every call removes one; [destructor_outcome] proves that when
    the first signal has an empty PV no fuel is enough.  The detector file reader
    recurses on the length of the text that is left.  The legacy
    window needs no fuel: its loops run over lists.  The legacy scan
    gets [LScan.fuel = 4]: [startStop], [getData], the [startStop] of a
    one-point window's first sample and its [getData], which returns at
    once; [legacy_step_refines] proves no event of a scan of at least
    two points runs out of it.  The one
    re-entry, the [textChanged] that [prepareAutoSave]'s [setText]
    emits, runs the slot again on the name it has just set, which
    changes nothing, so it is not unfolded.

    ** Not modelled
    Drawing (Qwt curves, scale engines, replot), dialogs, printing and
    the qtiplot export; the EPICS layer (a reading is a connection flag
    and a double); the clock (a string given to the operations that
    read it); spin box rounding and range clamping (the ranges are in
    the [.ui] files, which are not part of [src/], so [setValue] keeps
    the value); a [QFile::open] the system refuses (missing directory,
    no permission): the library driver opens every path and the legacy
    one every non-empty path, so the theorems on the data file hold
    where the system accepts the file; spin box edits while a scan runs
    (the code disables the control panel then); the text round trip
    of the settings file (values keep the type they were written with);
    path normalisation of the file system (a path is a key of the map);
    the option parser [poptmx] (its result is a record of options,
    [None] when not given); the widget positions of
    [constructSignalsLayout]; the legacy [updateTimes] as an event of
    [LScan] (the user's edit of a spin box; [Legacy.LChart.updateTimes]
    models its computation); [args.start]'s
    [singleShot(startStop)], which runs after the constructor; the
    output streams of [Script]. *)

From Stdlib Require Import String.
From stdpp Require Import base list.

Declare Scope timescan_scope.
Delimit Scope timescan_scope with ts.

Create HintDb timescan.
Create Rewrite HintDb timescan_rw.

(** Boolean [Forall2], for deciding pointwise relations on concrete lists. *)
Fixpoint forall2b {A B} (f : A -> B -> bool) (l : list A) (k : list B) : bool :=
  match l, k with
  | [], [] => true
  | x :: l', y :: k' => f x y && forall2b f l' k'
  | _, _ => false
  end.

(** Generic list facts about the "shift right and drop the last" update
    that every [blitz::Array] buffer of the program undergoes. *)

Lemma length_removelast {A} (l : list A) :
  length (removelast l) = length l - 1.
Proof.
  induction l as [|a l IH]; [reflexivity|].
  destruct l as [|b l]; [reflexivity|].
  change (removelast (a :: b :: l)) with (a :: removelast (b :: l)).
  cbn [length] in *. rewrite IH. lia.
Qed.
#[export] Hint Rewrite @length_removelast : timescan_rw.

Lemma lookup_nth_lt {A} (l : list A) (i : nat) (d : A) :
  i < length l -> l !! i = Some (nth i l d).
Proof. intros H. destruct (nth_lookup_or_length l i d); [done | lia]. Qed.

Lemma take_app_take {A} (n m : nat) (l k : list A) :
  n <= length l + m -> take n (l ++ take m k) = take n (l ++ k).
Proof.
  revert n. induction l as [|x l IH]; intros n Hn; cbn in *.
  - rewrite take_take. f_equal. lia.
  - destruct n as [|n]; [reflexivity|]. cbn. f_equal. apply IH. lia.
Qed.

Lemma map_removelast {A B} (f : A -> B) (l : list A) :
  map f (removelast l) = removelast (map f l).
Proof.
  induction l as [|x l IH]; [reflexivity|]. destruct l as [|y l]; [reflexivity|].
  cbn in *. now rewrite IH.
Qed.

Lemma fold_left_map_eq {A B C} (f : A -> B -> A) (g : C -> B) (l : list C) (acc : A) :
  fold_left (fun a c => f a (g c)) l acc = fold_left f (map g l) acc.
Proof. revert acc. induction l as [|x l IH]; intros acc; [reflexivity|]. apply IH. Qed.

Lemma forall2b_Forall2 {A B} (f : A -> B -> bool) (R : A -> B -> Prop) (l : list A) (k : list B) :
  (forall x y, f x y = true -> R x y) -> forall2b f l k = true -> Forall2 R l k.
Proof.
  intros Hf. revert k. induction l as [|x l IH]; intros [|y k] H; cbn in H; try discriminate.
  - constructor.
  - apply andb_true_iff in H as [H1 H2]. constructor; auto.
Qed.

(** Strings built with [+], as [QString] concatenation builds them. *)

Lemma str_app_assoc (x y z : string) : ((x ++ y) ++ z)%string = (x ++ (y ++ z))%string.
Proof. induction x as [|c x IH]; cbn; [reflexivity|]. now rewrite IH. Qed.

Lemma str_app_nil_r (x : string) : (x ++ "")%string = x.
Proof. induction x as [|c x IH]; cbn; [reflexivity|]. now rewrite IH. Qed.

Lemma str_length_app (x y : string) : String.length (x ++ y) = String.length x + String.length y.
Proof. induction x as [|c x IH]; cbn; [reflexivity|]. now rewrite IH. Qed.

(** A common prefix cancels. *)
Lemma str_app_inv_l (x y z : string) : (x ++ y)%string = (x ++ z)%string -> y = z.
Proof. induction x as [|c x IH]; cbn; [easy|]. intros H. injection H as H. exact (IH H). Qed.

(** A common suffix cancels. *)
Lemma str_app_inv_r (x y s : string) : (x ++ s)%string = (y ++ s)%string -> x = y.
Proof.
  revert y. induction x as [|c x IH]; intros [|d y] H; cbn [String.append] in H; [reflexivity| | |].
  - apply (f_equal String.length) in H. cbn [String.length] in H. rewrite str_length_app in H. lia.
  - apply (f_equal String.length) in H. cbn [String.length] in H. rewrite str_length_app in H. lia.
  - injection H as -> H. f_equal. exact (IH y H).
Qed.

