(* ===== verification/Double.v ===== *)
(** * Double: the IEEE-754 [double] values the program computes with

    Every quantity of the engine ([Signal::_min], [_max], the samples of
    [data] and [normal_data], the axis bounds of [QChartMX::setRanges]) is a
    C++ [double].  The program relies on three features of IEEE doubles:
    - the quiet NaN, used as "no value" ([_min(NAN)], [data = NAN],
      [_pv->isConnected() ? ... : NAN]);
    - comparisons that are all false when an operand is NaN ([<], [<=], [==])
      and [!=] that is true then;
    - the largest finite double [DBL_MAX], the start value of blitz's
      [min]/[max] reductions.
    A finite double is modelled by the rational it denotes ([Fin q]) and NaN
    by [NaN].  Arithmetic is exact (no rounding) and there are no
    infinities: the code never divides by a zero it has not tested for, and
    the values it receives are finite ([in_range]). *)

From Stdlib Require Import QArith Qabs Lqa Bool Morphisms Setoid.
From stdpp Require Import base.
From S2P Require Import Prelude.

Inductive double := NaN | Fin (q : Q).

(** ** Comparisons with IEEE semantics *)

Definition Qltb (x y : Q) : bool :=
  match (x ?= y)%Q with Lt => true | _ => false end.

(** [isnan] of <cmath>. *)
Definition isnan (d : double) : bool :=
  match d with NaN => true | Fin _ => false end.

(** The operators [<], [<=], [==] on doubles: false when one side is NaN. *)
Definition dlt (a b : double) : bool :=
  match a, b with Fin x, Fin y => Qltb x y | _, _ => false end.
Definition dle (a b : double) : bool :=
  match a, b with Fin x, Fin y => Qle_bool x y | _, _ => false end.
Definition deq (a b : double) : bool :=
  match a, b with Fin x, Fin y => Qeq_bool x y | _, _ => false end.
(** [!=] is the negation of [==]: true when one side is NaN. *)
Definition dne (a b : double) : bool := negb (deq a b).

(** ** Arithmetic, NaN-propagating *)

Definition dsub (a b : double) : double :=
  match a, b with Fin x, Fin y => Fin (x - y) | _, _ => NaN end.
Definition dmul (a b : double) : double :=
  match a, b with Fin x, Fin y => Fin (x * y) | _, _ => NaN end.
(** Division by zero gives an infinity or NaN in IEEE; the program never
    divides by a zero it has not excluded, and the model answers NaN. *)
Definition ddiv (a b : double) : double :=
  match a, b with
  | Fin x, Fin y => if Qeq_bool y 0 then NaN else Fin (x / y)
  | _, _ => NaN
  end.
Definition dneg (a : double) : double :=
  match a with Fin x => Fin (- x) | NaN => NaN end.

(** Qt's [qAbs(t)] is [t >= 0 ? t : -t] and [qMax(a, b)] is
    [(a < b) ? b : a] (qglobal.h), written with the double comparisons. *)
Definition qAbs (t : double) : double := if dle (Fin 0) t then t else dneg t.
Definition qMax (a b : double) : double := if dlt a b then b else a.

(** ** The finite range *)

(** [std::numeric_limits<double>::max()] = (2^53 - 1) * 2^971. *)
Definition dbl_max : Q := inject_Z ((2 ^ 53 - 1) * 2 ^ 971).
Definition huge : double := Fin dbl_max.
Definition neghuge : double := Fin (- dbl_max).

Definition in_rangeb (d : double) : bool :=
  match d with NaN => true | Fin q => Qle_bool (- dbl_max) q && Qle_bool q dbl_max end.
Definition in_range (d : double) : Prop := in_rangeb d = true.

(** ** The equivalence of doubles that denote the same value *)

Definition deqv (a b : double) : Prop :=
  match a, b with
  | NaN, NaN => True
  | Fin x, Fin y => x == y
  | _, _ => False
  end.
Notation "a =~ b" := (deqv a b) (at level 70, no associativity) : timescan_scope.
Open Scope timescan_scope.

(** Syntactic equality of doubles is decidable. *)
#[export] Instance Q_eq_dec : EqDecision Q.
Proof. intros [n d] [n' d']. unfold Decision. decide equality; [apply Pos.eq_dec|apply Z.eq_dec]. Defined.

#[export] Instance double_eq_dec : EqDecision double.
Proof. intros a b. unfold Decision. decide equality. apply Q_eq_dec. Defined.

(** The equivalence, decided. *)
Definition deqvb (a b : double) : bool :=
  match a, b with
  | NaN, NaN => true
  | Fin x, Fin y => Qeq_bool x y
  | _, _ => false
  end.

(** ** Reflection of the boolean comparisons *)

Lemma Qltb_spec (x y : Q) : reflect (x < y)%Q (Qltb x y).
Proof.
  apply iff_reflect. unfold Qltb. rewrite Qlt_alt.
  destruct (x ?= y)%Q; split; congruence.
Qed.

Lemma Qle_bool_spec (x y : Q) : reflect (x <= y)%Q (Qle_bool x y).
Proof. apply iff_reflect. symmetry. apply Qle_bool_iff. Qed.

Lemma Qeq_bool_spec (x y : Q) : reflect (x == y) (Qeq_bool x y).
Proof. apply iff_reflect. symmetry. apply Qeq_bool_iff. Qed.

(** [qcmp] turns every rational comparison of the goal and the context into
    a case split on the corresponding proposition. *)
Ltac qcmp :=
  repeat match goal with
  | |- context [Qltb ?x ?y] => let H := fresh "Hc" in destruct (Qltb_spec x y) as [H|H]
  | |- context [Qle_bool ?x ?y] => let H := fresh "Hc" in destruct (Qle_bool_spec x y) as [H|H]
  | |- context [Qeq_bool ?x ?y] => let H := fresh "Hc" in destruct (Qeq_bool_spec x y) as [H|H]
  | H : context [Qltb ?x ?y] |- _ => let H' := fresh "Hc" in destruct (Qltb_spec x y) as [H'|H']
  | H : context [Qle_bool ?x ?y] |- _ => let H' := fresh "Hc" in destruct (Qle_bool_spec x y) as [H'|H']
  | H : context [Qeq_bool ?x ?y] |- _ => let H' := fresh "Hc" in destruct (Qeq_bool_spec x y) as [H'|H']
  end.

(** [dcase] splits doubles into NaN and finite values, then compares. *)
Ltac dcase :=
  repeat match goal with
  | d : double |- _ => destruct d
  end; cbn [isnan dlt dle deq dne dsub dmul ddiv dneg deqv in_rangeb orb andb negb] in *; qcmp;
  cbn [deqv orb andb negb] in *.

(** ** The equivalence and the operations that respect it *)

#[export] Instance deqv_equiv : Equivalence deqv.
Proof.
  split.
  - intros [|x]; cbn; [exact I | reflexivity].
  - intros [|x] [|y]; cbn; auto. intros H; symmetry; exact H.
  - intros [|x] [|y] [|z]; cbn; try tauto. intros H1 H2. rewrite H1; exact H2.
Qed.

#[export] Instance isnan_proper : Proper (deqv ==> eq) isnan.
Proof. intros [|x] [|y]; cbn; tauto. Qed.

#[export] Instance dlt_proper : Proper (deqv ==> deqv ==> eq) dlt.
Proof. intros a a' Ha b b' Hb. dcase; cbn in *; try tauto; lra. Qed.

#[export] Instance dle_proper : Proper (deqv ==> deqv ==> eq) dle.
Proof. intros a a' Ha b b' Hb. dcase; cbn in *; try tauto; lra. Qed.

#[export] Instance deq_proper : Proper (deqv ==> deqv ==> eq) deq.
Proof. intros a a' Ha b b' Hb. dcase; cbn in *; try tauto; lra. Qed.

#[export] Instance dne_proper : Proper (deqv ==> deqv ==> eq) dne.
Proof. intros a a' Ha b b' Hb. unfold dne. now rewrite Ha, Hb. Qed.

#[export] Instance dsub_proper : Proper (deqv ==> deqv ==> deqv) dsub.
Proof. intros a a' Ha b b' Hb. dcase; cbn in *; try tauto. now rewrite Ha, Hb. Qed.

#[export] Instance dmul_proper : Proper (deqv ==> deqv ==> deqv) dmul.
Proof. intros a a' Ha b b' Hb. dcase; cbn in *; try tauto. now rewrite Ha, Hb. Qed.

#[export] Instance ddiv_proper : Proper (deqv ==> deqv ==> deqv) ddiv.
Proof.
  intros a a' Ha b b' Hb. dcase; cbn in *; try tauto; try lra. now rewrite Ha, Hb.
Qed.

#[export] Instance dneg_proper : Proper (deqv ==> deqv) dneg.
Proof. intros a a' Ha. dcase; cbn in *; try tauto. now rewrite Ha. Qed.

#[export] Instance qAbs_proper : Proper (deqv ==> deqv) qAbs.
Proof. intros a a' Ha. unfold qAbs. rewrite Ha. now destruct (dle _ a'); rewrite Ha. Qed.

#[export] Instance qMax_proper : Proper (deqv ==> deqv ==> deqv) qMax.
Proof. intros a a' Ha b b' Hb. unfold qMax. rewrite Ha, Hb. now destruct (dlt a' b'). Qed.

(** ** Order facts used by the extremum proofs *)

Lemma deqv_refl_fin (x : Q) : Fin x =~ Fin x.
Proof. reflexivity. Qed.

Lemma dlt_irrefl (a : double) : dlt a a = false.
Proof. dcase; auto; lra. Qed.

Lemma dle_nan_l (a : double) : dle NaN a = false.
Proof. reflexivity. Qed.

Lemma dlt_nan_r (a : double) : dlt a NaN = false.
Proof. now destruct a. Qed.

Lemma dne_nan_l (a : double) : dne NaN a = true.
Proof. reflexivity. Qed.

#[export] Hint Resolve deqv_refl_fin : timescan.
#[export] Hint Rewrite dlt_irrefl dle_nan_l dlt_nan_r dne_nan_l : timescan_rw.

(** ** Negation reverses the order *)

Lemma Qopp_opp_eq (q : Q) : (- - q)%Q = q.
Proof. destruct q as [n d]. unfold Qopp. cbn. now rewrite Z.opp_involutive. Qed.

Lemma dneg_involutive (d : double) : dneg (dneg d) = d.
Proof. destruct d; cbn; [reflexivity|now rewrite Qopp_opp_eq]. Qed.

Lemma dlt_dneg (a b : double) : dlt (dneg a) b = dlt (dneg b) a.
Proof. dcase; try reflexivity; lra. Qed.

Lemma isnan_dneg (d : double) : isnan (dneg d) = isnan d.
Proof. now destruct d. Qed.

Lemma dle_dneg (a b : double) : dle (dneg a) (dneg b) = dle b a.
Proof. dcase; try reflexivity; lra. Qed.

Lemma dlt_dneg2 (a b : double) : dlt (dneg a) (dneg b) = dlt b a.
Proof. dcase; try reflexivity; lra. Qed.

Lemma deqv_dneg (a : double) (q : Q) : dneg a =~ Fin (- q) <-> a =~ Fin q.
Proof. destruct a as [|x]; cbn; [tauto|]. split; intros; lra. Qed.

Lemma deqvb_sound (a b : double) : deqvb a b = true -> a =~ b.
Proof. destruct a, b; cbn; try discriminate; auto. apply Qeq_bool_eq. Qed.

