(* ===== verification/Blitz.v ===== *)
(** * Blitz: the [blitz::Array<double,1>] operations the program uses

    [timescan.h] declares [typedef blitz::Array<double,1> Line]; the time
    axis and both sample buffers of a signal are [Line]s.  This file models
    a [Line] as a list of doubles and each array operation the code calls:
    resizing and filling ([data.resize(points); data = NAN]), element
    assignment ([data(i) = data(i-1)]), whole-array expressions
    ([data / norma], [(data-_min)/(_max-_min)], scalar assignment), the
    reductions [blitz::min] and [blitz::max], and [blitz::first(blitz_isnan(.))].
    The reductions follow blitz's [ReduceMin]/[ReduceMax]: the accumulator
    starts at [huge] (resp. minus [huge]) and takes an element when
    [x < min_] (resp. [x > max_]), so NaN elements are skipped. *)

From Stdlib Require Import QArith Lqa.
From stdpp Require Import base list.
From S2P Require Import Prelude Double.

Abbreviation Line := (list double).

(** [a.resize(n); a = v]: a fresh array of [n] copies of [v]. *)
Definition line_fill (n : nat) (v : double) : Line := replicate n v.

(** [a = v] on an existing array: every element becomes [v]. *)
Definition line_assign (v : double) (a : Line) : Line := map (fun _ => v) a.

(** [a += c] for the time axis. *)
Definition line_add (c : Z) (a : list Z) : list Z := map (fun x => (x + c)%Z) a.

(** [for (int i = i0; i > 0; i--) a(i) = a(i-1);] *)
Fixpoint shift_loop (i : nat) (a : Line) : Line :=
  match i with
  | 0 => a
  | S j => shift_loop j (<[S j := nth j a NaN]> a)
  end.

(** The sequence of [Signal::get] that pushes [value] into a buffer of
    [points] elements:
      [deleted_value = data(points-1);
       for (i = points-1; i > 0; i--) data(i) = data(i-1);
       data(0) = value;]
    An index out of the array ([points] = 0 or larger than the array) is a
    precondition failure of the code and an error ([None]) of the model. *)
Definition shift (points : nat) (value : double) (a : Line) : option (double * Line) :=
  match points with
  | 0 => None
  | S p =>
      match a !! p with
      | None => None
      | Some deleted => Some (deleted, <[0 := value]> (shift_loop p a))
      end
  end.

(** [blitz::min(a)] and [blitz::max(a)]. *)
Definition min_step (acc x : double) : double := if dlt x acc then x else acc.
Definition max_step (acc x : double) : double := if dlt acc x then x else acc.
Definition blitz_min (a : Line) : double := fold_left min_step a huge.
Definition blitz_max (a : Line) : double := fold_left max_step a neghuge.

(** [blitz::first(blitz_isnan(a))]: the index of the first NaN, [None]
    standing for blitz's negative "not found" answer. *)
Fixpoint first_nan (a : Line) : option nat :=
  match a with
  | [] => None
  | x :: t => if isnan x then Some 0 else option_map S (first_nan t)
  end.

(** ** Reference definitions: the least defined element of a line *)

Fixpoint ref_min (a : Line) : double :=
  match a with
  | [] => NaN
  | NaN :: t => ref_min t
  | Fin q :: t =>
      match ref_min t with
      | NaN => Fin q
      | Fin m => if Qle_bool q m then Fin q else Fin m
      end
  end.

(** [least a q]: [q] is a defined element of [a] below every defined element. *)
Definition least (a : Line) (q : Q) : Prop :=
  In (Fin q) a /\ forall x, In (Fin x) a -> (q <= x)%Q.

Definition no_fin (a : Line) : Prop := forall x, ~ In (Fin x) a.

(** [greatest a q]: [q] is a defined element of [a] above every defined one. *)
Definition greatest (a : Line) (q : Q) : Prop :=
  In (Fin q) a /\ forall x, In (Fin x) a -> (x <= q)%Q.

(** ** The in-place shift is the functional shift *)

Lemma shift_loop_spec (i : nat) (a : Line) :
  i < length a -> shift_loop i a = take 1 a ++ take i a ++ drop (S i) a.
Proof.
  revert a; induction i as [|j IH]; intros a Hlt.
  - destruct a as [|x a]; cbn in *; [lia|reflexivity].
  - cbn [shift_loop]. rewrite IH by (rewrite length_insert; lia).
    rewrite take_insert_ge, take_insert_ge, drop_insert_ge, Nat.sub_diag by lia.
    assert (Hj : a !! j = Some (nth j a NaN)) by (apply lookup_nth_lt; lia).
    destruct (lookup_lt_is_Some_2 a (S j)) as [y Hy]; [lia|].
    rewrite (take_S_r a j _ Hj), (drop_S a y (S j) Hy), <- app_assoc.
    reflexivity.
Qed.

(** Pushing [v] into [a' ++ [e]] evicts [e] and yields [v :: a']. *)

Lemma shift_none_zero (v : double) (a : Line) : shift 0 v a = None.
Proof. reflexivity. Qed.

(** A non-empty line is [removelast] of itself followed by its last element. *)
Lemma line_snoc (a : Line) :
  a <> [] -> exists a' e, a = a' ++ [e].
Proof.
  intros H. exists (removelast a), (List.last a NaN).
  now apply app_removelast_last.
Qed.

(** Pushing [v] into [a' ++ [e]] evicts [e] and yields [v :: a']. *)
Lemma shift_snoc (v e : double) (a' : Line) :
  shift (S (length a')) v (a' ++ [e]) = Some (e, v :: a').
Proof.
  cbn [shift]. rewrite lookup_app_r, Nat.sub_diag by lia. cbn.
  rewrite shift_loop_spec by (rewrite length_app; cbn; lia).
  rewrite take_app_length, (drop_ge (a' ++ [e])) by (rewrite length_app; cbn; lia).
  rewrite app_nil_r. destruct a' as [|x a']; reflexivity.
Qed.

(** ** The reference minimum *)

Lemma ref_min_nan (a : Line) : ref_min a = NaN <-> no_fin a.
Proof.
  unfold no_fin. induction a as [|[|q] t IH]; cbn.
  - split; [intros _ x []|reflexivity].
  - rewrite IH. split; intros H x Hx; [destruct Hx as [Hx|Hx]; [discriminate|]|]; eapply H; eauto.
  - split.
    + destruct (ref_min t); [|destruct (Qle_bool q q0)]; discriminate.
    + intros H. exfalso. apply (H q). now left.
Qed.

Lemma ref_min_least (a : Line) (m : Q) : ref_min a = Fin m -> least a m.
Proof.
  unfold least. revert m. induction a as [|[|p] t IH]; intros m; cbn; [discriminate| |].
  - intros H. destruct (IH m H) as [H1 H2]. split; [now right|].
    intros x [Hx|Hx]; [discriminate|auto].
  - destruct (ref_min t) as [|m'] eqn:E.
    + intros [= <-]. apply ref_min_nan in E. split; [now left|].
      intros x [[= ->]|Hx]; [lra|]. now destruct (E x).
    + destruct (IH m' eq_refl) as [H1 H2].
      qcmp; intros [= <-]; (split; [auto|]); intros x [[= ->]|Hx]; try lra;
        specialize (H2 x Hx); lra.
Qed.

Lemma least_unique (a : Line) (x y : Q) : least a x -> least a y -> x == y.
Proof. intros [Hx1 Hx2] [Hy1 Hy2]. specialize (Hx2 y Hy1). specialize (Hy2 x Hx1). lra. Qed.

(** ** [blitz::min] computes the least defined element *)

Lemma min_step_fin (c x : Q) : min_step (Fin c) (Fin x) = if Qltb x c then Fin x else Fin c.
Proof. reflexivity. Qed.

Lemma fold_min_step (a : Line) (c : Q) :
  (fold_left min_step a (Fin c) = Fin c /\ forall x, In (Fin x) a -> (c <= x)%Q)
  \/ (exists q, fold_left min_step a (Fin c) = Fin q /\ least a q /\ (q < c)%Q).
Proof.
  unfold least. revert c. induction a as [|[|x] t IH]; intros c; cbn [fold_left].
  - left. split; [reflexivity|intros x []].
  - destruct (IH c) as [[H1 H2]|(q & H1 & [H2 H3] & H4)].
    + left. split; [exact H1|]. intros x [Hx|Hx]; [discriminate|auto].
    + right. exists q. repeat split; auto; [now right|]. intros y [Hy|Hy]; [discriminate|auto].
  - rewrite min_step_fin. qcmp.
    + destruct (IH x) as [[H1 H2]|(q & H1 & [H2 H3] & H4)]; right.
      * exists x. repeat split; auto; [now left|]. intros y [[= ->]|Hy]; [lra|auto].
      * exists q. repeat split; auto; [now right| |lra]. intros y [[= ->]|Hy]; [lra|auto].
    + destruct (IH c) as [[H1 H2]|(q & H1 & [H2 H3] & H4)].
      * left. split; [exact H1|]. intros y [[= ->]|Hy]; [lra|auto].
      * right. exists q. repeat split; auto; [now right|]. intros y [[= ->]|Hy]; [lra|auto].
Qed.

Lemma blitz_min_spec (a : Line) :
  Forall in_range a ->
  (no_fin a /\ blitz_min a = huge) \/ (exists q, least a q /\ blitz_min a =~ Fin q).
Proof.
  intros Hr. unfold blitz_min, huge.
  destruct (fold_min_step a dbl_max) as [[H1 H2]|(q & H1 & H2 & _)].
  - destruct (ref_min a) as [|m] eqn:E.
    + left. split; [now apply ref_min_nan|exact H1].
    + right. apply ref_min_least in E. exists m. split; [exact E|].
      rewrite H1. destruct E as [E _]. rewrite List.Forall_forall in Hr.
      specialize (Hr _ E). specialize (H2 m E). unfold in_range in Hr. cbn in *.
      qcmp; cbn in *; try discriminate; lra.
  - right. exists q. now rewrite H1.
Qed.

(** ** [blitz::max] is [blitz::min] of the negated line *)




Lemma max_step_dual (acc x : double) :
  max_step (dneg acc) x = dneg (min_step acc (dneg x)).
Proof.
  unfold max_step, min_step. rewrite dlt_dneg.
  destruct (dlt (dneg x) acc); now rewrite ?dneg_involutive.
Qed.

Lemma blitz_max_dual (a : Line) : blitz_max a = dneg (blitz_min (map dneg a)).
Proof.
  unfold blitz_max, blitz_min. change neghuge with (dneg huge). generalize huge.
  induction a as [|x t IH]; intros acc; cbn; [reflexivity|].
  now rewrite max_step_dual, IH.
Qed.

Lemma In_map_dneg (a : Line) (x : Q) : In (Fin x) (map dneg a) <-> In (Fin (- x)) a.
Proof.
  rewrite in_map_iff. split.
  - intros [[|y] [Hy Hin]]; cbn in Hy; [discriminate|].
    injection Hy as <-. now rewrite Qopp_opp_eq.
  - intros H. exists (Fin (- x)). cbn. now rewrite Qopp_opp_eq.
Qed.

Lemma greatest_least (a : Line) (q : Q) : greatest a q <-> least (map dneg a) (- q).
Proof.
  unfold greatest, least. setoid_rewrite In_map_dneg. rewrite Qopp_opp_eq.
  split; intros [H1 H2]; split; auto.
  - intros x Hx. specialize (H2 _ Hx). lra.
  - intros x Hx. rewrite <- (Qopp_opp_eq x) in Hx. specialize (H2 _ Hx). lra.
Qed.

Lemma no_fin_dneg (a : Line) : no_fin a <-> no_fin (map dneg a).
Proof.
  unfold no_fin. setoid_rewrite In_map_dneg. split; intros H x; [apply H|].
  rewrite <- (Qopp_opp_eq x). apply H.
Qed.

Lemma in_range_dneg (d : double) : in_range d -> in_range (dneg d).
Proof. unfold in_range. dcase; auto; intros; discriminate || lra. Qed.

Lemma Forall_in_range_dneg (a : Line) : Forall in_range a -> Forall in_range (map dneg a).
Proof. intros H. apply Forall_map. eapply Forall_impl; [exact H|]. apply in_range_dneg. Qed.

Lemma blitz_max_spec (a : Line) :
  Forall in_range a ->
  (no_fin a /\ blitz_max a = neghuge) \/ (exists q, greatest a q /\ blitz_max a =~ Fin q).
Proof.
  intros Hr. rewrite blitz_max_dual.
  destruct (blitz_min_spec (map dneg a) (Forall_in_range_dneg a Hr)) as [[H1 H2]|(q & H1 & H2)].
  - left. rewrite H2, no_fin_dneg. now split.
  - right. exists (- q). rewrite greatest_least, Qopp_opp_eq. split; [exact H1|].
    rewrite H2. reflexivity.
Qed.

(** ** [least] and [no_fin] under the list operations of a push *)

Lemma least_cons_nan (a : Line) (q : Q) : least (NaN :: a) q <-> least a q.
Proof.
  unfold least. split; intros [H1 H2]; split.
  - destruct H1; [discriminate|assumption].
  - intros x Hx. apply H2. now right.
  - now right.
  - intros x [Hx|Hx]; [discriminate|auto].
Qed.

Lemma no_fin_cons_nan (a : Line) : no_fin (NaN :: a) <-> no_fin a.
Proof.
  unfold no_fin. split; intros H x Hx; [apply (H x); now right|].
  destruct Hx as [Hx|Hx]; [discriminate|exact (H x Hx)].
Qed.

Lemma least_cons_new (y : Q) (a : Line) : no_fin a -> least (Fin y :: a) y.
Proof.
  intros H. split; [now left|]. intros x [[= ->]|Hx]; [lra|now destruct (H x)].
Qed.

Lemma least_cons_le (y q : Q) (a : Line) : least a q -> (y <= q)%Q -> least (Fin y :: a) y.
Proof.
  intros [H1 H2] Hle. split; [now left|].
  intros x [[= ->]|Hx]; [lra|]. specialize (H2 x Hx). lra.
Qed.

Lemma least_cons_ge (y q : Q) (a : Line) : least a q -> (q <= y)%Q -> least (Fin y :: a) q.
Proof.
  intros [H1 H2] Hle. split; [now right|]. intros x [[= ->]|Hx]; [lra|auto].
Qed.

Lemma least_app_r (a : Line) (e : double) (q : Q) :
  least (a ++ [e]) q -> e <> Fin q -> least a q.
Proof.
  intros [H1 H2] Hne. split.
  - apply in_app_or in H1 as [H1|[H1|[]]]; [exact H1|congruence].
  - intros x Hx. apply H2, in_or_app. now left.
Qed.

Lemma no_fin_app_r (a : Line) (e : double) : no_fin (a ++ [e]) -> no_fin a.
Proof. intros H x Hx. apply (H x), in_or_app. now left. Qed.

Lemma least_not_no_fin (a : Line) (q : Q) : least a q -> no_fin a -> False.
Proof. intros [H1 _] H. exact (H q H1). Qed.

Lemma length_shift_snoc (a : Line) (p : nat) :
  length a = S p -> a = removelast a ++ [List.last a NaN] /\ length (removelast a) = p.
Proof.
  intros H. split.
  - apply app_removelast_last. intros ->. discriminate.
  - rewrite length_removelast. lia.
Qed.

(** The functional form of the push on a buffer of the axis length. *)
Lemma shift_full (p : nat) (v : double) (a : Line) :
  length a = S p -> shift (S p) v a = Some (List.last a NaN, v :: removelast a).
Proof.
  intros H. destruct (length_shift_snoc a p H) as [Ha Hl].
  rewrite Ha at 1. rewrite <- Hl at 1. apply shift_snoc.
Qed.

(** On a line without defined samples the reductions keep their start
    values. *)
Lemma fold_min_step_no_fin (a : Line) (acc : double) : no_fin a -> fold_left min_step a acc = acc.
Proof.
  revert acc. induction a as [|[|x] t IH]; intros acc H; cbn; [reflexivity| |].
  - change (min_step acc NaN) with acc. apply IH. exact (proj1 (no_fin_cons_nan t) H).
  - exfalso. apply (H x). now left.
Qed.

Lemma blitz_min_no_fin (a : Line) : no_fin a -> blitz_min a = huge.
Proof. apply fold_min_step_no_fin. Qed.

Lemma blitz_max_no_fin (a : Line) : no_fin a -> blitz_max a = neghuge.
Proof.
  intros H. rewrite blitz_max_dual, blitz_min_no_fin; [reflexivity|].
  exact (proj1 (no_fin_dneg a) H).
Qed.

(** ** Lines equal up to the value equivalence *)

Lemma Forall2_removelast {A B} (R : A -> B -> Prop) (l : list A) (k : list B) :
  Forall2 R l k -> Forall2 R (removelast l) (removelast k).
Proof.
  induction 1 as [|x y l k Hxy H IH]; [constructor|].
  destruct H; cbn; [constructor|]. constructor; [exact Hxy|exact IH].
Qed.

Lemma Forall2_deqv_map (f g : double -> double) (a : Line) :
  (forall x, f x =~ g x) -> Forall2 deqv (map f a) (map g a).
Proof. intros H. induction a; constructor; auto. Qed.

Lemma Forall2_deqv_trans (a b c : Line) :
  Forall2 deqv a b -> Forall2 deqv b c -> Forall2 deqv a c.
Proof.
  intros H1. revert c. induction H1; intros c H2; inversion H2; subst; constructor;
    [etransitivity; eauto|auto].
Qed.

(** ** Claims on the array operations *)

(** C17: The in-place shift of [Signal::get] on a buffer of [points] samples
    evicts the last sample and leaves the new value followed by the
    first [points - 1] samples. *)
Theorem shift_take (p : nat) (v : double) (a : Line) :
  length a = S p -> shift (S p) v a = Some (List.last a NaN, take (S p) (v :: a)).
Proof.
  intros H. rewrite shift_full by exact H. cbn [take].
  now rewrite removelast_firstn_len, H.
Qed.

(** [blitz::min] of a line of finite doubles and NaNs is its least
    defined sample. *)
Theorem blitz_min_least (a : Line) (q : Q) :
  Forall in_range a -> least a q -> blitz_min a =~ Fin q.
Proof.
  intros Hr Hq. destruct (blitz_min_spec a Hr) as [[Hn _]|(q' & Hq' & E)].
  - exfalso. exact (least_not_no_fin a q Hq Hn).
  - rewrite E. cbn. exact (least_unique a q' q Hq' Hq).
Qed.

(** ** Witnesses *)

Lemma shift_take_witness :
  length [Fin 1; NaN; Fin 3] = 3 /\
  shift 3 (Fin 7) [Fin 1; NaN; Fin 3] = Some (Fin 3, take 3 [Fin 7; Fin 1; NaN; Fin 3]).
Proof. split; [reflexivity|]. apply (shift_take 2 (Fin 7) [Fin 1; NaN; Fin 3]). reflexivity. Defined.

Lemma blitz_min_least_witness :
  Forall in_range [Fin 4; NaN; Fin 2] /\ least [Fin 4; NaN; Fin 2] 2 /\
  blitz_min [Fin 4; NaN; Fin 2] =~ Fin 2.
Proof.
  assert (Hr : Forall in_range [Fin 4; NaN; Fin 2]) by (repeat constructor).
  assert (Hq : least [Fin 4; NaN; Fin 2] 2) by (apply ref_min_least; vm_compute; reflexivity).
  split; [exact Hr|]. split; [exact Hq|]. exact (blitz_min_least _ _ Hr Hq).
Defined.
