(* ===== verification/Channel.v ===== *)
(** * Channel: [QChartMX::Signal], one monitored PV with its sample buffers

    [src/lib/timescan.h] (class [QChartMX::Signal]) and
    [src/lib/timescan.cpp] ([Signal::Signal], [get], [resetData],
    [preparePlot]).  The state of a signal is its record [Signal.t]: the
    running extrema [_min]/[_max], the raw buffer [data] (newest first),
    the normalised buffer [normal_data], the two display flags and the
    number of points handed to the curve.  The PV ([_pv]) is the
    acquisition source: [get] receives its connection state and value. *)

From Stdlib Require Import QArith Lqa Bool.
From stdpp Require Import base list.
From S2P Require Import Prelude Double Blitz.

Module Signal.

(** The engine fields of [class QChartMX::Signal] (timescan.h). [xData],
    the parent's shared time axis, is passed to the operations as its
    length [points]. *)
Record t := mk {
  _min : double;
  _max : double;
  data : Line;
  normal_data : Line;
  normalized : bool;
  logscaled : bool;
  curve_size : nat
}.

(** [Signal::Signal]: extrema NaN, empty buffers, both flags off. *)
Definition create : t := mk NaN NaN [] [] false false 0.

Definition with_normal_data (s : t) (nd : Line) : t :=
  mk (_min s) (_max s) (data s) nd (normalized s) (logscaled s) (curve_size s).

(** [qMax(qAbs(_min), qAbs(_max))], the log-mode scale. *)
Definition norma (mn mx : double) : double := qMax (qAbs mn) (qAbs mx).

(** [Signal::preparePlot]: recompute the whole normalised buffer. *)
Definition preparePlot (s : t) : t :=
  let mn := _min s in
  let mx := _max s in
  if logscaled s then
    let n := norma mn mx in
    if dne n (Fin 0) then with_normal_data s (map (fun x => ddiv x n) (data s)) else s
  else if deq mx mn then
    with_normal_data s (line_assign (if deq mx (Fin 0) then Fin 0 else Fin 1) (normal_data s))
  else
    with_normal_data s (map (fun x => ddiv (dsub x mn) (dsub mx mn)) (data s)).

(** The rule [Signal::get] applies to the one new value. *)
Definition norm_value (logscaled : bool) (mn mx value : double) : double :=
  if logscaled then
    let n := norma mn mx in
    if deq n (Fin 0) then value else ddiv value n
  else if deq mx mn then
    (if deq mx (Fin 0) then Fin 0 else Fin 1)
  else ddiv (dsub value mn) (dsub mx mn).

(** The extremum maintenance of [Signal::get]: a rescan when the evicted
    value may have been the extremum
      [if ( ! isnan(deleted_value) && deleted_value <= _min ) _min = blitz::min(data);]
    then the comparison with the new value
      [if ( ! isnan(value) && ( isnan(_min) || value < _min ) ) _min = value;]
    and the same pair for [_max]. *)
Definition rescan_min (deleted m : double) (d : Line) : double :=
  if negb (isnan deleted) && dle deleted m then blitz_min d else m.
Definition update_min (value m : double) : double :=
  if negb (isnan value) && (isnan m || dlt value m) then value else m.
Definition track_min (deleted value m : double) (d : Line) : double :=
  update_min value (rescan_min deleted m d).

Definition rescan_max (deleted m : double) (d : Line) : double :=
  if negb (isnan deleted) && dle m deleted then blitz_max d else m.
Definition update_max (value m : double) : double :=
  if negb (isnan value) && (isnan m || dlt m value) then value else m.
Definition track_max (deleted value m : double) (d : Line) : double :=
  update_max value (rescan_max deleted m d).

(** [blitz::first(blitz_isnan(data))], or [xData->size()] when no NaN. *)
Definition data_size (points : nat) (d : Line) : nat :=
  match first_nan d with Some i => i | None => points end.

(** [Signal::get]: read the PV (NaN when disconnected), push the value,
    maintain the extrema and the normalised buffer, resize the curve.
    [None] is an out-of-range array access of the code. *)
Definition get (connected : bool) (pv_value : double) (points : nat) (s : t)
  : option (t * double) :=
  let value := if connected then pv_value else NaN in
  match shift points value (data s) with
  | None => None
  | Some (deleted_value, d) =>
      let oldMin := _min s in
      let oldMax := _max s in
      let mn := track_min deleted_value value oldMin d in
      let mx := track_max deleted_value value oldMax d in
      let s1 := mk mn mx d (normal_data s) (normalized s) (logscaled s) (curve_size s) in
      let s2 :=
        if normalized s then
          if dne mn oldMin || dne mx oldMax then Some (preparePlot s1)
          else
            match shift points (norm_value (logscaled s) mn mx value) (normal_data s) with
            | Some (_, nd) => Some (with_normal_data s1 nd)
            | None => None
            end
        else Some s1 in
      match s2 with
      | None => None
      | Some s2 =>
          Some (mk (_min s2) (_max s2) (data s2) (normal_data s2)
                   (normalized s2) (logscaled s2) (data_size points d), value)
      end
  end.

(** [Signal::resetData]: buffers of [points] NaNs, extrema NaN. *)
Definition resetData (points : nat) (s : t) : t :=
  let s1 := mk NaN NaN (line_fill points NaN) (line_fill points NaN)
               (normalized s) (logscaled s) (curve_size s) in
  let s2 := preparePlot s1 in
  mk (_min s2) (_max s2) (data s2) (normal_data s2) (normalized s2) (logscaled s2) 0.

(** [Signal::setNormalized] and [Signal::setLogarithmic] (timescan.h). *)
Definition setNormalized (nrm : bool) (s : t) : t :=
  preparePlot (mk (_min s) (_max s) (data s) (normal_data s) nrm (logscaled s) (curve_size s)).
Definition setLogarithmic (log : bool) (s : t) : t :=
  preparePlot (mk (_min s) (_max s) (data s) (normal_data s) (normalized s) log (curve_size s)).

(** Successive calls of [get], one per tick, with the PV readings
    [(connected, value)] in the order they arrive. *)
Fixpoint get_all (points : nat) (rs : list (bool * double)) (s : t) : option t :=
  match rs with
  | [] => Some s
  | (c, v) :: rs' =>
      match get c v points s with
      | Some (s', _) => get_all points rs' s'
      | None => None
      end
  end.

(** The value [get] records for a reading. *)
Definition reading_value (r : bool * double) : double := if r.1 then r.2 else NaN.

(** ** The invariant of a signal *)

(** [m] is the running minimum of the buffer [a]: the least defined sample,
    or, when no sample is defined, NaN (never set) or [huge] (what
    [blitz::min] answers on a buffer without defined samples). *)
Definition min_ok (m : double) (a : Line) : Prop :=
  (exists q, least a q /\ m =~ Fin q) \/ (no_fin a /\ (m = NaN \/ m = huge)).
Definition max_ok (m : double) (a : Line) : Prop :=
  (exists q, greatest a q /\ m =~ Fin q) \/ (no_fin a /\ (m = NaN \/ m = neghuge)).

(** The normalised buffer is what the single-value rule gives for every
    raw sample under the current extrema: the buffer [preparePlot] would
    recompute, element by element, up to the value equivalence. *)
Definition norm_consistent (s : t) : Prop :=
  Forall2 deqv (normal_data s) (map (norm_value (logscaled s) (_min s) (_max s)) (data s)).

(** The buffers have the length of the time axis, the samples are finite
    doubles or NaN, and the extrema are those of [data]. *)
Definition wf (points : nat) (s : t) : Prop :=
  0 < points /\ length (data s) = points /\ length (normal_data s) = points /\
  Forall in_range (data s) /\ min_ok (_min s) (data s) /\ max_ok (_max s) (data s).

(** ** The invariants, decided on concrete signals *)

Definition min_okb (m : double) (a : Line) : bool :=
  match ref_min a with
  | NaN => bool_decide (m = NaN) || bool_decide (m = huge)
  | Fin r => deqvb m (Fin r)
  end.

Definition max_okb (m : double) (a : Line) : bool := min_okb (dneg m) (map dneg a).

Definition wfb (points : nat) (s : t) : bool :=
  Nat.ltb 0 points && Nat.eqb (length (data s)) points &&
  Nat.eqb (length (normal_data s)) points && forallb in_rangeb (data s) &&
  min_okb (_min s) (data s) && max_okb (_max s) (data s).

Definition norm_consistentb (s : t) : bool :=
  forall2b deqvb (normal_data s) (map (norm_value (logscaled s) (_min s) (_max s)) (data s)).

(** ** The running minimum *)

Lemma min_ok_cons_nan (m : double) (a : Line) : min_ok m a -> min_ok m (NaN :: a).
Proof.
  intros [(q & Hq & Hm)|(Hn & Hm)]; [left; exists q; now rewrite least_cons_nan|].
  right. now rewrite no_fin_cons_nan.
Qed.

Lemma min_ok_blitz_min (a : Line) : Forall in_range a -> min_ok (blitz_min a) a.
Proof.
  intros Hr. destruct (blitz_min_spec a Hr) as [[H1 H2]|H]; [right; auto|now left].
Qed.

(** The comparison with the new value extends the minimum of [a] to
    [value :: a]. *)
Lemma update_min_ok (v m : double) (a : Line) :
  in_range v -> min_ok m a -> min_ok (update_min v m) (v :: a).
Proof.
  intros Hv Hm. destruct v as [|y]; [apply min_ok_cons_nan, Hm|].
  unfold update_min. cbn [isnan negb andb].
  destruct Hm as [(q & Hq & Hm)|(Hn & [-> | ->])].
  - destruct m as [|m]; [contradiction|]. cbn in Hm |- *. left. qcmp.
    + exists y. split; [|reflexivity]. apply (least_cons_le y q a Hq). lra.
    + exists q. split; [apply least_cons_ge; [exact Hq|lra]|exact Hm].
  - left. exists y. split; [now apply least_cons_new|reflexivity].
  - left. exists y. split; [now apply least_cons_new|].
    unfold in_range in Hv. cbn in Hv |- *. qcmp; cbn in *; try discriminate; lra.
Qed.

(** A minimum that already accounts for [value] is left as it is. *)
Lemma update_min_ok_in (v m : double) (a : Line) :
  min_ok m (v :: a) -> min_ok (update_min v m) (v :: a).
Proof.
  intros Hm. destruct v as [|y]; [exact Hm|]. unfold update_min.
  destruct Hm as [(q & Hq & Hm)|(Hn & _)]; [|exfalso; apply (Hn y); now left].
  destruct m as [|m]; [contradiction|]. cbn in Hm |- *.
  pose proof (proj2 Hq y (or_introl eq_refl)) as Hy.
  qcmp; [lra|]. left. exists q. auto.
Qed.

(** Without a rescan the evicted value was not the minimum, so the
    minimum of [a ++ [e]] is that of [a]. *)
Lemma min_ok_drop_last (m e : double) (a : Line) :
  min_ok m (a ++ [e]) -> (negb (isnan e) && dle e m) = false -> min_ok m a.
Proof.
  intros [(q & Hq & Hm)|(Hn & Hm)] Hr; [left|right; split; [eapply no_fin_app_r; eauto|exact Hm]].
  exists q. split; [|exact Hm]. apply (least_app_r a e q Hq).
  intros ->. rewrite Hm in Hr. cbn in Hr. qcmp; [discriminate|lra].
Qed.

(** The incremental minimum of [Signal::get] is the minimum of the new
    buffer. *)
Lemma track_min_ok (e v m : double) (a : Line) :
  Forall in_range (v :: a) -> min_ok m (a ++ [e]) ->
  min_ok (track_min e v m (v :: a)) (v :: a).
Proof.
  intros Hr Hm. unfold track_min, rescan_min.
  destruct (negb (isnan e) && dle e m) eqn:R.
  - apply update_min_ok_in, min_ok_blitz_min, Hr.
  - apply update_min_ok; [now inversion Hr|]. eapply min_ok_drop_last; eauto.
Qed.

(** ** The running maximum, by duality *)




Lemma track_max_dual (e v m : double) (d : Line) :
  track_max e v m d = dneg (track_min (dneg e) (dneg v) (dneg m) (map dneg d)).
Proof.
  unfold track_max, track_min, rescan_max, rescan_min, update_max, update_min.
  rewrite !isnan_dneg, dle_dneg, blitz_max_dual.
  destruct (negb (isnan e) && dle m e).
  - rewrite isnan_dneg, dlt_dneg. destruct (_ && _); now rewrite ?dneg_involutive.
  - rewrite isnan_dneg, dlt_dneg2. destruct (_ && _); now rewrite ?dneg_involutive.
Qed.


Lemma max_ok_dual (m : double) (a : Line) : max_ok m a <-> min_ok (dneg m) (map dneg a).
Proof.
  unfold max_ok, min_ok. rewrite <- no_fin_dneg. split.
  - intros [(q & Hq & Hm)|(Hn & Hm)]; [left|right].
    + exists (- q). rewrite <- greatest_least, deqv_dneg. auto.
    + split; [exact Hn|]. destruct Hm as [-> | ->]; [now left|now right].
  - intros [(q & Hq & Hm)|(Hn & Hm)]; [left|right].
    + exists (- q). rewrite greatest_least, Qopp_opp_eq. split; [exact Hq|].
      rewrite <- deqv_dneg, Qopp_opp_eq. exact Hm.
    + split; [exact Hn|]. destruct m as [|x]; cbn [dneg] in Hm; [now left|right].
      destruct Hm as [Hm|Hm]; [discriminate|].
      assert (Hx : (- x)%Q = dbl_max) by (unfold huge in Hm; congruence).
      unfold neghuge. rewrite <- Hx, Qopp_opp_eq. reflexivity.
Qed.

Lemma track_max_ok (e v m : double) (a : Line) :
  Forall in_range (v :: a) -> max_ok m (a ++ [e]) ->
  max_ok (track_max e v m (v :: a)) (v :: a).
Proof.
  intros Hr Hm. rewrite max_ok_dual, track_max_dual, dneg_involutive.
  rewrite max_ok_dual, map_app in Hm. cbn [map] in *.
  apply track_min_ok; [|exact Hm].
  apply (Forall_in_range_dneg (v :: a) Hr).
Qed.

(** ** [Signal::get] *)

Lemma preparePlot_fields (s : t) :
  _min (preparePlot s) = _min s /\ _max (preparePlot s) = _max s /\
  data (preparePlot s) = data s /\ normalized (preparePlot s) = normalized s /\
  logscaled (preparePlot s) = logscaled s.
Proof.
  unfold preparePlot. destruct (logscaled s) eqn:L; [destruct (dne _ _)|destruct (deq _ _)];
    cbn; auto.
Qed.

Lemma preparePlot_length (s : t) :
  length (data s) = length (normal_data s) ->
  length (normal_data (preparePlot s)) = length (normal_data s).
Proof.
  intros H. unfold preparePlot, line_assign.
  destruct (logscaled s); [destruct (dne _ _)|destruct (deq _ _)]; cbn;
    rewrite ?length_map; auto.
Qed.

(** Pushing a value into a well-formed signal succeeds, shifts the raw
    buffer, and keeps the signal well formed: the buffers keep the axis
    length and the running extrema are those of the new buffer. *)
Theorem get_spec (connected : bool) (pv : double) (points : nat) (s : t) :
  wf points s -> in_range pv ->
  exists s', get connected pv points s = Some (s', if connected then pv else NaN) /\
    data s' = (if connected then pv else NaN) :: removelast (data s) /\
    normalized s' = normalized s /\ logscaled s' = logscaled s /\
    curve_size s' = data_size points (data s') /\ wf points s'.
Proof.
  intros (Hp & Hd & Hn & Hr & Hmin & Hmax) Hv.
  set (value := if connected then pv else NaN).
  assert (Hval : in_range value) by (unfold value; destruct connected; [exact Hv|reflexivity]).
  destruct points as [|p]; [lia|].
  destruct (length_shift_snoc (data s) p Hd) as [Hsplit Hlen].
  assert (Hr' : Forall in_range (value :: removelast (data s))).
  { constructor; [exact Hval|]. rewrite Hsplit in Hr. now apply Forall_app in Hr as [Hr _]. }
  assert (Hmin' := track_min_ok (List.last (data s) NaN) value (_min s) (removelast (data s)) Hr').
  assert (Hmax' := track_max_ok (List.last (data s) NaN) value (_max s) (removelast (data s)) Hr').
  rewrite <- Hsplit in Hmin', Hmax'. specialize (Hmin' Hmin). specialize (Hmax' Hmax).
  unfold get. fold value. rewrite shift_full by exact Hd.
  set (d := value :: removelast (data s)).
  set (s1 := mk _ _ d (normal_data s) (normalized s) (logscaled s) (curve_size s)).
  assert (Hd' : length d = S p) by (cbn; lia).
  destruct (normalized s) eqn:N; [destruct (_ || _)|].
  - destruct (preparePlot_fields s1) as (F1 & F2 & F3 & F4 & F5).
    assert (L := preparePlot_length s1). cbn in L.
    eexists. split; [reflexivity|]. cbn. rewrite F1, F2, F3, F4, F5.
    unfold wf. cbn. repeat split; auto; try lia; rewrite L; lia.
  - rewrite shift_full by lia. eexists. split; [reflexivity|].
    unfold wf. cbn. repeat split; auto; try lia; rewrite length_removelast; lia.
  - eexists. split; [reflexivity|]. unfold wf. cbn. repeat split; auto; lia.
Qed.

(** ** [Signal::resetData] *)

Lemma min_ok_fill (n : nat) : min_ok NaN (line_fill n NaN).
Proof.
  right. split; [|now left]. intros x Hx. unfold line_fill in Hx.
  apply list_elem_of_In, elem_of_replicate in Hx as [Hx _]. discriminate.
Qed.

Lemma max_ok_fill (n : nat) : max_ok NaN (line_fill n NaN).
Proof.
  right. split; [|now left]. intros x Hx. unfold line_fill in Hx.
  apply list_elem_of_In, elem_of_replicate in Hx as [Hx _]. discriminate.
Qed.

(** After [resetData] a signal is well formed for any positive axis
    length, with NaN buffers, undefined extrema and an empty curve. *)
Lemma resetData_spec (points : nat) (s : t) :
  0 < points ->
  let s' := resetData points s in
  wf points s' /\ data s' = line_fill points NaN /\ _min s' = NaN /\ _max s' = NaN /\
  normalized s' = normalized s /\ logscaled s' = logscaled s /\ curve_size s' = 0.
Proof.
  intros Hp. unfold resetData.
  set (s1 := mk NaN NaN _ _ (normalized s) (logscaled s) (curve_size s)).
  destruct (preparePlot_fields s1) as (F1 & F2 & F3 & F4 & F5).
  assert (L := preparePlot_length s1). cbn in L.
  unfold wf. cbn. rewrite F1, F2, F3, F4, F5. cbn.
  unfold line_fill in *. rewrite L by reflexivity. rewrite length_replicate.
  repeat split; auto using min_ok_fill, max_ok_fill.
  apply Forall_replicate. reflexivity.
Qed.

(** ** Sequences of pushes *)

(** The shift invariant: after the readings [rs], pushed one per tick into
    a well-formed signal, the raw buffer holds the recorded values newest
    first, followed by the previous contents, cut to the axis length; the
    signal is still well formed, so its extrema are those of the window. *)
Theorem get_all_spec (points : nat) (rs : list (bool * double)) (s : t) :
  wf points s -> Forall (fun r => in_range r.2) rs ->
  exists s', get_all points rs s = Some s' /\
    data s' = take points (rev (map reading_value rs) ++ data s) /\ wf points s'.
Proof.
  revert s. induction rs as [|[c v] rs IH]; intros s Hwf Hrs.
  - exists s. pose proof Hwf as (Hp & Hd & _). cbn. rewrite take_ge by lia. auto.
  - inversion Hrs as [|? ? Hv Hrs']; subst.
    destruct (get_spec c v points s Hwf Hv) as (s1 & G & D & _ & _ & _ & W).
    destruct (IH s1 W Hrs') as (s2 & G2 & D2 & W2).
    exists s2. cbn. rewrite G. split; [exact G2|split; [|exact W2]].
    rewrite D2, D. destruct Hwf as (Hp & Hd & _). destruct points as [|p]; [lia|].
    rewrite removelast_firstn_len, Hd. cbn [Nat.pred map rev].
    rewrite <- app_assoc. cbn [app].
    change (_ :: take p (data s)) with (take (S p) (reading_value (c, v) :: data s)).
    apply take_app_take. lia.
Qed.

(** ** The running extrema against a full recompute *)

Lemma min_ok_least (m : double) (a : Line) (q : Q) : min_ok m a -> least a q -> m =~ Fin q.
Proof.
  intros [(q' & Hq' & Hm)|(Hn & _)] Hq; [|exfalso; eapply least_not_no_fin; eauto].
  rewrite Hm. cbn. symmetry. now apply least_unique with a.
Qed.

Lemma max_ok_greatest (m : double) (a : Line) (q : Q) :
  max_ok m a -> greatest a q -> m =~ Fin q.
Proof.
  rewrite max_ok_dual, greatest_least. intros H1 H2.
  apply deqv_dneg. exact (min_ok_least _ _ _ H1 H2).
Qed.

(** The incremental minimum agrees with the reference minimum [ref_min]
    (a full rescan that ignores NaN), except on a buffer without any defined
    sample, where it may be [huge] instead of NaN. *)
Theorem min_ok_ref_min (m : double) (a : Line) :
  min_ok m a -> m =~ ref_min a \/ (ref_min a = NaN /\ m = huge).
Proof.
  intros Hm. destruct (ref_min a) as [|r] eqn:E.
  - destruct Hm as [(q & Hq & _)|(_ & [-> | ->])]; [|now left|now right].
    exfalso. apply ref_min_nan in E. eapply least_not_no_fin; eauto.
  - left. apply min_ok_least with a; [exact Hm|]. now apply ref_min_least.
Qed.

(** ** A window without defined samples *)

(** When the evicted sample was the only defined one and the new reading
    is NaN, [blitz::min]/[blitz::max] run over a buffer of NaNs: the running
    extrema become [DBL_MAX] and [-DBL_MAX], not NaN. *)
Theorem get_blank_window (points : nat) (s : t) (x : Q) (pv : double) :
  wf points s -> no_fin (removelast (data s)) -> List.last (data s) NaN = Fin x ->
  exists s', get false pv points s = Some (s', NaN) /\ _min s' = huge /\ _max s' = neghuge.
Proof.
  intros Hwf Hn Hl.
  pose proof Hwf as (Hp & Hd & _ & _ & Hmin & Hmax).
  destruct points as [|p]; [lia|].
  destruct (length_shift_snoc (data s) p Hd) as [Hsplit _]. rewrite Hl in Hsplit.
  assert (Hx : least (data s) x).
  { split; [rewrite Hsplit; apply in_or_app; right; now left|].
    intros y Hy. rewrite Hsplit in Hy. apply in_app_or in Hy as [Hy|[Hy|[]]];
      [now destruct (Hn y)|injection Hy as ->; lra]. }
  assert (Hx' : greatest (data s) x).
  { destruct Hx as [H1 H2]. split; [exact H1|]. intros y Hy. rewrite Hsplit in Hy.
    apply in_app_or in Hy as [Hy|[Hy|[]]]; [now destruct (Hn y)|injection Hy as ->; lra]. }
  assert (Hn' : no_fin (NaN :: removelast (data s))) by exact (proj2 (no_fin_cons_nan _) Hn).
  unfold get. rewrite shift_full by exact Hd. rewrite Hl.
  set (d := NaN :: removelast (data s)).
  assert (Hm1 : track_min (Fin x) NaN (_min s) d = huge).
  { pose proof (min_ok_least _ _ _ Hmin Hx) as E.
    unfold track_min, rescan_min, update_min.
    destruct (_min s) as [|m]; [contradiction|]. cbn in E.
    replace (dle (Fin x) (Fin m)) with true by (cbn; qcmp; auto; lra).
    cbn [isnan negb andb]. now apply blitz_min_no_fin. }
  assert (Hm2 : track_max (Fin x) NaN (_max s) d = neghuge).
  { pose proof (max_ok_greatest _ _ _ Hmax Hx') as E.
    unfold track_max, rescan_max, update_max.
    destruct (_max s) as [|m]; [contradiction|]. cbn in E.
    replace (dle (Fin m) (Fin x)) with true by (cbn; qcmp; auto; lra).
    cbn [isnan negb andb]. now apply blitz_max_no_fin. }
  rewrite Hm1, Hm2. destruct (normalized s); [destruct (_ || _)|].
  - eexists. split; [reflexivity|]. now destruct (preparePlot_fields (mk huge neghuge d (normal_data s) true (logscaled s) (curve_size s))) as (-> & -> & _).
  - pose proof Hwf as (_ & _ & Hnd & _). rewrite shift_full by exact Hnd.
    eexists. split; [reflexivity|]. auto.
  - eexists. split; [reflexivity|]. auto.
Qed.

(** ** The normalised buffer *)

#[export] Instance norma_proper : Proper (deqv ==> deqv ==> deqv) norma.
Proof. intros a a' Ha b b' Hb. unfold norma. now rewrite Ha, Hb. Qed.

#[export] Instance norm_value_proper :
  Proper (eq ==> deqv ==> deqv ==> deqv ==> deqv) norm_value.
Proof.
  intros l l' <- mn mn' Hn mx mx' Hx v v' Hv. unfold norm_value.
  assert (E1 : deq (norma mn mx) (Fin 0) = deq (norma mn' mx') (Fin 0)) by now rewrite Hn, Hx.
  assert (E2 : deq mx mn = deq mx' mn') by now rewrite Hn, Hx.
  assert (E3 : deq mx (Fin 0) = deq mx' (Fin 0)) by now rewrite Hx.
  rewrite E1, E2, E3. destruct l.
  - destruct (deq (norma mn' mx') (Fin 0)); [exact Hv|]. now rewrite Hv, Hn, Hx.
  - destruct (deq mx' mn'); [reflexivity|]. now rewrite Hv, Hn, Hx.
Qed.

Lemma norm_consistent_mk (s : t) (n : bool) (c : nat) :
  norm_consistent s ->
  norm_consistent (mk (_min s) (_max s) (data s) (normal_data s) n (logscaled s) c).
Proof. exact id. Qed.

(** In linear mode [preparePlot] makes the normalised buffer consistent. *)
Lemma preparePlot_consistent (s : t) :
  logscaled s = false -> length (normal_data s) = length (data s) ->
  norm_consistent (preparePlot s).
Proof.
  intros L Hlen. unfold norm_consistent, preparePlot.
  destruct (preparePlot_fields s) as (_ & _ & _ & _ & _).
  rewrite L. unfold norm_value. destruct (deq (_max s) (_min s)) eqn:E; cbn; rewrite L, E.
  - unfold line_assign. revert Hlen. generalize (data s). induction (normal_data s) as [|x nd IH];
      intros [|y d] Hlen; cbn in *; try discriminate; [constructor|].
    constructor; [reflexivity|]. apply IH. lia.
  - apply Forall2_deqv_map. reflexivity.
Qed.

(** C16: In linear mode every push keeps the normalised buffer consistent: the
    incremental update of [Signal::get] (shift and normalise the head, or
    recompute when an extremum changed) equals the full recompute. *)
Theorem get_norm_consistent (connected : bool) (pv : double) (points : nat) (s : t) :
  wf points s -> in_range pv -> normalized s = true -> logscaled s = false ->
  norm_consistent s ->
  exists s' v, get connected pv points s = Some (s', v) /\ norm_consistent s'.
Proof.
  intros Hwf Hv Nrm L Hc.
  pose proof Hwf as (Hp & Hd & Hnd & _).
  destruct points as [|p]; [lia|].
  unfold get. rewrite shift_full by exact Hd.
  set (value := if connected then pv else NaN).
  set (d := value :: removelast (data s)).
  set (mn := track_min _ value (_min s) d). set (mx := track_max _ value (_max s) d).
  destruct (normalized s) eqn:N; [destruct (dne mn (_min s) || dne mx (_max s)) eqn:C|].
  - do 2 eexists. split; [reflexivity|].
    apply norm_consistent_mk, preparePlot_consistent; [exact L|].
    cbn. rewrite length_removelast. lia.
  - rewrite shift_full by exact Hnd. do 2 eexists. split; [reflexivity|].
    apply orb_false_iff in C as [C1 C2]. unfold dne in C1, C2.
    apply negb_false_iff in C1, C2.
    assert (E1 : mn =~ _min s) by (destruct mn, (_min s); cbn in *; try discriminate; qcmp; auto; discriminate).
    assert (E2 : mx =~ _max s) by (destruct mx, (_max s); cbn in *; try discriminate; qcmp; auto; discriminate).
    unfold norm_consistent in *. cbn. constructor; [reflexivity|].
    rewrite map_removelast. eapply Forall2_deqv_trans; [apply Forall2_removelast, Hc|].
    apply Forall2_removelast, Forall2_deqv_map. intros x. now rewrite E1, E2.
  - congruence.
Qed.

(** ** What the normalised buffer holds *)

Lemma norm_consistent_lookup (s : t) (i : nat) (v : double) :
  norm_consistent s -> data s !! i = Some v ->
  exists z, normal_data s !! i = Some z /\ z =~ norm_value (logscaled s) (_min s) (_max s) v.
Proof.
  intros Hc Hi. unfold norm_consistent in Hc.
  destruct (Forall2_lookup_r _ _ _ i (norm_value (logscaled s) (_min s) (_max s) v) Hc)
    as (z & Hz & Hzv); [|eauto].
  change (map ?f ?l) with (f <$> l). now rewrite list_lookup_fmap, Hi.
Qed.

(** Linear normalisation inverts: for a non-degenerate range [m < M]
    (the extrema differ), every defined raw sample [x] is recovered from
    its normalised value [y] as [y * (M - m) + m]. *)
Theorem normalized_roundtrip (s : t) (m M : Q) (i : nat) (x : Q) :
  norm_consistent s -> logscaled s = false -> _min s = Fin m -> _max s = Fin M ->
  ~ (M == m) -> data s !! i = Some (Fin x) ->
  exists y, normal_data s !! i = Some (Fin y) /\ y * (M - m) + m == x.
Proof.
  intros Hc L Hm HM Hne Hi.
  destruct (norm_consistent_lookup s i _ Hc Hi) as (z & Hz & E).
  rewrite L, Hm, HM in E. unfold norm_value in E. cbn in E.
  qcmp; try tauto; [exfalso; apply Hne; lra|].
  destruct z as [|y]; [contradiction|]. exists y. split; [exact Hz|].
  cbn in E. rewrite E. field. intros H. apply Hne. lra.
Qed.

(** A constant window (equal extrema) is drawn flat: every normalised
    element is 0 when the constant is 0 and 1 otherwise. *)
Theorem normalized_degenerate (s : t) (i : nat) (z : double) :
  norm_consistent s -> logscaled s = false -> deq (_max s) (_min s) = true ->
  i < length (data s) -> normal_data s !! i = Some z ->
  z =~ (if deq (_max s) (Fin 0) then Fin 0 else Fin 1).
Proof.
  intros Hc L E Hi Hz.
  destruct (lookup_lt_is_Some_2 (data s) i Hi) as [v Hv].
  destruct (norm_consistent_lookup s i v Hc Hv) as (z' & Hz' & E').
  rewrite Hz in Hz'. injection Hz' as <-. rewrite E'. unfold norm_value. now rewrite L, E.
Qed.

(** ** A scan from a reset signal *)

(** C14: The window of a scan: the recorded values newest first, the NaNs of
    the reset behind them, cut to the axis length.  The running extrema
    are the least and greatest defined samples of that window. *)
Theorem scan_spec (points : nat) (s : t) (rs : list (bool * double)) :
  0 < points -> Forall (fun r => in_range r.2) rs ->
  exists s', get_all points rs (resetData points s) = Some s' /\
    data s' = take points (rev (map reading_value rs) ++ line_fill points NaN) /\
    wf points s' /\
    (forall q, least (data s') q -> _min s' =~ Fin q) /\
    (forall q, greatest (data s') q -> _max s' =~ Fin q).
Proof.
  intros Hp Hrs. destruct (resetData_spec points s Hp) as (W & D & _).
  destruct (get_all_spec points rs _ W Hrs) as (s' & G & D' & W').
  exists s'. rewrite D in D'. split; [exact G|]. split; [exact D'|]. split; [exact W'|]. split.
  - intros q Hq. apply min_ok_least with (data s'); [apply W'|exact Hq].
  - intros q Hq. apply max_ok_greatest with (data s'); [apply W'|exact Hq].
Qed.

(** C15: The incremental extrema of [Signal::get] agree with a full recompute
    over the new buffer ([ref_min], [ref_max] ignore NaN), except after the
    last defined sample left the window, where [blitz::min]/[blitz::max]
    leave [DBL_MAX]/[-DBL_MAX]. *)
Theorem get_extrema_recompute (connected : bool) (pv : double) (points : nat) (s s' : t) (v : double) :
  wf points s -> in_range pv -> get connected pv points s = Some (s', v) ->
  (_min s' =~ ref_min (data s') \/ (ref_min (data s') = NaN /\ _min s' = huge)) /\
  (_max s' =~ dneg (ref_min (map dneg (data s'))) \/
     (ref_min (map dneg (data s')) = NaN /\ _max s' = neghuge)).
Proof.
  intros W Hv G. destruct (get_spec connected pv points s W Hv) as (s1 & G1 & _ & _ & _ & _ & W1).
  rewrite G in G1. injection G1 as <- _. destruct W1 as (_ & _ & _ & _ & Hmin & Hmax).
  split; [now apply min_ok_ref_min|].
  apply max_ok_dual, min_ok_ref_min in Hmax as [H|[H1 H2]]; [left|right].
  - rewrite <- H. now rewrite dneg_involutive.
  - split; [exact H1|]. rewrite <- (dneg_involutive (_max s')), H2. reflexivity.
Qed.

(** [Signal::get] on a buffer shorter than the axis reads
    [data(points-1)] out of range; the model reports the error. *)
Theorem get_out_of_range (connected : bool) (pv : double) (points : nat) (s : t) :
  length (data s) < points -> get connected pv points s = None.
Proof.
  intros H. unfold get, shift. destruct points as [|p]; [reflexivity|].
  rewrite lookup_ge_None_2 by lia. reflexivity.
Qed.

(** With the log scale and normalisation on, the first sample pushed into
    a reset signal is lost from the normalised buffer when it is 0: the
    extrema change from NaN to 0, [preparePlot] finds [norma == 0] and
    leaves [normal_data] as it was, all NaN. *)
Theorem log_zero_first_point (p : nat) (s : t) :
  normalized s = true -> logscaled s = true ->
  exists s', get true (Fin 0) (S p) (resetData (S p) s) = Some (s', Fin 0) /\
    data s' !! 0 = Some (Fin 0) /\ normal_data s' !! 0 = Some NaN.
Proof.
  intros N L. destruct s as [mn mx d nd nrm lg c]. cbn in N, L. subst nrm lg.
  unfold resetData, preparePlot. cbn. unfold get. cbn [data].
  rewrite shift_full by (cbn; now rewrite length_replicate).
  replace (List.last (NaN :: replicate p NaN) NaN) with NaN
    by (induction p as [|p IH]; [reflexivity|exact IH]).
  cbn. eexists. split; [reflexivity|]. split; reflexivity.
Qed.

Lemma min_okb_sound (m : double) (a : Line) : min_okb m a = true -> min_ok m a.
Proof.
  unfold min_okb. destruct (ref_min a) as [|r] eqn:E.
  - apply ref_min_nan in E. intros H. right. split; [exact E|].
    apply orb_true_iff in H as [H|H]; apply bool_decide_eq_true in H; auto.
  - intros H. left. exists r. split; [now apply ref_min_least|]. now apply deqvb_sound.
Qed.

Lemma max_okb_sound (m : double) (a : Line) : max_okb m a = true -> max_ok m a.
Proof. intros H. apply max_ok_dual. now apply min_okb_sound. Qed.

Lemma wfb_sound (points : nat) (s : t) : wfb points s = true -> wf points s.
Proof.
  unfold wfb. intros H. repeat rewrite andb_true_iff in H.
  destruct H as (((((H1 & H2) & H3) & H4) & H5) & H6).
  apply Nat.ltb_lt in H1. apply Nat.eqb_eq in H2, H3.
  repeat split; auto using min_okb_sound, max_okb_sound.
  apply List.Forall_forall. intros x Hx. rewrite forallb_forall in H4. now apply H4.
Qed.

Lemma norm_consistentb_sound (s : t) : norm_consistentb s = true -> norm_consistent s.
Proof. apply forall2b_Forall2, deqvb_sound. Qed.

(** ** Witnesses *)

Lemma scan_spec_witness :
  0 < 5 /\
  Forall (fun r : bool * double => in_range r.2)
    [(true, Fin 1); (true, Fin 2); (false, Fin 9); (true, Fin 4); (true, Fin 5)] /\
  exists s', get_all 5 [(true, Fin 1); (true, Fin 2); (false, Fin 9); (true, Fin 4); (true, Fin 5)]
               (resetData 5 create) = Some s' /\
    data s' = take 5 (rev (map reading_value
                 [(true, Fin 1); (true, Fin 2); (false, Fin 9); (true, Fin 4); (true, Fin 5)])
               ++ line_fill 5 NaN) /\
    wf 5 s' /\
    (forall q, least (data s') q -> _min s' =~ Fin q) /\
    (forall q, greatest (data s') q -> _max s' =~ Fin q).
Proof.
  assert (H1 : 0 < 5) by lia.
  assert (H2 : Forall (fun r : bool * double => in_range r.2)
    [(true, Fin 1); (true, Fin 2); (false, Fin 9); (true, Fin 4); (true, Fin 5)]) by (repeat constructor).
  split; [exact H1|]. split; [exact H2|]. exact (scan_spec 5 create _ H1 H2).
Defined.

Lemma get_extrema_recompute_witness :
  wf 3 (mk (Fin 1) (Fin 3) [Fin 3; NaN; Fin 1] [NaN; NaN; NaN] false false 1) /\
  in_range (Fin 2) /\
  exists s', get true (Fin 2) 3 (mk (Fin 1) (Fin 3) [Fin 3; NaN; Fin 1] [NaN; NaN; NaN] false false 1)
               = Some (s', Fin 2) /\
   ((_min s' =~ ref_min (data s') \/ (ref_min (data s') = NaN /\ _min s' = huge)) /\
    (_max s' =~ dneg (ref_min (map dneg (data s'))) \/
       (ref_min (map dneg (data s')) = NaN /\ _max s' = neghuge))).
Proof.
  assert (W : wf 3 (mk (Fin 1) (Fin 3) [Fin 3; NaN; Fin 1] [NaN; NaN; NaN] false false 1))
    by (apply wfb_sound; vm_compute; reflexivity).
  split; [exact W|]. split; [reflexivity|].
  eexists. split; [vm_compute; reflexivity|].
  exact (get_extrema_recompute true (Fin 2) 3 _ _ (Fin 2) W eq_refl (eq_refl _)).
Defined.

Lemma get_blank_window_witness :
  wf 2 (mk (Fin 3) (Fin 3) [NaN; Fin 3] [NaN; NaN] false false 1) /\
  no_fin (removelast [NaN; Fin 3]) /\ List.last [NaN; Fin 3] NaN = Fin 3 /\
  exists s', get false (Fin 8) 2 (mk (Fin 3) (Fin 3) [NaN; Fin 3] [NaN; NaN] false false 1)
               = Some (s', NaN) /\ _min s' = huge /\ _max s' = neghuge.
Proof.
  assert (W : wf 2 (mk (Fin 3) (Fin 3) [NaN; Fin 3] [NaN; NaN] false false 1))
    by (apply wfb_sound; vm_compute; reflexivity).
  assert (N : no_fin (removelast [NaN; Fin 3])) by (apply ref_min_nan; reflexivity).
  split; [exact W|]. split; [exact N|]. split; [reflexivity|].
  exact (get_blank_window 2 _ 3 (Fin 8) W N eq_refl).
Defined.

Lemma get_norm_consistent_witness :
  wf 3 (mk (Fin 2) (Fin 6) [Fin 6; Fin 2; NaN] [Fin 1; Fin 0; NaN] true false 2) /\
  in_range (Fin 4) /\
  norm_consistent (mk (Fin 2) (Fin 6) [Fin 6; Fin 2; NaN] [Fin 1; Fin 0; NaN] true false 2) /\
  exists s' v, get true (Fin 4) 3 (mk (Fin 2) (Fin 6) [Fin 6; Fin 2; NaN] [Fin 1; Fin 0; NaN] true false 2)
                 = Some (s', v) /\ norm_consistent s'.
Proof.
  assert (W : wf 3 (mk (Fin 2) (Fin 6) [Fin 6; Fin 2; NaN] [Fin 1; Fin 0; NaN] true false 2))
    by (apply wfb_sound; vm_compute; reflexivity).
  assert (C : norm_consistent (mk (Fin 2) (Fin 6) [Fin 6; Fin 2; NaN] [Fin 1; Fin 0; NaN] true false 2))
    by (apply norm_consistentb_sound; vm_compute; reflexivity).
  split; [exact W|]. split; [reflexivity|]. split; [exact C|].
  exact (get_norm_consistent true (Fin 4) 3 _ W eq_refl eq_refl eq_refl C).
Defined.

Lemma normalized_roundtrip_witness :
  norm_consistent (mk (Fin 2) (Fin 6) [Fin 6; Fin 3; NaN] [Fin 1; Fin (1 # 4); NaN] true false 2) /\
  ~ (6 == 2)%Q /\
  exists y, normal_data (mk (Fin 2) (Fin 6) [Fin 6; Fin 3; NaN] [Fin 1; Fin (1 # 4); NaN] true false 2) !! 1
              = Some (Fin y) /\ (y * (6 - 2) + 2 == 3)%Q.
Proof.
  assert (C : norm_consistent (mk (Fin 2) (Fin 6) [Fin 6; Fin 3; NaN] [Fin 1; Fin (1 # 4); NaN] true false 2))
    by (apply norm_consistentb_sound; vm_compute; reflexivity).
  assert (D : ~ (6 == 2)%Q) by (intros H; vm_compute in H; discriminate).
  split; [exact C|]. split; [exact D|].
  exact (normalized_roundtrip _ 2 6 1 3 C eq_refl eq_refl eq_refl D eq_refl).
Defined.

Lemma normalized_degenerate_witness :
  norm_consistent (mk (Fin 5) (Fin 5) [Fin 5; Fin 5; NaN] [Fin 1; Fin 1; Fin 1] true false 2) /\
  deq (Fin 5) (Fin 5) = true /\ 2 < 3 /\
  Fin 1 =~ (if deq (Fin 5) (Fin 0) then Fin 0 else Fin 1).
Proof.
  assert (C : norm_consistent (mk (Fin 5) (Fin 5) [Fin 5; Fin 5; NaN] [Fin 1; Fin 1; Fin 1] true false 2))
    by (apply norm_consistentb_sound; vm_compute; reflexivity).
  assert (L : 2 < length [Fin 5; Fin 5; NaN]) by (cbn; lia).
  split; [exact C|]. split; [reflexivity|]. split; [lia|].
  exact (normalized_degenerate _ 2 (Fin 1) C eq_refl eq_refl L eq_refl).
Defined.

Lemma log_zero_first_point_witness :
  exists s', get true (Fin 0) 3 (resetData 3 (mk NaN NaN [] [] true true 0)) = Some (s', Fin 0) /\
    data s' !! 0 = Some (Fin 0) /\ normal_data s' !! 0 = Some NaN.
Proof. exact (log_zero_first_point 2 (mk NaN NaN [] [] true true 0) eq_refl eq_refl). Defined.

Lemma get_out_of_range_witness :
  length (data (mk NaN NaN [NaN] [NaN] false false 0)) < 3 /\
  get true (Fin 1) 3 (mk NaN NaN [NaN] [NaN] false false 0) = None.
Proof.
  assert (H : length (data (mk NaN NaN [NaN] [NaN] false false 0)) < 3) by (cbn; lia).
  split; [exact H|]. exact (get_out_of_range true (Fin 1) 3 _ H).
Defined.

End Signal.
