(* ===== verification/RangePolicy.v ===== *)
(** * RangePolicy: [QChartMX::setRanges], the vertical axis bounds

    [src/lib/timescan.cpp], [QChartMX::setRanges].  From the aggregate
    extrema of all signals and the range widgets (log scale, normalisation,
    automatic or manual minimum and maximum) it computes the bounds of the
    left axis.  In automatic mode it writes the computed bound back into
    the [min]/[max] spin boxes; it sets the axis scale only when a bound
    differs from the current one. *)

From Stdlib Require Import QArith Lqa Bool.
From stdpp Require Import base.
From S2P Require Import Prelude Double.

Module Ranges.

(** The widgets [setRanges] reads and writes: [ui->logY], [ui->norma],
    [ui->autoMin], [ui->min], [ui->autoMax], [ui->max] and the scale of the
    plot's [yLeft] axis. *)
Record t := mk {
  logY : bool;
  norma : bool;
  autoMin : bool;
  min : double;
  autoMax : bool;
  max : double;
  lower : double;
  upper : double
}.

(** The constants of the code: [1.0e-10], [0.1], [0.9], [1.1]. *)
Definition tiny : Q := 1 # (10 ^ 10).

(** Steps 1 to 3 of the computation: the log and normalisation cases. *)
Definition scale_bounds (isLog isNorm : bool) (m M : double) : double * double :=
  if isLog then
    if dle M (Fin 0) || isNorm then
      ((if dle m (Fin 0) || dle M (Fin 0) then Fin tiny else ddiv m M), Fin 1)
    else (m, M)
  else if isNorm then (Fin 0, Fin 1)
  else (m, M).

(** Step 4: a zero-height range is widened. *)
Definition inflate (b : double * double) : double * double :=
  let (m, M) := b in
  if deq m M then
    ((if deq m (Fin 0) then Fin (- (1 # 10)) else dmul m (Fin (9 # 10))),
     (if deq M (Fin 0) then Fin (1 # 10) else dmul M (Fin (11 # 10))))
  else (m, M).

(** The bounds [setRanges] computes from [dataMin()] and [dataMax()]. *)
Definition bounds (r : t) (dmin dmax : double) : double * double :=
  let (m, M) := inflate (scale_bounds (logY r) (norma r) dmin dmax) in
  ((if autoMin r then m else min r), (if autoMax r then M else max r)).

(** [QChartMX::setRanges]: the bounds, written back to the automatic spin
    boxes, and set on the axis when they differ from its scale. *)
Definition setRanges (r : t) (dmin dmax : double) : t :=
  let (m, M) := bounds r dmin dmax in
  let min' := if autoMin r then m else min r in
  let max' := if autoMax r then M else max r in
  let (lo, hi) := if dne m (lower r) || dne M (upper r) then (m, M) else (lower r, upper r) in
  mk (logY r) (norma r) (autoMin r) min' (autoMax r) max' lo hi.

(** ** Manual bounds *)

(** A manual minimum is the lower bound whatever the data. *)
Theorem bounds_manual_min (r : t) (dmin dmax : double) :
  autoMin r = false -> (bounds r dmin dmax).1 = min r.
Proof. intros H. unfold bounds. destruct (inflate _). now rewrite H. Qed.

(** A manual maximum is the upper bound whatever the data. *)
Theorem bounds_manual_max (r : t) (dmin dmax : double) :
  autoMax r = false -> (bounds r dmin dmax).2 = max r.
Proof. intros H. unfold bounds. destruct (inflate _). now rewrite H. Qed.

(** ** [setRanges] is idempotent *)

Lemma bounds_ext (r r' : t) (dmin dmax : double) :
  logY r' = logY r -> norma r' = norma r -> autoMin r' = autoMin r -> autoMax r' = autoMax r ->
  (autoMin r = false -> min r' = min r) -> (autoMax r = false -> max r' = max r) ->
  bounds r' dmin dmax = bounds r dmin dmax.
Proof.
  intros E1 E2 E3 E4 E5 E6. unfold bounds. rewrite E1, E2, E3, E4.
  destruct (inflate _). destruct (autoMin r), (autoMax r); rewrite ?E5, ?E6; auto.
Qed.

Lemma bounds_setRanges (r : t) (dmin dmax : double) :
  bounds (setRanges r dmin dmax) dmin dmax = bounds r dmin dmax.
Proof.
  apply bounds_ext; unfold setRanges; destruct (bounds r dmin dmax) as [m M] eqn:B;
    destruct (_ || _); cbn; auto; intros H; rewrite H; auto.
Qed.

(** Calling [setRanges] again on the same data changes nothing: the spin
    boxes it wrote back in automatic mode do not feed back into the bounds,
    and the axis already has them. *)
Theorem setRanges_idempotent (r : t) (dmin dmax : double) :
  setRanges (setRanges r dmin dmax) dmin dmax = setRanges r dmin dmax.
Proof.
  assert (B := bounds_setRanges r dmin dmax).
  unfold setRanges at 1. rewrite B. unfold setRanges.
  destruct (bounds r dmin dmax) as [m M] eqn:E.
  destruct (dne m (lower r) || dne M (upper r)) eqn:C; cbn;
    [destruct (dne m m || dne M M)|rewrite C]; cbn;
    destruct (autoMin r), (autoMax r); reflexivity.
Qed.

(** ** Automatic bounds on a linear axis *)

(** Distinct extrema are the bounds, in order. *)
Theorem bounds_linear (r : t) (m M : Q) :
  logY r = false -> norma r = false -> autoMin r = true -> autoMax r = true ->
  (m < M)%Q -> bounds r (Fin m) (Fin M) = (Fin m, Fin M).
Proof.
  intros L N A1 A2 H. unfold bounds, scale_bounds. rewrite L, N, A1, A2. cbn.
  qcmp; try lra; reflexivity.
Qed.

(** A constant window is widened to a range of positive height when the
    constant is zero or positive. *)
Theorem bounds_constant_nonneg (r : t) (q : Q) :
  logY r = false -> norma r = false -> autoMin r = true -> autoMax r = true ->
  (0 <= q)%Q ->
  exists lo hi, bounds r (Fin q) (Fin q) = (Fin lo, Fin hi) /\ (lo < hi)%Q.
Proof.
  intros L N A1 A2 H. unfold bounds, scale_bounds. rewrite L, N. cbn.
  rewrite A1, A2. qcmp; try lra; do 2 eexists; split; try reflexivity; lra.
Qed.

(** C40: A constant negative window gets inverted bounds: [m*0.9] is above
    [M*1.1] when [m = M < 0]. *)
Theorem bounds_constant_negative (r : t) (q : Q) :
  logY r = false -> norma r = false -> autoMin r = true -> autoMax r = true ->
  (q < 0)%Q ->
  bounds r (Fin q) (Fin q) = (Fin (q * (9 # 10)), Fin (q * (11 # 10))) /\
  (q * (11 # 10) < q * (9 # 10))%Q.
Proof.
  intros L N A1 A2 H. unfold bounds, scale_bounds. rewrite L, N. cbn.
  rewrite A1, A2. qcmp; try lra. split; [reflexivity|lra].
Qed.

(** Without any data the aggregate extrema are NaN, [m == M] is false, and
    the bounds stay NaN. *)
Theorem bounds_no_data (r : t) :
  logY r = false -> norma r = false -> autoMin r = true -> autoMax r = true ->
  bounds r NaN NaN = (NaN, NaN).
Proof. intros L N A1 A2. unfold bounds, scale_bounds. rewrite L, N. cbn. now rewrite A1, A2. Qed.

(** ** Automatic bounds on a log axis *)

(** On a log axis without normalisation the data bounds are kept as long
    as the maximum is positive, even when the minimum is zero or negative. *)
Theorem bounds_log_nonpositive_min (r : t) (m M : Q) :
  logY r = true -> norma r = false -> autoMin r = true -> autoMax r = true ->
  (m <= 0)%Q -> (0 < M)%Q -> bounds r (Fin m) (Fin M) = (Fin m, Fin M).
Proof.
  intros L N A1 A2 H1 H2. unfold bounds, scale_bounds. rewrite L, N. cbn.
  qcmp; try lra. cbn. qcmp; try lra. cbn. rewrite A1, A2. reflexivity.
Qed.

(** Normalised log display of positive data: the range is
    [(min/max, 1)], bounded by 1 and strictly positive. *)
Theorem bounds_log_normalized (r : t) (m M : Q) :
  logY r = true -> norma r = true -> autoMin r = true -> autoMax r = true ->
  (0 < m)%Q -> (m < M)%Q ->
  bounds r (Fin m) (Fin M) = (Fin (m / M), Fin 1) /\ (0 < m / M < 1)%Q.
Proof.
  intros L N A1 A2 H1 H2. unfold bounds, scale_bounds. rewrite L, N. cbn.
  assert (HM : (0 < M)%Q) by lra.
  assert (Hq : (0 < m / M < 1)%Q).
  { split; [apply Qlt_shift_div_l; lra|apply Qlt_shift_div_r; lra]. }
  qcmp; try lra. cbn. set (x := (m / M)%Q) in *. qcmp; try lra.
  cbn. rewrite A1, A2. split; [reflexivity|exact Hq].
Qed.

(** ** Witnesses *)

Lemma bounds_manual_min_witness :
  autoMin (mk false false false (Fin 5) true NaN NaN NaN) = false /\
  (bounds (mk false false false (Fin 5) true NaN NaN NaN) (Fin (-3)) (Fin 7)).1 = Fin 5.
Proof. split; [reflexivity|]. exact (bounds_manual_min (mk false false false (Fin 5) true NaN NaN NaN) (Fin (-3)) (Fin 7) eq_refl). Defined.

Lemma bounds_manual_max_witness :
  autoMax (mk false false true NaN false (Fin 9) NaN NaN) = false /\
  (bounds (mk false false true NaN false (Fin 9) NaN NaN) (Fin (-3)) (Fin 7)).2 = Fin 9.
Proof. split; [reflexivity|]. exact (bounds_manual_max (mk false false true NaN false (Fin 9) NaN NaN) (Fin (-3)) (Fin 7) eq_refl). Defined.

Lemma bounds_linear_witness :
  (1 < 4)%Q /\ bounds (mk false false true NaN true NaN NaN NaN) (Fin 1) (Fin 4) = (Fin 1, Fin 4).
Proof.
  assert (H : (1 < 4)%Q) by lra.
  split; [exact H|]. exact (bounds_linear (mk false false true NaN true NaN NaN NaN) 1 4 eq_refl eq_refl eq_refl eq_refl H).
Defined.

Lemma bounds_constant_nonneg_witness :
  (0 <= 2)%Q /\ exists lo hi, bounds (mk false false true NaN true NaN NaN NaN) (Fin 2) (Fin 2)
                               = (Fin lo, Fin hi) /\ (lo < hi)%Q.
Proof.
  assert (H : (0 <= 2)%Q) by lra.
  split; [exact H|]. exact (bounds_constant_nonneg (mk false false true NaN true NaN NaN NaN) 2 eq_refl eq_refl eq_refl eq_refl H).
Defined.

Lemma bounds_constant_negative_witness :
  (-5 < 0)%Q /\
  bounds (mk false false true NaN true NaN NaN NaN) (Fin (-5)) (Fin (-5))
    = (Fin (-5 * (9 # 10)), Fin (-5 * (11 # 10))) /\
  (-5 * (11 # 10) < -5 * (9 # 10))%Q.
Proof.
  assert (H : (-5 < 0)%Q) by lra.
  split; [exact H|]. exact (bounds_constant_negative (mk false false true NaN true NaN NaN NaN) (-5) eq_refl eq_refl eq_refl eq_refl H).
Defined.

Lemma bounds_no_data_witness :
  logY (mk false false true NaN true NaN NaN NaN) = false /\
  bounds (mk false false true NaN true NaN NaN NaN) NaN NaN = (NaN, NaN).
Proof. split; [reflexivity|]. exact (bounds_no_data (mk false false true NaN true NaN NaN NaN) eq_refl eq_refl eq_refl eq_refl). Defined.

Lemma bounds_log_nonpositive_min_witness :
  (-1 <= 0)%Q /\ (0 < 5)%Q /\
  bounds (mk true false true NaN true NaN NaN NaN) (Fin (-1)) (Fin 5) = (Fin (-1), Fin 5).
Proof.
  assert (H1 : (-1 <= 0)%Q) by lra. assert (H2 : (0 < 5)%Q) by lra.
  split; [exact H1|]. split; [exact H2|].
  exact (bounds_log_nonpositive_min (mk true false true NaN true NaN NaN NaN) (-1) 5 eq_refl eq_refl eq_refl eq_refl H1 H2).
Defined.

Lemma bounds_log_normalized_witness :
  (0 < 2)%Q /\ (2 < 5)%Q /\
  bounds (mk true true true NaN true NaN NaN NaN) (Fin 2) (Fin 5) = (Fin (2 / 5), Fin 1) /\
  (0 < 2 / 5 < 1)%Q.
Proof.
  assert (H1 : (0 < 2)%Q) by lra. assert (H2 : (2 < 5)%Q) by lra.
  split; [exact H1|]. split; [exact H2|].
  exact (bounds_log_normalized (mk true true true NaN true NaN NaN NaN) 2 5 eq_refl eq_refl eq_refl eq_refl H1 H2).
Defined.

End Ranges.
