(* ===== verification/ChannelSet.v ===== *)
(** * ChannelSet: the signals of a [QChartMX] and their aggregate extrema

    [src/lib/timescan.cpp], [QChartMX::dataMin] and [QChartMX::dataMax]:
    they scan [signalsE] in order and keep a signal's minimum when the
    accumulator is NaN or the signal's minimum is smaller.  The class
    [ChannelSpec] states what the aggregation needs from a channel (its
    window, its running extrema and the invariant under which they are
    the window's extrema); [Signal] is its instance, and the theorems on
    the aggregate are proved against the class. *)

From Stdlib Require Import QArith Lqa Bool.
From stdpp Require Import base list.
From S2P Require Import Prelude Double Blitz Channel.

(** What a channel promises to the set. *)
Class ChannelSpec (C : Type) := {
  ch_inv : C -> Prop;
  ch_window : C -> Line;
  ch_min : C -> double;
  ch_max : C -> double;
  ch_min_ok : forall c, ch_inv c -> Signal.min_ok (ch_min c) (ch_window c);
  ch_max_ok : forall c, ch_inv c -> Signal.max_ok (ch_max c) (ch_window c)
}.

(** A [Signal] on an axis of [points] samples is a channel: its window is
    [data] and its extrema are [_min]/[_max], under [Signal.wf]. *)
#[export] Program Instance signal_channel (points : nat) : ChannelSpec Signal.t := {
  ch_inv := Signal.wf points;
  ch_window := Signal.data;
  ch_min := Signal._min;
  ch_max := Signal._max
}.
Next Obligation. intros points c (_ & _ & _ & _ & H & _). exact H. Qed.
Next Obligation. intros points c (_ & _ & _ & _ & _ & H). exact H. Qed.

Section Aggregate.
Context {C : Type} `{ChannelSpec C}.

(** [QChartMX::dataMin] and [QChartMX::dataMax]. *)
Definition dataMin (sigs : list C) : double :=
  fold_left (fun m sig => if isnan m || dlt (ch_min sig) m then ch_min sig else m) sigs NaN.
Definition dataMax (sigs : list C) : double :=
  fold_left (fun M sig => if isnan M || dlt M (ch_max sig) then ch_max sig else M) sigs NaN.

(** The accumulation step of [dataMin] on the values themselves. *)
Definition agg_step (m x : double) : double := if isnan m || dlt x m then x else m.

(** The NaN-ignoring minimum of two doubles. *)
Definition dmin2 (a b : double) : double :=
  match a, b with
  | NaN, _ => b
  | _, NaN => a
  | Fin x, Fin y => if Qle_bool x y then Fin x else Fin y
  end.

Lemma dataMin_agg (sigs : list C) : dataMin sigs = fold_left agg_step (map ch_min sigs) NaN.
Proof. unfold dataMin. rewrite <- fold_left_map_eq. reflexivity. Qed.

Lemma dataMax_dual (sigs : list C) :
  dataMax sigs = dneg (fold_left agg_step (map (fun c => dneg (ch_max c)) sigs) NaN).
Proof.
  unfold dataMax. rewrite <- fold_left_map_eq. change NaN with (dneg NaN) at 1. generalize NaN.
  induction sigs as [|c t IH]; intros acc; [reflexivity|]. cbn [fold_left].
  rewrite <- IH. f_equal. unfold agg_step. rewrite isnan_dneg, dlt_dneg.
  destruct (_ || _); now rewrite ?dneg_involutive.
Qed.

Lemma agg_step_dmin2 (m x : double) : agg_step m x =~ dmin2 m x.
Proof. unfold agg_step, dmin2. dcase; try reflexivity; lra. Qed.

Lemma ref_min_cons (x : double) (l : Line) : ref_min (x :: l) = dmin2 x (ref_min l).
Proof. destruct x; cbn; [now destruct (ref_min l)|]. now destruct (ref_min l). Qed.

#[export] Instance dmin2_proper : Proper (deqv ==> deqv ==> deqv) dmin2.
Proof. intros a a' Ha b b' Hb. unfold dmin2. dcase; try tauto; lra. Qed.

Lemma dmin2_assoc (a b c : double) : dmin2 (dmin2 a b) c =~ dmin2 a (dmin2 b c).
Proof. unfold dmin2. dcase; try reflexivity; lra. Qed.

Lemma fold_agg_step (l : Line) (acc : double) :
  fold_left agg_step l acc =~ dmin2 acc (ref_min l).
Proof.
  revert acc. induction l as [|x t IH]; intros acc; cbn [fold_left].
  - destruct acc; reflexivity.
  - rewrite IH, ref_min_cons, agg_step_dmin2. apply dmin2_assoc.
Qed.

(** [dataMin] is the reference minimum of the signals' running minima:
    the least defined one, NaN when none is defined. *)
Theorem dataMin_ref (sigs : list C) : dataMin sigs =~ ref_min (map ch_min sigs).
Proof. rewrite dataMin_agg, fold_agg_step. now destruct (ref_min _). Qed.

(** The aggregate of running minima bounds every defined sample of every
    window from below. *)
Lemma agg_lower_bound (l : list (double * Line)) (m : Q) :
  Forall (fun p => Signal.min_ok p.1 p.2) l ->
  fold_left agg_step (map fst l) NaN =~ Fin m ->
  forall p x, In p l -> In (Fin x) p.2 -> (m <= x)%Q.
Proof.
  intros Hok Hm p x Hp Hx. rewrite fold_agg_step in Hm. cbn in Hm.
  destruct (ref_min (map fst l)) as [|r] eqn:E; [contradiction|]. cbn in Hm.
  apply ref_min_least in E as [_ Hr].
  rewrite List.Forall_forall in Hok.
  destruct (Hok p Hp) as [(q & [_ Hq] & Hpq)|(Hn & _)]; [|now destruct (Hn x)].
  destruct p as [[|q'] w]; cbn in *; [contradiction|].
  assert (Hin : In (Fin q') (map fst l)) by (change (Fin q') with (fst (Fin q', w)); now apply in_map).
  specialize (Hr q' Hin). specialize (Hq x Hx). lra.
Qed.

(** Every defined sample of every channel lies at or above [dataMin]. *)
Theorem dataMin_lower_bound (sigs : list C) (m : Q) :
  Forall ch_inv sigs -> dataMin sigs =~ Fin m ->
  forall c x, In c sigs -> In (Fin x) (ch_window c) -> (m <= x)%Q.
Proof.
  intros Hinv Hm c x Hc Hx.
  apply (agg_lower_bound (map (fun c => (ch_min c, ch_window c)) sigs) m)
    with (p := (ch_min c, ch_window c)); auto.
  - apply Forall_map. eapply Forall_impl; [exact Hinv|]. intros c' H'. now apply ch_min_ok.
  - rewrite map_map. cbn. now rewrite <- dataMin_agg.
  - now apply in_map with (f := fun c => (ch_min c, ch_window c)).
Qed.

(** Every defined sample of every channel lies at or below [dataMax]. *)
Theorem dataMax_upper_bound (sigs : list C) (M : Q) :
  Forall ch_inv sigs -> dataMax sigs =~ Fin M ->
  forall c x, In c sigs -> In (Fin x) (ch_window c) -> (x <= M)%Q.
Proof.
  intros Hinv HM c x Hc Hx.
  assert (Hb := agg_lower_bound (map (fun c => (dneg (ch_max c), map dneg (ch_window c))) sigs) (- M)).
  enough (- M <= - x)%Q by lra.
  apply Hb with (p := (dneg (ch_max c), map dneg (ch_window c))).
  - apply Forall_map. eapply Forall_impl; [exact Hinv|]. intros c' H'. cbn.
    apply Signal.max_ok_dual. now apply ch_max_ok.
  - rewrite map_map. cbn. rewrite <- (deqv_dneg _ (- M)), Qopp_opp_eq, <- dataMax_dual.
    exact HM.
  - now apply in_map with (f := fun c => (dneg (ch_max c), map dneg (ch_window c))).
  - cbn. apply In_map_dneg. now rewrite Qopp_opp_eq.
Qed.

End Aggregate.

(** ** Witnesses *)

Lemma dataMin_lower_bound_witness :
  Forall (@ch_inv _ (signal_channel 2))
    [Signal.mk (Fin 1) (Fin 4) [Fin 4; Fin 1] [NaN; NaN] false false 2;
     Signal.mk (Fin 3) (Fin 3) [NaN; Fin 3] [NaN; NaN] false false 0] /\
  @dataMin _ (signal_channel 2)
    [Signal.mk (Fin 1) (Fin 4) [Fin 4; Fin 1] [NaN; NaN] false false 2;
     Signal.mk (Fin 3) (Fin 3) [NaN; Fin 3] [NaN; NaN] false false 0] =~ Fin 1 /\
  (1 <= 3)%Q.
Proof.
  assert (H : Forall (@ch_inv _ (signal_channel 2))
    [Signal.mk (Fin 1) (Fin 4) [Fin 4; Fin 1] [NaN; NaN] false false 2;
     Signal.mk (Fin 3) (Fin 3) [NaN; Fin 3] [NaN; NaN] false false 0])
    by (constructor; [|constructor; [|constructor]]; cbn; apply Signal.wfb_sound; vm_compute; reflexivity).
  assert (E : @dataMin _ (signal_channel 2)
    [Signal.mk (Fin 1) (Fin 4) [Fin 4; Fin 1] [NaN; NaN] false false 2;
     Signal.mk (Fin 3) (Fin 3) [NaN; Fin 3] [NaN; NaN] false false 0] =~ Fin 1)
    by (apply deqvb_sound; vm_compute; reflexivity).
  split; [exact H|]. split; [exact E|].
  exact (dataMin_lower_bound _ 1 H E (Signal.mk (Fin 3) (Fin 3) [NaN; Fin 3] [NaN; NaN] false false 0) 3
           (or_intror (or_introl eq_refl)) (or_intror (or_introl eq_refl))).
Defined.

Lemma dataMax_upper_bound_witness :
  Forall (@ch_inv _ (signal_channel 2))
    [Signal.mk (Fin 1) (Fin 4) [Fin 4; Fin 1] [NaN; NaN] false false 2;
     Signal.mk (Fin 3) (Fin 3) [NaN; Fin 3] [NaN; NaN] false false 0] /\
  @dataMax _ (signal_channel 2)
    [Signal.mk (Fin 1) (Fin 4) [Fin 4; Fin 1] [NaN; NaN] false false 2;
     Signal.mk (Fin 3) (Fin 3) [NaN; Fin 3] [NaN; NaN] false false 0] =~ Fin 4 /\
  (3 <= 4)%Q.
Proof.
  assert (H : Forall (@ch_inv _ (signal_channel 2))
    [Signal.mk (Fin 1) (Fin 4) [Fin 4; Fin 1] [NaN; NaN] false false 2;
     Signal.mk (Fin 3) (Fin 3) [NaN; Fin 3] [NaN; NaN] false false 0])
    by (constructor; [|constructor; [|constructor]]; cbn; apply Signal.wfb_sound; vm_compute; reflexivity).
  assert (E : @dataMax _ (signal_channel 2)
    [Signal.mk (Fin 1) (Fin 4) [Fin 4; Fin 1] [NaN; NaN] false false 2;
     Signal.mk (Fin 3) (Fin 3) [NaN; Fin 3] [NaN; NaN] false false 0] =~ Fin 4)
    by (apply deqvb_sound; vm_compute; reflexivity).
  split; [exact H|]. split; [exact E|].
  exact (dataMax_upper_bound _ 4 H E (Signal.mk (Fin 3) (Fin 3) [NaN; Fin 3] [NaN; NaN] false false 0) 3
           (or_intror (or_introl eq_refl)) (or_intror (or_introl eq_refl))).
Defined.
