(* ===== verification/TimeAxis.v ===== *)
(** * TimeAxis: the shared time axis and the interval/period settings

    [src/lib/timescan.cpp]: [QChartMX::preparePlot] computes the number of
    points [(int)(period()/interval())] and fills [timeData] with
    [points-1, ..., 1, 0]; [QChartMX::getData] adds 1 to every position on
    each tick.  [QChartMX::setInterval] and [QChartMX::setPeriod] keep
    [interval*2 <= period]: each may set the other spin box, whose
    [valueChanged] signal re-enters the other slot.  That mutual re-entry
    is modelled with fuel over the class [SpinPair], which the chart of
    [ScanDriver] instantiates. *)

From Stdlib Require Import QArith Qround Lqa ZArith.
From stdpp Require Import base list.
From S2P Require Import Prelude Double.

Module Axis.

(** [(int) q]: C++ truncation toward zero. *)
Definition trunc (q : Q) : Z := if Qle_bool 0 q then Qfloor q else - Qfloor (- q).

(** [int points = (int) (period() / interval());] *)
Definition points_of (period interval : Q) : Z := trunc (period / interval).

(** [for (int i = 0; i < points; i++) timeData(points - 1 - i) = i;]
    from iteration [i] on, [k] iterations left. *)
Fixpoint fill_loop (points : Z) (i : nat) (k : nat) (td : list Z) : list Z :=
  match k with
  | 0 => td
  | S k' => fill_loop points (S i) k' (<[Z.to_nat (points - 1 - Z.of_nat i) := Z.of_nat i]> td)
  end.

(** [timeData.resize(points)] followed by the loop.  Blitz's [resize] does
    not keep the contents; [junk] stands for whatever the array holds. *)
Definition build (points : Z) (junk : Z) : list Z :=
  fill_loop points 0 (Z.to_nat points) (replicate (Z.to_nat points) junk).

(** [timeData += 1;] in [getData]. *)
Definition advance (td : list Z) : list Z := map (fun x => (x + 1)%Z) td.

(** [ui->plot->setAxisScale(QwtPlot::xBottom, timeData(points-1), timeData(0))]. *)
Definition x_scale (td : list Z) : Z * Z :=
  (default 0%Z (td !! (length td - 1)), default 0%Z (td !! 0)).

(** The closed form the loop is meant to produce. *)
Definition axis_ref (n : nat) : list Z := map (fun j => (Z.of_nat n - 1 - Z.of_nat j)%Z) (seq 0 n).

End Axis.

(** ** The two spin boxes and the slots that keep [interval*2 <= period] *)

(** What [setInterval]/[setPeriod] need from the widget: the two spin box
    values, [setValue] on each (the signal [valueChanged] fires when the value
    changes), and the effects of the slots, [preparePlot] and
    [configurationChanged], which leave the two values alone. *)
Class SpinPair (S : Type) := {
  sp_interval : S -> Q;
  sp_period : S -> Q;
  sp_set_interval : Q -> S -> S;
  sp_set_period : Q -> S -> S;
  sp_prepare : S -> S;
  sp_emit : S -> S;
  sp_interval_set_interval v s : sp_interval (sp_set_interval v s) = v;
  sp_period_set_interval v s : sp_period (sp_set_interval v s) = sp_period s;
  sp_period_set_period v s : sp_period (sp_set_period v s) = v;
  sp_interval_set_period v s : sp_interval (sp_set_period v s) = sp_interval s;
  sp_interval_prepare s : sp_interval (sp_emit (sp_prepare s)) = sp_interval s;
  sp_period_prepare s : sp_period (sp_emit (sp_prepare s)) = sp_period s
}.

(** The two spin boxes alone, without the slots' other effects. *)
#[export] Program Instance spin_values : SpinPair (Q * Q) := {
  sp_interval := fst; sp_period := snd;
  sp_set_interval v s := (v, snd s); sp_set_period v s := (fst s, v);
  sp_prepare s := s; sp_emit s := s
}.
Solve Obligations with reflexivity.

Section Slots.
Context {S : Type} `{SpinPair S}.

(** The slots run with [sender()] equal to the spin box ([_slot]); a call
    from code ([_call]) sets the spin box, and the slot runs only when the
    value changed.  [None] is running out of fuel. *)
Fixpoint setInterval_slot (fuel : nat) (v : Q) (s : S) : option S :=
  match fuel with
  | 0 => None
  | Datatypes.S f =>
      let s1 := if Qltb (sp_period s) (2 * v) then setPeriod_call f (2 * v) s else Some s in
      option_map (fun s => sp_emit (sp_prepare s)) s1
  end
with setPeriod_slot (fuel : nat) (v : Q) (s : S) : option S :=
  match fuel with
  | 0 => None
  | Datatypes.S f =>
      let s1 := if Qltb v (sp_interval s * 2) then setInterval_call f (v / 2) s else Some s in
      option_map (fun s => sp_emit (sp_prepare s)) s1
  end
with setInterval_call (fuel : nat) (v : Q) (s : S) : option S :=
  match fuel with
  | 0 => None
  | Datatypes.S f => if Qeq_bool v (sp_interval s) then Some s else setInterval_slot f v (sp_set_interval v s)
  end
with setPeriod_call (fuel : nat) (v : Q) (s : S) : option S :=
  match fuel with
  | 0 => None
  | Datatypes.S f => if Qeq_bool v (sp_period s) then Some s else setPeriod_slot f v (sp_set_period v s)
  end.

(** The net effect of the slots: what they do once the re-entry has run
    its course. *)
Definition setInterval_net (v : Q) (s : S) : S :=
  if Qeq_bool v (sp_interval s) then s
  else
    let s1 := sp_set_interval v s in
    if Qltb (sp_period s1) (2 * v)
    then sp_emit (sp_prepare (sp_emit (sp_prepare (sp_set_period (2 * v) s1))))
    else sp_emit (sp_prepare s1).

Definition setPeriod_net (v : Q) (s : S) : S :=
  if Qeq_bool v (sp_period s) then s
  else
    let s1 := sp_set_period v s in
    if Qltb v (sp_interval s1 * 2)
    then sp_emit (sp_prepare (sp_emit (sp_prepare (sp_set_interval (v / 2) s1))))
    else sp_emit (sp_prepare s1).

End Slots.

(** ** The time axis *)

Module AxisFacts.
Import Axis.

Lemma fill_loop_spec (n : nat) (k i : nat) (td : list Z) :
  i + k = n -> length td = n ->
  (forall j, j < i -> td !! (n - 1 - j) = Some (Z.of_nat j)) ->
  length (fill_loop (Z.of_nat n) i k td) = n /\
  forall j, j < n -> fill_loop (Z.of_nat n) i k td !! (n - 1 - j) = Some (Z.of_nat j).
Proof.
  revert i td. induction k as [|k IH]; intros i td Hik Hl Hset; cbn [fill_loop].
  - split; [exact Hl|]. intros j Hj. apply Hset. lia.
  - replace (Z.to_nat (Z.of_nat n - 1 - Z.of_nat i)) with (n - 1 - i) by lia.
    apply IH; [lia|rewrite length_insert; exact Hl|].
    intros j Hj. destruct (Nat.eq_dec j i) as [->|Hne].
    + apply list_lookup_insert_eq. lia.
    + rewrite list_lookup_insert_ne by lia. apply Hset. lia.
Qed.

Lemma axis_ref_lookup (n j : nat) : j < n -> axis_ref n !! j = Some (Z.of_nat n - 1 - Z.of_nat j)%Z.
Proof.
  intros Hj. unfold axis_ref. rewrite list_lookup_fmap, lookup_seq_lt by exact Hj. reflexivity.
Qed.

Lemma length_axis_ref (n : nat) : length (axis_ref n) = n.
Proof. unfold axis_ref. now rewrite length_map, length_seq. Qed.

(** The fill loop of [preparePlot] writes every position: whatever the
    resized array held, [timeData] is [points-1, ..., 1, 0]. *)
Lemma build_axis (points junk : Z) : build points junk = axis_ref (Z.to_nat points).
Proof.
  unfold build. set (n := Z.to_nat points).
  assert (Hp : fill_loop points 0 n (replicate n junk) = fill_loop (Z.of_nat n) 0 n (replicate n junk)).
  { destruct (Z_le_gt_dec 0 points) as [Hle|Hgt].
    - subst n. now rewrite Z2Nat.id.
    - subst n. rewrite Z2Nat.nonpos by lia. reflexivity. }
  rewrite Hp.
  destruct (fill_loop_spec n n 0 (replicate n junk)) as [Hl Hv];
    [lia|apply length_replicate|intros j Hj; lia|].
  apply list_eq. intros p. destruct (decide (p < n)) as [Hpn|Hpn].
  - replace p with (n - 1 - (n - 1 - p)) by lia. rewrite Hv by lia.
    rewrite axis_ref_lookup by lia. f_equal. lia.
  - rewrite !lookup_ge_None_2; auto; [rewrite length_axis_ref|rewrite Hl]; lia.
Qed.

Lemma lookup_advance (td : list Z) (j : nat) :
  advance td !! j = option_map (fun x => (x + 1)%Z) (td !! j).
Proof. unfold advance. change (map ?f td) with (f <$> td). now rewrite list_lookup_fmap. Qed.

(** After [k] ticks every position of the axis has moved up by [k], and
    the x scale runs from [k] to [points - 1 + k]. *)
Theorem advance_iter (n k : nat) :
  (forall j, j < n ->
     Nat.iter k advance (axis_ref n) !! j = Some (Z.of_nat n - 1 - Z.of_nat j + Z.of_nat k)%Z) /\
  (0 < n -> x_scale (Nat.iter k advance (axis_ref n)) = (Z.of_nat k, Z.of_nat n - 1 + Z.of_nat k)%Z).
Proof.
  assert (L : forall k, length (Nat.iter k advance (axis_ref n)) = n).
  { induction k0 as [|k0 IH]; [apply length_axis_ref|].
    change (Nat.iter (S k0) advance (axis_ref n)) with (advance (Nat.iter k0 advance (axis_ref n))).
    unfold advance. now rewrite length_map. }
  assert (V : forall j, j < n ->
     Nat.iter k advance (axis_ref n) !! j = Some (Z.of_nat n - 1 - Z.of_nat j + Z.of_nat k)%Z).
  { intros j Hj. induction k as [|k IH].
    - change (Nat.iter 0 advance (axis_ref n)) with (axis_ref n). rewrite axis_ref_lookup by exact Hj. f_equal. lia.
    - change (Nat.iter (S k) advance (axis_ref n)) with (advance (Nat.iter k advance (axis_ref n))).
      rewrite lookup_advance, IH. cbn. f_equal. lia. }
  split; [exact V|]. intros Hn. unfold x_scale. rewrite L, !V by lia. cbn. f_equal; lia.
Qed.

(** With [interval > 0] and [interval*2 <= period] the axis has at least
    two points. *)
Lemma points_of_ge_2 (period interval : Q) :
  (0 < interval)%Q -> (2 * interval <= period)%Q -> (2 <= points_of period interval)%Z.
Proof.
  intros H1 H2. unfold points_of, trunc.
  assert (H3 : (2 <= period / interval)%Q) by (apply Qle_shift_div_l; lra).
  qcmp; [|lra]. change 2%Z with (Qfloor 2). now apply Qfloor_resp_le.
Qed.

End AxisFacts.

(** ** The re-entrant slots terminate and keep [interval*2 <= period] *)

Section SlotFacts.
Context {S : Type} `{SpinPair S}.

Lemma sp_interval_E (s : S) : sp_interval (sp_emit (sp_prepare s)) = sp_interval s.
Proof. apply sp_interval_prepare. Qed.
Lemma sp_period_E (s : S) : sp_period (sp_emit (sp_prepare s)) = sp_period s.
Proof. apply sp_period_prepare. Qed.

Lemma setInterval_call_net (fuel : nat) (v : Q) (s : S) :
  4 <= fuel -> setInterval_call fuel v s = Some (setInterval_net v s).
Proof.
  intros Hf. destruct fuel as [|[|[|[|f]]]]; try lia.
  cbn [setInterval_call]. unfold setInterval_net.
  destruct (Qeq_bool v (sp_interval s)); [reflexivity|]. cbn [setInterval_slot].
  destruct (Qltb (sp_period (sp_set_interval v s)) (2 * v)) eqn:E; [|reflexivity].
  cbn [setPeriod_call]. replace (Qeq_bool (2 * v) _) with false by (qcmp; auto; lra).
  cbn [setPeriod_slot]. rewrite sp_interval_set_period, sp_interval_set_interval.
  replace (Qltb (2 * v) (v * 2)) with false by (qcmp; auto; lra). reflexivity.
Qed.

Lemma setPeriod_call_net (fuel : nat) (v : Q) (s : S) :
  4 <= fuel -> setPeriod_call fuel v s = Some (setPeriod_net v s).
Proof.
  intros Hf. destruct fuel as [|[|[|[|f]]]]; try lia.
  cbn [setPeriod_call]. unfold setPeriod_net.
  destruct (Qeq_bool v (sp_period s)); [reflexivity|]. cbn [setPeriod_slot].
  destruct (Qltb v (sp_interval (sp_set_period v s) * 2)) eqn:E; [|reflexivity].
  cbn [setInterval_call]. replace (Qeq_bool (v / 2) _) with false.
  2:{ qcmp; auto. set (w := (v / 2)%Q) in *. assert (w * 2 == v)%Q by (subst w; field). lra. }
  cbn [setInterval_slot]. rewrite sp_period_set_interval, sp_period_set_period.
  replace (Qltb v (2 * (v / 2))) with false by (qcmp; auto; field_simplify in Hc; lra).
  reflexivity.
Qed.

(** C6: A change of the interval spin box terminates once the fuel covers
    the one re-entry (set interval, set period, back), and leaves
    [interval = v], [period = max(period, 2v)], so [interval*2 <= period]. *)
Theorem setInterval_terminates (fuel : nat) (v : Q) (s : S) :
  4 <= fuel -> (2 * sp_interval s <= sp_period s)%Q ->
  exists s', setInterval_call fuel v s = Some s' /\ (sp_interval s' == v)%Q /\
    sp_period s' = (if Qltb (sp_period s) (2 * v) then 2 * v else sp_period s)%Q /\
    (2 * sp_interval s' <= sp_period s')%Q.
Proof.
  intros Hf Hinv. rewrite setInterval_call_net by exact Hf. eexists. split; [reflexivity|].
  unfold setInterval_net. rewrite sp_period_set_interval.
  destruct (Qeq_bool_spec v (sp_interval s)) as [E|E].
  - replace (Qltb (sp_period s) (2 * v)) with false by (qcmp; auto; lra).
    repeat split; [symmetry; exact E|exact Hinv].
  - destruct (Qltb_spec (sp_period s) (2 * v)) as [L|L];
      repeat rewrite ?sp_interval_E, ?sp_period_E, ?sp_interval_set_period, ?sp_period_set_period,
        ?sp_interval_set_interval, ?sp_period_set_interval; repeat split; try reflexivity; lra.
Qed.

(** A change of the period spin box terminates likewise and leaves
    [period = v], [interval = min(interval, v/2)], so [interval*2 <= period]. *)
Theorem setPeriod_terminates (fuel : nat) (v : Q) (s : S) :
  4 <= fuel -> (2 * sp_interval s <= sp_period s)%Q ->
  exists s', setPeriod_call fuel v s = Some s' /\ (sp_period s' == v)%Q /\
    sp_interval s' = (if Qltb v (sp_interval s * 2) then v / 2 else sp_interval s)%Q /\
    (2 * sp_interval s' <= sp_period s')%Q.
Proof.
  intros Hf Hinv. rewrite setPeriod_call_net by exact Hf. eexists. split; [reflexivity|].
  unfold setPeriod_net. rewrite sp_interval_set_period.
  destruct (Qeq_bool_spec v (sp_period s)) as [E|E].
  - replace (Qltb v (sp_interval s * 2)) with false by (qcmp; auto; lra).
    repeat split; [symmetry; exact E|exact Hinv].
  - destruct (Qltb_spec v (sp_interval s * 2)) as [L|L];
      repeat rewrite ?sp_interval_E, ?sp_period_E, ?sp_interval_set_period, ?sp_period_set_period,
        ?sp_interval_set_interval, ?sp_period_set_interval; repeat split; try reflexivity;
      try lra; assert (2 * (v / 2) == v)%Q by field; lra.
Qed.

End SlotFacts.

(** ** Witnesses *)

Lemma advance_iter_witness :
  0 < 5 /\ Axis.x_scale (Nat.iter 3 Axis.advance (Axis.axis_ref 5)) = (3, 7)%Z.
Proof. split; [lia|]. exact (proj2 (AxisFacts.advance_iter 5 3) ltac:(lia)). Defined.

Lemma setInterval_terminates_witness :
  4 <= 6 /\ (2 * sp_interval (((1 # 10)%Q, 1%Q) : Q * Q) <= sp_period (((1 # 10)%Q, 1%Q) : Q * Q))%Q /\
  exists s', setInterval_call 6 1 (((1 # 10)%Q, 1%Q) : Q * Q) = Some s' /\ (sp_interval s' == 1)%Q /\
    sp_period s' = (if Qltb (sp_period (((1 # 10)%Q, 1%Q) : Q * Q)) (2 * 1) then 2 * 1
                    else sp_period (((1 # 10)%Q, 1%Q) : Q * Q))%Q /\
    (2 * sp_interval s' <= sp_period s')%Q.
Proof.
  assert (H1 : 4 <= 6) by lia.
  assert (H2 : (2 * sp_interval (((1 # 10)%Q, 1%Q) : Q * Q) <= sp_period (((1 # 10)%Q, 1%Q) : Q * Q))%Q)
    by (cbn; lra).
  split; [exact H1|]. split; [exact H2|]. exact (setInterval_terminates 6 1 _ H1 H2).
Defined.

Lemma setPeriod_terminates_witness :
  4 <= 6 /\ (2 * sp_interval (((1 # 2)%Q, 2%Q) : Q * Q) <= sp_period (((1 # 2)%Q, 2%Q) : Q * Q))%Q /\
  exists s', setPeriod_call 6 (1 # 2) (((1 # 2)%Q, 2%Q) : Q * Q) = Some s' /\ (sp_period s' == 1 # 2)%Q /\
    sp_interval s' = (if Qltb (1 # 2) (sp_interval (((1 # 2)%Q, 2%Q) : Q * Q) * 2) then (1 # 2) / 2
                      else sp_interval (((1 # 2)%Q, 2%Q) : Q * Q))%Q /\
    (2 * sp_interval s' <= sp_period s')%Q.
Proof.
  assert (H1 : 4 <= 6) by lia.
  assert (H2 : (2 * sp_interval (((1 # 2)%Q, 2%Q) : Q * Q) <= sp_period (((1 # 2)%Q, 2%Q) : Q * Q))%Q)
    by (cbn; lra).
  split; [exact H1|]. split; [exact H2|]. exact (setPeriod_terminates 6 (1 # 2) _ H1 H2).
Defined.
