(* ===== verification/ScanDriver.v ===== *)
(** * ScanDriver: [QChartMX::startStop], [QChartMX::getData] and the scan

    [src/lib/timescan.cpp].  The chart holds the two spin boxes, the
    continuous flag, the timer, the sample counter [point], the shared time
    axis [timeData], the signals, the data table and the data file.
    [startStop] starts a scan (rebuild the axis and reset the signals,
    open the data file and write its header, take the first sample, start
    the timer) or stops it; [getData], run by every timer tick, pushes one
    reading per signal, appends one row to the table and one line to the
    file, recomputes the ranges, and stops a fixed scan when the window is
    full.  [getData] calls [startStop] and [startStop] calls [getData]: the
    two are one mutual [Fixpoint] with fuel, and the static flag
    [gettingData] of the code is a field of the state.  A scan is a
    sequence of events ([step]), and [reachable] is its closure. *)

From Stdlib Require Import QArith Lqa ZArith String Ascii Bool.
From stdpp Require Import base list.
From S2P Require Import Prelude Double Blitz Channel RangePolicy ChannelSet TimeAxis.

(** String concatenation of the text written to the data file. *)
Infix "+:+" := String.append (at level 60, right associativity) : timescan_scope.
Open Scope timescan_scope.
Open Scope string_scope.
Open Scope list_scope.

Module Driver.

(** A character of a [QString] and the two the header writes escaped. *)
Definition nl : string := String (ascii_of_nat 10) EmptyString.
Definition quote : string := String (ascii_of_nat 34) EmptyString.

(** A row of [ui->dataTable]: its vertical header item (the sample number,
    when one was set) and its cells, time first, then one per signal. *)
Definition row : Type := option Z * list string.

(** The state of a [QChartMX] the scan reads and writes. *)
Record t := mk {
  interval : Q;                      (* ui->interval->value() *)
  period : Q;                        (* ui->period->value() *)
  cont : bool;                       (* ui->cont->isChecked() *)
  running : bool;                    (* timer->isActive() *)
  gettingData : bool;                (* static bool gettingData of getData *)
  point : Z;                         (* int point *)
  timeData : list Z;                 (* Line timeData *)
  signals : list (string * Signal.t);  (* signalsE, with each signal's pv() *)
  ranges : Ranges.t;                 (* the range widgets of setRanges *)
  table : list row;                  (* ui->dataTable *)
  file_open : bool;                  (* dataFile.isOpen() *)
  file : list string;                (* what dataStr wrote into dataFile *)
  control_enabled : bool;            (* ui->control->isEnabled() *)
  save_dir : string;                 (* ui->saveDir->text() *)
  save_name : string;                (* ui->saveName->text() *)
  saved_to : string                  (* tableWasSavedTo *)
}.

(** What one event sees of the world: the time of the tick as
    [hh:mm:ss.zzz], the date and time of the file header, and the PVs
    (connected, value) by name. *)
Record input := mkInput {
  stamp : string;
  date : string;
  clock : string;
  read : string -> bool * double
}.

Section Scan.

(** The text conversions of [QTextStream::operator<<] for an [int] and a
    [double], and [QVariant(double)::toString()]. *)
Variable show_int : Z -> string.
Variable show_real : Q -> string.
Variable show_value : double -> string.

(** Field updates of the state. *)
Definition set_run (r g : bool) (s : t) : t :=
  mk (interval s) (period s) (cont s) r g (point s) (timeData s) (signals s) (ranges s)
     (table s) (file_open s) (file s) (control_enabled s) (save_dir s) (save_name s) (saved_to s).
Definition set_point (p : Z) (s : t) : t :=
  mk (interval s) (period s) (cont s) (running s) (gettingData s) p (timeData s) (signals s)
     (ranges s) (table s) (file_open s) (file s) (control_enabled s) (save_dir s) (save_name s)
     (saved_to s).
Definition set_data (td : list Z) (sigs : list (string * Signal.t)) (r : Ranges.t) (s : t) : t :=
  mk (interval s) (period s) (cont s) (running s) (gettingData s) (point s) td sigs r
     (table s) (file_open s) (file s) (control_enabled s) (save_dir s) (save_name s) (saved_to s).
Definition set_output (tbl : list row) (fo : bool) (f : list string) (s : t) : t :=
  mk (interval s) (period s) (cont s) (running s) (gettingData s) (point s) (timeData s)
     (signals s) (ranges s) tbl fo f (control_enabled s) (save_dir s) (save_name s) (saved_to s).
Definition set_control (ce : bool) (to : string) (s : t) : t :=
  mk (interval s) (period s) (cont s) (running s) (gettingData s) (point s) (timeData s)
     (signals s) (ranges s) (table s) (file_open s) (file s) ce (save_dir s) (save_name s) to.
Definition set_spins (iv pd : Q) (s : t) : t :=
  mk iv pd (cont s) (running s) (gettingData s) (point s) (timeData s) (signals s) (ranges s)
     (table s) (file_open s) (file s) (control_enabled s) (save_dir s) (save_name s) (saved_to s).

(** [QChartMX::saveDir]: the directory with a trailing slash. *)
Definition saveDir (dn : string) : string :=
  match String.length dn with
  | 0 => "/"
  | S n => if String.eqb (String.substring n 1 dn) "/" then dn else dn +:+ "/"
  end.

(** [QChartMX::preparePlot]: rebuild the axis from the spin boxes, then
    [resetData] every signal on the new axis ([xData->size()]). *)
Definition preparePlot (s : t) : t :=
  let td := Axis.build (Axis.points_of (period s) (interval s)) 0 in
  set_data td (map (fun ps => (ps.1, Signal.resetData (length td) ps.2)) (signals s)) (ranges s) s.

(** [ui->dataTable->insertRow(r)]: Qt inserts an empty row when
    [0 <= r <= rowCount()] and ignores the call otherwise. *)
Definition insertRow (r : Z) (tbl : list row) : list row :=
  if (0 <=? r)%Z && Nat.leb (Z.to_nat r) (length tbl) then
    take (Z.to_nat r) tbl ++ [(None, [])] ++ drop (Z.to_nat r) tbl
  else tbl.

(** [ui->dataTable->removeRow(0)]. *)
Definition removeFirstRow (tbl : list row) : list row := drop 1 tbl.

(** [setVerticalHeaderItem(r, ...)]: ignored out of range. *)
Definition setHeader (r : Z) (label : Z) (tbl : list row) : list row :=
  if (0 <=? r)%Z then alter (fun rw => (Some label, rw.2)) (Z.to_nat r) tbl else tbl.

(** The cells [setItem] writes into row [r]: the time in column 0 and
    each signal's value in its column, [column(sig)], which is the
    signal's position in [signalsE] plus one since [addSignal] appends
    the column with the signal. *)
Definition setCells (r : Z) (cells : list string) (tbl : list row) : list row :=
  if (0 <=? r)%Z then alter (fun rw => (rw.1, cells)) (Z.to_nat r) tbl else tbl.

(** The foreach of [getData]: [sig->get()] on every signal in order,
    with its PV's reading; the values are returned as text. *)
Fixpoint get_signals (points : nat) (rd : string -> bool * double)
    (sigs : list (string * Signal.t)) : option (list (string * Signal.t) * list string) :=
  match sigs with
  | [] => Some ([], [])
  | (pv, sg) :: rest =>
      match Signal.get (rd pv).1 (rd pv).2 points sg with
      | None => None
      | Some (sg', v) =>
          match get_signals points rd rest with
          | None => None
          | Some (rest', vals) => Some ((pv, sg') :: rest', show_value v :: vals)
          end
      end
  end.

(** [dataStr << point+1 << " " << time << " "], each value and a space,
    then the end of line. *)
Definition data_line (p : Z) (tm : string) (vals : list string) : list string :=
  [show_int (p + 1); " "; tm; " "] ++ flat_map (fun v => [v; " "]) vals ++ [nl].

(** The header [startStop] writes.  The two lines on the number of points
    and the interval end without a newline, as in the code. *)
Definition header (inp : input) (s : t) : list string :=
  ["# Time Scan" +:+ nl; "#" +:+ nl; "# Date: "; date inp; nl; "# Time: "; clock inp; nl;
   "#" +:+ nl;
   "# Number of scan points: ";
   (if cont s then "continious scan" else show_int (Z.of_nat (length (timeData s))));
   "# Interval (sec): "; show_real (interval s);
   "# Signals:" +:+ nl; "#" +:+ nl] ++
  flat_map (fun ps => ["# PV: " +:+ quote; ps.1; quote +:+ nl]) (signals s) ++
  ["#" +:+ nl] ++
  ["# Data columns:" +:+ nl; "# "; "%Point "; "%Time "] ++
  flat_map (fun ps => ["%"; ps.1; " "]) (signals s) ++ [nl].

(** [dataFile.open(Truncate | WriteOnly)]: an open file is not reopened
    (Qt warns and leaves it), a closed one is emptied. *)
Definition open_file (s : t) : t :=
  if file_open s then s else set_output (table s) true [] s.

(** The stop branch of [startStop]: [timer->stop()], the control panel
    enabled again, the data file closed. *)
Definition stop (s : t) : t :=
  let s1 := set_run false (gettingData s) s in
  set_output (table s1) false (file s1) (set_control true (saved_to s1) s1).

(** The start branch of [startStop] up to the first [getData]: rebuild
    the axis and reset the signals, [point = 0], disable the control
    panel, [tableWasSavedTo = saveDir() + saveName()], open the data file,
    empty the table and write the header. *)
Definition start_prepare (inp : input) (s : t) : t :=
  let s1 := set_point 0 (preparePlot s) in
  let s2 := set_control false (saveDir (save_dir s1) +:+ save_name s1) s1 in
  let s3 := open_file s2 in
  set_output [] (file_open s3) (file s3 ++ header inp s3) s3.

(** The body of [getData] from [gettingData = true] to [setRanges()],
    once the signals have given their values: the table row ([removeRow(0)]
    when a continuous scan has filled its window), the line of the data
    file, the axis moved by one, the new signals and the ranges. *)
Definition record_tick (inp : input) (sigs : list (string * Signal.t)) (vals : list string)
    (s : t) : t :=
  let points := Z.of_nat (length (timeData s)) in
  let wrap := cont s && (points - 1 <? point s)%Z in
  let table_row := if wrap then (points - 1)%Z else point s in
  let tbl := insertRow table_row (if wrap then removeFirstRow (table s) else table s) in
  let tbl := setCells table_row (stamp inp :: vals) (setHeader (point s) (point s + 1) tbl) in
  let r := Ranges.setRanges (ranges s)
             (@dataMin _ (signal_channel 0) (map snd sigs))
             (@dataMax _ (signal_channel 0) (map snd sigs)) in
  set_output tbl (file_open s) (file s ++ data_line (point s) (stamp inp) vals)
    (set_data (Axis.advance (timeData s)) sigs r (set_run (running s) true s)).

(** [if (!isContinious() && point >= points-1) startStop();] *)
Definition auto_stop (s : t) : bool :=
  negb (cont s) && (Z.of_nat (length (timeData s)) - 1 <=? point s)%Z.

(** [point++; gettingData = false;] *)
Definition finish_tick (s : t) : t := set_run (running s) false (set_point (point s + 1) s).

(** [QChartMX::startStop] and [QChartMX::getData].  [None] is running out
    of fuel, or [Signal::get] reading outside a buffer shorter than the
    axis. *)
Fixpoint startStop (fuel : nat) (inp : input) (s : t) : option t :=
  match fuel with
  | 0 => None
  | S f =>
      if running s then Some (stop s)
      else
        match getData f inp (start_prepare inp s) with
        | None => None
        | Some s5 => Some (set_run true (gettingData s5) s5)
        end
  end
with getData (fuel : nat) (inp : input) (s : t) : option t :=
  match fuel with
  | 0 => None
  | S f =>
      if gettingData s then Some s
      else
        match get_signals (length (timeData s)) (read inp) (signals s) with
        | None => None
        | Some (sigs, vals) =>
            let s1 := record_tick inp sigs vals s in
            match (if auto_stop s then startStop f inp s1 else Some s1) with
            | None => None
            | Some s2 => Some (finish_tick s2)
            end
        end
  end.

End Scan.
End Driver.

(** The chart's spin boxes are a [SpinPair]: [preparePlot] is the effect
    the slots have besides the two values; [configurationChanged] goes to
    the main window's settings and leaves the chart alone. *)
#[export] Program Instance chart_spins : SpinPair Driver.t := {
  sp_interval := Driver.interval;
  sp_period := Driver.period;
  sp_set_interval v s := Driver.set_spins v (Driver.period s) s;
  sp_set_period v s := Driver.set_spins (Driver.interval s) v s;
  sp_prepare := Driver.preparePlot;
  sp_emit s := s
}.
Solve Obligations with reflexivity.

Module Scan.
Import Driver.

(** The events of a scan: a timeout of [timer], a click on
    [ui->startStop], the slots [start()] and [stop()], and the user's
    edits of the interval, period and continuous widgets of the control
    panel, which [startStop] disables while a scan runs. *)
Inductive event :=
  | Tick
  | ClickStartStop
  | Start
  | Stop
  | SetInterval (v : Q)
  | SetPeriod (v : Q)
  | SetContinious (b : bool).

(** [ui->cont->setChecked(val)]. *)
Definition set_cont (b : bool) (s : t) : t :=
  mk (interval s) (period s) b (running s) (gettingData s) (point s) (timeData s) (signals s)
     (ranges s) (table s) (file_open s) (file s) (control_enabled s) (save_dir s) (save_name s)
     (saved_to s).

Section Events.
Variable show_int : Z -> string.
Variable show_real : Q -> string.
Variable show_value : double -> string.

(** The fuel of one event: [setInterval] re-enters [setPeriod] once (4
    calls), [startStop] calls [getData] once (2). *)
Definition fuel : nat := 4.

(** One event on the chart ([QChartMX::start] and [QChartMX::stop] test
    [isRunning()] first). *)
Definition step (inp : input) (e : event) (s : t) : option t :=
  match e with
  | Tick => if running s then getData show_int show_real show_value fuel inp s else Some s
  | ClickStartStop => startStop show_int show_real show_value fuel inp s
  | Start => if running s then Some s else startStop show_int show_real show_value fuel inp s
  | Stop => if running s then startStop show_int show_real show_value fuel inp s else Some s
  | SetInterval v => if control_enabled s then setInterval_call fuel v s else Some s
  | SetPeriod v => if control_enabled s then setPeriod_call fuel v s else Some s
  | SetContinious b => if control_enabled s then Some (set_cont b s) else Some s
  end.

(** A sequence of events, each with what it sees of the world. *)
Fixpoint run (evs : list (input * event)) (s : t) : option t :=
  match evs with
  | [] => Some s
  | (inp, e) :: evs' => match step inp e s with Some s' => run evs' s' | None => None end
  end.

(** The spin boxes accept positive values only. *)
Definition valid_event (e : event) : Prop :=
  match e with SetInterval v | SetPeriod v => (0 < v)%Q | _ => True end.

(** A PV reading is a double: NaN or finite. *)
Definition input_ok (inp : input) : Prop := forall pv, in_range (read inp pv).2.

(** The states a scan reaches from [init]. *)
Inductive reachable (init : t) : t -> Prop :=
  | reach_init : reachable init init
  | reach_step (s s' : t) (inp : input) (e : event) :
      reachable init s -> valid_event e -> input_ok inp -> step inp e s = Some s' ->
      reachable init s'.

(** The value of every signal in a tick, as text. *)
Definition tick_values (rd : string -> bool * double) (sigs : list (string * Signal.t)) :
    list string :=
  map (fun ps => show_value (Signal.reading_value (rd ps.1))) sigs.

(** How [getData] moved one signal: same PV, the reading pushed. *)
Definition pushed (rd : string -> bool * double) (ps ps' : string * Signal.t) : Prop :=
  ps'.1 = ps.1 /\ Signal.data ps'.2 = Signal.reading_value (rd ps.1) :: removelast (Signal.data ps.2).

(** Timer ticks, each with what it sees. *)
Definition ticks (inps : list input) : list (input * event) := map (fun i => (i, Tick)) inps.

(** A scan: [start()] with what the first sample sees, then one timer
    tick per element of [inps]. *)
Definition scan (inp0 : input) (inps : list input) : list (input * event) :=
  (inp0, Start) :: ticks inps.

End Events.

(** The tick flag, the timer, the panel and the file of an idle chart,
    which the spin box slots leave alone. *)
Definition idle (s : t) : Prop :=
  gettingData s = false /\ running s = false /\ control_enabled s = true /\ file_open s = false.

(** The number of points of the chart's axis. *)
Definition points (s : t) : nat := Z.to_nat (Axis.points_of (period s) (interval s)).

(** The invariant of the chart.  Always: the tick flag is down, the spin
    boxes keep [interval*2 <= period], the axis has [points] positions and
    every signal is well formed on it, and the control panel is enabled
    exactly when no scan runs, the data file is open exactly when a scan
    runs.  While a scan runs: the axis has moved once per sample, at least
    one sample was taken, the table holds one row per sample up to the
    window, and a fixed scan has not yet filled its window. *)
Definition inv (s : t) : Prop :=
  gettingData s = false /\ (0 < interval s)%Q /\ (2 * interval s <= period s)%Q /\
  length (timeData s) = points s /\ Forall (Signal.wf (points s)) (map snd (signals s)) /\
  control_enabled s = negb (running s) /\ file_open s = running s /\
  (running s = true ->
     timeData s = Nat.iter (Z.to_nat (point s)) Axis.advance (Axis.axis_ref (points s)) /\
     (1 <= point s)%Z /\ length (table s) = Nat.min (Z.to_nat (point s)) (points s) /\
     (cont s = false -> (point s < Z.of_nat (points s))%Z)).

End Scan.

(** ** A concrete chart

    The chart of the examples: a new [QChartMX] with one signal on PV
    ["A"], interval 1 s and period 3 s (three points), fixed or continuous,
    and three inputs that read the PV as 1, 2 and 3. *)
Module Demo.
Import Driver Scan.

Definition ranges0 : Ranges.t := Ranges.mk false false true NaN true NaN (Fin 0) (Fin 1).

Definition chart0 (c : bool) : t :=
  mk 1 3 c false false 0 [] [("A", Signal.create)] ranges0 [] false [] true "/tmp" "scan.dat" "".

(** The chart as the constructor leaves it, after its [preparePlot]. *)
Definition chart (c : bool) : t := preparePlot (chart0 c).

Definition show_int (z : Z) : string := "n".
Definition show_real (q : Q) : string := "x".
Definition show_value (d : double) : string := if isnan d then "nan" else "v".

Definition inp (k : Q) : input :=
  mkInput "12:00:00.000" "2026-11-09" "12:00:00" (fun _ => (true, Fin k)).

(** The chart after [start()] with the first input. *)
Definition started (c : bool) : t :=
  match step show_int show_real show_value (inp 1) Start (chart c) with
  | Some s => s
  | None => chart c
  end.

(** The continuous chart after [start()] and two ticks: its window of
    three points is full. *)
Definition full : t :=
  match run show_int show_real show_value (scan (inp 1) [inp 2; inp 3]) (chart true) with
  | Some s => s
  | None => chart true
  end.

End Demo.

Module ScanFacts.
Import Driver Scan.

(** Reduce the field updates of the chart and their projections. *)
Ltac fields := cbn [interval period cont running gettingData point timeData signals ranges table
  file_open file control_enabled save_dir save_name saved_to set_run set_point set_data
  set_output set_control set_spins finish_tick stop].

Section Facts.
Variable show_int : Z -> string.
Variable show_real : Q -> string.
Variable show_value : double -> string.

(** The foreach of [getData] succeeds on well-formed signals and pushes
    each PV's reading into its signal. *)
Lemma get_signals_spec (n : nat) (rd : string -> bool * double) (sigs : list (string * Signal.t)) :
  (forall pv, in_range (rd pv).2) -> Forall (Signal.wf n) (map snd sigs) ->
  exists sigs', get_signals show_value n rd sigs = Some (sigs', tick_values show_value rd sigs) /\
    Forall2 (pushed rd) sigs sigs' /\ Forall (Signal.wf n) (map snd sigs').
Proof.
  intros Hrd. induction sigs as [|[pv sg] sigs IH]; intros Hw; [now exists []|].
  inversion Hw as [|? ? W Ws]; subst.
  destruct (Signal.get_spec (rd pv).1 (rd pv).2 n sg W (Hrd pv)) as (sg' & G & D & _ & _ & _ & W').
  destruct (IH Ws) as (sigs' & G' & P & Ws'). exists ((pv, sg') :: sigs'). cbn. rewrite G, G'.
  split; [do 3 f_equal; unfold Signal.reading_value; now destruct (rd pv)|].
  split; constructor; auto. split; [reflexivity|]. cbn. rewrite D. unfold Signal.reading_value.
  now destruct (rd pv).
Qed.

Lemma length_get_signals (n : nat) rd sigs sigs' vals :
  get_signals show_value n rd sigs = Some (sigs', vals) -> length sigs' = length sigs.
Proof.
  revert sigs' vals. induction sigs as [|[pv sg] sigs IH]; intros sigs' vals G; cbn in G.
  - now injection G as <- <-.
  - destruct (Signal.get _ _ _ _) as [[sg1 v]|]; [|discriminate].
    destruct (get_signals _ _ _ _) as [[r vs]|] eqn:E; [|discriminate].
    injection G as <- <-. cbn. f_equal. now apply (IH r vs).
Qed.

(** A valid interval and period give an axis of at least two points. *)
Lemma points_ge_2 (s : t) : (0 < interval s)%Q -> (2 * interval s <= period s)%Q -> 2 <= points s.
Proof.
  intros H1 H2. unfold points. pose proof (AxisFacts.points_of_ge_2 _ _ H1 H2). lia.
Qed.

(** [preparePlot] rebuilds the axis as [points-1, ..., 0] and resets every
    signal on it. *)
Lemma preparePlot_spec (s : t) :
  (0 < interval s)%Q -> (2 * interval s <= period s)%Q ->
  timeData (preparePlot s) = Axis.axis_ref (points s) /\
  Forall (Signal.wf (points s)) (map snd (signals (preparePlot s))) /\
  map fst (signals (preparePlot s)) = map fst (signals s).
Proof.
  intros H1 H2. pose proof (points_ge_2 s H1 H2) as Hp. unfold preparePlot. cbn.
  rewrite AxisFacts.build_axis, AxisFacts.length_axis_ref. fold (points s).
  split; [reflexivity|]. rewrite !map_map. cbn. split; [|reflexivity].
  apply List.Forall_forall. intros x Hx. apply in_map_iff in Hx as (ps & <- & _).
  apply (Signal.resetData_spec (points s) ps.2). lia.
Qed.

(** The table operations of a tick keep or grow its length by one row. *)
Lemma length_insertRow (r : Z) (tbl : list row) :
  (0 <= r)%Z -> Z.to_nat r <= length tbl -> length (insertRow r tbl) = S (length tbl).
Proof.
  intros H1 H2. unfold insertRow. rewrite (proj2 (Z.leb_le 0 r) H1), (proj2 (Nat.leb_le _ _) H2).
  cbn [andb]. rewrite length_app, length_take. cbn [length app]. rewrite length_drop. lia.
Qed.

Lemma length_setHeader (r l : Z) (tbl : list row) : length (setHeader r l tbl) = length tbl.
Proof. unfold setHeader. destruct (0 <=? r)%Z; [apply length_alter|reflexivity]. Qed.

Lemma length_setCells (r : Z) (c : list string) (tbl : list row) :
  length (setCells r c tbl) = length tbl.
Proof. unfold setCells. destruct (0 <=? r)%Z; [apply length_alter|reflexivity]. Qed.

(** A tick adds one row until the window is full, then keeps [points]
    rows: one row per sample, up to the window. *)
Lemma table_record_tick (inp : input) sigs vals (s : t) :
  let n := length (timeData s) in
  1 <= n -> (0 <= point s)%Z -> length (table s) = Nat.min (Z.to_nat (point s)) n ->
  (cont s = false -> (point s < Z.of_nat n)%Z) ->
  length (table (record_tick show_int inp sigs vals s)) =
    Nat.min (Z.to_nat (point s + 1)) n.
Proof.
  intros n Hn Hp Ht Hc. unfold record_tick. fold n. cbn [table set_output].
  rewrite length_setCells, length_setHeader.
  destruct (cont s) eqn:C; cbn [andb].
  - destruct (Z.ltb_spec (Z.of_nat n - 1) (point s)) as [L|L].
    + unfold removeFirstRow. rewrite length_insertRow; rewrite ?length_drop; lia.
    + rewrite length_insertRow; lia.
  - specialize (Hc eq_refl). rewrite length_insertRow; lia.
Qed.

(** One timer tick of a running scan, once the signals gave their values:
    record the sample, stop when a fixed scan has filled its window
    ([startStop] on a running chart is [stop]), count the sample. *)
Lemma getData_tick (f : nat) (inp : input) (s : t) sigs vals :
  gettingData s = false -> running s = true ->
  get_signals show_value (length (timeData s)) (read inp) (signals s) = Some (sigs, vals) ->
  getData show_int show_real show_value (S (S f)) inp s =
    Some (finish_tick (if auto_stop s then stop (record_tick show_int inp sigs vals s)
                       else record_tick show_int inp sigs vals s)).
Proof.
  intros G R E. cbn [getData]. rewrite G, E. destruct (auto_stop s); [|reflexivity].
  cbn [startStop running record_tick set_output set_data set_run]. now rewrite R.
Qed.

(** What the start branch prepares before the first sample. *)
Lemma start_prepare_spec (inp : input) (s : t) :
  let s4 := start_prepare show_int show_real inp s in
  gettingData s4 = gettingData s /\ running s4 = running s /\ cont s4 = cont s /\
  interval s4 = interval s /\ period s4 = period s /\ point s4 = 0%Z /\ table s4 = [] /\
  control_enabled s4 = false /\ file_open s4 = true /\
  timeData s4 = timeData (preparePlot s) /\ signals s4 = signals (preparePlot s) /\
  file s4 = (if file_open s then file s else []) ++ header show_int show_real inp (preparePlot s).
Proof.
  unfold start_prepare, open_file. cbn [file_open set_control set_point preparePlot set_data].
  destruct (file_open s) eqn:F; cbn; rewrite ?F; repeat split; exact F.
Qed.

(** Starting a scan: prepare, take the first sample, start the timer. *)
Lemma startStop_start (f : nat) (inp : input) (s : t) sigs vals :
  running s = false -> gettingData s = false ->
  auto_stop (start_prepare show_int show_real inp s) = false ->
  get_signals show_value (length (timeData (start_prepare show_int show_real inp s))) (read inp)
    (signals (start_prepare show_int show_real inp s)) = Some (sigs, vals) ->
  startStop show_int show_real show_value (S (S f)) inp s =
    Some (set_run true false
            (finish_tick (record_tick show_int inp sigs vals (start_prepare show_int show_real inp s)))).
Proof.
  intros R G A E. cbn [startStop]. rewrite R. cbn [getData].
  destruct (start_prepare_spec inp s) as (G' & _). rewrite G', G, E, A. reflexivity.
Qed.

Lemma iter_advance_succ (p : Z) (x : list Z) :
  (0 <= p)%Z -> Nat.iter (Z.to_nat (p + 1)) Axis.advance x = Axis.advance (Nat.iter (Z.to_nat p) Axis.advance x).
Proof. intros Hp. now replace (Z.to_nat (p + 1)) with (S (Z.to_nat p)) by lia. Qed.

Lemma length_advance (td : list Z) : length (Axis.advance td) = length td.
Proof. apply length_map. Qed.

Lemma points_ext (s s' : t) : interval s' = interval s -> period s' = period s -> points s' = points s.
Proof. unfold points. now intros -> ->. Qed.

(** What [record_tick] changes: the axis, the signals, the table, the
    file and the ranges; the tick flag is up. *)
Lemma record_tick_fields (inp : input) sigs vals (s : t) :
  let s1 := record_tick show_int inp sigs vals s in
  running s1 = running s /\ gettingData s1 = true /\ cont s1 = cont s /\ point s1 = point s /\
  interval s1 = interval s /\ period s1 = period s /\ control_enabled s1 = control_enabled s /\
  file_open s1 = file_open s /\ timeData s1 = Axis.advance (timeData s) /\ signals s1 = sigs /\
  file s1 = file s ++ data_line show_int (point s) (stamp inp) vals.
Proof. repeat split. Qed.

(** The invariant after a tick, from what the tick did to the fields. *)
Lemma inv_tick_core (s s1 : t) :
  inv s -> running s = true -> Forall (Signal.wf (points s)) (map snd (signals s1)) ->
  running s1 = running s -> cont s1 = cont s -> point s1 = point s -> interval s1 = interval s ->
  period s1 = period s -> control_enabled s1 = control_enabled s -> file_open s1 = file_open s ->
  timeData s1 = Axis.advance (timeData s) ->
  length (table s1) = Nat.min (Z.to_nat (point s + 1)) (points s) ->
  inv (finish_tick (if auto_stop s then stop s1 else s1)).
Proof.
  intros (G & I1 & I2 & L & W & C & FO & RUN) R Ws F1 F3 F4 F5 F6 F7 F8 F9 TL'.
  destruct (RUN R) as (TD & P1 & TL & CP).
  assert (Pt : forall x, interval x = interval s -> period x = period s -> points x = points s)
    by (intros; now apply points_ext).
  unfold auto_stop. rewrite L. destruct (cont s) eqn:Ct; cbn [negb andb];
    [|destruct (Z.leb_spec (Z.of_nat (points s) - 1) (point s)) as [A|A]]; cbn [negb andb].
  all: unfold inv; rewrite Pt by (fields; congruence); fields.
  all: rewrite ?F1, ?F3, ?F4, ?F5, ?F6, ?F7, ?F8, ?F9, ?length_advance, ?L, ?R, ?C, ?FO.
  all: rewrite ?R; repeat split; try assumption; try lia.
  all: rewrite iter_advance_succ, <- TD by lia; reflexivity.
Qed.

(** A tick of a running scan keeps the invariant, whether it stops the
    scan or not. *)
Lemma inv_tick (inp : input) (s : t) sigs vals :
  inv s -> running s = true -> Forall (Signal.wf (points s)) (map snd sigs) ->
  inv (finish_tick (if auto_stop s then stop (record_tick show_int inp sigs vals s)
                    else record_tick show_int inp sigs vals s)).
Proof.
  intros Hi R Ws. pose proof Hi as (G & I1 & I2 & L & W & C & FO & RUN).
  destruct (RUN R) as (TD & P1 & TL & CP). pose proof (points_ge_2 s I1 I2) as P2.
  pose proof (table_record_tick inp sigs vals s) as TL'. cbv zeta in TL'. rewrite L in TL'.
  destruct (record_tick_fields inp sigs vals s) as (F1 & F2 & F3 & F4 & F5 & F6 & F7 & F8 & F9 & F10 & _).
  apply inv_tick_core; [exact Hi|exact R|rewrite F10; exact Ws|exact F1|exact F3|exact F4|exact F5
    |exact F6|exact F7|exact F8|exact F9|apply TL'; [lia|lia|exact TL|exact CP]].
Qed.

(** A fixed scan does not stop at its first sample: the axis has at least
    two points. *)
Lemma start_no_stop (inp : input) (s : t) :
  inv s -> auto_stop (start_prepare show_int show_real inp s) = false.
Proof.
  intros (_ & I1 & I2 & _). pose proof (points_ge_2 s I1 I2).
  destruct (start_prepare_spec inp s) as (_ & _ & _ & _ & _ & P0 & _ & _ & _ & T & _).
  destruct (preparePlot_spec s I1 I2) as (T' & _). unfold auto_stop.
  rewrite P0, T, T', AxisFacts.length_axis_ref. destruct (negb _); [|reflexivity].
  apply Z.leb_gt. lia.
Qed.

(** The invariant after the start branch, from what it did to the fields. *)
Lemma inv_start_core (s s1 : t) :
  inv s -> Forall (Signal.wf (points s)) (map snd (signals s1)) ->
  cont s1 = cont s -> point s1 = 0%Z -> interval s1 = interval s -> period s1 = period s ->
  control_enabled s1 = false -> file_open s1 = true ->
  timeData s1 = Axis.advance (Axis.axis_ref (points s)) -> length (table s1) = 1 ->
  inv (set_run true false (finish_tick s1)).
Proof.
  intros (G & I1 & I2 & _) Ws F3 F4 F5 F6 F7 F8 F9 TL.
  pose proof (points_ge_2 s I1 I2) as P2.
  assert (Pt : points (set_run true false (finish_tick s1)) = points s)
    by (apply points_ext; fields; congruence).
  unfold inv. rewrite Pt. fields. rewrite F3, F4, F5, F6, F7, F8, F9, TL.
  rewrite length_advance, AxisFacts.length_axis_ref.
  repeat split; try assumption; try lia.
Qed.

(** Starting a scan from an idle chart establishes the running part of
    the invariant. *)
Lemma inv_start (inp : input) (s : t) sigs vals :
  inv s -> running s = false -> Forall (Signal.wf (points s)) (map snd sigs) ->
  inv (set_run true false
         (finish_tick (record_tick show_int inp sigs vals (start_prepare show_int show_real inp s)))).
Proof.
  intros Hi R Ws. pose proof Hi as (G & I1 & I2 & _).
  pose proof (points_ge_2 s I1 I2) as P2.
  destruct (start_prepare_spec inp s) as (G4 & R4 & C4 & V4 & P4 & Pt4 & T4 & CE4 & FO4 & TD4 & _).
  destruct (preparePlot_spec s I1 I2) as (TD & _).
  pose proof (table_record_tick inp sigs vals (start_prepare show_int show_real inp s)) as TL.
  cbv zeta in TL. rewrite TD4, TD, AxisFacts.length_axis_ref, Pt4, T4 in TL.
  specialize (TL ltac:(lia) ltac:(lia) eq_refl ltac:(intros; lia)).
  destruct (record_tick_fields inp sigs vals (start_prepare show_int show_real inp s))
    as (F1 & F2 & F3 & F4 & F5 & F6 & F7 & F8 & F9 & F10 & _).
  apply (inv_start_core s); [exact Hi|rewrite F10; exact Ws|rewrite F3; exact C4|rewrite F4; exact Pt4
    |rewrite F5; exact V4|rewrite F6; exact P4|rewrite F7; exact CE4|rewrite F8; exact FO4
    |rewrite F9, TD4, TD; reflexivity|rewrite TL; lia].
Qed.

(** Stopping keeps the invariant: the panel is enabled, the file closed. *)
Lemma inv_stop (s : t) : inv s -> inv (stop s).
Proof.
  intros (G & I1 & I2 & L & W & C & FO & _). unfold inv.
  rewrite (points_ext s (stop s)) by reflexivity. unfold stop. fields.
  do 7 (split; [try assumption; try reflexivity|]). discriminate.
Qed.

(** [preparePlot] on an idle chart with valid spin boxes gives a chart
    satisfying the invariant. *)
Lemma inv_prepare (s : t) :
  gettingData s = false -> running s = false -> control_enabled s = true -> file_open s = false ->
  (0 < interval s)%Q -> (2 * interval s <= period s)%Q -> inv (preparePlot s).
Proof.
  intros G R C FO I1 I2. destruct (preparePlot_spec s I1 I2) as (TD & W & _).
  unfold inv. rewrite (points_ext s (preparePlot s)) by reflexivity.
  rewrite TD, AxisFacts.length_axis_ref. unfold preparePlot. fields. rewrite R, C, FO.
  do 7 (split; [try assumption; try reflexivity|]). discriminate.
Qed.

Lemma inv_idle (s : t) : inv s -> running s = false -> idle s.
Proof. intros (G & _ & _ & _ & _ & C & FO & _) R. rewrite R in C, FO. now repeat split. Qed.

Lemma inv_prepare_idle (s : t) :
  idle s -> (0 < interval s)%Q -> (2 * interval s <= period s)%Q -> inv (preparePlot s).
Proof. intros (G & R & C & FO). now apply inv_prepare. Qed.

(** An edit of the interval spin box on an idle chart keeps the
    invariant: [setInterval] re-enters [setPeriod] when needed and every
    slot run ends with [preparePlot]. *)
Lemma inv_setInterval (v : Q) (s : t) :
  inv s -> running s = false -> (0 < v)%Q -> inv (setInterval_net v s).
Proof.
  intros Hi R Hv. destruct (inv_idle s Hi R) as (G & R' & C & FO). unfold setInterval_net.
  destruct (Qeq_bool v (sp_interval s)); [exact Hi|]. cbn -[preparePlot].
  destruct (Qltb_spec (period s) (2 * v)) as [L|L];
    apply inv_prepare_idle; unfold preparePlot, idle; fields; auto; lra.
Qed.

(** An edit of the period spin box likewise. *)
Lemma inv_setPeriod (v : Q) (s : t) :
  inv s -> running s = false -> (0 < v)%Q -> inv (setPeriod_net v s).
Proof.
  intros Hi R Hv. destruct (inv_idle s Hi R) as (G & R' & C & FO).
  pose proof Hi as (_ & I1 & I2 & _). unfold setPeriod_net.
  destruct (Qeq_bool v (sp_period s)); [exact Hi|]. cbn -[preparePlot].
  assert (H2 : (2 * (v / 2) == v)%Q) by field.
  destruct (Qltb_spec v (interval s * 2)) as [L|L];
    apply inv_prepare_idle; unfold preparePlot, idle; fields; auto; try lra.
Qed.

(** [startStop] with the fuel of an event succeeds, keeps the invariant
    and toggles the timer. *)
Lemma startStop_inv (inp : input) (s : t) :
  inv s -> input_ok inp ->
  exists s', startStop show_int show_real show_value fuel inp s = Some s' /\ inv s' /\
    running s' = negb (running s).
Proof.
  intros Hi Hr. destruct (running s) eqn:R.
  - exists (stop s). cbn [startStop fuel]. rewrite R. split; [reflexivity|].
    split; [now apply inv_stop|reflexivity].
  - pose proof Hi as (G & I1 & I2 & _).
    destruct (start_prepare_spec inp s) as (_ & _ & _ & _ & _ & _ & _ & _ & _ & TD4 & S4 & _).
    destruct (preparePlot_spec s I1 I2) as (TD & W & _).
    destruct (get_signals_spec (points s) (read inp)
                (signals (start_prepare show_int show_real inp s)) Hr) as (sigs' & E & _ & Ws);
      [now rewrite S4|].
    eexists. split; [apply startStop_start; eauto using start_no_stop|].
    + rewrite TD4, TD, AxisFacts.length_axis_ref. exact E.
    + split; [now apply inv_start|reflexivity].
Qed.

(** A tick of a running scan succeeds and keeps the invariant. *)
Lemma getData_inv (inp : input) (s : t) :
  inv s -> running s = true -> input_ok inp ->
  exists s', getData show_int show_real show_value fuel inp s = Some s' /\ inv s'.
Proof.
  intros Hi R Hr. pose proof Hi as (G & _ & _ & L & W & _).
  destruct (get_signals_spec (points s) (read inp) (signals s) Hr W) as (sigs' & E & _ & Ws).
  rewrite <- L in E. eexists. split; [exact (getData_tick 2 inp s _ _ G R E)|].
  now apply inv_tick.
Qed.

(** Every event terminates within its fuel and keeps the invariant. *)
Lemma step_inv (inp : input) (e : event) (s : t) :
  inv s -> valid_event e -> input_ok inp ->
  exists s', step show_int show_real show_value inp e s = Some s' /\ inv s'.
Proof.
  intros Hi He Hr. pose proof Hi as (_ & _ & _ & _ & _ & C & _).
  destruct (startStop_inv inp s Hi Hr) as (s1 & E1 & I1 & _).
  destruct e; unfold step; rewrite ?C; destruct (running s) eqn:R; cbn [negb];
    try match goal with
    | |- exists s', Some s = Some s' /\ _ => exists s; split; [reflexivity|exact Hi]
    | |- exists s', startStop _ _ _ _ _ _ = Some s' /\ _ => exists s1; split; [exact E1|exact I1]
    end.
  - destruct (getData_inv inp s Hi R Hr) as (s' & E & I). exists s'; split; [exact E|exact I].
  - eexists. split; [apply setInterval_call_net; unfold fuel; lia|].
    exact (inv_setInterval v s Hi R He).
  - eexists. split; [apply setPeriod_call_net; unfold fuel; lia|].
    exact (inv_setPeriod v s Hi R He).
  - eexists. split; [reflexivity|]. destruct Hi as (G & I1' & I2 & L & W & C' & FO & _).
    unfold inv, set_cont. rewrite (points_ext s) by reflexivity. fields. rewrite R in *.
    do 7 (split; [assumption|]). discriminate.
Qed.

(** A timer tick of a running scan, in full: each signal takes its PV's
    reading, the tick is recorded, and a fixed scan whose window is full
    stops. *)
Lemma tick_eq (inp : input) (s : t) :
  inv s -> running s = true -> input_ok inp ->
  exists sigs', Forall2 (pushed (read inp)) (signals s) sigs' /\
    Forall (Signal.wf (points s)) (map snd sigs') /\
    step show_int show_real show_value inp Tick s =
      Some (finish_tick
        (if auto_stop s
         then stop (record_tick show_int inp sigs' (tick_values show_value (read inp) (signals s)) s)
         else record_tick show_int inp sigs' (tick_values show_value (read inp) (signals s)) s)).
Proof.
  intros Hi R Hr. pose proof Hi as (G & _ & _ & L & W & _).
  destruct (get_signals_spec (points s) (read inp) (signals s) Hr W) as (sigs' & E & P & Ws).
  rewrite <- L in E. exists sigs'. split; [exact P|split; [exact Ws|]].
  unfold step. rewrite R. exact (getData_tick 2 inp s _ _ G R E).
Qed.

(** A start of an idle chart, in full: prepare, one sample, timer on. *)
Lemma start_eq (inp : input) (s : t) :
  inv s -> running s = false -> input_ok inp ->
  exists sigs', Forall2 (pushed (read inp)) (signals (preparePlot s)) sigs' /\
    Forall (Signal.wf (points s)) (map snd sigs') /\
    step show_int show_real show_value inp Start s =
      Some (set_run true false (finish_tick
        (record_tick show_int inp sigs' (tick_values show_value (read inp) (signals (preparePlot s)))
           (start_prepare show_int show_real inp s)))).
Proof.
  intros Hi R Hr. pose proof Hi as (G & I1 & I2 & _).
  destruct (start_prepare_spec inp s) as (_ & _ & _ & _ & _ & _ & _ & _ & _ & TD4 & S4 & _).
  destruct (preparePlot_spec s I1 I2) as (TD & W & _).
  destruct (get_signals_spec (points s) (read inp) (signals (preparePlot s)) Hr W)
    as (sigs' & E & P & Ws).
  exists sigs'. split; [exact P|split; [exact Ws|]]. unfold step, fuel. rewrite R.
  apply startStop_start; [exact R|exact G|exact (start_no_stop inp s Hi)|].
  rewrite TD4, TD, AxisFacts.length_axis_ref, S4. exact E.
Qed.

(** What one tick of a running scan does to the counters, the table, the
    file and the signals. *)
Lemma tick_step (inp : input) (s : t) :
  inv s -> running s = true -> input_ok inp ->
  exists s', step show_int show_real show_value inp Tick s = Some s' /\ inv s' /\
    point s' = (point s + 1)%Z /\ running s' = negb (auto_stop s) /\ cont s' = cont s /\
    points s' = points s /\
    length (table s') = Nat.min (Z.to_nat (point s + 1)) (points s) /\
    file s' = file s ++ data_line show_int (point s) (stamp inp) (tick_values show_value (read inp) (signals s)) /\
    Forall2 (pushed (read inp)) (signals s) (signals s') /\
    interval s' = interval s /\ period s' = period s.
Proof.
  intros Hi R Hr. pose proof Hi as (G & I1 & I2 & L & W & C & FO & RUN).
  destruct (RUN R) as (TD & P1 & TL & CP). pose proof (points_ge_2 s I1 I2) as P2.
  destruct (tick_eq inp s Hi R Hr) as (sigs' & P & Ws & E).
  pose proof (table_record_tick inp sigs' (tick_values show_value (read inp) (signals s)) s) as TL'.
  cbv zeta in TL'. rewrite L in TL'. specialize (TL' ltac:(lia) ltac:(lia) TL CP).
  destruct (record_tick_fields inp sigs' (tick_values show_value (read inp) (signals s)) s)
    as (F1 & F2 & F3 & F4 & F5 & F6 & F7 & F8 & F9 & F10 & F11).
  eexists. split; [exact E|]. split.
  { destruct (getData_inv inp s Hi R Hr) as (s2 & E2 & I2').
    unfold step in E. rewrite R, E2 in E. injection E as <-. exact I2'. }
  destruct (auto_stop s); fields; rewrite ?F1, ?F3, ?F4, ?F5, ?F6, ?F11, ?F10;
    repeat split; try assumption; try reflexivity.
  all: apply points_ext; fields; assumption.
Qed.

(** What a start of an idle chart does: the file is emptied and gets the
    header and the first line, the table its first row, the counter is 1,
    and each signal, freshly reset, holds its first reading. *)
Lemma start_step (inp : input) (s : t) :
  inv s -> running s = false -> input_ok inp ->
  exists s', step show_int show_real show_value inp Start s = Some s' /\ inv s' /\
    point s' = 1%Z /\ running s' = true /\ cont s' = cont s /\ points s' = points s /\
    length (table s') = 1 /\
    file s' = header show_int show_real inp (preparePlot s) ++
              data_line show_int 0 (stamp inp) (tick_values show_value (read inp) (signals (preparePlot s))) /\
    Forall2 (pushed (read inp)) (signals (preparePlot s)) (signals s') /\
    interval s' = interval s /\ period s' = period s.
Proof.
  intros Hi R Hr. pose proof Hi as (G & I1 & I2 & L & W & C & FO & _).
  pose proof (points_ge_2 s I1 I2) as P2.
  destruct (start_eq inp s Hi R Hr) as (sigs' & P & Ws & E).
  destruct (start_prepare_spec inp s) as (G4 & R4 & C4 & V4 & P4 & Pt4 & T4 & CE4 & FO4 & TD4 & S4 & Fl4).
  destruct (preparePlot_spec s I1 I2) as (TD & _).
  pose proof (table_record_tick inp sigs' (tick_values show_value (read inp) (signals (preparePlot s))) (start_prepare show_int show_real inp s)) as TL.
  cbv zeta in TL. rewrite TD4, TD, AxisFacts.length_axis_ref, Pt4, T4 in TL.
  specialize (TL ltac:(lia) ltac:(lia) eq_refl ltac:(intros; lia)).
  destruct (record_tick_fields inp sigs' (tick_values show_value (read inp) (signals (preparePlot s))) (start_prepare show_int show_real inp s))
    as (F1 & F2 & F3 & F4 & F5 & F6 & F7 & F8 & F9 & F10 & F11).
  eexists. split; [exact E|]. split; [exact (inv_start inp s sigs' _ Hi R Ws)|].
  clear E. revert F1 F2 F3 F4 F5 F6 F7 F8 F9 F10 F11 TL.
  generalize (record_tick show_int inp sigs' (tick_values show_value (read inp) (signals (preparePlot s)))
                (start_prepare show_int show_real inp s)) as x.
  intros x F1 F2 F3 F4 F5 F6 F7 F8 F9 F10 F11 TL.
  fields. rewrite F3, F4, F5, F6, F10, F11, Fl4, Pt4, C4, V4, P4, FO, R, TL. cbn [app].
  repeat split; try assumption; try reflexivity.
  - apply points_ext; fields; [rewrite F5; exact V4|rewrite F6; exact P4].
  - lia.
Qed.

End Facts.

(** The example charts satisfy the invariant. *)
Lemma demo_inv (c : bool) : inv (Demo.chart c).
Proof.
  apply inv_prepare_idle; [repeat split|cbn; lra|cbn; lra].
Qed.

Lemma demo_input_ok (k : Q) : in_range (Fin k) -> input_ok (Demo.inp k).
Proof. intros H pv. exact H. Qed.

End ScanFacts.
