(* ===== verification/DataFile.v ===== *)
(** * DataFile: the text of the data file, read back as lines

    [QChartMX::startStop] writes the header of the data file with
    [dataStr << ...] and [QChartMX::getData] one line per sample
    ([ScanDriver.Driver.header], [ScanDriver.Driver.data_line]).  Here the
    text those chunks make is split at its newlines, as a reader of the
    file sees it, and the header is computed line by line: the point
    count and the interval have no newline after them, so they run into
    the next line. *)

From Stdlib Require Import QArith ZArith String Ascii Bool.
From stdpp Require Import base list.
From S2P Require Import Prelude Double Channel ScanDriver.

Import Driver.
Open Scope string_scope.
Open Scope list_scope.

(** The newline character. *)
Definition nlc : ascii := ascii_of_nat 10.

(** The text of a list of chunks, as [QTextStream] writes them. *)
Definition text (l : list string) : string := fold_right String.append "" l.

(** Whether a string holds a newline. *)
Fixpoint has_nl (x : string) : bool :=
  match x with
  | EmptyString => false
  | String c x' => Ascii.eqb c nlc || has_nl x'
  end.

(** The lines of a text: the pieces between newlines (the last one empty
    when the text ends with a newline). *)
Fixpoint lines (x : string) : list string :=
  match x with
  | EmptyString => [""]
  | String c x' =>
      if Ascii.eqb c nlc then "" :: lines x'
      else match lines x' with
           | [] => [String c ""]
           | l :: ls => String c l :: ls
           end
  end.

(** The lines the header should have, for a point count [n], an interval
    [iv] and the PVs [pvs]. *)
Definition header_text_lines (d tm n iv : string) (pvs : list string) : list string :=
  ["# Time Scan"; "#"; "# Date: " +:+ d; "# Time: " +:+ tm; "#";
   "# Number of scan points: " +:+ n +:+ "# Interval (sec): " +:+ iv +:+ "# Signals:"; "#"] ++
  map (fun pv => "# PV: " +:+ quote +:+ pv +:+ quote) pvs ++
  ["#"; "# Data columns:"; "# %Point %Time " +:+ text (map (fun pv => "%" +:+ pv +:+ " ") pvs); ""].

(** ** Lines of a text *)

Lemma lines_nonempty (x : string) : exists l ls, lines x = l :: ls.
Proof.
  induction x as [|c x (l & ls & IH)]; [now exists "", []|]. cbn.
  destruct (Ascii.eqb c nlc); [now exists "", (lines x)|]. rewrite IH. now exists (String c l), ls.
Qed.

(** A piece without newline in front of a text joins its first line. *)
Lemma lines_app (x y : string) :
  has_nl x = false ->
  lines (x +:+ y) = match lines y with [] => [x] | l :: ls => (x +:+ l) :: ls end.
Proof.
  induction x as [|c x IH]; intros H; cbn in *.
  - destruct (lines_nonempty y) as (l & ls & ->). reflexivity.
  - apply orb_false_iff in H as [H1 H2]. rewrite H1, IH by exact H2.
    destruct (lines_nonempty y) as (l & ls & ->). reflexivity.
Qed.

Lemma lines_nl (y : string) : lines (nl +:+ y) = "" :: lines y.
Proof. reflexivity. Qed.

Lemma append_assoc' (x y z : string) : (x +:+ y) +:+ z = x +:+ (y +:+ z).
Proof. induction x as [|c x IH]; cbn; [reflexivity|]. now rewrite IH. Qed.

Lemma append_empty (x : string) : x +:+ "" = x.
Proof. induction x as [|c x IH]; cbn; [reflexivity|]. now rewrite IH. Qed.

Lemma text_app (l l' : list string) : text (l ++ l') = text l +:+ text l'.
Proof. unfold text. induction l as [|x l IH]; cbn; [reflexivity|]. now rewrite IH, append_assoc'. Qed.

Lemma has_nl_append (x y : string) : has_nl (x +:+ y) = has_nl x || has_nl y.
Proof. induction x as [|c x IH]; cbn; [reflexivity|]. now rewrite IH, orb_assoc. Qed.

(** A line ended by a newline, in front of a text, is a line of its own. *)
Lemma lines_line (x y : string) :
  has_nl x = false -> lines (x +:+ nl +:+ y) = x :: lines y.
Proof. intros H. rewrite lines_app by exact H. now rewrite lines_nl, append_empty. Qed.

Lemma text_cons (x : string) (l : list string) : text (x :: l) = x +:+ text l.
Proof. reflexivity. Qed.

Lemma text_nil : text [] = "".
Proof. reflexivity. Qed.

(** One step of reading lines off a right-nested text. *)
Ltac lines_step :=
  first [ rewrite append_assoc'
        | rewrite lines_line by (assumption || reflexivity)
        | rewrite lines_app by (assumption || reflexivity)
        | rewrite lines_nl ]; cbn beta iota.

(** The PV lines of the header. *)
Lemma lines_pvs (sigs : list (string * Signal.t)) (rest : list string) :
  Forall (fun pv => has_nl pv = false) (map fst sigs) ->
  lines (text (flat_map (fun ps => ["# PV: " +:+ quote; ps.1; quote +:+ nl]) sigs ++ rest)) =
  map (fun pv => "# PV: " +:+ quote +:+ pv +:+ quote) (map fst sigs) ++ lines (text rest).
Proof.
  induction sigs as [|[pv sg] sigs IH]; intros H; [reflexivity|].
  inversion H as [|? ? Hpv Hs]; subst. cbn [flat_map map fst app].
  rewrite !text_cons. repeat lines_step. now rewrite IH.
Qed.

Lemma text_cols (sigs : list (string * Signal.t)) :
  text (flat_map (fun ps => ["%"; ps.1; " "]) sigs) =
  text (map (fun pv => "%" +:+ pv +:+ " ") (map fst sigs)).
Proof.
  induction sigs as [|[pv sg] sigs IH]; [reflexivity|]. cbn [flat_map map fst app].
  rewrite !text_cons, IH. now rewrite <- !append_assoc'.
Qed.

Lemma has_nl_cols (pvs : list string) :
  Forall (fun pv => has_nl pv = false) pvs ->
  has_nl (text (map (fun pv => "%" +:+ pv +:+ " ") pvs)) = false.
Proof.
  induction 1 as [|pv pvs H _ IH]; [reflexivity|]. cbn [map]. rewrite text_cons.
  rewrite !has_nl_append, H, IH. reflexivity.
Qed.

(** The data-columns line that ends the header. *)
Lemma lines_cols (sigs : list (string * Signal.t)) :
  Forall (fun pv => has_nl pv = false) (map fst sigs) ->
  lines (text (["# "; "%Point "; "%Time "] ++ flat_map (fun ps => ["%"; ps.1; " "]) sigs ++ [nl])) =
  ["# %Point %Time " +:+ text (map (fun pv => "%" +:+ pv +:+ " ") (map fst sigs)); ""].
Proof.
  intros H. pose proof (has_nl_cols _ H) as Hc.
  rewrite !text_app, text_cols. cbn [text fold_right]. rewrite append_empty.
  repeat lines_step. reflexivity.
Qed.

(** ** The header, line by line *)

Section Header.
Variable show_int : Z -> string.
Variable show_real : Q -> string.

(** C31: The header [startStop] writes, read as lines: the date and time
    lines, the point count (or [continious scan]) and the interval run
    together with [# Signals:] on one line because the code writes no
    newline after them, then a line per PV, and the data-columns line. *)
Theorem header_lines (inp : input) (s : t) :
  let n := if cont s then "continious scan" else show_int (Z.of_nat (length (timeData s))) in
  has_nl (date inp) = false -> has_nl (clock inp) = false -> has_nl n = false ->
  has_nl (show_real (interval s)) = false ->
  Forall (fun pv => has_nl pv = false) (map fst (signals s)) ->
  lines (text (header show_int show_real inp s)) =
  header_text_lines (date inp) (clock inp) n (show_real (interval s)) (map fst (signals s)).
Proof.
  intros n Hd Hc Hn Hi Hp. unfold header. fold n.
  rewrite text_app, !text_cons, text_nil, append_empty. repeat lines_step.
  rewrite (lines_pvs _ _ Hp).
  change (["# Data columns:" +:+ nl; "# "; "%Point "; "%Time "] ++ ?r)
    with (("# Data columns:" +:+ nl) :: (["# "; "%Point "; "%Time "] ++ r)).
  change ((["#" +:+ nl] ++ ?r)) with (("#" +:+ nl) :: r).
  rewrite !text_cons, !append_assoc'.
  rewrite lines_line by reflexivity. rewrite lines_line by reflexivity.
  rewrite (lines_cols _ Hp). reflexivity.
Qed.

End Header.

(** ** Witness

    The header of the fixed example chart of [ScanDriver.Demo]: its point
    count ["n"] and interval ["x"] share the line of [# Signals:]. *)
Lemma header_lines_witness :
  lines (text (header Demo.show_int Demo.show_real (Demo.inp 1) (Demo.chart false))) =
  header_text_lines "2026-11-09" "12:00:00" "n" "x" ["A"].
Proof.
  exact (header_lines Demo.show_int Demo.show_real (Demo.inp 1) (Demo.chart false)
           eq_refl eq_refl eq_refl eq_refl ltac:(repeat constructor)).
Defined.
