(* ===== verification/ScanRun.v ===== *)
(** * ScanRun: whole scans, and the scan as the specification's state machine

    Theorems on sequences of events of [ScanDriver]: every reachable chart
    satisfies [Scan.inv] and no event runs out of fuel; a fixed scan stops
    after exactly one window of samples and a continuous one never stops;
    after a scan every signal holds the last readings of its PV; and the
    chart refines the abstract machine [Abstract] (Idle / Running with a
    sample index, and one window per channel) that the specification
    states, through the abstraction [Abstract.alpha]. *)

From Stdlib Require Import QArith Lqa ZArith String Bool.
From stdpp Require Import base list.
From S2P Require Import Prelude Double Blitz Channel RangePolicy ChannelSet TimeAxis ScanDriver.

Import Driver Scan ScanFacts.

(** The window of [n] samples after the readings [rs] (oldest first) were
    pushed into a reset buffer: newest first, NaN behind. *)
Definition window (n : nat) (rs : list double) : Line := take n (rev rs ++ line_fill n NaN).

(** What a PV's successive readings record. *)
Definition readings (pv : string) (inps : list input) : list double :=
  map (fun i => Signal.reading_value (read i pv)) inps.

(** The signals [sigs] hold, PV by PV, the windows of the readings
    [rs pv], and keep the PVs of [sig0]. *)
Definition holds (n : nat) (rs : string -> list double) (sig0 sigs : list (string * Signal.t)) : Prop :=
  Forall2 (fun ps ps' => ps'.1 = ps.1 /\ Signal.data ps'.2 = window n (rs ps.1)) sig0 sigs.

(** The lines [getData] writes for the samples [k], [k+1], ... taken at
    the ticks [inps], for the signals [pvs]: the log of a scan. *)
Fixpoint log_lines (show_int : Z -> string) (show_value : double -> string) (pvs : list string)
    (k : Z) (inps : list input) : list string :=
  match inps with
  | [] => []
  | i :: inps' =>
      data_line show_int k (stamp i) (map (fun pv => show_value (Signal.reading_value (read i pv))) pvs) ++
      log_lines show_int show_value pvs (k + 1) inps'
  end.

(** The windows of the signals, by PV. *)
Definition wins (sigs : list (string * Signal.t)) : list (string * Line) :=
  map (fun ps => (ps.1, Signal.data ps.2)) sigs.

Module Abstract.

(** The specification's driver (its section 4.4): idle, or running at a
    sample index. *)
Inductive mode := Idle | Running (index : nat).

(** Its state: the phase, the configuration, and one window per channel. *)
Record t := mk {
  phase : mode;
  interval : Q;
  period : Q;
  continuous : bool;
  windows : list (string * Line)
}.

Definition len (a : t) : nat := Z.to_nat (Axis.points_of (period a) (interval a)).

(** Push each channel's reading. *)
Definition push_all (rd : string -> bool * double) (ws : list (string * Line)) :
    list (string * Line) :=
  map (fun pw => (pw.1, Signal.reading_value (rd pw.1) :: removelast pw.2)) ws.

(** Every channel reset to [n] NaNs. *)
Definition reset_all (n : nat) (ws : list (string * Line)) : list (string * Line) :=
  map (fun pw => (pw.1, line_fill n NaN)) ws.

(** A tick at index [k]: push, then stop a fixed scan at the end of its
    window, or move to the next index. *)
Definition tick (rd : string -> bool * double) (k : nat) (a : t) : t :=
  let ws := push_all rd (windows a) in
  if negb (continuous a) && Nat.leb (len a - 1) k
  then mk Idle (interval a) (period a) (continuous a) ws
  else mk (Running (S k)) (interval a) (period a) (continuous a) ws.

(** Start: reset every channel on the current axis, take sample 0. *)
Definition start (rd : string -> bool * double) (a : t) : t :=
  tick rd 0 (mk (Running 0) (interval a) (period a) (continuous a) (reset_all (len a) (windows a))).

(** The configuration, edited while idle: the edited value wins, the other
    is adjusted to keep [interval*2 <= period], the channels are reset. *)
Definition configure (iv pd : Q) (a : t) : t :=
  let a1 := mk Idle iv pd (continuous a) (windows a) in
  mk Idle iv pd (continuous a) (reset_all (len a1) (windows a)).

Definition set_interval (v : Q) (a : t) : t :=
  if Qeq_bool v (interval a) then a
  else configure v (if Qltb (period a) (2 * v) then 2 * v else period a) a.

Definition set_period (v : Q) (a : t) : t :=
  if Qeq_bool v (period a) then a
  else configure (if Qltb v (interval a * 2) then v / 2 else interval a) v a.

(** One event of the specification's machine. *)
Definition step (rd : string -> bool * double) (e : event) (a : t) : t :=
  match e, phase a with
  | Tick, Running k => tick rd k a
  | (ClickStartStop | Stop), Running _ => mk Idle (interval a) (period a) (continuous a) (windows a)
  | (ClickStartStop | Start), Idle => start rd a
  | SetInterval v, Idle => set_interval v a
  | SetPeriod v, Idle => set_period v a
  | SetContinious b, Idle => mk Idle (interval a) (period a) b (windows a)
  | _, _ => a
  end.

(** A sequence of events of the specification's machine. *)
Fixpoint run (evs : list (input * event)) (a : t) : t :=
  match evs with
  | [] => a
  | (inp, e) :: evs' => run evs' (step (read inp) e a)
  end.

(** The abstraction of a chart: the timer gives the phase, [point] the
    index, each signal's [data] its window. *)
Definition alpha (s : Driver.t) : t :=
  mk (if running s then Running (Z.to_nat (point s)) else Idle)
     (Driver.interval s) (Driver.period s) (cont s)
     (wins (signals s)).

End Abstract.

Section Runs.
Variable show_int : Z -> string.
Variable show_real : Q -> string.
Variable show_value : double -> string.

Local Abbreviation run := (run show_int show_real show_value).
Local Abbreviation step := (Scan.step show_int show_real show_value).

Lemma length_window (n : nat) (rs : list double) : length (window n rs) = n.
Proof.
  unfold window, line_fill. rewrite length_take, length_app, length_replicate. lia.
Qed.

(** Pushing a reading into a full window is the window of one more reading. *)
Lemma window_push (n : nat) (rs : list double) (r : double) :
  0 < n -> r :: removelast (window n rs) = window n (rs ++ [r]).
Proof.
  intros Hn. unfold window. rewrite removelast_firstn_len, length_take, take_take.
  rewrite length_app, length_rev. unfold line_fill. rewrite length_replicate, rev_app_distr.
  cbn [rev app]. destruct n as [|n]; [lia|]. cbn [take]. f_equal. f_equal. lia.
Qed.

Lemma holds_push (n : nat) (rs : string -> list double) sig0 sigs sigs' rd :
  0 < n -> holds n rs sig0 sigs -> Forall2 (pushed rd) sigs sigs' ->
  holds n (fun pv => rs pv ++ [Signal.reading_value (rd pv)]) sig0 sigs'.
Proof.
  intros Hn H. revert sigs'. unfold holds in *.
  induction H as [|ps ps1 l l1 [E D] _ IH]; intros sigs' P; inversion P as [|? ps2 ? l2 [E' D'] P']; subst;
    constructor; auto.
  split; [congruence|]. rewrite D', D, E. now apply window_push.
Qed.

(** Ticks do nothing to an idle chart. *)
Lemma idle_ticks (inps : list input) (x : t) :
  running x = false -> run (ticks inps) x = Some x.
Proof.
  intros R. induction inps as [|i inps IH]; [reflexivity|].
  cbn [ticks map Scan.run]. unfold Scan.step. rewrite R. exact IH.
Qed.

Lemma tick_values_names (rd : string -> bool * double) (sigs : list (string * Signal.t)) :
  tick_values show_value rd sigs =
    map (fun pv => show_value (Signal.reading_value (rd pv))) (map fst sigs).
Proof. unfold tick_values. now rewrite map_map. Qed.

Lemma pushed_names (rd : string -> bool * double) sigs sigs' :
  Forall2 (pushed rd) sigs sigs' -> map fst sigs' = map fst sigs.
Proof. induction 1 as [|? ? ? ? [E _] _ IH]; cbn; [reflexivity|]. now rewrite E, IH. Qed.

Lemma holds_ext (n : nat) (rs rs' : string -> list double) sig0 sigs :
  (forall pv, rs pv = rs' pv) -> holds n rs sig0 sigs -> holds n rs' sig0 sigs.
Proof.
  intros E H. unfold holds in *. induction H; constructor; auto.
  destruct H as [H1 H2]. split; [exact H1|]. now rewrite H2, E.
Qed.

(** The ticks of a fixed scan: it runs until [point] reaches the window,
    then stops; each tick while it runs pushes one reading per signal. *)
Lemma fixed_ticks (inps : list input) (x : t) (rs : string -> list double) sig0 :
  inv x -> running x = true -> cont x = false -> Forall input_ok inps ->
  holds (points x) rs sig0 (signals x) ->
  exists x', run (ticks inps) x = Some x' /\ inv x' /\ cont x' = false /\ points x' = points x /\
    running x' = Nat.ltb (Z.to_nat (point x) + length inps) (points x) /\
    point x' = Z.of_nat (Nat.min (Z.to_nat (point x) + length inps) (points x)) /\
    length (table x') = Nat.min (Z.to_nat (point x) + length inps) (points x) /\
    holds (points x) (fun pv => rs pv ++ readings pv (take (points x - Z.to_nat (point x)) inps))
      sig0 (signals x') /\
    file x' = file x ++ log_lines show_int show_value (map fst (signals x)) (point x)
                          (take (points x - Z.to_nat (point x)) inps).
Proof.
  revert x rs. induction inps as [|i inps IH]; intros x rs Hi R C Hr H;
    pose proof Hi as (_ & I1 & I2 & L & _ & _ & _ & RUN); destruct (RUN R) as (_ & P1 & TL & CP);
    specialize (CP C); pose proof (points_ge_2 x I1 I2) as P2.
  - exists x. cbn [length]. rewrite Nat.add_0_r, take_nil, app_nil_r. split; [reflexivity|].
    do 3 (split; [assumption || reflexivity|]). split; [rewrite R; symmetry; apply Nat.ltb_lt; lia|].
    split; [lia|]. split; [exact TL|]. split; [|reflexivity].
    eapply holds_ext; [|exact H]. intros pv. now rewrite app_nil_r.
  - inversion Hr as [|? ? Hi0 Hrs]; subst.
    destruct (tick_step show_int show_real show_value i x Hi R Hi0)
      as (s1 & E & I' & Pt & R1 & C1 & N1 & TL1 & F1 & Pu & _ & _).
    cbn [ticks map Scan.run]. rewrite E. rewrite tick_values_names in F1.
    assert (H1 := holds_push (points x) rs sig0 _ _ (read i) ltac:(lia) H Pu).
    unfold auto_stop in R1. rewrite C, L in R1. cbn [negb andb] in R1.
    destruct (Z.leb_spec (Z.of_nat (points x) - 1) (point x)) as [A|A]; cbn [negb] in R1.
    + exists s1. rewrite idle_ticks by exact R1. split; [reflexivity|].
      split; [exact I'|]. split; [congruence|]. split; [exact N1|].
      rewrite R1, Pt, TL1. cbn [length]. split; [symmetry; apply Nat.ltb_ge; lia|].
      split; [lia|]. split; [lia|].
      replace (points x - Z.to_nat (point x)) with 1 by lia. split.
      * eapply holds_ext; [|exact H1]. intros pv. reflexivity.
      * rewrite F1. cbn [take log_lines]. now rewrite app_nil_r.
    + rewrite <- N1 in H1.
      destruct (IH s1 _ I' R1 ltac:(congruence) Hrs H1)
        as (x' & E' & I'' & C' & N' & R' & Pt' & TL' & H' & F').
      exists x'. split; [exact E'|]. rewrite N1 in *. rewrite Pt in *.
      replace (Z.to_nat (point x + 1)) with (S (Z.to_nat (point x))) in * by lia.
      cbn [length]. rewrite <- Nat.add_succ_comm.
      do 3 (split; [assumption|]). split; [exact R'|]. split; [exact Pt'|]. split; [exact TL'|].
      replace (points x - Z.to_nat (point x)) with (S (points x - S (Z.to_nat (point x)))) by lia.
      split.
      * eapply holds_ext; [|exact H']. intros pv. cbn beta.
        cbn [take readings map]. now rewrite <- app_assoc.
      * rewrite F', F1, (pushed_names _ _ _ Pu). cbn [take log_lines]. now rewrite app_assoc.
Qed.

(** The ticks of a continuous scan: it never stops, and each tick pushes
    one reading per signal. *)
Lemma cont_ticks (inps : list input) (x : t) (rs : string -> list double) sig0 :
  inv x -> running x = true -> cont x = true -> Forall input_ok inps ->
  holds (points x) rs sig0 (signals x) ->
  exists x', run (ticks inps) x = Some x' /\ inv x' /\ cont x' = true /\ points x' = points x /\
    running x' = true /\ point x' = (point x + Z.of_nat (length inps))%Z /\
    length (table x') = Nat.min (Z.to_nat (point x) + length inps) (points x) /\
    holds (points x) (fun pv => rs pv ++ readings pv inps) sig0 (signals x') /\
    file x' = file x ++ log_lines show_int show_value (map fst (signals x)) (point x) inps.
Proof.
  revert x rs. induction inps as [|i inps IH]; intros x rs Hi R C Hr H;
    pose proof Hi as (_ & I1 & I2 & L & _ & _ & _ & RUN); destruct (RUN R) as (_ & P1 & TL & _);
    pose proof (points_ge_2 x I1 I2) as P2.
  - exists x. cbn [length log_lines]. rewrite Nat.add_0_r, Z.add_0_r, app_nil_r.
    split; [reflexivity|]. do 5 (split; [assumption || reflexivity|]). split; [exact TL|].
    split; [|reflexivity]. eapply holds_ext; [|exact H]. intros pv. now rewrite app_nil_r.
  - inversion Hr as [|? ? Hi0 Hrs]; subst.
    destruct (tick_step show_int show_real show_value i x Hi R Hi0)
      as (s1 & E & I' & Pt & R1 & C1 & N1 & TL1 & F1 & Pu & _ & _).
    cbn [ticks map Scan.run]. rewrite E. rewrite tick_values_names in F1.
    assert (H1 := holds_push (points x) rs sig0 _ _ (read i) ltac:(lia) H Pu).
    unfold auto_stop in R1. rewrite C in R1. cbn [negb andb] in R1. rewrite <- N1 in H1.
    destruct (IH s1 _ I' R1 ltac:(congruence) Hrs H1)
      as (x' & E' & I'' & C' & N' & R' & Pt' & TL' & H' & F').
    exists x'. split; [exact E'|]. rewrite N1 in *. rewrite Pt in *.
    replace (Z.to_nat (point x + 1)) with (S (Z.to_nat (point x))) in * by lia.
    cbn [length]. do 4 (split; [assumption|]). split; [rewrite Pt'; lia|]. split; [rewrite TL'; lia|].
    split.
    + eapply holds_ext; [|exact H']. intros pv. cbn beta. cbn [readings map].
      now rewrite <- app_assoc.
    + rewrite F', F1, (pushed_names _ _ _ Pu). cbn [log_lines]. now rewrite app_assoc.
Qed.

(** [preparePlot] leaves every signal with the window of no reading. *)
Lemma prepare_holds (s : t) :
  (0 < Driver.interval s)%Q -> (2 * Driver.interval s <= Driver.period s)%Q ->
  holds (points s) (fun _ => []) (signals s) (signals (preparePlot s)).
Proof.
  intros I1 I2. pose proof (points_ge_2 s I1 I2) as P2. unfold preparePlot, set_data. cbn [signals].
  rewrite AxisFacts.build_axis, AxisFacts.length_axis_ref. fold (points s). unfold holds.
  induction (signals s) as [|ps l IH]; constructor; [|exact IH]. split; [reflexivity|].
  destruct (Signal.resetData_spec (points s) ps.2 ltac:(lia)) as (_ & D & _).
  cbn [snd]. rewrite D. unfold window, line_fill. cbn [rev app].
  rewrite take_ge; [reflexivity|]. rewrite length_replicate. lia.
Qed.

(** The start of a scan: one sample, the timer on. *)
Lemma start_holds (inp : input) (s : t) :
  inv s -> running s = false -> input_ok inp ->
  exists s1, step inp Start s = Some s1 /\ inv s1 /\ running s1 = true /\ point s1 = 1%Z /\
    cont s1 = cont s /\ points s1 = points s /\ length (table s1) = 1 /\
    holds (points s) (fun pv => readings pv [inp]) (signals s) (signals s1) /\
    file s1 = header show_int show_real inp (preparePlot s) ++
              log_lines show_int show_value (map fst (signals s)) 0 [inp].
Proof.
  intros Hi R Hr. pose proof Hi as (_ & I1 & I2 & _). pose proof (points_ge_2 s I1 I2) as P2.
  destruct (start_step show_int show_real show_value inp s Hi R Hr)
    as (s1 & E & I' & Pt & R1 & C1 & N1 & TL & F & Pu & _ & _).
  exists s1. do 7 (split; [assumption|]). split.
  - exact (holds_push (points s) _ _ _ _ _ ltac:(lia) (prepare_holds s I1 I2) Pu).
  - rewrite F, tick_values_names. destruct (preparePlot_spec s I1 I2) as (_ & _ & Nm).
    rewrite Nm. cbn [log_lines]. now rewrite app_nil_r.
Qed.

Lemma holds_names (n : nat) rs sig0 sigs : holds n rs sig0 sigs -> map fst sigs = map fst sig0.
Proof. induction 1 as [|? ? ? ? [E _] _ IH]; cbn; [reflexivity|]. now rewrite E, IH. Qed.

Lemma log_lines_cons (pvs : list string) (k : Z) (i : input) (l : list input) :
  log_lines show_int show_value pvs k [i] ++ log_lines show_int show_value pvs (k + 1) l =
  log_lines show_int show_value pvs k (i :: l).
Proof. cbn [log_lines]. now rewrite app_nil_r. Qed.

Lemma readings_app (pv : string) (l l' : list input) :
  readings pv l ++ readings pv l' = readings pv (l ++ l').
Proof. unfold readings. now rewrite map_app. Qed.

(** A whole scan from an idle chart: the counters, the table, the
    signals and the file after [start()] and the ticks [inps]. *)
Lemma scan_run (s : t) (inp0 : input) (inps : list input) :
  inv s -> running s = false -> Forall input_ok (inp0 :: inps) ->
  let used := if cont s then inp0 :: inps else take (points s) (inp0 :: inps) in
  exists s', run (scan inp0 inps) s = Some s' /\ inv s' /\ points s' = points s /\
    running s' = cont s || Nat.ltb (S (length inps)) (points s) /\
    point s' = Z.of_nat (if cont s then S (length inps) else Nat.min (S (length inps)) (points s)) /\
    length (table s') = Nat.min (S (length inps)) (points s) /\
    holds (points s) (fun pv => readings pv used) (signals s) (signals s') /\
    file s' = header show_int show_real inp0 (preparePlot s) ++
              log_lines show_int show_value (map fst (signals s)) 0 used.
Proof.
  intros Hi R Hr used. inversion Hr as [|? ? Hi0 Hrs]; subst.
  pose proof Hi as (_ & I1 & I2 & _). pose proof (points_ge_2 s I1 I2) as P2.
  destruct (start_holds inp0 s Hi R Hi0) as (s1 & E & I' & R1 & Pt & C1 & N1 & TL & H & F).
  cbn [scan Scan.run]. rewrite E. rewrite <- N1 in H.
  subst used.
  destruct (cont s) eqn:C.
  - destruct (cont_ticks inps s1 _ _ I' R1 ltac:(congruence) Hrs H)
      as (x' & E' & I'' & _ & N' & R' & Pt' & TL' & H' & F').
    exists x'. rewrite N1 in *. rewrite Pt in *. cbn [Z.to_nat Pos.to_nat] in *.
    do 3 (split; [assumption|]). split; [exact R'|]. split; [rewrite Pt'; lia|].
    split; [exact TL'|]. split.
    + eapply holds_ext; [|exact H']. intros pv. apply readings_app.
    + rewrite F', F, (holds_names _ _ _ _ H), <- app_assoc. f_equal. apply log_lines_cons.
  - destruct (fixed_ticks inps s1 _ _ I' R1 ltac:(congruence) Hrs H)
      as (x' & E' & I'' & _ & N' & R' & Pt' & TL' & H' & F').
    exists x'. rewrite N1 in *. rewrite Pt in *. cbn [Z.to_nat Pos.to_nat] in *.
    replace (take (points s) (inp0 :: inps)) with (inp0 :: take (points s - 1) inps)
      by (destruct (points s) as [|[|n]]; [lia|lia|reflexivity]).
    do 3 (split; [assumption|]). split; [exact R'|]. split; [exact Pt'|].
    split; [exact TL'|]. split.
    + eapply holds_ext; [|exact H']. intros pv. apply readings_app.
    + rewrite F', F, (holds_names _ _ _ _ H), <- app_assoc. f_equal. apply log_lines_cons.
Qed.

(** ** The chart refines the specification's machine *)

Lemma wins_pushed (rd : string -> bool * double) sigs sigs' :
  Forall2 (pushed rd) sigs sigs' -> wins sigs' = Abstract.push_all rd (wins sigs).
Proof.
  unfold wins. induction 1 as [|ps ps' l l' [E D] _ IH]; [reflexivity|]. cbn.
  rewrite IH, E, D. reflexivity.
Qed.

Lemma wins_reset (n : nat) sig0 sigs :
  holds n (fun _ => []) sig0 sigs -> wins sigs = Abstract.reset_all n (wins sig0).
Proof.
  unfold wins. induction 1 as [|ps ps' l l' [E D] _ IH]; [reflexivity|]. cbn. rewrite IH, E, D.
  unfold window, line_fill. cbn [rev app]. rewrite take_ge by (rewrite length_replicate; lia).
  reflexivity.
Qed.

Lemma reset_all_idem (n m : nat) ws :
  Abstract.reset_all n (Abstract.reset_all m ws) = Abstract.reset_all n ws.
Proof. unfold Abstract.reset_all. now rewrite map_map. Qed.

Lemma stop_at_end (n : nat) (p : Z) :
  2 <= n -> (1 <= p)%Z -> Nat.leb (n - 1) (Z.to_nat p) = (Z.of_nat n - 1 <=? p)%Z.
Proof.
  intros Hn Hp. destruct (Nat.leb_spec (n - 1) (Z.to_nat p)), (Z.leb_spec (Z.of_nat n - 1) p);
    reflexivity || lia.
Qed.

Lemma alpha_running (s : t) :
  running s = true ->
  Abstract.alpha s = Abstract.mk (Abstract.Running (Z.to_nat (point s))) (Driver.interval s)
                       (Driver.period s) (cont s) (wins (signals s)).
Proof. intros R. unfold Abstract.alpha. now rewrite R. Qed.

Lemma alpha_idle (s : t) :
  running s = false ->
  Abstract.alpha s = Abstract.mk Abstract.Idle (Driver.interval s) (Driver.period s) (cont s)
                       (wins (signals s)).
Proof. intros R. unfold Abstract.alpha. now rewrite R. Qed.

(** A timer tick refines the specification's tick. *)
Lemma refine_tick (inp : input) (s s' : t) :
  inv s -> input_ok inp -> step inp Tick s = Some s' ->
  Abstract.alpha s' = Abstract.step (read inp) Tick (Abstract.alpha s).
Proof.
  intros Hi Hr E. destruct (running s) eqn:R.
  - pose proof Hi as (_ & I1 & I2 & L & _ & _ & _ & RUN). destruct (RUN R) as (_ & P1 & _).
    pose proof (points_ge_2 s I1 I2) as P2.
    destruct (tick_step show_int show_real show_value inp s Hi R Hr)
      as (s1 & E1 & _ & Pt & R1 & C1 & _ & _ & _ & Pu & Iv & Pd).
    rewrite E in E1. injection E1 as <-.
    rewrite (alpha_running s R). cbn [Abstract.step Abstract.phase]. unfold Abstract.tick.
    cbn [Abstract.windows Abstract.continuous Abstract.interval Abstract.period].
    change (Abstract.len _) with (points s). rewrite stop_at_end by assumption.
    unfold auto_stop in R1. rewrite L in R1. rewrite <- (wins_pushed _ _ _ Pu).
    destruct (negb (cont s) && _) eqn:A; cbn [negb] in R1.
    + rewrite (alpha_idle _ R1). congruence.
    + rewrite (alpha_running _ R1), Pt. f_equal; [|congruence..]. f_equal. lia.
  - unfold step, Scan.step in E. rewrite R in E. injection E as <-.
    rewrite (alpha_idle s R). reflexivity.
Qed.

(** [preparePlot] on an idle chart resets every window on the new axis. *)
Lemma alpha_prepare (x : t) :
  (0 < Driver.interval x)%Q -> (2 * Driver.interval x <= Driver.period x)%Q -> running x = false ->
  Abstract.alpha (preparePlot x) =
    Abstract.mk Abstract.Idle (Driver.interval x) (Driver.period x) (cont x)
      (Abstract.reset_all (points x) (wins (signals x))).
Proof.
  intros I1 I2 R. rewrite alpha_idle by exact R.
  rewrite (wins_reset _ _ _ (prepare_holds x I1 I2)). reflexivity.
Qed.

(** A start refines the specification's start. *)
Lemma refine_start (inp : input) (s s' : t) :
  inv s -> input_ok inp -> step inp Start s = Some s' ->
  Abstract.alpha s' = Abstract.step (read inp) Start (Abstract.alpha s).
Proof.
  intros Hi Hr E. destruct (running s) eqn:R.
  - unfold step, Scan.step in E. rewrite R in E. injection E as <-.
    rewrite (alpha_running s R). reflexivity.
  - pose proof Hi as (_ & I1 & I2 & _). pose proof (points_ge_2 s I1 I2) as P2.
    destruct (start_step show_int show_real show_value inp s Hi R Hr)
      as (s1 & E1 & _ & Pt & R1 & C1 & _ & _ & _ & Pu & Iv & Pd).
    rewrite E in E1. injection E1 as <-.
    rewrite (alpha_idle s R), (alpha_running _ R1), Pt. cbn [Abstract.step Abstract.phase].
    unfold Abstract.start, Abstract.tick.
    cbn [Abstract.windows Abstract.continuous Abstract.interval Abstract.period].
    change (Abstract.len _) with (points s).
    replace (Nat.leb (points s - 1) 0) with false by (symmetry; apply Nat.leb_gt; lia).
    rewrite andb_false_r, (wins_pushed _ _ _ Pu), (wins_reset _ _ _ (prepare_holds s I1 I2)).
    rewrite Iv, Pd, C1. reflexivity.
Qed.

(** A stop of a running scan refines the specification's stop. *)
Lemma refine_stop (inp : input) (s s' : t) :
  step inp Stop s = Some s' -> Abstract.alpha s' = Abstract.step (read inp) Stop (Abstract.alpha s).
Proof.
  intros E. unfold step, Scan.step in E. destruct (running s) eqn:R.
  - cbn [startStop fuel] in E. rewrite R in E. injection E as <-.
    rewrite (alpha_running s R), alpha_idle by reflexivity. reflexivity.
  - injection E as <-. rewrite (alpha_idle s R). reflexivity.
Qed.

(** A click on the start/stop button refines the specification. *)
Lemma refine_click (inp : input) (s s' : t) :
  inv s -> input_ok inp -> step inp ClickStartStop s = Some s' ->
  Abstract.alpha s' = Abstract.step (read inp) ClickStartStop (Abstract.alpha s).
Proof.
  intros Hi Hr E. destruct (running s) eqn:R.
  - assert (E' : step inp Stop s = Some s') by (unfold step, Scan.step in *; now rewrite R).
    rewrite (refine_stop inp s s' E'), (alpha_running s R). reflexivity.
  - assert (E' : step inp Start s = Some s') by (unfold step, Scan.step in *; now rewrite R).
    rewrite (refine_start inp s s' Hi Hr E'), (alpha_idle s R). reflexivity.
Qed.

Ltac spins := cbn [sp_emit sp_prepare sp_interval sp_period sp_set_interval sp_set_period chart_spins].

(** An edit of the interval refines the specification's [set_interval]. *)
Lemma refine_set_interval (inp : input) (v : Q) (s s' : t) :
  inv s -> (0 < v)%Q -> step inp (SetInterval v) s = Some s' ->
  Abstract.alpha s' = Abstract.step (read inp) (SetInterval v) (Abstract.alpha s).
Proof.
  intros Hi Hv E. pose proof Hi as (_ & I1 & I2 & _ & _ & C & _).
  unfold step, Scan.step in E. rewrite C in E. destruct (running s) eqn:R; cbn [negb] in E.
  - injection E as <-. now rewrite (alpha_running s R).
  - rewrite setInterval_call_net in E by (unfold fuel; lia). injection E as <-.
    rewrite (alpha_idle s R). cbn [Abstract.step Abstract.phase]. unfold Abstract.set_interval.
    cbn [Abstract.interval Abstract.period]. unfold setInterval_net. spins.
    destruct (Qeq_bool v (Driver.interval s)); [now rewrite (alpha_idle s R)|].
    unfold Abstract.configure. cbn [Abstract.windows Abstract.continuous].
    change (Driver.period (set_spins v (Driver.period s) s)) with (Driver.period s).
    change (Driver.interval (set_spins v (Driver.period s) s)) with v.
    destruct (Qltb_spec (Driver.period s) (2 * v)) as [L|L].
    + rewrite alpha_prepare by (unfold preparePlot; fields; auto; lra).
      unfold preparePlot at 1. fields.
      rewrite (wins_reset _ _ _ (prepare_holds (set_spins v (2 * v) (set_spins v (Driver.period s) s))
                                   ltac:(fields; lra) ltac:(fields; lra))).
      fields. now rewrite reset_all_idem.
    + rewrite alpha_prepare by (fields; auto; lra). reflexivity.
Qed.

(** An edit of the period refines the specification's [set_period]. *)
Lemma refine_set_period (inp : input) (v : Q) (s s' : t) :
  inv s -> (0 < v)%Q -> step inp (SetPeriod v) s = Some s' ->
  Abstract.alpha s' = Abstract.step (read inp) (SetPeriod v) (Abstract.alpha s).
Proof.
  intros Hi Hv E. pose proof Hi as (_ & I1 & I2 & _ & _ & C & _).
  unfold step, Scan.step in E. rewrite C in E. destruct (running s) eqn:R; cbn [negb] in E.
  - injection E as <-. now rewrite (alpha_running s R).
  - rewrite setPeriod_call_net in E by (unfold fuel; lia). injection E as <-.
    rewrite (alpha_idle s R). cbn [Abstract.step Abstract.phase]. unfold Abstract.set_period.
    cbn [Abstract.interval Abstract.period]. unfold setPeriod_net. spins.
    destruct (Qeq_bool v (Driver.period s)); [now rewrite (alpha_idle s R)|].
    unfold Abstract.configure. cbn [Abstract.windows Abstract.continuous].
    assert (H2 : (2 * (v / 2) == v)%Q) by field.
    assert (H3 : (0 < v / 2)%Q) by (apply Qlt_shift_div_l; lra).
    change (Driver.interval (set_spins (Driver.interval s) v s)) with (Driver.interval s).
    change (Driver.period (set_spins (Driver.interval s) v s)) with v.
    destruct (Qltb_spec v (Driver.interval s * 2)) as [L|L].
    + rewrite alpha_prepare by (unfold preparePlot; fields; auto; lra).
      unfold preparePlot at 1. fields.
      rewrite (wins_reset _ _ _ (prepare_holds (set_spins (v / 2) v (set_spins (Driver.interval s) v s))
                                   ltac:(fields; lra) ltac:(fields; lra))).
      fields. now rewrite reset_all_idem.
    + rewrite alpha_prepare by (fields; auto; lra). reflexivity.
Qed.

(** An edit of the continuous flag refines the specification's. *)
Lemma refine_set_cont (inp : input) (b : bool) (s s' : t) :
  inv s -> step inp (SetContinious b) s = Some s' ->
  Abstract.alpha s' = Abstract.step (read inp) (SetContinious b) (Abstract.alpha s).
Proof.
  intros Hi E. pose proof Hi as (_ & _ & _ & _ & _ & C & _).
  unfold step, Scan.step in E. rewrite C in E. destruct (running s) eqn:R; cbn [negb] in E;
    injection E as <-.
  - now rewrite (alpha_running s R).
  - rewrite (alpha_idle s R), alpha_idle by exact R. reflexivity.
Qed.

(** Every event refines the specification's step. *)
Lemma step_refines_aux (inp : input) (e : event) (s s' : t) :
  inv s -> valid_event e -> input_ok inp -> step inp e s = Some s' ->
  Abstract.alpha s' = Abstract.step (read inp) e (Abstract.alpha s).
Proof.
  intros Hi He Hr E. destruct e; cbn [valid_event] in He.
  - exact (refine_tick inp s s' Hi Hr E).
  - exact (refine_click inp s s' Hi Hr E).
  - exact (refine_start inp s s' Hi Hr E).
  - exact (refine_stop inp s s' E).
  - exact (refine_set_interval inp v s s' Hi He E).
  - exact (refine_set_period inp v s s' Hi He E).
  - exact (refine_set_cont inp b s s' Hi E).
Qed.

Lemma step_some_inv (inp : input) (e : event) (s s' : t) :
  inv s -> valid_event e -> input_ok inp -> step inp e s = Some s' -> inv s'.
Proof.
  intros Hi He Hr E. destruct (step_inv show_int show_real show_value inp e s Hi He Hr) as (s2 & E2 & I2).
  rewrite E in E2. now injection E2 as ->.
Qed.

Lemma insertRow_end (r : Z) (tbl : list row) :
  (0 <= r)%Z -> Z.to_nat r = length tbl -> insertRow r tbl = tbl ++ [(None, [])].
Proof.
  intros H1 H2. unfold insertRow. rewrite (proj2 (Z.leb_le 0 r) H1).
  rewrite (proj2 (Nat.leb_le (Z.to_nat r) (length tbl)) ltac:(lia)).
  cbn [andb]. rewrite take_ge, drop_ge by lia. now rewrite app_nil_r.
Qed.

Lemma table_finish_tick (x : t) : table (finish_tick x) = table x.
Proof. reflexivity. Qed.

(** The row a tick writes: the row of sample [point] while the table
    fills, then the last row, after the first one was removed. *)
(** [lia] up to the [row] abbreviation in list lengths. *)
Local Ltac rlia := cbv [row] in *; lia.

Lemma table_tick_row (inp : input) sigs vals (s : t) (n : nat) :
  length (timeData s) = n -> 1 <= n -> (1 <= point s)%Z ->
  length (table s) = Nat.min (Z.to_nat (point s)) n -> cont s = true ->
  if (point s <? Z.of_nat n)%Z
  then table (record_tick show_int inp sigs vals s) !! Z.to_nat (point s) =
         Some (Some (point s + 1)%Z, stamp inp :: vals)
  else table (record_tick show_int inp sigs vals s) !! (n - 1) = Some (None, stamp inp :: vals).
Proof.
  intros L Hn P1 TL C. unfold record_tick. rewrite L, C. cbn [andb table set_output].
  destruct (Z.ltb_spec (point s) (Z.of_nat n)) as [A|A].
  - replace (Z.of_nat n - 1 <? point s)%Z with false by (symmetry; apply Z.ltb_ge; lia).
    rewrite insertRow_end by rlia. unfold setCells, setHeader.
    replace (0 <=? point s)%Z with true by (symmetry; apply Z.leb_le; lia).
    rewrite list_lookup_alter_eq, list_lookup_alter_eq, list_lookup_middle by rlia. reflexivity.
  - replace (Z.of_nat n - 1 <? point s)%Z with true by (symmetry; apply Z.ltb_lt; lia).
    unfold removeFirstRow. rewrite insertRow_end by (rewrite ?length_drop; rlia).
    unfold setCells, setHeader.
    replace (0 <=? point s)%Z with true by (symmetry; apply Z.leb_le; lia).
    replace (0 <=? Z.of_nat n - 1)%Z with true by (symmetry; apply Z.leb_le; lia).
    replace (Z.to_nat (Z.of_nat n - 1)) with (n - 1) by rlia.
    rewrite list_lookup_alter_eq, list_lookup_alter_ne by rlia.
    rewrite list_lookup_middle by (rewrite length_drop; rlia). reflexivity.
Qed.

(** ** The scan theorems *)

(** C1: Every chart reachable from a chart satisfying the invariant satisfies
    it: the tick flag is down between events, the spin boxes keep
    [interval*2 <= period], the axis and every signal have [points]
    samples and the signals are well formed (their extrema are those of
    their windows), the control panel is enabled and the file closed
    exactly when no scan runs, and a running scan has one table row per
    sample up to the window and has not passed the window of a fixed
    scan. *)
Theorem reachable_inv (init s : t) :
  inv init -> reachable show_int show_real show_value init s -> inv s.
Proof.
  intros H0 Hr. induction Hr as [|s s' inp e _ IH He Hi E]; [exact H0|].
  exact (step_some_inv inp e s s' IH He Hi E).
Qed.

(** C10: No event of a reachable chart runs out of fuel: the re-entry of
    [startStop] into [getData] and back, and of [setInterval] into
    [setPeriod], ends within the fuel of one event. *)
Theorem reachable_step_total (init s : t) (inp : input) (e : event) :
  inv init -> reachable show_int show_real show_value init s -> valid_event e -> input_ok inp ->
  exists s', step inp e s = Some s'.
Proof.
  intros H0 Hr He Hi. assert (Hs : inv s).
  { induction Hr as [|s1 s2 inp1 e1 _ IH He1 Hi1 E]; [exact H0|].
    exact (step_some_inv inp1 e1 s1 s2 IH He1 Hi1 E). }
  destruct (step_inv show_int show_real show_value inp e s Hs He Hi) as (s' & E & _).
  exists s'. exact E.
Qed.

(** C8: A fixed scan of a window of [points] samples runs for exactly that
    many samples: after [start()] and [k] timer ticks it is still running
    while [k+1 < points], and stops at the tick that takes sample
    [points]; later ticks change nothing.  The counter and the table rows
    follow the samples taken. *)
Theorem fixed_scan_stops (s : t) (inp0 : input) (inps : list input) :
  inv s -> running s = false -> cont s = false -> Forall input_ok (inp0 :: inps) ->
  exists s', run (scan inp0 inps) s = Some s' /\
    running s' = Nat.ltb (S (length inps)) (points s) /\
    point s' = Z.of_nat (Nat.min (S (length inps)) (points s)) /\
    length (table s') = Nat.min (S (length inps)) (points s).
Proof.
  intros Hi R C Hr. destruct (scan_run s inp0 inps Hi R Hr) as (s' & E & _ & _ & R' & Pt & TL & _).
  rewrite C in R', Pt. exists s'. auto.
Qed.

(** C9: A continuous scan never stops by itself: after [start()] and [k]
    ticks it runs at sample [k+1], and its table keeps the last
    [points] rows. *)
Theorem continuous_scan_runs (s : t) (inp0 : input) (inps : list input) :
  inv s -> running s = false -> cont s = true -> Forall input_ok (inp0 :: inps) ->
  exists s', run (scan inp0 inps) s = Some s' /\ running s' = true /\
    point s' = Z.of_nat (S (length inps)) /\
    length (table s') = Nat.min (S (length inps)) (points s).
Proof.
  intros Hi R C Hr. destruct (scan_run s inp0 inps Hi R Hr) as (s' & E & _ & _ & R' & Pt & TL & _).
  rewrite C in R', Pt. exists s'. auto.
Qed.

(** C7: After a scan every signal keeps its PV and holds the window of its
    PV's readings, newest first with NaN for a disconnected PV and behind
    the samples not yet taken: all readings of a continuous scan, cut to
    the axis, or the first [points] of a fixed one; its running minimum
    and maximum are the least and greatest defined samples of that
    window. *)
Theorem scan_window (s : t) (inp0 : input) (inps : list input) :
  inv s -> running s = false -> Forall input_ok (inp0 :: inps) ->
  exists s', run (scan inp0 inps) s = Some s' /\
    holds (points s)
      (fun pv => readings pv (if cont s then inp0 :: inps else take (points s) (inp0 :: inps)))
      (signals s) (signals s') /\
    Forall (Signal.wf (points s)) (map snd (signals s')).
Proof.
  intros Hi R Hr. destruct (scan_run s inp0 inps Hi R Hr) as (s' & E & I' & N & _ & _ & _ & H & _).
  exists s'. split; [exact E|]. split; [exact H|].
  pose proof I' as (_ & _ & _ & _ & W & _). rewrite <- N. exact W.
Qed.

(** C13: The data file of a scan, line for line: the header [startStop]
    writes for the prepared chart, then for every sample [k] taken, from
    0, the line [k+1], the time of the tick and each signal's value in the
    order of [signalsE]; a fixed scan writes [points] lines, a continuous
    one a line per tick. *)
Theorem scan_log (s : t) (inp0 : input) (inps : list input) :
  inv s -> running s = false -> Forall input_ok (inp0 :: inps) ->
  exists s', run (scan inp0 inps) s = Some s' /\
    file s' = header show_int show_real inp0 (preparePlot s) ++
              log_lines show_int show_value (map fst (signals s)) 0
                (if cont s then inp0 :: inps else take (points s) (inp0 :: inps)).
Proof.
  intros Hi R Hr. destruct (scan_run s inp0 inps Hi R Hr) as (s' & E & _ & _ & _ & _ & _ & _ & F).
  exists s'. split; [exact E|exact F].
Qed.

(** C2: The chart refines the specification's machine [Abstract]: every
    event of a chart satisfying the invariant is matched by the
    specification's step on its abstraction (phase from the timer, index
    from [point], windows from the signals' buffers). *)
Theorem step_refines (inp : input) (e : event) (s s' : t) :
  inv s -> valid_event e -> input_ok inp -> step inp e s = Some s' ->
  Abstract.alpha s' = Abstract.step (read inp) e (Abstract.alpha s).
Proof. exact (step_refines_aux inp e s s'). Qed.

(** C3: Any sequence of events from a chart satisfying the invariant runs
    to its end, and the chart it reaches abstracts to the state the
    specification's machine reaches by the same events. *)
Theorem run_refines (evs : list (input * event)) (s : t) :
  inv s -> Forall (fun ie => valid_event ie.2 /\ input_ok ie.1) evs ->
  exists s', run evs s = Some s' /\ Abstract.alpha s' = Abstract.run evs (Abstract.alpha s).
Proof.
  revert s. induction evs as [|[inp e] evs IH]; intros s Hi Hv; [exists s; split; reflexivity|].
  inversion Hv as [|? ? [He Hr] Hv']; subst.
  destruct (step_inv show_int show_real show_value inp e s Hi He Hr) as (s1 & E1 & I1).
  destruct (IH s1 I1 Hv') as (s' & E' & A'). exists s'. cbn [Scan.run Abstract.run].
  rewrite E1. split; [exact E'|]. rewrite A'. f_equal. exact (step_refines_aux inp e s s1 Hi He Hr E1).
Qed.

(** C32: In a continuous scan the table row of a tick carries the sample
    number [point+1] as its header only while the table fills; once the
    window is full, the row written at the end of the table has no header
    item: [setVerticalHeaderItem] is called with [point], past the last
    row, instead of the row written, so Qt ignores it. *)
Theorem continuous_row_labels (inp : input) (s : t) :
  inv s -> running s = true -> cont s = true -> input_ok inp ->
  let vals := tick_values show_value (read inp) (signals s) in
  exists s', step inp Tick s = Some s' /\
    if (point s <? Z.of_nat (points s))%Z
    then table s' !! Z.to_nat (point s) = Some (Some (point s + 1)%Z, stamp inp :: vals)
    else table s' !! (points s - 1) = Some (None, stamp inp :: vals).
Proof.
  intros Hi R C Hr vals. pose proof Hi as (_ & I1 & I2 & L & _ & _ & _ & RUN).
  destruct (RUN R) as (_ & P1 & TL & _). pose proof (points_ge_2 s I1 I2) as P2.
  destruct (tick_eq show_int show_real show_value inp s Hi R Hr) as (sigs' & _ & _ & E).
  replace (auto_stop s) with false in E by (unfold auto_stop; now rewrite C).
  eexists. split; [exact E|]. rewrite table_finish_tick.
  exact (table_tick_row inp sigs' vals s (points s) L ltac:(lia) P1 TL C).
Qed.

End Runs.

(** ** Witnesses

    The theorems at the charts of [ScanDriver.Demo]: one PV read as 1, 2,
    3, 4 on an axis of three points. *)

Local Abbreviation drun := (Scan.run Demo.show_int Demo.show_real Demo.show_value).
Local Abbreviation dstep := (Scan.step Demo.show_int Demo.show_real Demo.show_value).

Lemma demo_in_range (k : Q) : in_rangeb (Fin k) = true -> input_ok (Demo.inp k).
Proof. exact (demo_input_ok k). Qed.

(** The example inputs are readings of a double. *)
Local Ltac demo_ok := repeat constructor; apply demo_in_range; vm_compute; reflexivity.

Lemma demo_inputs_ok : Forall input_ok [Demo.inp 1; Demo.inp 2; Demo.inp 3; Demo.inp 4].
Proof. demo_ok. Qed.

Lemma demo_events_ok :
  Forall (fun ie => valid_event ie.2 /\ input_ok ie.1)
    (scan (Demo.inp 1) [Demo.inp 2; Demo.inp 3; Demo.inp 4]).
Proof. cbv [scan ticks map]. demo_ok. Qed.

Lemma demo_start (c : bool) : dstep (Demo.inp 1) Start (Demo.chart c) = Some (Demo.started c).
Proof. destruct c; vm_compute; reflexivity. Qed.

Lemma demo_reach (c : bool) :
  reachable Demo.show_int Demo.show_real Demo.show_value (Demo.chart c) (Demo.started c).
Proof.
  apply (reach_step _ _ _ (Demo.chart c) (Demo.chart c) (Demo.started c) (Demo.inp 1) Start);
    [apply reach_init|exact I| |apply demo_start].
  demo_ok.
Qed.

Lemma demo_full_inv : inv Demo.full.
Proof.
  assert (H : Forall input_ok [Demo.inp 1; Demo.inp 2; Demo.inp 3]) by demo_ok.
  destruct (scan_run Demo.show_int Demo.show_real Demo.show_value (Demo.chart true) (Demo.inp 1)
              [Demo.inp 2; Demo.inp 3] (demo_inv true) eq_refl H) as (s' & E & I' & _).
  assert (F : Demo.full = s') by (unfold Demo.full; rewrite E; reflexivity). now rewrite F.
Qed.

Lemma reachable_inv_witness : inv (Demo.started false).
Proof.
  exact (reachable_inv Demo.show_int Demo.show_real Demo.show_value (Demo.chart false)
           (Demo.started false) (demo_inv false) (demo_reach false)).
Defined.


Lemma reachable_step_total_witness :
  exists s', dstep (Demo.inp 2) Tick (Demo.started false) = Some s'.
Proof.
  exact (reachable_step_total Demo.show_int Demo.show_real Demo.show_value (Demo.chart false)
           (Demo.started false) (Demo.inp 2) Tick (demo_inv false) (demo_reach false) I
           (demo_in_range 2 eq_refl)).
Defined.

Lemma fixed_scan_stops_witness :
  exists s', drun (scan (Demo.inp 1) [Demo.inp 2; Demo.inp 3; Demo.inp 4]) (Demo.chart false) = Some s' /\
    running s' = false /\ point s' = 3%Z /\ length (table s') = 3.
Proof.
  exact (fixed_scan_stops Demo.show_int Demo.show_real Demo.show_value (Demo.chart false) (Demo.inp 1)
           [Demo.inp 2; Demo.inp 3; Demo.inp 4] (demo_inv false) eq_refl eq_refl demo_inputs_ok).
Defined.

Lemma continuous_scan_runs_witness :
  exists s', drun (scan (Demo.inp 1) [Demo.inp 2; Demo.inp 3; Demo.inp 4]) (Demo.chart true) = Some s' /\
    running s' = true /\ point s' = 4%Z /\ length (table s') = 3.
Proof.
  exact (continuous_scan_runs Demo.show_int Demo.show_real Demo.show_value (Demo.chart true) (Demo.inp 1)
           [Demo.inp 2; Demo.inp 3; Demo.inp 4] (demo_inv true) eq_refl eq_refl demo_inputs_ok).
Defined.

Lemma scan_window_witness :
  exists s', drun (scan (Demo.inp 1) [Demo.inp 2; Demo.inp 3; Demo.inp 4]) (Demo.chart false) = Some s' /\
    holds 3 (fun pv => readings pv [Demo.inp 1; Demo.inp 2; Demo.inp 3])
      (signals (Demo.chart false)) (signals s') /\
    Forall (Signal.wf 3) (map snd (signals s')).
Proof.
  exact (scan_window Demo.show_int Demo.show_real Demo.show_value (Demo.chart false) (Demo.inp 1)
           [Demo.inp 2; Demo.inp 3; Demo.inp 4] (demo_inv false) eq_refl demo_inputs_ok).
Defined.

Lemma scan_log_witness :
  exists s', drun (scan (Demo.inp 1) [Demo.inp 2; Demo.inp 3; Demo.inp 4]) (Demo.chart true) = Some s' /\
    file s' = header Demo.show_int Demo.show_real (Demo.inp 1) (preparePlot (Demo.chart true)) ++
              log_lines Demo.show_int Demo.show_value ["A"] 0
                [Demo.inp 1; Demo.inp 2; Demo.inp 3; Demo.inp 4].
Proof.
  exact (scan_log Demo.show_int Demo.show_real Demo.show_value (Demo.chart true) (Demo.inp 1)
           [Demo.inp 2; Demo.inp 3; Demo.inp 4] (demo_inv true) eq_refl demo_inputs_ok).
Defined.

Lemma step_refines_witness :
  Abstract.alpha (Demo.started true) =
  Abstract.step (read (Demo.inp 1)) Start (Abstract.alpha (Demo.chart true)).
Proof.
  exact (step_refines Demo.show_int Demo.show_real Demo.show_value (Demo.inp 1) Start (Demo.chart true)
           (Demo.started true) (demo_inv true) I (demo_in_range 1 eq_refl) (demo_start true)).
Defined.

Lemma run_refines_witness :
  exists s', drun (scan (Demo.inp 1) [Demo.inp 2; Demo.inp 3; Demo.inp 4]) (Demo.chart true) = Some s' /\
    Abstract.alpha s' = Abstract.run (scan (Demo.inp 1) [Demo.inp 2; Demo.inp 3; Demo.inp 4])
                          (Abstract.alpha (Demo.chart true)).
Proof.
  exact (run_refines Demo.show_int Demo.show_real Demo.show_value
           (scan (Demo.inp 1) [Demo.inp 2; Demo.inp 3; Demo.inp 4]) (Demo.chart true)
           (demo_inv true) demo_events_ok).
Defined.

Lemma continuous_row_labels_witness :
  exists s', dstep (Demo.inp 4) Tick Demo.full = Some s' /\
    table s' !! 2 = Some (None, ["12:00:00.000"; "v"]).
Proof.
  exact (continuous_row_labels Demo.show_int Demo.show_real Demo.show_value (Demo.inp 4) Demo.full
           demo_full_inv eq_refl eq_refl (demo_in_range 4 eq_refl)).
Defined.
