(* ===== verification/Panel.v ===== *)
(** * Panel: the configuration slots of [QChartMX]

    [src/lib/timescan.cpp]: the constructor (the colour pool
    [colorsLeft], the save directory, the first [preparePlot]), the
    getters [interval()] ... [isControlCollapsed()] and [allSignals()], and
    the public slots that change the configuration: [setInterval],
    [setPeriod], [setContinious], [setSaveDir], [setSaveName],
    [setAutoName], [addSignal], [removeSignal], [setMin], [setAutoMin],
    [setMax], [setAutoMax], [setLogarithmic], [setNormalized],
    [setGridVisible], [setControlCollapsed] and [lock].

    Each slot is written in the two ways the code runs it: called from
    code, when [sender()] is not the widget, it sets the widget and
    returns, and the widget's signal ([toggled], [textChanged],
    [valueChanged]) runs the slot again only when the value changed; run
    by that signal it does the work.  [configurationChanged()] is recorded
    with the configuration the getters return at that moment, which is
    what [MainWindow::updateConfiguration] saves. *)

From Stdlib Require Import QArith ZArith String Ascii Bool.
From stdpp Require Import base list gmap strings pretty.
From S2P Require Import Prelude Double Blitz Channel RangePolicy ChannelSet TimeAxis ScanDriver.

Module Panel.
Import Driver.
Open Scope string_scope.
Open Scope list_scope.

(** [QColor], by its RGB value. *)
Definition color := Z.
Definition red : color := 16711680%Z.         (* #ff0000 *)
Definition blue : color := 255%Z.             (* #0000ff *)
Definition green : color := 65280%Z.          (* #00ff00 *)
Definition cyan : color := 65535%Z.           (* #00ffff *)
Definition magenta : color := 16711935%Z.     (* #ff00ff *)
Definition yellow : color := 16776960%Z.      (* #ffff00 *)
Definition darkRed : color := 8388608%Z.      (* #800000 *)
Definition darkBlue : color := 128%Z.         (* #000080 *)
Definition darkGreen : color := 32768%Z.      (* #008000 *)
Definition darkCyan : color := 32896%Z.       (* #008080 *)
Definition darkMagenta : color := 8388736%Z.  (* #800080 *)
Definition darkYellow : color := 8421376%Z.   (* #808000 *)

(** The colours the constructor puts into [colorsLeft], in order. *)
Definition palette : list color :=
  [red; blue; green; cyan; magenta; yellow; darkRed; darkBlue; darkGreen; darkCyan;
   darkMagenta; darkYellow].

(** What [QFileInfo] and [QFile::exists] see of a path. *)
Record entry := mkEntry { is_dir : bool; writable : bool }.

Definition exists_ (fs : gmap string entry) (p : string) : bool := bool_decide (is_Some (fs !! p)).
Definition is_dir_ (fs : gmap string entry) (p : string) : bool :=
  match fs !! p with Some en => is_dir en | None => false end.
Definition writable_ (fs : gmap string entry) (p : string) : bool :=
  match fs !! p with Some en => writable en | None => false end.

(** What the getters return: the values [MainWindow::updateConfiguration]
    stores. *)
Record config := mkConfig {
  c_interval : Q;           (* interval() *)
  c_period : Q;             (* period() *)
  c_cont : bool;            (* isContinious() *)
  c_saveDir : string;       (* saveDir() *)
  c_saveName : string;      (* saveName() *)
  c_autoName : bool;        (* isAutoName() *)
  c_signals : list string;  (* allSignals() *)
  c_autoMin : bool;         (* isAutoMin() *)
  c_min : double;           (* min() *)
  c_autoMax : bool;         (* isAutoMax() *)
  c_max : double;           (* max() *)
  c_log : bool;             (* isLogarithmic() *)
  c_norma : bool;           (* isNormalized() *)
  c_grid : bool             (* isGridVisible() *)
}.

(** The widget: the scan state of [ScanDriver] and the rest of the form. *)
Record t := mk {
  chart : Driver.t;
  auto_name : bool;           (* ui->autoName *)
  grid : bool;                (* ui->showGrid *)
  control_visible : bool;     (* ui->control->isVisible() *)
  button_visible : bool;      (* ui->startStop->isVisible() *)
  colors_left : list color;   (* colorsLeft *)
  pens : list color;          (* the pen colour of each signal, in signalsE order *)
  dir_ok : bool;              (* style sheet of ui->saveDir: goodStyle *)
  name_ok : bool;             (* style sheet of ui->saveName: goodStyle *)
  add_ok : bool;              (* style sheet of ui->addSignal: goodStyle *)
  emitted : list config       (* configurationChanged(), newest first *)
}.

(** [interval()] ... [isGridVisible()] and [allSignals()]. *)
Definition config_of (p : t) : config :=
  let c := chart p in
  mkConfig (interval c) (period c) (cont c) (saveDir (save_dir c)) (save_name c) (auto_name p)
    (map fst (signals c)) (Ranges.autoMin (ranges c)) (Ranges.min (ranges c))
    (Ranges.autoMax (ranges c)) (Ranges.max (ranges c)) (Ranges.logY (ranges c))
    (Ranges.norma (ranges c)) (grid p).

(** [isControlCollapsed()] returns [ui->control->isVisible()]. *)
Definition isControlCollapsed (p : t) : bool := control_visible p.

(** Field updates. *)
Definition with_chart (f : Driver.t -> Driver.t) (p : t) : t :=
  mk (f (chart p)) (auto_name p) (grid p) (control_visible p) (button_visible p) (colors_left p)
     (pens p) (dir_ok p) (name_ok p) (add_ok p) (emitted p).
Definition with_flags (an gr cv bv : bool) (p : t) : t :=
  mk (chart p) an gr cv bv (colors_left p) (pens p) (dir_ok p) (name_ok p) (add_ok p) (emitted p).
Definition with_styles (dok nok aok : bool) (p : t) : t :=
  mk (chart p) (auto_name p) (grid p) (control_visible p) (button_visible p) (colors_left p)
     (pens p) dok nok aok (emitted p).
Definition with_colors (left ps : list color) (p : t) : t :=
  mk (chart p) (auto_name p) (grid p) (control_visible p) (button_visible p) left ps
     (dir_ok p) (name_ok p) (add_ok p) (emitted p).

(** [emit configurationChanged();] *)
Definition emit (p : t) : t :=
  mk (chart p) (auto_name p) (grid p) (control_visible p) (button_visible p) (colors_left p)
     (pens p) (dir_ok p) (name_ok p) (add_ok p) (config_of p :: emitted p).

Definition set_save_dir (d : string) (c : Driver.t) : Driver.t :=
  Driver.mk (interval c) (period c) (cont c) (running c) (gettingData c) (point c) (timeData c)
     (signals c) (ranges c) (table c) (file_open c) (file c) (control_enabled c) d
     (save_name c) (saved_to c).
Definition set_save_name (n : string) (c : Driver.t) : Driver.t :=
  Driver.mk (interval c) (period c) (cont c) (running c) (gettingData c) (point c) (timeData c)
     (signals c) (ranges c) (table c) (file_open c) (file c) (control_enabled c) (save_dir c)
     n (saved_to c).
Definition set_ranges (f : Ranges.t -> Ranges.t) (c : Driver.t) : Driver.t :=
  set_data (timeData c) (signals c) (f (ranges c)) c.
Definition set_signals (sigs : list (string * Signal.t)) (c : Driver.t) : Driver.t :=
  set_data (timeData c) sigs (ranges c) c.

(** The range widgets. *)
Definition set_min (m : double) (r : Ranges.t) : Ranges.t :=
  Ranges.mk (Ranges.logY r) (Ranges.norma r) (Ranges.autoMin r) m (Ranges.autoMax r)
    (Ranges.max r) (Ranges.lower r) (Ranges.upper r).
Definition set_max (m : double) (r : Ranges.t) : Ranges.t :=
  Ranges.mk (Ranges.logY r) (Ranges.norma r) (Ranges.autoMin r) (Ranges.min r) (Ranges.autoMax r)
    m (Ranges.lower r) (Ranges.upper r).
Definition set_checks (lg nm amin amax : bool) (r : Ranges.t) : Ranges.t :=
  Ranges.mk lg nm amin (Ranges.min r) amax (Ranges.max r) (Ranges.lower r) (Ranges.upper r).

Section Slots.

(** [QApplication::palette().color(QPalette::Text)]. *)
Variable text_color : color.

(** [QChartMX::setRanges]: the bounds of [RangePolicy] from [dataMin()]
    and [dataMax()], then [configurationChanged]. *)
Definition setRanges (p : t) : t :=
  let sigs := map snd (signals (chart p)) in
  emit (with_chart (set_ranges (fun r => Ranges.setRanges r (@dataMin _ (signal_channel 0) sigs)
                                            (@dataMax _ (signal_channel 0) sigs))) p).

(** [QChartMX::setContinious]: [ui->cont] has no slot connected. *)
Definition setContinious (b : bool) (p : t) : t := with_chart (Scan.set_cont b) p.

(** [QChartMX::setSaveDir]. *)
Definition setSaveDir_slot (fs : gmap string entry) (v : string) (p : t) : t :=
  let dirOK := exists_ fs v && writable_ fs v in
  emit (with_styles dirOK (name_ok p) (add_ok p) p).
Definition setSaveDir (fs : gmap string entry) (v : string) (p : t) : t :=
  if String.eqb v (save_dir (chart p)) then p
  else setSaveDir_slot fs v (with_chart (set_save_dir v) p).

(** [QChartMX::setSaveName]. *)
Definition setSaveName_slot (fs : gmap string entry) (v : string) (p : t) : t :=
  let f := saveDir (save_dir (chart p)) +:+ v in
  let fileOK := negb (exists_ fs f) || (negb (is_dir_ fs f) && writable_ fs f) in
  emit (with_styles (dir_ok p) fileOK (add_ok p) p).
Definition setSaveName (fs : gmap string entry) (v : string) (p : t) : t :=
  if String.eqb v (save_name (chart p)) then p
  else setSaveName_slot fs v (with_chart (set_save_name v) p).

(** [tryName = fn + "_(" + QString::number(count++) + ")" + ext]. *)
Definition numbered (fn ext : string) (count : N) : string :=
  fn +:+ "_(" +:+ pretty count +:+ ")" +:+ ext.

(** [while (QFile::exists(dn + tryName)) tryName = ...;] with fuel. *)
Fixpoint name_loop (fuel : nat) (fs : gmap string entry) (dn fn ext : string) (count : N)
    (tryName : string) : option string :=
  match fuel with
  | 0 => None
  | S f =>
      if exists_ fs (dn +:+ tryName)
      then name_loop f fs dn fn ext (count + 1) (numbered fn ext count)
      else Some tryName
  end.

Definition auto_fn (now : string) : string := "time_scan_" +:+ now.
Definition auto_ext : string := ".dat".

(** The name [setAutoName(true)] picks.  One more try than there are
    entries in the file system always suffices ([Panel] proves it), so
    the fuel [S (size fs)] never runs out. *)
Definition auto_name_for (fs : gmap string entry) (now dn : string) : option string :=
  name_loop (S (size fs)) fs dn (auto_fn now) auto_ext 1 (auto_fn now +:+ auto_ext).

(** [QChartMX::setAutoName]. *)
Definition setAutoName_slot (fs : gmap string entry) (now : string) (v : bool) (p : t) : t :=
  let p1 :=
    if v then
      match auto_name_for fs now (saveDir (save_dir (chart p))) with
      | Some n => setSaveName fs n p
      | None => p
      end
    else p in
  emit p1.
Definition setAutoName (fs : gmap string entry) (now : string) (v : bool) (p : t) : t :=
  if Bool.eqb v (auto_name p) then p
  else setAutoName_slot fs now v (with_flags v (grid p) (control_visible p) (button_visible p) p).

(** [QChartMX::setAutoMin] and [setMin] ([ui->autoMin]'s [toggled] runs
    [setRanges]; [ui->min->setValue] runs nothing). *)
Definition setAutoMin (v : bool) (p : t) : t :=
  let r := ranges (chart p) in
  if Bool.eqb v (Ranges.autoMin r) then p
  else setRanges (with_chart (set_ranges (set_checks (Ranges.logY r) (Ranges.norma r) v (Ranges.autoMax r))) p).
Definition setMin (v : double) (p : t) : t :=
  setRanges (with_chart (set_ranges (set_min v)) (setAutoMin false p)).

Definition setAutoMax (v : bool) (p : t) : t :=
  let r := ranges (chart p) in
  if Bool.eqb v (Ranges.autoMax r) then p
  else setRanges (with_chart (set_ranges (set_checks (Ranges.logY r) (Ranges.norma r) (Ranges.autoMin r) v)) p).
Definition setMax (v : double) (p : t) : t :=
  setRanges (with_chart (set_ranges (set_max v)) (setAutoMax false p)).

(** [QChartMX::logScale], run by [ui->logY]'s [toggled]: every signal
    takes the box's state; the scale engine is display. *)
Definition logScale (p : t) : t :=
  let lg := Ranges.logY (ranges (chart p)) in
  with_chart (fun c => set_signals (map (fun ps => (ps.1, Signal.setLogarithmic lg ps.2)) (signals c)) c) p.

(** [QChartMX::setLogarithmic]. *)
Definition setLogarithmic (v : bool) (p : t) : t :=
  let r := ranges (chart p) in
  let p1 := if Bool.eqb v (Ranges.logY r) then p
            else logScale (with_chart (set_ranges (set_checks v (Ranges.norma r) (Ranges.autoMin r) (Ranges.autoMax r))) p) in
  emit p1.

(** [QChartMX::setNormalized]. *)
Definition setNormalized_slot (v : bool) (p : t) : t :=
  setRanges (with_chart (fun c => set_signals (map (fun ps => (ps.1, Signal.setNormalized v ps.2)) (signals c)) c) p).
Definition setNormalized (v : bool) (p : t) : t :=
  let r := ranges (chart p) in
  if Bool.eqb v (Ranges.norma r) then p
  else setNormalized_slot v (with_chart (set_ranges (set_checks (Ranges.logY r) v (Ranges.autoMin r) (Ranges.autoMax r))) p).

(** [QChartMX::setGridVisible]: the grid is attached or detached. *)
Definition setGridVisible (v : bool) (p : t) : t :=
  if Bool.eqb v (grid p) then p
  else emit (with_flags (auto_name p) v (control_visible p) (button_visible p) p).

(** [QChartMX::setControlCollapsed] and [QChartMX::lock]. *)
Definition setControlCollapsed (v : bool) (p : t) : t :=
  with_flags (auto_name p) (grid p) (negb v) (button_visible p) p.
Definition lock (v : bool) (p : t) : t :=
  with_flags (auto_name p) (grid p) (control_visible p) (negb v) p.

(** [QChartMX::addSignal]: a new [Signal] on [pvName], the first colour
    left (or the text colour), a table column at the end (its rows hold
    no item in it), the layout, [preparePlot] and [configurationChanged]. *)
Definition addSignal (pv : string) (p : t) : t :=
  let col := match colors_left p with [] => text_color | c :: _ => c end in
  let p1 := with_colors (tail (colors_left p)) (pens p ++ [col]) p in
  let p2 := with_chart (fun c => set_signals (signals c ++ [(pv, Signal.create)]) c) p1 in
  let p3 := with_styles (dir_ok p2) (name_ok p2) true p2 in
  emit (with_chart preparePlot p3).

(** [QChartMX::removeSignal(pvName)] finds the signal to remove in two
    ways.  With an empty [pvName] (the default argument, as the [rem]
    button's [clicked()] connection calls it) it takes the signal whose
    [rem] button is [sender()]; [sender] is the position of that signal,
    [None] when the slot is not run by a signal.  Otherwise it takes the
    last signal whose [pv()] is [pvName] (the [foreach] keeps
    overwriting [sg]). *)
Fixpoint last_index (pv : string) (l : list string) : option nat :=
  match l with
  | [] => None
  | x :: l' =>
      match last_index pv l' with
      | Some i => Some (S i)
      | None => if String.eqb x pv then Some 0 else None
      end
  end.

Definition find_signal (sender : option nat) (pvName : string) (p : t) : option nat :=
  if String.eqb pvName "" then
    match sender with
    | Some i => if Nat.ltb i (length (signals (chart p))) then Some i else None
    | None => None
    end
  else last_index pvName (map fst (signals (chart p))).

(** [ui->dataTable->removeColumn(column(sg))]: column [0] is the time,
    the signal at position [i] of [signalsE] owns column [i+1]. *)
Definition removeColumn (col : nat) (tbl : list row) : list row :=
  map (fun rw => (rw.1, delete col rw.2)) tbl.

(** [QChartMX::removeSignal]. *)
Definition removeSignal (sender : option nat) (pvName : string) (p : t) : t :=
  match find_signal sender pvName p with
  | None => p
  | Some i =>
      let col := default text_color (pens p !! i) in
      let left := if Z.eqb col text_color then colors_left p else colors_left p ++ [col] in
      let p1 := with_colors left (delete i (pens p)) p in
      let p2 := with_chart (fun c =>
                  set_output (removeColumn (S i) (table c)) (file_open c) (file c)
                    (set_signals (delete i (signals c)) c)) p1 in
      let p3 := with_styles (dir_ok p2) (name_ok p2) (negb (bool_decide (signals (chart p2) = []))) p2 in
      emit p3
  end.

End Slots.

(** The spin boxes of the panel: [setInterval]/[setPeriod] end with
    [preparePlot] and [configurationChanged]. *)
#[export] Program Instance panel_spins : SpinPair t := {
  sp_interval p := interval (chart p);
  sp_period p := period (chart p);
  sp_set_interval v p := with_chart (set_spins v (period (chart p))) p;
  sp_set_period v p := with_chart (set_spins (interval (chart p)) v) p;
  sp_prepare p := with_chart preparePlot p;
  sp_emit := emit
}.
Solve Obligations with reflexivity.

(** The operations of the panel, as [MainWindow] and the user call them. *)
Inductive op :=
  | SetInterval (v : Q) | SetPeriod (v : Q) | SetContinious (b : bool)
  | SetSaveDir (d : string) | SetSaveName (n : string) | SetAutoName (b : bool)
  | AddSignal (pv : string) | RemoveSignal (sender : option nat) (pvName : string)
  | SetMin (v : double) | SetAutoMin (b : bool) | SetMax (v : double) | SetAutoMax (b : bool)
  | SetLogarithmic (b : bool) | SetNormalized (b : bool) | SetGridVisible (b : bool)
  | SetControlCollapsed (b : bool) | Lock (b : bool).

(** The file system and the clock an operation sees. *)
Record world := mkWorld { w_fs : gmap string entry; w_now : string }.

Definition apply (text_color : color) (w : world) (o : op) (p : t) : option t :=
  match o with
  | SetInterval v => setInterval_call Scan.fuel v p
  | SetPeriod v => setPeriod_call Scan.fuel v p
  | SetContinious b => Some (setContinious b p)
  | SetSaveDir d => Some (setSaveDir (w_fs w) d p)
  | SetSaveName n => Some (setSaveName (w_fs w) n p)
  | SetAutoName b => Some (setAutoName (w_fs w) (w_now w) b p)
  | AddSignal pv => Some (addSignal text_color pv p)
  | RemoveSignal snd pv => Some (removeSignal text_color snd pv p)
  | SetMin v => Some (setMin v p)
  | SetAutoMin b => Some (setAutoMin b p)
  | SetMax v => Some (setMax v p)
  | SetAutoMax b => Some (setAutoMax b p)
  | SetLogarithmic b => Some (setLogarithmic b p)
  | SetNormalized b => Some (setNormalized b p)
  | SetGridVisible b => Some (setGridVisible b p)
  | SetControlCollapsed b => Some (setControlCollapsed b p)
  | Lock b => Some (lock b p)
  end.

(** [QChartMX::QChartMX]: [form] is the widget as [ui->setupUi] leaves
    it (the form file is not part of the sources).  [colorsLeft] gets the
    palette without the text colour; [setGridVisible(isGridVisible())]
    changes nothing; [setSaveDir(QDir::homePath())]; [preparePlot()]. *)
Definition create (text_color : color) (fs : gmap string entry) (home : string) (form : t) : t :=
  let p0 := with_colors (List.filter (fun c => negb (Z.eqb c text_color)) palette) [] form in
  let p1 := setGridVisible (grid p0) p0 in
  let p2 := setSaveDir fs home p1 in
  with_chart preparePlot p2.

Section Scans.
Variable show_int : Z -> string.
Variable show_real : Q -> string.
Variable show_value : double -> string.

(** [QChartMX::start]: [startStop] on an idle chart.  Before it computes
    [tableWasSavedTo = saveDir() + saveName()], [startStop] calls
    [setAutoName(true)] when [isAutoName()], from code: [sender()] is not
    [ui->autoName]. *)
Definition start (fs : gmap string entry) (now : string) (inp : input) (p : t) : option t :=
  if running (chart p) then Some p
  else
    let p1 := if auto_name p then setAutoName fs now true p else p in
    option_map (fun c => with_chart (fun _ => c) p1)
      (Scan.step show_int show_real show_value inp Scan.Start (chart p1)).

(** [QChartMX::stop]. *)
Definition stop (inp : input) (p : t) : option t :=
  option_map (fun c => with_chart (fun _ => c) p) (Scan.step show_int show_real show_value inp Scan.Stop (chart p)).

End Scans.

(** A sequence of operations. *)
Fixpoint run_ops (text_color : color) (ops : list (world * op)) (p : t) : option t :=
  match ops with
  | [] => Some p
  | (w, o) :: ops' => match apply text_color w o p with Some p' => run_ops text_color ops' p' | None => None end
  end.

End Panel.

(** ** A concrete panel

    A form with no signal, interval 1 s and period 3 s, the text colour
    black, a file system with the save directory and a file of the
    automatic name for the clock ["2026-11-09_12-00-00"]. *)
Module PanelDemo.
Import Driver Panel.

Definition black : color := 0%Z.

Definition form : t :=
  mk (Driver.mk 1 3 false false false 0 [] [] Demo.ranges0 [] false [] true "/tmp" "scan.dat" "")
     true false true true [] [] true true false [].

Definition fs : gmap string entry :=
  <["/tmp/time_scan_2026-11-09_12-00-00.dat" := mkEntry false true]> {["/tmp" := mkEntry true true]}.

Definition world0 : world := mkWorld fs "2026-11-09_12-00-00".

(** Two signals added, the first one removed, a third added. *)
Definition ops : list (world * op) :=
  [(world0, AddSignal "A"); (world0, AddSignal "B"); (world0, RemoveSignal None "A");
   (world0, AddSignal "C")].

Definition panel0 : t := create black fs "/tmp" form.

Definition panel1 : t := default panel0 (run_ops black ops panel0).

(** [panel0] with its automatic name checked, one signal and a scan
    started, stopped and started again. *)
Definition scan_panel : t :=
  mk (Demo.chart false) true false true true [] [red] true true true [].

Definition started1 : t :=
  default scan_panel (start Demo.show_int Demo.show_real Demo.show_value fs "2026-11-09_12-00-00" (Demo.inp 1) scan_panel).
Definition stopped1 : t :=
  default started1 (stop Demo.show_int Demo.show_real Demo.show_value (Demo.inp 2) started1).
Definition started2 : t :=
  default stopped1 (start Demo.show_int Demo.show_real Demo.show_value fs "2026-11-09_12-05-00" (Demo.inp 3) stopped1).

End PanelDemo.

(** ** The colour pool *)

Module PanelFacts.
Import Driver Panel.

(** Which signal a [removeSignal(pvName)] run by [sender] is meant to
    remove, stated on the list of PVs: the sender's own signal when the
    name is empty, else the last signal with that PV. *)
Definition selects (sender : option nat) (pvName : string) (names : list string) (i : nat) : Prop :=
  (pvName = ""%string /\ sender = Some i /\ i < length names) \/
  (pvName <> ""%string /\ names !! i = Some pvName /\ forall j, i < j -> names !! j <> Some pvName).

(** [p'] is [p] with the signal at [i] removed: its pen, its table column
    [i+1], and one [configurationChanged]. *)
Definition removed (i : nat) (p p' : t) : Prop :=
  signals (chart p') = delete i (signals (chart p)) /\ pens p' = delete i (pens p) /\
  table (chart p') = removeColumn (S i) (table (chart p)) /\ emitted p' = config_of p' :: emitted p.

Section Colors.
Variable text : color.

(** A colour other than the text colour. *)
Definition own (c : color) : bool := negb (Z.eqb c text).

(** The colours in [colorsLeft] and the pens of the signals other than
    the text colour are, together, the palette without the text colour;
    there is one pen per signal. *)
Definition colors_inv (p : t) : Prop :=
  colors_left p ++ List.filter own (pens p) ≡ₚ List.filter own palette /\
  length (pens p) = length (signals (chart p)).

Lemma filter_perm (l k : list color) : l ≡ₚ k -> List.filter own l ≡ₚ List.filter own k.
Proof.
  induction 1 as [|x l k _ IH|x y l|l m k _ IH1 _ IH2]; cbn.
  - constructor.
  - destruct (own x); [constructor|]; exact IH.
  - destruct (own x), (own y); try constructor; reflexivity.
  - etrans; eauto.
Qed.

Lemma colors_left_own (p : t) (c : color) : colors_inv p -> c ∈ colors_left p -> own c = true.
Proof.
  intros [P _] H. assert (Hin : c ∈ List.filter own palette).
  { rewrite <- P. apply elem_of_app. now left. }
  apply list_elem_of_In, filter_In in Hin. exact (proj2 Hin).
Qed.

Lemma length_preparePlot_signals (c : Driver.t) : length (signals (preparePlot c)) = length (signals c).
Proof. unfold preparePlot. cbn. now rewrite length_map. Qed.

(** Operations that leave the pool, the pens and the number of signals
    alone. *)
Definition same_pool (p p' : t) : Prop :=
  colors_left p' = colors_left p /\ pens p' = pens p /\
  length (signals (chart p')) = length (signals (chart p)).

Lemma same_pool_trans (p1 p2 p3 : t) : same_pool p1 p2 -> same_pool p2 p3 -> same_pool p1 p3.
Proof. intros (A1 & B1 & C1) (A2 & B2 & C2). split; [congruence|split; congruence]. Qed.

Lemma same_pool_inv (p p' : t) : same_pool p p' -> colors_inv p -> colors_inv p'.
Proof. intros (A & B & C) [P L]. split; [now rewrite A, B|congruence]. Qed.

Lemma pool_refl (p : t) : same_pool p p.
Proof. split; [reflexivity|split; reflexivity]. Qed.

Lemma pool_emit (p : t) : same_pool p (emit p).
Proof. split; [reflexivity|split; reflexivity]. Qed.

Lemma pool_with_chart (f : Driver.t -> Driver.t) (p : t) :
  length (signals (f (chart p))) = length (signals (chart p)) -> same_pool p (with_chart f p).
Proof. intros H. split; [reflexivity|split; [reflexivity|exact H]]. Qed.

Lemma pool_with_flags an gr cv bv (p : t) : same_pool p (with_flags an gr cv bv p).
Proof. split; [reflexivity|split; reflexivity]. Qed.

Lemma pool_with_styles dok nok aok (p : t) : same_pool p (with_styles dok nok aok p).
Proof. split; [reflexivity|split; reflexivity]. Qed.

Lemma length_signals_set_ranges f (c : Driver.t) : length (signals (set_ranges f c)) = length (signals c).
Proof. reflexivity. Qed.

Lemma length_signals_map (g : string * Signal.t -> Signal.t) (c : Driver.t) :
  length (signals (set_signals (map (fun ps => (ps.1, g ps)) (signals c)) c)) = length (signals c).
Proof. apply length_map. Qed.

Create HintDb pool.
#[local] Hint Resolve pool_refl pool_emit pool_with_flags pool_with_styles length_signals_set_ranges
  length_preparePlot_signals : pool.
#[local] Hint Extern 1 (length (signals (set_signals (map _ _) _)) = _) => apply length_map : pool.
#[local] Hint Extern 5 (length (signals _) = length (signals _)) => reflexivity : pool.

Lemma pool_setRanges (p : t) : same_pool p (setRanges p).
Proof. unfold setRanges. eapply same_pool_trans; [|apply pool_emit]. apply pool_with_chart. reflexivity. Qed.

(** Chain the building blocks of an operation. *)
Local Ltac pool :=
  repeat match goal with
  | |- same_pool ?p ?p => apply pool_refl
  | |- same_pool _ (emit _) => eapply same_pool_trans; [|apply pool_emit]
  | |- same_pool _ (setRanges _) => eapply same_pool_trans; [|apply pool_setRanges]
  | |- same_pool _ (with_chart _ _) => eapply same_pool_trans; [|apply pool_with_chart; eauto with pool]
  | |- same_pool _ (with_flags _ _ _ _ _) => eapply same_pool_trans; [|apply pool_with_flags]
  | |- same_pool _ (with_styles _ _ _ _) => eapply same_pool_trans; [|apply pool_with_styles]
  | |- same_pool _ (if ?b then _ else _) => destruct b
  end.


Lemma pool_setSaveName fs v p : same_pool p (setSaveName fs v p).
Proof. unfold setSaveName, setSaveName_slot. pool. Qed.

Lemma pool_setAutoName fs now v p : same_pool p (setAutoName fs now v p).
Proof.
  unfold setAutoName, setAutoName_slot. pool.
  destruct (auto_name_for _ _ _); [|pool]. eapply same_pool_trans; [|apply pool_setSaveName]. pool.
Qed.

Lemma pool_setInterval (v : Q) (p : t) : same_pool p (setInterval_net v p).
Proof. unfold setInterval_net. cbn [sp_emit sp_prepare sp_set_interval sp_set_period panel_spins]. pool. Qed.

Lemma pool_setPeriod (v : Q) (p : t) : same_pool p (setPeriod_net v p).
Proof. unfold setPeriod_net. cbn [sp_emit sp_prepare sp_set_interval sp_set_period panel_spins]. pool. Qed.

(** [addSignal] moves the first colour left to the new signal's pen. *)
Lemma inv_addSignal (pv : string) (p : t) : colors_inv p -> colors_inv (addSignal text pv p).
Proof.
  intros I. pose proof I as [P L]. unfold addSignal, colors_inv.
  cbn [emit with_chart with_styles with_colors colors_left pens chart].
  rewrite length_preparePlot_signals. unfold set_signals. cbn [signals set_data].
  rewrite !length_app, L. split; [|reflexivity].
  rewrite List.filter_app. destruct (colors_left p) as [|c rest] eqn:E; cbn [List.filter app tail] in *.
  - unfold own at 2. rewrite Z.eqb_refl, app_nil_r. exact P.
  - assert (Hc : own c = true) by (apply (colors_left_own p c I); rewrite E; left).
    rewrite Hc, <- P, app_assoc. symmetry. apply Permutation_cons_append.
Qed.

Lemma last_index_lookup (pv : string) (l : list string) (i : nat) :
  last_index pv l = Some i -> l !! i = Some pv.
Proof.
  revert i. induction l as [|x l IH]; intros i H; cbn in H; [discriminate|].
  destruct (last_index pv l) as [j|] eqn:E.
  - injection H as <-. exact (IH j eq_refl).
  - destruct (String.eqb_spec x pv); [|discriminate]. injection H as <-. now subst.
Qed.

Lemma find_signal_lt (snd : option nat) (pv : string) (p : t) (i : nat) :
  find_signal snd pv p = Some i -> i < length (signals (chart p)).
Proof.
  unfold find_signal. destruct (String.eqb pv "").
  - destruct snd as [j|]; [|discriminate].
    destruct (Nat.ltb_spec j (length (signals (chart p)))) as [Hj|Hj]; intros H; [|discriminate H].
    injection H as <-. exact Hj.
  - intros H. apply last_index_lookup, lookup_lt_Some in H. now rewrite length_map in H.
Qed.

(** [removeSignal] gives the pen's colour back unless it is the text
    colour. *)
Lemma inv_removeSignal (snd : option nat) (pv : string) (p : t) :
  colors_inv p -> colors_inv (removeSignal text snd pv p).
Proof.
  intros [P L]. unfold removeSignal. destruct (find_signal snd pv p) as [i|] eqn:F; [|split; assumption].
  pose proof (find_signal_lt snd pv p i F) as Hi. rewrite <- L in Hi.
  destruct (lookup_lt_is_Some_2 (pens p) i Hi) as [col Hcol].
  unfold colors_inv. cbn [emit with_chart with_styles with_colors colors_left pens chart signals
    set_output set_signals set_data].
  split; [|rewrite !length_delete, L; [reflexivity|apply lookup_lt_is_Some_2; lia|now exists col]].
  replace (default text (pens p !! i)) with col by now rewrite Hcol.
  assert (D : List.filter own (pens p) ≡ₚ (if own col then [col] else []) ++ List.filter own (delete i (pens p))).
  { rewrite (filter_perm _ _ (delete_Permutation (pens p) i col Hcol)). cbn [List.filter].
    destruct (own col); reflexivity. }
  rewrite <- P, D. unfold own. destruct (Z.eqb_spec col text); cbn [negb app]; [reflexivity|].
  now rewrite <- app_assoc.
Qed.

Local Ltac pool_op := first
  [ apply pool_setSaveName | apply pool_setAutoName | apply pool_setRanges
  | unfold setContinious, setSaveDir, setSaveDir_slot, setMin, setAutoMin, setMax, setAutoMax,
      setLogarithmic, logScale, setNormalized, setNormalized_slot, setGridVisible,
      setControlCollapsed, lock;
    pool; try (eapply same_pool_trans; [|apply pool_setRanges]); pool ].

Lemma apply_some (w : world) (o : op) (p : t) : exists p', apply text w o p = Some p'.
Proof.
  destruct o; cbn [apply]; eauto.
  - rewrite setInterval_call_net by (unfold Scan.fuel; lia). eauto.
  - rewrite setPeriod_call_net by (unfold Scan.fuel; lia). eauto.
Qed.

Lemma inv_apply (w : world) (o : op) (p p' : t) :
  colors_inv p -> apply text w o p = Some p' -> colors_inv p'.
Proof.
  intros I E. destruct o; cbn [apply] in E;
    [rewrite setInterval_call_net in E by (unfold Scan.fuel; lia)
    |rewrite setPeriod_call_net in E by (unfold Scan.fuel; lia)|..];
    injection E as <-;
    first [ apply inv_addSignal; exact I | apply inv_removeSignal; exact I
          | apply (same_pool_inv p); [|exact I]; first [apply pool_setInterval | apply pool_setPeriod | pool_op]].
Qed.

Lemma inv_run (ops : list (world * op)) (p p' : t) :
  colors_inv p -> run_ops text ops p = Some p' -> colors_inv p'.
Proof.
  revert p. induction ops as [|[w o] ops IH]; intros p I E; cbn [run_ops] in E.
  - injection E as <-. exact I.
  - destruct (apply text w o p) as [p1|] eqn:A; [|discriminate E]. exact (IH p1 (inv_apply w o p p1 I A) E).
Qed.

Lemma inv_create (fs : gmap string entry) (home : string) (form : t) :
  signals (chart form) = [] -> colors_inv (create text fs home form).
Proof.
  intros S. unfold create.
  set (p0 := with_colors (List.filter own palette) [] form).
  assert (I0 : colors_inv p0).
  { split; [cbn; now rewrite app_nil_r|]. cbn. now rewrite S. }
  apply (same_pool_inv p0); [|exact I0].
  eapply same_pool_trans; [|apply pool_with_chart, length_preparePlot_signals].
  unfold setGridVisible, setSaveDir, setSaveDir_slot. pool; apply pool_refl.
Qed.

End Colors.

Lemma NoDup_palette : NoDup palette.
Proof. apply (bool_decide_unpack _). vm_compute. exact I. Qed.

Lemma resetData_normalized (n : nat) (sg : Signal.t) :
  Signal.normalized (Signal.resetData n sg) = Signal.normalized sg.
Proof.
  unfold Signal.resetData. cbn [Signal.normalized].
  exact (proj1 (proj2 (proj2 (proj2 (Signal.preparePlot_fields _))))).
Qed.

(** C5: The colour pool never loses or duplicates a colour: in any panel
    the constructor and a sequence of slot calls produce, every signal
    has one pen, each pen is a palette colour or the text colour, and no
    two signals share a pen other than the text colour ([colorsLeft]
    hands each colour out once and takes it back on removal). *)
Theorem pens_distinct (text : color) (fs : gmap string entry) (home : string) (form : t)
    (ops : list (world * op)) (p : t) :
  signals (chart form) = [] -> run_ops text ops (create text fs home form) = Some p ->
  NoDup (List.filter (own text) (pens p)) /\ length (pens p) = length (signals (chart p)) /\
  Forall (fun c => c = text \/ In c palette) (pens p).
Proof.
  intros S E. destruct (inv_run text ops _ p (inv_create text fs home form S) E) as [P L].
  assert (N : NoDup (colors_left p ++ List.filter (own text) (pens p))).
  { rewrite P. apply NoDup_ListNoDup, List.NoDup_filter, NoDup_ListNoDup, NoDup_palette. }
  split; [exact (proj2 (proj2 (proj1 (NoDup_app _ _) N)))|split; [exact L|]].
  apply List.Forall_forall. intros c Hc. destruct (own text c) eqn:Ho.
  - right. assert (Hin : In c (List.filter (own text) palette)).
    { apply list_elem_of_In. rewrite <- P. apply elem_of_app. right.
      apply list_elem_of_In, filter_In. now split. }
    apply filter_In in Hin. exact (proj1 Hin).
  - left. unfold own in Ho. apply negb_false_iff, Z.eqb_eq in Ho. exact Ho.
Qed.

(** C34: [addSignal] leaves the new signal unnormalised whatever the
    [Normalize] box says: [Signal]'s constructor sets [normalized = false]
    and [addSignal] never calls [setNormalized(isNormalized())]; the old
    signals keep their flags. *)
Theorem addSignal_not_normalized (text : color) (pv : string) (p : t) :
  let p' := addSignal text pv p in
  map (fun ps => Signal.normalized ps.2) (signals (chart p')) =
    map (fun ps => Signal.normalized ps.2) (signals (chart p)) ++ [false] /\
  map fst (signals (chart p')) = map fst (signals (chart p)) ++ [pv] /\
  Ranges.norma (ranges (chart p')) = Ranges.norma (ranges (chart p)).
Proof.
  cbn zeta. unfold addSignal. cbn [emit with_chart with_styles with_colors chart].
  unfold preparePlot, set_signals, set_data. cbn [signals ranges].
  set (n := length (Axis.build _ 0)). clearbody n. rewrite !map_map.
  split; [|split; [|reflexivity]].
  - rewrite (map_ext _ (fun ps => Signal.normalized ps.2)) by (intros x; apply resetData_normalized).
    now rewrite map_app.
  - rewrite (map_ext _ fst) by reflexivity. now rewrite map_app.
Qed.

(** ** The automatic file name *)

Section Names.
Variables (fs : gmap string entry) (dn fn ext : string).

(** The names the loop tries, from [tryName] on, [f] of them. *)
Fixpoint tries (f : nat) (count : N) (tryName : string) : list string :=
  match f with
  | 0 => []
  | S f' => tryName :: tries f' (count + 1) (numbered fn ext count)
  end.

Lemma name_loop_fresh (f : nat) (count : N) (tryName n : string) :
  name_loop f fs dn fn ext count tryName = Some n -> exists_ fs (dn +:+ n) = false.
Proof.
  revert count tryName. induction f as [|f IH]; intros count tryName; cbn; [discriminate|].
  destruct (exists_ fs (dn +:+ tryName)) eqn:E; [apply IH|]. now intros [= <-].
Qed.

Lemma name_loop_none (f : nat) (count : N) (tryName : string) :
  name_loop f fs dn fn ext count tryName = None ->
  Forall (fun x => exists_ fs (dn +:+ x) = true) (tries f count tryName).
Proof.
  revert count tryName. induction f as [|f IH]; intros count tryName; cbn; [constructor|].
  destruct (exists_ fs (dn +:+ tryName)) eqn:E; [|discriminate]. intros H. constructor; auto.
Qed.

Lemma numbered_inj (a b : N) : numbered fn ext a = numbered fn ext b -> a = b.
Proof.
  unfold numbered. intros H. apply str_app_inv_l, (str_app_inv_l "_(") in H.
  apply str_app_inv_r in H. exact (pretty_N_inj a b H).
Qed.

Lemma tries_numbered (f : nat) (c : N) (x : string) :
  In x (tries f (c + 1) (numbered fn ext c)) -> exists k, (c <= k)%N /\ x = numbered fn ext k.
Proof.
  revert c. induction f as [|f IH]; intros c H; cbn in H; [contradiction|].
  destruct H as [<-|H]; [exists c; split; [lia|reflexivity]|].
  destruct (IH (c + 1)%N H) as (k & Hk & ->). exists k. split; [lia|reflexivity].
Qed.

Lemma NoDup_tries_numbered (f : nat) (c : N) : NoDup (tries f (c + 1) (numbered fn ext c)).
Proof.
  revert c. induction f as [|f IH]; intros c; cbn; constructor; [|apply IH].
  intros Hin. apply list_elem_of_In, tries_numbered in Hin as (k & Hk & E).
  apply numbered_inj in E. lia.
Qed.

End Names.

(** [auto_fn now +:+ ".dat"] is none of the numbered names. *)
Lemma auto_not_numbered (now : string) (k : N) :
  auto_fn now +:+ auto_ext <> numbered (auto_fn now) auto_ext k.
Proof. unfold numbered, auto_ext. intros H. apply str_app_inv_l in H. discriminate H. Qed.

Lemma NoDup_auto_tries (now dn : string) (f : nat) :
  NoDup (map (String.append dn) (tries (auto_fn now) auto_ext (S f) 1 (auto_fn now +:+ auto_ext))).
Proof.
  apply NoDup_fmap_2; [intros x y; apply str_app_inv_l|].
  cbn [tries]. constructor; [|apply NoDup_tries_numbered].
  intros Hin. apply list_elem_of_In, tries_numbered in Hin as (k & _ & E).
  exact (auto_not_numbered now k E).
Qed.

(** One more try than there are entries always finds a name. *)
Lemma auto_name_for_some (fs : gmap string entry) (now dn : string) : auto_name_for fs now dn <> None.
Proof.
  unfold auto_name_for. set (f := S (size fs)). intros E. apply name_loop_none in E.
  set (L := map (String.append dn) (tries (auto_fn now) auto_ext f 1 (auto_fn now +:+ auto_ext))).
  assert (Hsub : list_to_set L ⊆ dom fs).
  { intros x Hx. apply elem_of_list_to_set, list_elem_of_In, in_map_iff in Hx as (y & <- & Hy).
    rewrite List.Forall_forall in E. specialize (E y Hy).
    unfold exists_ in E. apply bool_decide_eq_true in E. now apply elem_of_dom. }
  apply subseteq_size in Hsub. rewrite size_list_to_set, size_dom in Hsub by apply NoDup_auto_tries.
  assert (HL : length L = f).
  { unfold L. rewrite length_map. clear. generalize 1%N (auto_fn now +:+ auto_ext).
    induction f as [|g IH]; intros c x; cbn; [reflexivity|]. now rewrite IH. }
  unfold f in HL. lia.
Qed.

(** C12: [setAutoName(true)]'s [while] loop ends and its name is free: with
    the files of the directory given, a name [time_scan_<now>.dat] or
    [time_scan_<now>_(<k>).dat] that does not exist is found within one
    try more than there are entries, the fuel [auto_name_for] gives it. *)
Theorem auto_name_fresh (fs : gmap string entry) (now dn : string) :
  exists n, auto_name_for fs now dn = Some n /\ exists_ fs (dn +:+ n) = false.
Proof.
  destruct (auto_name_for fs now dn) as [n|] eqn:E; [|exfalso; exact (auto_name_for_some fs now dn E)].
  exists n. split; [reflexivity|exact (name_loop_fresh _ _ _ _ _ _ _ _ E)].
Qed.

(** ** The data file of a new scan *)

Section Start.
Variable show_int : Z -> string.
Variable show_real : Q -> string.
Variable show_value : double -> string.

(** [setAutoName(true)] from code on a checked box: [setChecked(true)]
    emits no [toggled], so the slot does not run. *)
Lemma setAutoName_checked (fs : gmap string entry) (now : string) (p : t) :
  auto_name p = true -> setAutoName fs now true p = p.
Proof. intros A. unfold setAutoName. now rewrite A. Qed.

Lemma names_set_run r g (x : Driver.t) :
  save_dir (set_run r g x) = save_dir x /\ save_name (set_run r g x) = save_name x /\
  saved_to (set_run r g x) = saved_to x.
Proof. repeat split. Qed.

Lemma names_start_prepare (inp : input) (c : Driver.t) :
  save_dir (start_prepare show_int show_real inp c) = save_dir c /\
  save_name (start_prepare show_int show_real inp c) = save_name c /\
  saved_to (start_prepare show_int show_real inp c) = saveDir (save_dir c) +:+ save_name c.
Proof.
  unfold start_prepare, open_file. cbn [file_open set_control set_point preparePlot set_data].
  destruct (file_open c); repeat split.
Qed.

(** Starting a scan saves to [saveDir() + saveName()] and leaves the two
    boxes alone. *)
Lemma start_names (inp : input) (c : Driver.t) :
  Scan.inv c -> running c = false -> Scan.input_ok inp ->
  exists c', Scan.step show_int show_real show_value inp Scan.Start c = Some c' /\ Scan.inv c' /\
    running c' = true /\ save_dir c' = save_dir c /\ save_name c' = save_name c /\
    saved_to c' = saveDir (save_dir c) +:+ save_name c.
Proof.
  intros Hi R Hr.
  destruct (ScanFacts.start_eq show_int show_real show_value inp c Hi R Hr) as (sigs & _ & _ & E).
  destruct (ScanFacts.start_step show_int show_real show_value inp c Hi R Hr) as (c' & E' & I' & _ & R' & _).
  exists c'. split; [exact E'|]. split; [exact I'|split; [exact R'|]].
  rewrite E in E'. injection E' as <-. clear I' R'.
  destruct (names_start_prepare inp c) as (D & N & T).
  set (x := start_prepare show_int show_real inp c) in *. clearbody x.
  set (vals := Scan.tick_values show_value (read inp) _). clearbody vals.
  repeat split; assumption.
Qed.

(** [stop()] on a running chart is the stop branch of [startStop]. *)
Lemma stop_step (inp : input) (c : Driver.t) :
  running c = true -> Scan.step show_int show_real show_value inp Scan.Stop c = Some (Driver.stop c).
Proof. intros R. unfold Scan.step, Scan.fuel. rewrite R. cbn [startStop]. now rewrite R. Qed.

Lemma start_panel (fs : gmap string entry) (now : string) (inp : input) (p p1 : t) :
  auto_name p = true -> Scan.inv (chart p) -> running (chart p) = false -> Scan.input_ok inp ->
  start show_int show_real show_value fs now inp p = Some p1 ->
  auto_name p1 = true /\ Scan.inv (chart p1) /\ running (chart p1) = true /\
  save_dir (chart p1) = save_dir (chart p) /\ save_name (chart p1) = save_name (chart p) /\
  saved_to (chart p1) = saveDir (save_dir (chart p)) +:+ save_name (chart p).
Proof.
  intros A Hi R Hr E. unfold start in E. rewrite R, A, setAutoName_checked in E by exact A.
  destruct (start_names inp (chart p) Hi R Hr) as (c1 & E1 & I1 & R1 & D1 & N1 & T1).
  rewrite E1 in E. injection E as <-. exact (conj A (conj I1 (conj R1 (conj D1 (conj N1 T1))))).
Qed.

(** C33: With automatic naming on, [start()] does not pick a new file
    name: [setAutoName(true)], called from [startStop] on the checked box,
    emits no [toggled], so [tableWasSavedTo] is [saveDir() + saveName()]
    as before whatever the clock says, and a second scan truncates the
    file the first one wrote. *)
Theorem autoName_start_same_file (fs fs' : gmap string entry) (now now' : string)
    (inp inp' inp2 : input) (p p1 p2 p3 : t) :
  auto_name p = true -> Scan.inv (chart p) -> running (chart p) = false ->
  Scan.input_ok inp -> Scan.input_ok inp2 ->
  start show_int show_real show_value fs now inp p = Some p1 ->
  stop show_int show_real show_value inp' p1 = Some p2 ->
  start show_int show_real show_value fs' now' inp2 p2 = Some p3 ->
  saved_to (chart p1) = saveDir (save_dir (chart p)) +:+ save_name (chart p) /\
  saved_to (chart p3) = saved_to (chart p1).
Proof.
  intros A Hi R Hr Hr2 E1 E2 E3.
  destruct (start_panel fs now inp p p1 A Hi R Hr E1) as (A1 & I1 & R1 & D1 & N1 & T1).
  unfold stop in E2. rewrite stop_step in E2 by exact R1. injection E2 as <-.
  destruct (start_panel fs' now' inp2 (with_chart (fun _ => Driver.stop (chart p1)) p1) p3 A1
              (ScanFacts.inv_stop _ I1) eq_refl Hr2 E3)
    as (_ & _ & _ & _ & _ & T3).
  split; [exact T1|]. rewrite T3, T1. cbn [with_chart chart]. unfold Driver.stop.
  cbn [save_dir save_name set_output set_control set_run]. now rewrite D1, N1.
Qed.

End Start.

(** ** Removing a signal by its PV *)

Lemma last_index_last (pv : string) (l : list string) (i : nat) :
  last_index pv l = Some i -> forall j, i < j -> l !! j <> Some pv.
Proof.
  revert i. induction l as [|x l IH]; intros i H j Hj; cbn in H; [discriminate|].
  destruct (last_index pv l) as [k|] eqn:E.
  - injection H as <-. destruct j as [|j]; [lia|]. cbn. apply (IH k eq_refl). lia.
  - destruct (String.eqb x pv); [|discriminate]. injection H as <-. destruct j as [|j]; [lia|].
    cbn. intros Hj'. assert (Hin : pv ∈ l) by (apply list_elem_of_lookup; eauto).
    clear -E Hin. induction l as [|y l IHl]; [inversion Hin|]. cbn in E.
    destruct (last_index pv l); [discriminate|]. destruct (String.eqb_spec y pv); [discriminate|].
    apply elem_of_cons in Hin as [->|Hin]; [congruence|exact (IHl E Hin)].
Qed.

Lemma last_index_none (pv : string) (l : list string) : last_index pv l = None -> pv ∉ l.
Proof.
  induction l as [|x l IH]; intros H Hin; [inversion Hin|]. cbn in H.
  destruct (last_index pv l); [discriminate|]. destruct (String.eqb_spec x pv); [discriminate|].
  apply elem_of_cons in Hin as [->|Hin]; [congruence|exact (IH eq_refl Hin)].
Qed.

Lemma last_index_unique (pv : string) (l : list string) (i j : nat) :
  l !! i = Some pv -> (forall k, i < k -> l !! k <> Some pv) ->
  l !! j = Some pv -> (forall k, j < k -> l !! k <> Some pv) -> i = j.
Proof.
  intros Hi Li Hj Lj. destruct (Nat.lt_trichotomy i j) as [H|[H|H]];
    [exfalso; exact (Li j H Hj)|exact H|exfalso; exact (Lj i H Hi)].
Qed.

Lemma removeSignal_found (text : color) (snd : option nat) (pv : string) (p : t) (i : nat) :
  find_signal snd pv p = Some i -> removed i p (removeSignal text snd pv p).
Proof. intros F. unfold removeSignal. rewrite F. repeat split. Qed.

Lemma removeSignal_none (text : color) (snd : option nat) (pv : string) (p : t) :
  find_signal snd pv p = None -> removeSignal text snd pv p = p.
Proof. intros F. unfold removeSignal. now rewrite F. Qed.

(** C21: [removeSignal(pvName)] removes the signal the code selects: with
    an empty name (the [rem] button's call) the signal whose button is
    [sender()], and nothing when no signal sent it; with a name, the last
    signal on that PV.  The removal takes the pen and the table column
    [i+1] with the signal and emits once; when nothing is selected the
    panel is unchanged and nothing is emitted. *)
Theorem removeSignal_sender_or_name (text : color) (snd : option nat) (pvName : string) (p : t) :
  let names := map fst (signals (chart p)) in
  (forall i, selects snd pvName names i -> removed i p (removeSignal text snd pvName p)) /\
  ((forall i, ~ selects snd pvName names i) -> removeSignal text snd pvName p = p).
Proof.
  cbn zeta. unfold selects. rewrite length_map.
  destruct (String.eqb_spec pvName ""%string) as [->|Hn].
  - assert (F : forall i, find_signal snd ""%string p = Some i <-> snd = Some i /\ i < length (signals (chart p))).
    { intros i. unfold find_signal. rewrite String.eqb_refl. destruct snd as [j|]; [|split; [discriminate|intros [E _]; discriminate]].
      destruct (Nat.ltb_spec j (length (signals (chart p)))) as [Hj|Hj];
        split; [intros E|intros [E1 E2]|intros E|intros [E1 E2]]; simplify_eq; auto; lia. }
    split.
    + intros i [(_ & H)|(? & _)]; [apply removeSignal_found, F, H|contradiction].
    + intros N. apply removeSignal_none. destruct (find_signal snd ""%string p) as [i|] eqn:E; [|reflexivity].
      exfalso. apply (N i). left. split; [reflexivity|]. apply F; reflexivity.
  - assert (F : find_signal snd pvName p = last_index pvName (map fst (signals (chart p)))).
    { unfold find_signal. destruct (String.eqb_spec pvName ""%string); [contradiction|reflexivity]. }
    destruct (last_index pvName (map fst (signals (chart p)))) as [k|] eqn:E; split.
    + intros i [(? & _)|(_ & Hi & Li)]; [contradiction|].
      rewrite (last_index_unique _ _ i k Hi Li (last_index_lookup _ _ _ E) (last_index_last _ _ _ E)).
      apply removeSignal_found. now rewrite F.
    + intros N. exfalso. apply (N k). right.
      exact (conj Hn (conj (last_index_lookup _ _ _ E) (last_index_last _ _ _ E))).
    + intros i [(? & _)|(_ & Hi & _)]; [contradiction|].
      exfalso. apply (last_index_none _ _ E). apply list_elem_of_lookup. eauto.
    + intros _. apply removeSignal_none. now rewrite F.
Qed.

(** ** Witnesses *)

Lemma pens_distinct_witness :
  NoDup (List.filter (own PanelDemo.black) (pens PanelDemo.panel1)) /\
  length (pens PanelDemo.panel1) = length (signals (chart PanelDemo.panel1)) /\
  Forall (fun c => c = PanelDemo.black \/ In c palette) (pens PanelDemo.panel1).
Proof.
  exact (pens_distinct PanelDemo.black PanelDemo.fs "/tmp" PanelDemo.form PanelDemo.ops PanelDemo.panel1
           eq_refl ltac:(vm_compute; reflexivity)).
Defined.

Lemma autoName_start_same_file_witness :
  saved_to (chart PanelDemo.started1) = "/tmp/scan.dat" /\
  saved_to (chart PanelDemo.started2) = saved_to (chart PanelDemo.started1).
Proof.
  exact (autoName_start_same_file Demo.show_int Demo.show_real Demo.show_value PanelDemo.fs PanelDemo.fs
           "2026-11-09_12-00-00" "2026-11-09_12-05-00" (Demo.inp 1) (Demo.inp 2) (Demo.inp 3)
           PanelDemo.scan_panel PanelDemo.started1 PanelDemo.stopped1 PanelDemo.started2
           eq_refl (ScanFacts.demo_inv false) eq_refl
           (ScanFacts.demo_input_ok 1 eq_refl) (ScanFacts.demo_input_ok 3 eq_refl)
           ltac:(vm_compute; reflexivity) ltac:(vm_compute; reflexivity) ltac:(vm_compute; reflexivity)).
Defined.

End PanelFacts.
