(* ===== verification/MainWindow.v ===== *)
(** * MainWindow: the settings file and the command line

    [src/bin/TimeScanMX_mainwindow.cpp]: [clargs] (the options, their
    defaults and the three pairs that exclude each other), the
    constructor of [MainWindow] (the options applied to the chart when any
    is given, the settings restored otherwise, then [configurationChanged]
    connected to [updateConfiguration]) and [updateConfiguration], which
    clears the settings and writes the chart's configuration.

    [QSettings] is a map from keys to the values [setValue] stored
    (stdpp's [gmap string]); an array written between [beginWriteArray]
    and [endArray] is stored under [prefix/<i+1>/key] with its size under
    [prefix/size], as Qt lays it out. *)

From Stdlib Require Import QArith ZArith String Ascii Bool Lqa.
From stdpp Require Import base list gmap strings pretty.
From S2P Require Import Prelude Double RangePolicy TimeAxis ScanDriver Panel.

Module Settings.
Open Scope string_scope.

(** A value stored by [setValue]. *)
Inductive value := VDouble (d : double) | VBool (b : bool) | VString (s : string) | VInt (z : Z).

Abbreviation store := (gmap string value).

(** [QVariant::toDouble], [toBool], [toString] and [toInt] of what
    [value(key)] returns ([None]: the invalid [QVariant] of a missing
    key).  A string is not parsed as a number: the settings this program
    reads are the ones it wrote, with the type it wrote them. *)
Definition toDouble (v : option value) : double :=
  match v with
  | Some (VDouble d) => d
  | Some (VInt z) => Fin (inject_Z z)
  | Some (VBool b) => Fin (if b then 1 else 0)
  | _ => Fin 0
  end.
Definition toBool (v : option value) : bool :=
  match v with
  | Some (VBool b) => b
  | Some (VInt z) => negb (Z.eqb z 0)
  | Some (VDouble d) => dne d (Fin 0)
  | Some (VString s) => negb (String.eqb s "" || String.eqb s "0" || String.eqb s "false")
  | None => false
  end.
Definition toString (v : option value) : string :=
  match v with
  | Some (VString s) => s
  | Some (VBool b) => if b then "true" else "false"
  | Some (VInt z) => pretty z
  | _ => ""
  end.
Definition toInt (v : option value) : Z :=
  match v with Some (VInt z) => z | Some (VBool b) => if b then 1 else 0 | _ => 0 end.

(** [contains(key)]. *)
Definition contains (k : string) (st : store) : bool := bool_decide (is_Some (st !! k)).

(** The key of [key] at index [i] of the array [prefix]. *)
Definition array_key (prefix : string) (i : nat) (k : string) : string :=
  prefix +:+ "/" +:+ pretty (N.of_nat (S i)) +:+ "/" +:+ k.

(** [beginWriteArray(prefix); for i: setArrayIndex(i); setValue(k, xs[i]);
    endArray();]: the entries, then [prefix/size]. *)
Fixpoint write_entries (prefix k : string) (i : nat) (xs : list string) (st : store) : store :=
  match xs with
  | [] => st
  | x :: xs' => write_entries prefix k (S i) xs' (<[array_key prefix i k := VString x]> st)
  end.
Definition write_array (prefix k : string) (xs : list string) (st : store) : store :=
  <[prefix +:+ "/size" := VInt (Z.of_nat (length xs))]> (write_entries prefix k 0 xs st).

(** [int size = beginReadArray(prefix); for i < size: setArrayIndex(i);
    value(k).toString()]. *)
Definition read_array (prefix k : string) (st : store) : list string :=
  map (fun i => toString (st !! array_key prefix i k))
    (seq 0 (Z.to_nat (toInt (st !! (prefix +:+ "/size"))))).

End Settings.

(** ** The command line *)

Module Args.

(** What [table.parse] leaves in [clargs]: [None] for an option not
    given ([table.count(&x) == 0]), the value given otherwise; the
    positional arguments are the detectors. *)
Record t := mk {
  start : option bool;
  interval : option Q;
  period : option Q;
  cont : option bool;
  saveDir : option string;
  saveName : option string;
  autoName : option bool;
  detectors : list string;
  min : option Q;
  autoMin : option bool;
  max : option Q;
  autoMax : option bool;
  log : option bool;
  norma : option bool;
  grid : option bool;
  collapseControl : option bool
}.

(** The defaults of the constructor of [clargs]. *)
Definition d_interval : Q := 1 # 10.
Definition d_period : Q := 1.

(** [table.count(&x) > 0]. *)
Definition is_Some_b {A} (o : option A) : bool := match o with Some _ => true | None => false end.

(** [table.count()]: how many options and arguments were given. *)
Definition count (a : t) : nat :=
  length (List.filter (fun b => b)
    [is_Some_b (start a); is_Some_b (interval a); is_Some_b (period a); is_Some_b (cont a);
     is_Some_b (saveDir a); is_Some_b (saveName a); is_Some_b (autoName a); is_Some_b (min a);
     is_Some_b (autoMin a); is_Some_b (max a); is_Some_b (autoMax a); is_Some_b (log a);
     is_Some_b (norma a); is_Some_b (grid a); is_Some_b (collapseControl a)])
  + length (detectors a).

(** The pairs [poptmx::throw_error] rejects, in the order the code tests
    them. *)
Inductive error := Exclusive (opt1 opt2 : string).

Definition check (a : t) : option error :=
  if is_Some_b (autoName a) && is_Some_b (saveName a) then Some (Exclusive "autoname" "file")
  else if is_Some_b (autoMin a) && is_Some_b (min a) then Some (Exclusive "automin" "min")
  else if is_Some_b (autoMax a) && is_Some_b (max a) then Some (Exclusive "automax" "max")
  else None.

End Args.

(** ** The window *)

Module Window.
Import Driver Panel Settings.
Open Scope string_scope.

(** [MainWindow::updateConfiguration]: [localSettings.clear()], then the
    getters' values, in the code's order. *)
Definition updateConfiguration (c : config) : store :=
  let st := <["interval" := VDouble (Fin (c_interval c))]> ∅ in
  let st := <["period" := VDouble (Fin (c_period c))]> st in
  let st := <["continue" := VBool (c_cont c)]> st in
  let st := <["saveDir" := VString (c_saveDir c)]> st in
  let st := <["saveName" := VString (c_saveName c)]> st in
  let st := <["autoName" := VBool (c_autoName c)]> st in
  let st := write_array "detectors" "detector" (c_signals c) st in
  let st := <["autoMin" := VBool (c_autoMin c)]> st in
  let st := <["min" := VDouble (c_min c)]> st in
  let st := <["autoMax" := VBool (c_autoMax c)]> st in
  let st := <["max" := VDouble (c_max c)]> st in
  let st := <["log" := VBool (c_log c)]> st in
  let st := <["norma" := VBool (c_norma c)]> st in
  <["grid" := VBool (c_grid c)]> st.

(** A spin box value read back: [setInterval(double)] of a finite double.
    [updateConfiguration] writes the spin boxes' values, which are
    finite; a NaN read from a file edited by hand is not modelled and
    reads as 0. *)
Definition spin (d : double) : Q := match d with Fin q => q | NaN => 0 end.

(** The slot calls of the [else] branch of the constructor: each setting
    the file [contains] is passed to the chart. *)
Definition restore_ops (st : store) : list op :=
  (if contains "interval" st then [SetInterval (spin (toDouble (st !! "interval")))] else []) ++
  (if contains "period" st then [SetPeriod (spin (toDouble (st !! "period")))] else []) ++
  (if contains "continue" st then [SetContinious (toBool (st !! "continue"))] else []) ++
  (if contains "saveDir" st then [SetSaveDir (toString (st !! "saveDir"))] else []) ++
  (if contains "saveName" st then [SetSaveName (toString (st !! "saveName"))] else []) ++
  (if contains "autoName" st then [SetAutoName (toBool (st !! "autoName"))] else []) ++
  map AddSignal (read_array "detectors" "detector" st) ++
  (if contains "min" st then [SetMin (toDouble (st !! "min"))] else []) ++
  (if contains "autoMin" st then [SetAutoMin (toBool (st !! "autoMin"))] else []) ++
  (if contains "max" st then [SetMax (toDouble (st !! "max"))] else []) ++
  (if contains "autoMax" st then [SetAutoMax (toBool (st !! "autoMax"))] else []) ++
  (if contains "log" st then [SetLogarithmic (toBool (st !! "log"))] else []) ++
  (if contains "norma" st then [SetNormalized (toBool (st !! "norma"))] else []) ++
  (if contains "grid" st then [SetGridVisible (toBool (st !! "grid"))] else []).

(** The value of a boolean option: [false] unless given. *)
Definition flag (o : option bool) : bool := default false o.

Definition opt_op {A} (f : A -> op) (o : option A) : list op :=
  match o with Some x => [f x] | None => [] end.

(** The slot calls of the [if] branch: the options given. *)
Definition arg_ops (a : Args.t) : list op :=
  opt_op SetInterval (Args.interval a) ++ opt_op SetPeriod (Args.period a) ++
  opt_op SetContinious (Args.cont a) ++
  opt_op SetSaveDir (Args.saveDir a) ++ opt_op SetSaveName (Args.saveName a) ++
  [SetAutoName (flag (Args.autoName a))] ++
  map AddSignal (Args.detectors a) ++
  opt_op (fun q => SetMin (Fin q)) (Args.min a) ++ [SetAutoMin (flag (Args.autoMin a))] ++
  opt_op (fun q => SetMax (Fin q)) (Args.max a) ++ [SetAutoMax (flag (Args.autoMax a))] ++
  [SetLogarithmic (flag (Args.log a)); SetNormalized (flag (Args.norma a));
   SetGridVisible (flag (Args.grid a)); SetControlCollapsed (flag (Args.collapseControl a))].

(** The window: its chart, the settings file, and whether a start is
    pending ([QTimer::singleShot(500, chart, SLOT(start()))]). *)
Record t := mk { panel : Panel.t; settings : store; start_pending : bool }.

(** [MainWindow::MainWindow]: [clargs] rejects the excluded pairs
    ([throw_error]), the chart is built, then the options or the
    settings are applied, before [configurationChanged] is connected.
    [None] is running out of the slots' fuel. *)
Definition construct (text : color) (w : world) (home : string) (form : Panel.t) (a : Args.t)
    (st : store) : option (Args.error + t) :=
  match Args.check a with
  | Some e => Some (inl e)
  | None =>
      let p0 := create text (w_fs w) home form in
      let ops := if Nat.ltb 0 (Args.count a) then arg_ops a else restore_ops st in
      match run_ops text (map (pair w) ops) p0 with
      | Some p => Some (inr (mk p st (flag (Args.start a))))
      | None => None
      end
  end.

(** [connect(chart, SIGNAL(configurationChanged()), SLOT(updateConfiguration()))]:
    an operation that emitted rewrites the settings from its last
    emission. *)
Definition listen (p p' : Panel.t) (st : store) : store :=
  match emitted p' with
  | c :: _ => if Nat.ltb (length (emitted p)) (length (emitted p')) then updateConfiguration c else st
  | [] => st
  end.

Definition step (text : color) (w : world) (o : op) (m : t) : option t :=
  match apply text w o (panel m) with
  | Some p' => Some (mk p' (listen (panel m) p' (settings m)) (start_pending m))
  | None => None
  end.

End Window.

(** ** Running the slot calls *)

Module WindowFacts.
Import Driver Panel PanelFacts Settings Window.


(** Configurations with some getters changed: what a slot call does to
    [config_of]. *)
Definition cf_spins (iv pd : Q) (c : config) : config :=
  mkConfig iv pd (c_cont c) (c_saveDir c) (c_saveName c) (c_autoName c) (c_signals c) (c_autoMin c)
    (c_min c) (c_autoMax c) (c_max c) (c_log c) (c_norma c) (c_grid c).
Definition cf_cont (b : bool) (c : config) : config :=
  mkConfig (c_interval c) (c_period c) b (c_saveDir c) (c_saveName c) (c_autoName c) (c_signals c)
    (c_autoMin c) (c_min c) (c_autoMax c) (c_max c) (c_log c) (c_norma c) (c_grid c).
Definition cf_saveDir (d : string) (c : config) : config :=
  mkConfig (c_interval c) (c_period c) (c_cont c) d (c_saveName c) (c_autoName c) (c_signals c)
    (c_autoMin c) (c_min c) (c_autoMax c) (c_max c) (c_log c) (c_norma c) (c_grid c).
Definition cf_name (an : bool) (n : string) (c : config) : config :=
  mkConfig (c_interval c) (c_period c) (c_cont c) (c_saveDir c) n an (c_signals c)
    (c_autoMin c) (c_min c) (c_autoMax c) (c_max c) (c_log c) (c_norma c) (c_grid c).
Definition cf_signals (l : list string) (c : config) : config :=
  mkConfig (c_interval c) (c_period c) (c_cont c) (c_saveDir c) (c_saveName c) (c_autoName c) l
    (c_autoMin c) (c_min c) (c_autoMax c) (c_max c) (c_log c) (c_norma c) (c_grid c).
Definition cf_range (am : bool) (mn : double) (aM : bool) (mx : double) (c : config) : config :=
  mkConfig (c_interval c) (c_period c) (c_cont c) (c_saveDir c) (c_saveName c) (c_autoName c)
    (c_signals c) am mn aM mx (c_log c) (c_norma c) (c_grid c).
Definition cf_flags (lg nm gr : bool) (c : config) : config :=
  mkConfig (c_interval c) (c_period c) (c_cont c) (c_saveDir c) (c_saveName c) (c_autoName c)
    (c_signals c) (c_autoMin c) (c_min c) (c_autoMax c) (c_max c) lg nm gr.

(** What restoring gives back of a configuration [c]: the spin boxes up
    to [Qeq], the name unless a fresh one was picked, the manual bounds
    unless the automatic ones are on. *)
Definition restored (c' c : config) : Prop :=
  (c_interval c' == c_interval c)%Q /\ (c_period c' == c_period c)%Q /\ c_cont c' = c_cont c /\
  c_saveDir c' = c_saveDir c /\ (c_autoName c = false -> c_saveName c' = c_saveName c) /\
  c_autoName c' = c_autoName c /\ c_signals c' = c_signals c /\
  c_autoMin c' = c_autoMin c /\ (c_autoMin c = false -> c_min c' = c_min c) /\
  c_autoMax c' = c_autoMax c /\ (c_autoMax c = false -> c_max c' = c_max c) /\
  c_log c' = c_log c /\ c_norma c' = c_norma c /\ c_grid c' = c_grid c.

(** The command line with no option and no detector. *)
Definition no_args : Args.t :=
  Args.mk None None None None None None None [] None None None None None None None None.

Lemma run_ops_app (text : color) (l1 l2 : list (world * op)) (p : Panel.t) :
  run_ops text (l1 ++ l2) p = match run_ops text l1 p with Some q => run_ops text l2 q | None => None end.
Proof.
  revert p. induction l1 as [|[w o] l1 IH]; intros p; [reflexivity|]. cbn [app run_ops].
  destruct (apply text w o p); [apply IH|reflexivity].
Qed.

Lemma run_ops_some (text : color) (ops : list (world * op)) (p : Panel.t) :
  exists p', run_ops text ops p = Some p'.
Proof.
  revert p. induction ops as [|[w o] ops IH]; intros p; [eauto|]. cbn [run_ops].
  destruct (apply_some text w o p) as [p1 E]. rewrite E. apply IH.
Qed.

Lemma pair_given {A B} (x : option A) (y : option B) :
  bool_decide (is_Some x /\ is_Some y) = Args.is_Some_b x && Args.is_Some_b y.
Proof.
  destruct x, y; reflexivity.
Qed.

(** C30: Building the window always ends (no slot runs out of fuel).  It
    fails exactly when one of the pairs of options [clargs] declares
    exclusive is given, and reports the first of them in the order
    [poptmx::throw_error] tests them: [--autoname] with [--file], then
    [--automin] with [--min], then [--automax] with [--max].  Otherwise
    it builds the window on the settings it was given, with a start
    pending iff [--start] was given. *)
Theorem construct_total (text : color) (w : world) (home : string) (form : Panel.t) (a : Args.t)
    (st : store) :
  let an_file := bool_decide (is_Some (Args.autoName a) /\ is_Some (Args.saveName a)) in
  let amin_min := bool_decide (is_Some (Args.autoMin a) /\ is_Some (Args.min a)) in
  let amax_max := bool_decide (is_Some (Args.autoMax a) /\ is_Some (Args.max a)) in
  match construct text w home form a st with
  | None => False
  | Some (inl e) =>
      (an_file = true /\ e = Args.Exclusive "autoname" "file") \/
      (an_file = false /\ amin_min = true /\ e = Args.Exclusive "automin" "min") \/
      (an_file = false /\ amin_min = false /\ amax_max = true /\ e = Args.Exclusive "automax" "max")
  | Some (inr m) =>
      an_file = false /\ amin_min = false /\ amax_max = false /\
      settings m = st /\ start_pending m = flag (Args.start a)
  end.
Proof.
  cbn zeta. rewrite !pair_given. unfold construct, Args.check.
  destruct (Args.is_Some_b (Args.autoName a) && Args.is_Some_b (Args.saveName a)); [left; auto|].
  destruct (Args.is_Some_b (Args.autoMin a) && Args.is_Some_b (Args.min a)); [right; left; auto|].
  destruct (Args.is_Some_b (Args.autoMax a) && Args.is_Some_b (Args.max a)); [right; right; auto|].
  destruct (run_ops_some text (map (pair w) (if Nat.ltb 0 (Args.count a) then arg_ops a else restore_ops st))
              (create text (w_fs w) home form)) as [p E].
  rewrite E. auto.
Qed.

(** ** The settings follow the chart *)

(** The settings hold what [updateConfiguration] writes for the chart. *)
Definition synced (m : Window.t) : Prop := settings m = updateConfiguration (config_of (panel m)).

(** [p'] ends with an emission of its own configuration, after those of
    [p]. *)
Definition emits (p p' : Panel.t) : Prop :=
  exists rest, emitted p' = config_of p' :: rest /\ length (emitted p) <= length rest.

(** What one operation does to the emissions: nothing at all, an
    emission at the end, or nothing to the configuration. *)
Definition upd (p p' : Panel.t) : Prop :=
  p' = p \/ emits p p' \/ (config_of p' = config_of p /\ emitted p' = emitted p).

Lemma emits_emit (p q : Panel.t) : length (emitted p) <= length (emitted q) -> emits p (emit q).
Proof. intros H. exists (emitted q). split; [reflexivity|exact H]. Qed.

(** Unfold an operation to its emissions. *)
Local Ltac emissions :=
  unfold setAutoName, setAutoName_slot, setSaveName, setSaveName_slot, setSaveDir, setSaveDir_slot,
    setMin, setMax, setAutoMin, setAutoMax, setLogarithmic, logScale, setNormalized,
    setNormalized_slot, setGridVisible, addSignal, removeSignal, setRanges;
  repeat match goal with
  | |- context [if ?b then _ else _] => destruct b
  | |- context [match ?o with Some _ => _ | None => _ end] => destruct o
  end;
  cbn [emitted emit with_chart with_flags with_styles with_colors length]; lia.

Lemma upd_op (text : color) (w : world) (o : op) (p p' : Panel.t) :
  o <> SetContinious true -> o <> SetContinious false ->
  apply text w o p = Some p' -> upd p p'.
Proof.
  intros N1 N2 E. destruct o; cbn [apply] in E;
    [rewrite setInterval_call_net in E by (unfold Scan.fuel; lia)
    |rewrite setPeriod_call_net in E by (unfold Scan.fuel; lia)|..]; injection E as <-.
  - unfold setInterval_net. destruct (Qeq_bool _ _); [now left|right; left].
    destruct (Qltb _ _); apply emits_emit; cbn; lia.
  - unfold setPeriod_net. destruct (Qeq_bool _ _); [now left|right; left].
    destruct (Qltb _ _); apply emits_emit; cbn; lia.
  - destruct b; contradiction.
  - unfold setSaveDir. destruct (String.eqb _ _); [now left|right; left]. apply emits_emit. reflexivity.
  - unfold setSaveName. destruct (String.eqb _ _); [now left|right; left]. apply emits_emit. reflexivity.
  - unfold setAutoName. destruct (Bool.eqb _ _); [now left|right; left]. apply emits_emit. emissions.
  - right; left. apply emits_emit. reflexivity.
  - unfold removeSignal. destruct (find_signal _ _ _); [right; left; apply emits_emit; reflexivity|now left].
  - right; left. apply emits_emit. emissions.
  - unfold setAutoMin. destruct (Bool.eqb _ _); [now left|right; left]. apply emits_emit. reflexivity.
  - right; left. apply emits_emit. emissions.
  - unfold setAutoMax. destruct (Bool.eqb _ _); [now left|right; left]. apply emits_emit. reflexivity.
  - right; left. apply emits_emit. emissions.
  - unfold setNormalized. destruct (Bool.eqb _ _); [now left|right; left]. apply emits_emit. reflexivity.
  - unfold setGridVisible. destruct (Bool.eqb _ _); [now left|right; left]. apply emits_emit. reflexivity.
  - right; right. split; reflexivity.
  - right; right. split; reflexivity.
Qed.

Lemma listen_upd (p p' : Panel.t) (st : store) :
  upd p p' -> st = updateConfiguration (config_of p) ->
  listen p p' st = updateConfiguration (config_of p').
Proof.
  intros [->|[(rest & E & L)|[C E]]] S; unfold listen.
  - destruct (emitted p); [exact S|]. rewrite Nat.ltb_irrefl. exact S.
  - rewrite E. cbn [length]. replace (Nat.ltb _ _) with true by (symmetry; apply Nat.ltb_lt; lia).
    reflexivity.
  - rewrite E, C. destruct (emitted p); [exact S|]. rewrite Nat.ltb_irrefl. exact S.
Qed.

(** C11: Every slot call but [setContinious] keeps the settings file in
    step with the chart: each one that changes the configuration ends by
    emitting [configurationChanged], and [updateConfiguration] rewrites
    the whole file from the getters. *)
Theorem settings_follow (text : color) (w : world) (o : op) (m m' : Window.t) :
  synced m -> (forall b, o <> SetContinious b) -> Window.step text w o m = Some m' -> synced m'.
Proof.
  intros S N E. unfold Window.step in E. destruct (apply text w o (panel m)) as [p'|] eqn:A; [|discriminate E].
  injection E as <-. unfold synced. cbn [panel settings].
  apply listen_upd; [|exact S]. exact (upd_op text w o (panel m) p' (N true) (N false) A).
Qed.

(** Keys of the settings file that differ. *)
Local Ltac key_neq := apply String.eqb_neq; reflexivity.

Lemma lookup_write_entries_other (prefix k : string) (i : nat) (xs : list string) (st : store)
    (key : string) :
  (forall j, array_key prefix j k <> key) -> write_entries prefix k i xs st !! key = st !! key.
Proof.
  intros H. revert i st. induction xs as [|x xs IH]; intros i st; [reflexivity|]. cbn [write_entries].
  rewrite IH. apply lookup_insert_ne. apply H.
Qed.

(** A key of the [detectors] array starts with [d]. *)
Lemma array_key_d (j : nat) (key : string) :
  String.get 0 key <> Some "d"%char -> array_key "detectors" j "detector" <> key.
Proof. intros H E. apply H. rewrite <- E. reflexivity. Qed.

Local Ltac settings_lookup :=
  unfold updateConfiguration, write_array;
  repeat first
    [ rewrite lookup_insert_eq
    | rewrite lookup_insert_ne by key_neq
    | rewrite lookup_write_entries_other by (intros ?; apply array_key_d; discriminate) ].

Lemma update_continue (c : config) : updateConfiguration c !! "continue" = Some (VBool (c_cont c)).
Proof. settings_lookup. reflexivity. Qed.

(** C35: [setContinious] does not reach the settings file: [ui->cont] has
    no slot connected and nothing emits [configurationChanged], so after
    the continuous box changes the file still holds the old value, unlike
    every other setting. *)
Theorem continuous_not_saved (text : color) (w : world) (b : bool) (m m' : Window.t) :
  synced m -> c_cont (config_of (panel m)) <> b ->
  Window.step text w (SetContinious b) m = Some m' ->
  c_cont (config_of (panel m')) = b /\
  settings m' !! "continue" = Some (VBool (c_cont (config_of (panel m)))) /\ ~ synced m'.
Proof.
  intros S D E. unfold Window.step in E. cbn [apply] in E. injection E as <-.
  cbn [panel settings]. unfold listen. cbn [emitted setContinious with_chart].
  assert (St : match emitted (panel m) with
               | c :: _ => if Nat.ltb (length (emitted (panel m))) (length (emitted (panel m)))
                           then updateConfiguration c else settings m
               | [] => settings m end = settings m)
    by (destruct (emitted (panel m)); [reflexivity|now rewrite Nat.ltb_irrefl]).
  rewrite St. split; [reflexivity|]. rewrite S, update_continue. split; [reflexivity|].
  unfold synced. cbn [panel settings]. intros H.
  apply (f_equal (fun st => st !! "continue")) in H. rewrite !update_continue in H.
  injection H as H. apply D. cbn in H |- *. congruence.
Qed.

(** ** The options applied to the chart *)

Lemma setRanges_checks (r : Ranges.t) (d D : double) :
  Ranges.autoMin (Ranges.setRanges r d D) = Ranges.autoMin r /\
  Ranges.autoMax (Ranges.setRanges r d D) = Ranges.autoMax r /\
  Ranges.logY (Ranges.setRanges r d D) = Ranges.logY r /\
  Ranges.norma (Ranges.setRanges r d D) = Ranges.norma r.
Proof.
  unfold Ranges.setRanges. destruct (Ranges.bounds r d D) as [m M].
  destruct (_ || _); repeat split.
Qed.

Definition auto_min (p : Panel.t) : bool := Ranges.autoMin (ranges (chart p)).

Lemma auto_min_setRanges (p : Panel.t) : auto_min (setRanges p) = auto_min p.
Proof. apply setRanges_checks. Qed.

(** The slot calls after [setAutoMin] leave the box alone. *)
Lemma auto_min_ops (text : color) (w : world) (ops : list op) (p p' : Panel.t) :
  Forall (fun o => match o with
                   | SetMax _ | SetAutoMax _ | SetLogarithmic _ | SetNormalized _ | SetGridVisible _
                   | SetControlCollapsed _ => True
                   | _ => False end) ops ->
  run_ops text (map (pair w) ops) p = Some p' -> auto_min p' = auto_min p.
Proof.
  revert p. induction ops as [|o ops IH]; intros p F E; cbn [map run_ops] in E; [now injection E as <-|].
  inversion F as [|? ? Ho Fs]; subst. destruct o; try (exfalso; exact Ho); cbn [apply] in E;
    rewrite (IH _ Fs E); clear E IH Fs Ho.
  - unfold setMax, setAutoMax. rewrite auto_min_setRanges.
    change (auto_min (with_chart (set_ranges (set_max v)) ?q)) with (auto_min q).
    destruct (Bool.eqb _ _); [reflexivity|]. rewrite auto_min_setRanges. reflexivity.
  - unfold setAutoMax. destruct (Bool.eqb _ _); [reflexivity|]. rewrite auto_min_setRanges. reflexivity.
  - unfold setLogarithmic, logScale. destruct (Bool.eqb _ _); reflexivity.
  - unfold setNormalized, setNormalized_slot. destruct (Bool.eqb _ _); [reflexivity|].
    rewrite auto_min_setRanges. reflexivity.
  - unfold setGridVisible. destruct (Bool.eqb _ _); reflexivity.
  - reflexivity.
Qed.

Lemma auto_min_setAutoMin (p : Panel.t) (b : bool) : auto_min (setAutoMin b p) = b.
Proof.
  unfold setAutoMin. destruct (Bool.eqb_spec b (Ranges.autoMin (ranges (chart p)))) as [->|_]; [reflexivity|].
  rewrite auto_min_setRanges. reflexivity.
Qed.

(** C36: When options are given but neither [--min] nor [--automin], the
    minimum of the axis is manual: [chart->setAutoMin(args.autoMin)] runs
    with the default [false], although the help of [--min] says the
    minimum is "automatically calculated if not used". *)
Theorem min_not_automatic (text : color) (w : world) (home : string) (form : Panel.t) (a : Args.t)
    (st : store) :
  Args.check a = None -> 0 < Args.count a -> Args.min a = None -> Args.autoMin a = None ->
  exists m, construct text w home form a st = Some (inr m) /\ auto_min (panel m) = false.
Proof.
  intros C N M A. unfold construct. rewrite C. replace (Nat.ltb 0 (Args.count a)) with true
    by (symmetry; apply Nat.ltb_lt; exact N).
  set (pre := (opt_op SetInterval (Args.interval a) ++ opt_op SetPeriod (Args.period a) ++
              opt_op SetContinious (Args.cont a) ++ opt_op SetSaveDir (Args.saveDir a) ++
              opt_op SetSaveName (Args.saveName a) ++ [SetAutoName (flag (Args.autoName a))] ++
              map AddSignal (Args.detectors a))%list).
  set (post := (opt_op (fun q => SetMax (Fin q)) (Args.max a) ++ [SetAutoMax (flag (Args.autoMax a))] ++
               [SetLogarithmic (flag (Args.log a)); SetNormalized (flag (Args.norma a));
                SetGridVisible (flag (Args.grid a)); SetControlCollapsed (flag (Args.collapseControl a))])%list).
  assert (Eops : arg_ops a = (pre ++ [SetAutoMin false] ++ post)%list).
  { unfold arg_ops, pre, post, flag. rewrite M, A. cbn [opt_op app default]. now rewrite <- !app_assoc. }
  rewrite Eops, !map_app, !run_ops_app.
  destruct (run_ops_some text (map (pair w) pre) (create text (w_fs w) home form)) as [p1 E1]. rewrite E1.
  cbn [map app run_ops apply].
  destruct (run_ops_some text (map (pair w) post) (setAutoMin false p1)) as [p2 E2]. rewrite E2.
  exists (Window.mk p2 st (flag (Args.start a))). split; [reflexivity|]. cbn [panel].
  refine (eq_trans (auto_min_ops text w post _ _ _ E2) _); [unfold post; destruct (Args.max a); repeat constructor|].
  apply auto_min_setAutoMin.
Qed.

(** ** Restoring the settings a configuration wrote *)

(** Reduce [config_of] through the field updates of a slot. *)
Local Ltac cfg_cbv :=
  cbv [config_of emit with_chart with_flags with_styles with_colors set_ranges set_data set_signals
    set_save_dir set_save_name set_spins Scan.set_cont setContinious set_checks set_min set_max chart
    auto_name grid interval period cont save_dir save_name signals ranges timeData cf_spins cf_cont
    cf_saveDir cf_name cf_signals cf_range cf_flags c_interval c_period c_cont c_saveDir c_saveName
    c_autoName c_signals c_log c_norma c_grid c_autoMin c_autoMax c_min c_max] in *.

Lemma setRanges_values (r : Ranges.t) (d D : double) :
  (Ranges.autoMin r = false -> Ranges.min (Ranges.setRanges r d D) = Ranges.min r) /\
  (Ranges.autoMax r = false -> Ranges.max (Ranges.setRanges r d D) = Ranges.max r).
Proof.
  unfold Ranges.setRanges. destruct (Ranges.bounds r d D) as [m M].
  split; intros H; rewrite H; destruct (_ || _); reflexivity.
Qed.

Lemma cfg_emit (p : Panel.t) : config_of (emit p) = config_of p.
Proof. reflexivity. Qed.

Lemma cfg_prepare (p : Panel.t) : config_of (with_chart preparePlot p) = config_of p.
Proof. unfold preparePlot. cfg_cbv. rewrite map_map. reflexivity. Qed.

Lemma cfg_setInterval (v : Q) (p : Panel.t) :
  exists iv pd, config_of (setInterval_net v p) = cf_spins iv pd (config_of p) /\ (iv == v)%Q.
Proof.
  unfold setInterval_net. cbn [sp_interval sp_period sp_set_interval sp_set_period sp_prepare sp_emit panel_spins].
  destruct (Qeq_bool_spec v (interval (chart p))) as [E|E].
  - exists (interval (chart p)), (period (chart p)). split; [reflexivity|symmetry; exact E].
  - destruct (Qltb _ _); rewrite ?cfg_emit, ?cfg_prepare, ?cfg_emit, ?cfg_prepare; eexists _, _;
      (split; [cfg_cbv; reflexivity|reflexivity]).
Qed.

Lemma cfg_setPeriod (v : Q) (p : Panel.t) :
  exists iv pd, config_of (setPeriod_net v p) = cf_spins iv pd (config_of p) /\ (pd == v)%Q /\
    (Qltb v (c_interval (config_of p) * 2) = false -> iv = c_interval (config_of p)).
Proof.
  unfold setPeriod_net. cbn [sp_interval sp_period sp_set_interval sp_set_period sp_prepare sp_emit panel_spins].
  destruct (Qeq_bool_spec v (period (chart p))) as [E|E].
  - exists (interval (chart p)), (period (chart p)). split; [reflexivity|split; [symmetry; exact E|reflexivity]].
  - destruct (Qltb _ _) eqn:L; rewrite ?cfg_emit, ?cfg_prepare, ?cfg_emit, ?cfg_prepare; eexists _, _;
      (split; [cfg_cbv; reflexivity|split; [reflexivity|]]); [|reflexivity].
    intros L'. cfg_cbv. cbv [set_spins interval] in L. congruence.
Qed.

Lemma cfg_setContinious (b : bool) (p : Panel.t) :
  config_of (setContinious b p) = cf_cont b (config_of p).
Proof. reflexivity. Qed.

Lemma cfg_setSaveName (fs : gmap string entry) (n : string) (p : Panel.t) :
  config_of (setSaveName fs n p) = cf_name (c_autoName (config_of p)) n (config_of p).
Proof.
  unfold setSaveName, setSaveName_slot. destruct (String.eqb_spec n (save_name (chart p))) as [->|_];
    reflexivity.
Qed.

Lemma cfg_setAutoName (fs : gmap string entry) (now : string) (b : bool) (p : Panel.t) :
  exists n, config_of (setAutoName fs now b p) = cf_name b n (config_of p) /\
    (b = false -> n = c_saveName (config_of p)).
Proof.
  unfold setAutoName, setAutoName_slot. destruct (Bool.eqb_spec b (auto_name p)) as [->|_].
  - exists (save_name (chart p)). split; reflexivity.
  - destruct b; [|exists (save_name (chart p)); split; reflexivity].
    destruct (auto_name_for _ _ _) as [n|]; rewrite cfg_emit; [rewrite cfg_setSaveName|];
      eexists; (split; [reflexivity|discriminate]).
Qed.

Lemma cfg_addSignal (text : color) (pv : string) (p : Panel.t) :
  config_of (addSignal text pv p) = cf_signals (c_signals (config_of p) ++ [pv]) (config_of p).
Proof. unfold addSignal. rewrite cfg_emit, cfg_prepare. cfg_cbv. rewrite map_app. reflexivity. Qed.

Lemma cfg_setRanges (p : Panel.t) :
  let c := config_of p in
  exists mn mx, config_of (setRanges p) = cf_range (c_autoMin c) mn (c_autoMax c) mx c /\
    (c_autoMin c = false -> mn = c_min c) /\ (c_autoMax c = false -> mx = c_max c).
Proof.
  unfold setRanges. rewrite cfg_emit. cfg_cbv.
  match goal with |- context [Ranges.setRanges ?r ?d ?D] =>
    destruct (setRanges_checks r d D) as (A1 & A2 & A3 & A4);
    destruct (setRanges_values r d D) as (V1 & V2) end.
  rewrite <- A1, <- A2, A3, A4. eexists _, _. split; [reflexivity|]. rewrite A1, A2. split; assumption.
Qed.

(** [setRanges] after the range widgets were set to [am], [mn0], [aM], [mx0]. *)
Lemma cfg_setRanges_after (q : Panel.t) (c : config) (am aM : bool) (mn0 mx0 : double) :
  config_of q = cf_range am mn0 aM mx0 c ->
  exists mn mx, config_of (setRanges q) = cf_range am mn aM mx c /\
    (am = false -> mn = mn0) /\ (aM = false -> mx = mx0).
Proof.
  intros E. destruct (cfg_setRanges q) as (mn & mx & E' & H1 & H2). rewrite E in E', H1, H2.
  exists mn, mx. split; [rewrite E'; reflexivity|split; assumption].
Qed.

Lemma cfg_setAutoMin (v : bool) (p : Panel.t) :
  let c := config_of p in
  exists mn mx, config_of (setAutoMin v p) = cf_range v mn (c_autoMax c) mx c /\
    (v = false -> mn = c_min c) /\ (c_autoMax c = false -> mx = c_max c).
Proof.
  unfold setAutoMin. destruct (Bool.eqb_spec v (Ranges.autoMin (ranges (chart p)))) as [->|_].
  - exists (c_min (config_of p)), (c_max (config_of p)). split; [reflexivity|split; reflexivity].
  - apply cfg_setRanges_after. reflexivity.
Qed.

Lemma cfg_setAutoMax (v : bool) (p : Panel.t) :
  let c := config_of p in
  exists mn mx, config_of (setAutoMax v p) = cf_range (c_autoMin c) mn v mx c /\
    (c_autoMin c = false -> mn = c_min c) /\ (v = false -> mx = c_max c).
Proof.
  unfold setAutoMax. destruct (Bool.eqb_spec v (Ranges.autoMax (ranges (chart p)))) as [->|_].
  - exists (c_min (config_of p)), (c_max (config_of p)). split; [reflexivity|split; reflexivity].
  - apply cfg_setRanges_after. reflexivity.
Qed.

Lemma cfg_setMin (v : double) (p : Panel.t) :
  let c := config_of p in
  exists mx, config_of (setMin v p) = cf_range false v (c_autoMax c) mx c /\
    (c_autoMax c = false -> mx = c_max c).
Proof.
  cbv zeta. unfold setMin. destruct (cfg_setAutoMin false p) as (mn & mx & E & _ & H2).
  destruct (cfg_setRanges_after (with_chart (set_ranges (set_min v)) (setAutoMin false p)) (config_of p)
              false (c_autoMax (config_of p)) v mx) as (mn' & mx' & E' & H1' & H2').
  { change (config_of (with_chart (set_ranges (set_min v)) ?q)) with
      (cf_range (c_autoMin (config_of q)) v (c_autoMax (config_of q)) (c_max (config_of q)) (config_of q)).
    rewrite E. reflexivity. }
  exists mx'. rewrite E', (H1' eq_refl). split; [reflexivity|]. intros A. rewrite (H2' A). exact (H2 A).
Qed.

Lemma cfg_setMax (v : double) (p : Panel.t) :
  let c := config_of p in
  exists mn, config_of (setMax v p) = cf_range (c_autoMin c) mn false v c /\
    (c_autoMin c = false -> mn = c_min c).
Proof.
  cbv zeta. unfold setMax. destruct (cfg_setAutoMax false p) as (mn & mx & E & H1 & _).
  destruct (cfg_setRanges_after (with_chart (set_ranges (set_max v)) (setAutoMax false p)) (config_of p)
              (c_autoMin (config_of p)) false mn v) as (mn' & mx' & E' & H1' & H2').
  { change (config_of (with_chart (set_ranges (set_max v)) ?q)) with
      (cf_range (c_autoMin (config_of q)) (c_min (config_of q)) (c_autoMax (config_of q)) v (config_of q)).
    rewrite E. reflexivity. }
  exists mn'. rewrite E', (H2' eq_refl). split; [reflexivity|]. intros A. rewrite (H1' A). exact (H1 A).
Qed.

Lemma cfg_setLogarithmic (v : bool) (p : Panel.t) :
  let c := config_of p in config_of (setLogarithmic v p) = cf_flags v (c_norma c) (c_grid c) c.
Proof.
  unfold setLogarithmic. rewrite cfg_emit. destruct (Bool.eqb_spec v (Ranges.logY (ranges (chart p)))) as [->|_].
  - reflexivity.
  - unfold logScale. cfg_cbv. rewrite map_map. reflexivity.
Qed.

Lemma cfg_setNormalized (v : bool) (p : Panel.t) :
  let c := config_of p in
  exists mn mx, config_of (setNormalized v p) =
      cf_range (c_autoMin c) mn (c_autoMax c) mx (cf_flags (c_log c) v (c_grid c) c) /\
    (c_autoMin c = false -> mn = c_min c) /\ (c_autoMax c = false -> mx = c_max c).
Proof.
  unfold setNormalized. destruct (Bool.eqb_spec v (Ranges.norma (ranges (chart p)))) as [->|_].
  - exists (c_min (config_of p)), (c_max (config_of p)). split; [reflexivity|split; reflexivity].
  - unfold setNormalized_slot. apply cfg_setRanges_after. cfg_cbv. rewrite map_map. reflexivity.
Qed.

Lemma cfg_setGridVisible (v : bool) (p : Panel.t) :
  let c := config_of p in config_of (setGridVisible v p) = cf_flags (c_log c) (c_norma c) v c.
Proof. unfold setGridVisible. destruct (Bool.eqb_spec v (grid p)) as [->|_]; reflexivity. Qed.

(** [saveDir] of a directory [saveDir] returned is that directory. *)
Lemma substring_last (x : string) :
  String.substring (String.length x) 1 (x +:+ "/") = "/".
Proof. induction x as [|ch x IH]; [reflexivity|exact IH]. Qed.

Lemma saveDir_slash (x : string) (n : nat) :
  String.length x = S n -> String.substring n 1 x = "/" -> saveDir x = x.
Proof. intros L E. unfold saveDir. rewrite L, E. reflexivity. Qed.

Lemma saveDir_idem (d : string) : saveDir (saveDir d) = saveDir d.
Proof.
  destruct (String.length d) as [|n] eqn:L.
  - assert (D : saveDir d = "/") by (unfold saveDir; rewrite L; reflexivity). rewrite D. reflexivity.
  - destruct (String.eqb_spec (String.substring n 1 d) "/") as [E|E].
    + rewrite (saveDir_slash d n L E). exact (saveDir_slash d n L E).
    + assert (D : saveDir d = d +:+ "/") by (unfold saveDir; rewrite L; destruct (String.eqb_spec (String.substring n 1 d) "/"); easy).
      rewrite D. apply (saveDir_slash _ (String.length d)); [rewrite str_length_app, Nat.add_comm; reflexivity|].
      apply substring_last.
Qed.

Lemma cfg_setSaveDir (fs : gmap string entry) (d : string) (p : Panel.t) :
  config_of (setSaveDir fs d p) = cf_saveDir (saveDir d) (config_of p).
Proof.
  unfold setSaveDir, setSaveDir_slot. destruct (String.eqb_spec d (save_dir (chart p))) as [->|_];
    reflexivity.
Qed.

(** Keys of an array at different indices differ. *)
Lemma array_key_inj (prefix k : string) (i j : nat) :
  array_key prefix i k = array_key prefix j k -> i = j.
Proof.
  unfold array_key. intros H. apply str_app_inv_l, (str_app_inv_l "/") in H.
  apply str_app_inv_r, pretty_N_inj in H. lia.
Qed.

Lemma array_key_size (j : nat) : array_key "detectors" j "detector" <> "detectors/size".
Proof.
  unfold array_key. intros E. apply (f_equal String.length) in E.
  rewrite !str_length_app in E. cbn [String.length] in E. lia.
Qed.

Lemma lookup_write_entries_below (prefix k : string) (i j : nat) (xs : list string) (st : store) :
  j < i -> write_entries prefix k i xs st !! array_key prefix j k = st !! array_key prefix j k.
Proof.
  revert i st. induction xs as [|x xs IH]; intros i st Hj; [reflexivity|]. cbn [write_entries].
  rewrite IH by lia. apply lookup_insert_ne. intros E. apply array_key_inj in E. lia.
Qed.

Lemma lookup_write_entries (prefix k : string) (i j : nat) (xs : list string) (st : store) (x : string) :
  xs !! j = Some x -> write_entries prefix k i xs st !! array_key prefix (i + j) k = Some (VString x).
Proof.
  revert i j st. induction xs as [|y xs IH]; intros i j st H; [discriminate H|]. cbn [write_entries].
  destruct j as [|j]; cbn in H.
  - injection H as ->. rewrite Nat.add_0_r, lookup_write_entries_below by lia. apply lookup_insert_eq.
  - rewrite <- Nat.add_succ_comm. exact (IH (S i) j _ H).
Qed.

(** A list read back index by index. *)
Lemma map_seq_lookup {A} (f : nat -> A) (xs : list A) (s : nat) :
  (forall j x, xs !! j = Some x -> f (s + j) = x) -> map f (seq s (length xs)) = xs.
Proof.
  revert s. induction xs as [|x xs IH]; intros s H; [reflexivity|]. cbn [length seq map].
  rewrite <- (Nat.add_0_r s) at 1. rewrite (H 0 x eq_refl). f_equal.
  apply IH. intros j y Hy. rewrite Nat.add_succ_comm. exact (H (S j) y Hy).
Qed.

(** [restore] reads back the detectors [updateConfiguration] wrote. *)
Lemma read_update (c : config) : read_array "detectors" "detector" (updateConfiguration c) = c_signals c.
Proof.
  unfold read_array. settings_lookup. cbn [toInt]. rewrite Nat2Z.id.
  apply map_seq_lookup. intros j x Hx. cbn [Nat.add].
  unfold updateConfiguration, write_array.
  repeat rewrite lookup_insert_ne by (intros E; symmetry in E; revert E;
    first [apply array_key_d; discriminate | apply array_key_size]).
  rewrite (lookup_write_entries _ _ 0 j _ _ x Hx). reflexivity.
Qed.

(** The scalar settings [updateConfiguration] writes. *)
Lemma update_lookups (c : config) :
  updateConfiguration c !! "interval" = Some (VDouble (Fin (c_interval c))) /\
  updateConfiguration c !! "period" = Some (VDouble (Fin (c_period c))) /\
  updateConfiguration c !! "continue" = Some (VBool (c_cont c)) /\
  updateConfiguration c !! "saveDir" = Some (VString (c_saveDir c)) /\
  updateConfiguration c !! "saveName" = Some (VString (c_saveName c)) /\
  updateConfiguration c !! "autoName" = Some (VBool (c_autoName c)) /\
  updateConfiguration c !! "min" = Some (VDouble (c_min c)) /\
  updateConfiguration c !! "autoMin" = Some (VBool (c_autoMin c)) /\
  updateConfiguration c !! "max" = Some (VDouble (c_max c)) /\
  updateConfiguration c !! "autoMax" = Some (VBool (c_autoMax c)) /\
  updateConfiguration c !! "log" = Some (VBool (c_log c)) /\
  updateConfiguration c !! "norma" = Some (VBool (c_norma c)) /\
  updateConfiguration c !! "grid" = Some (VBool (c_grid c)).
Proof. repeat split; settings_lookup; reflexivity. Qed.

(** The slot calls [restore] makes on the settings a configuration wrote. *)
Lemma restore_update (c : config) :
  restore_ops (updateConfiguration c) = (
  [SetInterval (c_interval c); SetPeriod (c_period c); SetContinious (c_cont c); SetSaveDir (c_saveDir c);
   SetSaveName (c_saveName c); SetAutoName (c_autoName c)] ++ map AddSignal (c_signals c) ++
  [SetMin (c_min c); SetAutoMin (c_autoMin c); SetMax (c_max c); SetAutoMax (c_autoMax c);
   SetLogarithmic (c_log c); SetNormalized (c_norma c); SetGridVisible (c_grid c)])%list.
Proof.
  destruct (update_lookups c) as (L1 & L2 & L3 & L4 & L5 & L6 & L7 & L8 & L9 & L10 & L11 & L12 & L13).
  unfold restore_ops. rewrite read_update. unfold contains.
  rewrite L1, L2, L3, L4, L5, L6, L7, L8, L9, L10, L11, L12, L13. reflexivity.
Qed.

Lemma run_addSignals (text : color) (w : world) (l : list string) (p : Panel.t) :
  exists p', run_ops text (map (pair w) (map AddSignal l)) p = Some p' /\
    config_of p' = cf_signals (c_signals (config_of p) ++ l) (config_of p).
Proof.
  revert p. induction l as [|x l IH]; intros p.
  - exists p. rewrite app_nil_r. split; reflexivity.
  - destruct (IH (addSignal text x p)) as (p' & R & E). exists p'. split; [exact R|].
    rewrite E, cfg_addSignal. cfg_cbv. rewrite <- app_assoc. reflexivity.
Qed.

Lemma signals_create (text : color) (fs : gmap string entry) (home : string) (form : Panel.t) :
  c_signals (config_of (create text fs home form)) = map fst (signals (chart form)).
Proof. unfold create. rewrite cfg_prepare, cfg_setSaveDir, cfg_setGridVisible. reflexivity. Qed.

(** Rewrite [config_of] of the outermost slot call with its lemma. *)
Local Ltac peel :=
  let E := fresh "E" in
  match goal with
  | |- context [config_of (setGridVisible ?v ?p)] => rewrite (cfg_setGridVisible v p) in *
  | |- context [config_of (setNormalized ?v ?p)] =>
      destruct (cfg_setNormalized v p) as (? & ? & E & ? & ?); rewrite E in *; clear E
  | |- context [config_of (setLogarithmic ?v ?p)] => rewrite (cfg_setLogarithmic v p) in *
  | |- context [config_of (setAutoMax ?v ?p)] =>
      destruct (cfg_setAutoMax v p) as (? & ? & E & ? & ?); rewrite E in *; clear E
  | |- context [config_of (setMax ?v ?p)] =>
      destruct (cfg_setMax v p) as (? & E & ?); rewrite E in *; clear E
  | |- context [config_of (setAutoMin ?v ?p)] =>
      destruct (cfg_setAutoMin v p) as (? & ? & E & ? & ?); rewrite E in *; clear E
  | |- context [config_of (setMin ?v ?p)] =>
      destruct (cfg_setMin v p) as (? & E & ?); rewrite E in *; clear E
  | |- context [config_of (setAutoName ?fs ?now ?v ?p)] =>
      destruct (cfg_setAutoName fs now v p) as (? & E & ?); rewrite E in *; clear E
  | |- context [config_of (setSaveName ?fs ?n ?p)] => rewrite (cfg_setSaveName fs n p) in *
  | |- context [config_of (setSaveDir ?fs ?d ?p)] => rewrite (cfg_setSaveDir fs d p) in *
  | |- context [config_of (setContinious ?b ?p)] => rewrite (cfg_setContinious b p) in *
  | |- context [config_of (setPeriod_net ?v ?p)] =>
      destruct (cfg_setPeriod v p) as (? & ? & E & ? & ?); rewrite E in *; clear E
  | |- context [config_of (setInterval_net ?v ?p)] =>
      destruct (cfg_setInterval v p) as (? & ? & E & ?); rewrite E in *; clear E
  end.

(** C4: Settings roundtrip: a window started with no option restores the
    configuration [updateConfiguration] saved, up to [Qeq] on the spin
    boxes.  Two fields come back only conditionally.  The file name is
    restored unless automatic names are on (then a fresh name is picked).
    A manual bound is restored only when its automatic box is off (an
    automatic one is recomputed from the data).  Conditions: the chart of
    the form has no signals yet, and the saved interval is at most half
    the saved period. *)
Theorem settings_roundtrip (text : color) (w : world) (home : string) (form q : Panel.t) :
  signals (chart form) = [] -> (2 * interval (chart q) <= period (chart q))%Q ->
  exists m, construct text w home form no_args (updateConfiguration (config_of q)) = Some (inr m) /\
    restored (config_of (panel m)) (config_of q).
Proof.
  intros Hf Hq. unfold construct.
  change (Args.check no_args) with (@None Args.error). change (Nat.ltb 0 (Args.count no_args)) with false.
  cbv iota beta. rewrite restore_update, !map_app, !run_ops_app.
  cbn [map run_ops apply]. rewrite setInterval_call_net, setPeriod_call_net by (unfold Scan.fuel; lia).
  rewrite run_ops_app.
  match goal with |- context [run_ops text (map (pair w) (map AddSignal ?l)) ?p] =>
    destruct (run_addSignals text w l p) as (p7 & R & E7); rewrite R end.
  cbn [run_ops apply]. eexists. split; [reflexivity|]. cbn [panel].
  repeat peel. rewrite E7 in *. repeat peel.
  pose proof (signals_create text (w_fs w) home form) as S0. rewrite Hf in S0. cbn [map] in S0.
  change (2 * c_interval (config_of q) <= c_period (config_of q))%Q in Hq.
  pose proof (saveDir_idem (save_dir (chart q))) as SD.
  change (saveDir (c_saveDir (config_of q)) = c_saveDir (config_of q)) in SD.
  set (c0 := config_of (create text (w_fs w) home form)) in *. clearbody c0.
  set (cq := config_of q) in *. clearbody cq. clear R E7. unfold restored.
  cbn [cf_spins cf_cont cf_saveDir cf_name cf_signals cf_range cf_flags c_interval c_period c_cont c_saveDir
    c_saveName c_autoName c_signals c_log c_norma c_grid c_autoMin c_autoMax c_min c_max] in *.
  destruct cq as [iv pd ct dir nm an sigs amin mn amax mx lg nma gr]. cbn in *.
  rewrite S0, SD. rewrite H9 by (qcmp; [lra|reflexivity]).
  repeat split; try assumption; intros A; repeat match goal with Hi : _ = false -> _ = _ |- _ =>
    specialize (Hi A) end; congruence.
Qed.

(** ** Witnesses, on the panels of [Panel.PanelDemo] *)

(** A window whose settings file holds the configuration of [panel0]. *)
Local Abbreviation wm := (Window.mk PanelDemo.panel0 (updateConfiguration (config_of PanelDemo.panel0)) false).

(** Only [--interval 0.5] given. *)
Local Abbreviation interval_only :=
  (Args.mk None (Some (1#2)) None None None None None [] None None None None None None None None).

Lemma settings_follow_witness :
  exists m', Window.step PanelDemo.black PanelDemo.world0 (AddSignal "A") wm = Some m' /\ synced m'.
Proof.
  eexists. split; [vm_compute; reflexivity|].
  apply (settings_follow PanelDemo.black PanelDemo.world0 (AddSignal "A") wm);
    [reflexivity|intros b; discriminate|vm_compute; reflexivity].
Defined.

Lemma continuous_not_saved_witness :
  exists m', Window.step PanelDemo.black PanelDemo.world0 (SetContinious true) wm = Some m' /\
    c_cont (config_of (panel m')) = true /\ settings m' !! "continue" = Some (VBool false) /\ ~ synced m'.
Proof.
  eexists. split; [vm_compute; reflexivity|].
  apply (continuous_not_saved PanelDemo.black PanelDemo.world0 true wm);
    [reflexivity|vm_compute; discriminate|vm_compute; reflexivity].
Defined.

Lemma min_not_automatic_witness :
  exists m, construct PanelDemo.black PanelDemo.world0 "/tmp" PanelDemo.form interval_only ∅ = Some (inr m) /\
    auto_min (panel m) = false.
Proof.
  apply (min_not_automatic PanelDemo.black PanelDemo.world0 "/tmp" PanelDemo.form interval_only ∅);
    [reflexivity|vm_compute; lia|reflexivity|reflexivity].
Defined.

Lemma settings_roundtrip_witness :
  exists m, construct PanelDemo.black PanelDemo.world0 "/tmp" PanelDemo.form no_args
      (updateConfiguration (config_of PanelDemo.panel1)) = Some (inr m) /\
    restored (config_of (panel m)) (config_of PanelDemo.panel1).
Proof.
  apply (settings_roundtrip PanelDemo.black PanelDemo.world0 "/tmp" PanelDemo.form PanelDemo.panel1);
    [reflexivity|vm_compute; discriminate].
Defined.

End WindowFacts.

