(* ===== verification/Script.v ===== *)
(** * Script: the [Script] widget and the [ColumnResizer] of [src/lib/script.cpp]

    [Script] runs the text of its path field as a shell script: [evaluate]
    (run by [textChanged]) copies the text into the temporary file
    [fileExec] and checks it with [/bin/sh -n]; [start] runs
    [/bin/sh fileExec]; [onState] (run by [stateChanged]) enables the
    widgets, labels the button and emits [started] or [finished];
    [execute] starts and waits for the end with [waitStop].  The process
    is modelled by its state ([QProcess::ProcessState]), the script it
    runs and its last exit code; what the shell does is the environment:
    [syntax_ok] is the verdict of [sh -n], [outcome] the exit code of a
    run ([None]: the process fails to start).

    [ColumnResizer] keeps a list of widgets and of grid columns and sets
    every column's minimum width to the widest size hint. *)

From Stdlib Require Import ZArith String Bool Lia.
From stdpp Require Import base list.
From S2P Require Import Prelude.

Open Scope string_scope.

Module Script.

(** [QProcess::ProcessState]. *)
Inductive pstate := NotRunning | Starting | Running.

(** The signals [Script] emits. *)
Inductive signal := Started | Finished (code : Z).

Record t := mk {
  path : string;         (* ui->path->text() *)
  file_open : bool;      (* fileExec.isOpen() *)
  file : string;         (* what fileExec holds *)
  proc : pstate;         (* proc.state() *)
  command : string;      (* the script the process was started on *)
  exit_code : Z;         (* proc.exitCode() *)
  path_bad : bool;       (* ui->path drawn red *)
  exec_bad : bool;       (* ui->execute drawn red *)
  enabled : bool;        (* ui->browse and ui->path enabled *)
  exec_label : string;   (* ui->execute->text() *)
  emitted : list signal  (* newest first *)
}.

(** [isRunning()]: [proc.pid()] is not 0 once the process was forked. *)
Definition isRunning (s : t) : bool :=
  match proc s with NotRunning => false | _ => true end.

Definition set_proc (st : pstate) (s : t) : t :=
  mk (path s) (file_open s) (file s) st (command s) (exit_code s) (path_bad s) (exec_bad s)
     (enabled s) (exec_label s) (emitted s).

Section Shell.

(** The exit code of [/bin/sh -n] on a script is 0. *)
Variable syntax_ok : string -> bool.

(** [Script::Script]: the temporary file opens or not; the form leaves
    the path empty, the widgets enabled and the button labelled
    [Execute]. *)
Definition create (opened : bool) : t :=
  mk "" opened "" NotRunning "" 0 false false true "Execute" [].

(** [Script::onState]. *)
Definition onState (st : pstate) (s : t) : t :=
  let idle := match st with NotRunning => true | _ => false end in
  let s1 := mk (path s) (file_open s) (file s) (proc s) (command s) (exit_code s) (path_bad s)
              (if idle then negb (Z.eqb (exit_code s) 0) else exec_bad s) idle
              (if idle then "Execute" else "Stop") (emitted s) in
  match st with
  | NotRunning => mk (path s1) (file_open s1) (file s1) (proc s1) (command s1) (exit_code s1)
                    (path_bad s1) (exec_bad s1) (enabled s1) (exec_label s1) (Finished (exit_code s) :: emitted s1)
  | Running => mk (path s1) (file_open s1) (file s1) (proc s1) (command s1) (exit_code s1)
                 (path_bad s1) (exec_bad s1) (enabled s1) (exec_label s1) (Started :: emitted s1)
  | Starting => s1
  end.

(** A change of the process state, with the [stateChanged] slot. *)
Definition change (st : pstate) (s : t) : t := onState st (set_proc st s).

(** [Script::evaluate]: nothing while the file is closed or the script
    runs; otherwise the file gets the path's text and the path is drawn
    red when [sh -n] fails. *)
Definition evaluate (s : t) : t :=
  if negb (file_open s) || isRunning s then s
  else mk (path s) (file_open s) (path s) (proc s) (command s) (exit_code s)
          (negb (syntax_ok (path s))) false (enabled s) (exec_label s) (emitted s).

(** [ui->path->setText]: [textChanged], hence [evaluate], only when the
    text changes.  [setPath] and [browse] (the dialog's answer [p]) call
    it. *)
Definition setText (p : string) (s : t) : t :=
  if String.eqb p (path s) then s
  else evaluate (mk p (file_open s) (file s) (proc s) (command s) (exit_code s) (path_bad s)
                   (exec_bad s) (enabled s) (exec_label s) (emitted s)).
Definition setPath (p : string) (s : t) : t := setText p s.
Definition browse (p : string) (s : t) : t := setText p s.

(** [Script::start]: [false] when the file is closed or a process runs,
    [true] without a process when the path is empty, else
    [proc.start("/bin/sh " + fileExec.fileName())] on what the file
    holds: the process is forked ([Starting]) and [isRunning()] is true. *)
Definition start (s : t) : bool * t :=
  if negb (file_open s) || isRunning s then (false, s)
  else if String.eqb (path s) "" then (true, s)
  else
    let s1 := mk (path s) (file_open s) (file s) (proc s) (file s) (exit_code s) (path_bad s)
                 (exec_bad s) (enabled s) (exec_label s) (emitted s) in
    (true, change Starting s1).

(** [Script::stop] asks the process to die; the end comes as an event. *)
Definition stop (s : t) : t := s.

(** [Script::onStartStop], the button. *)
Definition onStartStop (s : t) : t := if isRunning s then stop s else snd (start s).

(** The end of the process: it started and ran to exit code [c], or it
    failed to start. *)
Definition proc_running (s : t) : option t :=
  match proc s with Starting => Some (change Running s) | _ => None end.
Definition proc_finished (c : Z) (s : t) : option t :=
  match proc s with
  | Running => Some (change NotRunning (mk (path s) (file_open s) (file s) (proc s) (command s) c
                                           (path_bad s) (exec_bad s) (enabled s) (exec_label s) (emitted s)))
  | _ => None
  end.
Definition proc_failed (s : t) : option t :=
  match proc s with Starting => Some (change NotRunning s) | _ => None end.

(** The events of a [Script]. *)
Inductive event :=
  | SetPath (p : string) | Browse (p : string) | Start | StartStop | Stop
  | ProcRunning | ProcFinished (c : Z) | ProcFailed.

Definition step (e : event) (s : t) : option t :=
  match e with
  | SetPath p => Some (setPath p s)
  | Browse p => Some (browse p s)
  | Start => Some (snd (start s))
  | StartStop => Some (onStartStop s)
  | Stop => Some (stop s)
  | ProcRunning => proc_running s
  | ProcFinished c => proc_finished c s
  | ProcFailed => proc_failed s
  end.

Inductive reachable (s0 : t) : t -> Prop :=
  | reach_init : reachable s0 s0
  | reach_step e s s' : reachable s0 s -> step e s = Some s' -> reachable s0 s'.

(** [outcome cmd]: the exit code of [/bin/sh] on [cmd], or [None] when
    the process fails to start. *)
Variable outcome : string -> option Z.

(** [Script::waitStop]: an event loop quit by [finished(int)] runs while
    the process runs, then [proc.exitCode()].  A process that fails to
    start never emits [finished]: the loop never quits ([None]). *)
Definition waitStop (s : t) : option (Z * t) :=
  if isRunning s then
    match proc_running s, outcome (command s) with
    | Some s1, Some c =>
        match proc_finished c s1 with Some s2 => Some (exit_code s2, s2) | None => None end
    | _, _ => None
    end
  else Some (exit_code s, s).

(** [Script::execute]: [start() ? waitStop() : -1]. *)
Definition execute (s : t) : option (Z * t) :=
  let (ok, s1) := start s in if ok then waitStop s1 else Some ((-1)%Z, s1).

End Shell.

End Script.

Module ColumnResizer.
Local Open Scope list_scope.

(** The widgets and grid layouts are named by numbers; [hint w] is
    [w->sizeHint().width()], [rows l] is [l->rowCount()] and [cell l r c]
    the item at [(r, c)] ([None]: no item, [Some None]: an item without
    widget). *)
Record t := mk { widgets : list nat; columns : list (nat * nat); pending : bool }.

Section Layouts.
Variable hint : nat -> Z.
Variable rows : nat -> nat.
Variable cell : nat -> nat -> nat -> option (option nat).

(** [ColumnResizer::addWidget]: the widget is appended and an update
    scheduled (the single-shot timer). *)
Definition addWidget (w : nat) (r : t) : t := mk (widgets r ++ [w]) (columns r) true.

(** [ColumnResizer::addWidgetsFromGridLayout]. *)
Fixpoint add_rows (l col : nat) (rs : list nat) (r : t) : t :=
  match rs with
  | [] => r
  | row :: rs' =>
      match cell l row col with
      | Some (Some w) => add_rows l col rs' (addWidget w r)
      | _ => add_rows l col rs' r
      end
  end.
Definition addWidgetsFromGridLayout (l col : nat) (r : t) : t :=
  let r1 := add_rows l col (seq 0 (rows l)) r in
  mk (widgets r1) (columns r1 ++ [(l, col)]) (pending r1).

(** [ColumnResizer::updateWidth]: the widest hint (0 without widgets)
    and the [setColumnMinimumWidth] calls it makes. *)
Definition width (r : t) : Z := fold_left (fun acc w => Z.max (hint w) acc) (widgets r) 0%Z.
Definition updateWidth (r : t) : list ((nat * nat) * Z) := map (fun g => (g, width r)) (columns r).

(** [ColumnResizer::eventFilter] on a [Resize] event, and the timer. *)
Definition resized (r : t) : t := mk (widgets r) (columns r) true.
Definition timeout (r : t) : option (list ((nat * nat) * Z)) * t :=
  if pending r then (Some (updateWidth r), mk (widgets r) (columns r) false) else (None, r).

End Layouts.

End ColumnResizer.

(** ** The widgets follow the process *)

Module ScriptFacts.
Import Script.

(** The button and the path field as [onState] leaves them. *)
Definition ui_inv (s : t) : Prop :=
  enabled s = negb (isRunning s) /\ exec_label s = (if isRunning s then "Stop" else "Execute").

Section Facts.
Variable syntax_ok : string -> bool.

Lemma change_ui (st : pstate) (s : t) : ui_inv (change st s).
Proof. unfold ui_inv, change. destruct st; split; reflexivity. Qed.

Lemma change_file (st : pstate) (s : t) :
  path (change st s) = path s /\ file (change st s) = file s /\ file_open (change st s) = file_open s /\
  command (change st s) = command s /\ exit_code (change st s) = exit_code s /\ proc (change st s) = st.
Proof. destruct st; repeat split. Qed.

Lemma evaluate_ui (s : t) : ui_inv (evaluate syntax_ok s) <-> ui_inv s.
Proof. unfold evaluate. destruct (_ || _); reflexivity. Qed.

Lemma setText_ui (p : string) (s : t) : ui_inv s -> ui_inv (setText syntax_ok p s).
Proof. intros H. unfold setText. destruct (String.eqb p (path s)); [exact H|]. apply evaluate_ui, H. Qed.

Lemma start_ui (s : t) : ui_inv s -> ui_inv (snd (start s)).
Proof.
  intros H. unfold start. destruct (_ || _); [exact H|]. destruct (String.eqb _ _); [exact H|].
  apply change_ui.
Qed.

Lemma step_ui (e : event) (s s' : t) : ui_inv s -> step syntax_ok e s = Some s' -> ui_inv s'.
Proof.
  intros H E. destruct e; cbn [step] in E; try (injection E as <-).
  - apply setText_ui, H.
  - apply setText_ui, H.
  - apply start_ui, H.
  - unfold onStartStop. destruct (isRunning s); [exact H|]. apply start_ui, H.
  - exact H.
  - unfold proc_running in E. destruct (proc s); try discriminate E. injection E as <-.
    split; reflexivity.
  - unfold proc_finished in E. destruct (proc s); try discriminate E. injection E as <-.
    split; reflexivity.
  - unfold proc_failed in E. destruct (proc s); try discriminate E. injection E as <-.
    split; reflexivity.
Qed.

(** C19: In every state a [Script] reaches from its constructor, the
    browse button and the path field are enabled exactly when no process
    runs, and the execute button reads [Stop] while one runs and
    [Execute] otherwise. *)
Theorem reachable_ui (opened : bool) (s : t) :
  reachable syntax_ok (create opened) s -> ui_inv s.
Proof.
  induction 1 as [|e s s' _ IH E]; [split; reflexivity|]. exact (step_ui e s s' IH E).
Qed.

(** C37: A path set while the script runs never reaches the temporary
    file: [evaluate] returns at once while [isRunning()], and nothing
    runs it again when the process ends.  After [setPath(p)] during a
    run and the end of that run, the path field shows [p] but [start()]
    runs the file's old script. *)
Theorem stale_script (s : t) (p : string) (c : Z) :
  proc s = Running -> file_open s = true -> p <> path s -> p <> "" ->
  exists s2, proc_finished c (setPath syntax_ok p s) = Some s2 /\ path s2 = p /\ file s2 = file s /\
    let (ok, s3) := start s2 in ok = true /\ proc s3 = Starting /\ command s3 = file s.
Proof.
  intros R O D N. unfold setPath, setText. rewrite (proj2 (String.eqb_neq _ _) D).
  unfold evaluate, isRunning. cbn [file_open proc]. rewrite R, O. cbn [negb orb].
  unfold proc_finished. cbn [proc]. eexists. split; [reflexivity|].
  split; [reflexivity|split; [reflexivity|]]. unfold start, isRunning. cbn.
  rewrite (proj2 (String.eqb_neq _ _) N). split; [reflexivity|split; reflexivity].
Qed.

End Facts.

Section Execute.
Variable outcome : string -> option Z.

(** C39: [execute()] on an empty path starts nothing ([start()] returns
    [true] at once) and returns [proc.exitCode()], the exit code of the
    previous run, as if a script had run. *)
Theorem execute_empty_path (s : t) :
  file_open s = true -> isRunning s = false -> path s = "" -> execute outcome s = Some (exit_code s, s).
Proof.
  intros O R P. unfold execute, start. rewrite O, R, P. cbn [negb orb String.eqb].
  unfold waitStop. rewrite R. reflexivity.
Qed.

(** C38: [execute()] returns unless it starts a process that fails to
    start: [waitStop] waits for [finished(int)], which such a process
    never emits, so the call never returns exactly when the file is
    open, nothing runs, the path is not empty and the script cannot be
    started. *)
Theorem execute_hangs (s : t) :
  execute outcome s = None <->
  file_open s = true /\ isRunning s = false /\ path s <> "" /\ outcome (file s) = None.
Proof.
  unfold execute, start. destruct (file_open s), (isRunning s) eqn:R; cbn [negb orb];
    try (split; [intros H; discriminate H|intros (H & H' & _); discriminate]).
  destruct (String.eqb_spec (path s) "") as [P|P].
  - unfold waitStop. rewrite R. split; [intros H; discriminate H|intros (_ & _ & P' & _); contradiction].
  - unfold waitStop. cbn. destruct (outcome (file s)) as [c|]; cbn.
    + split; [intros H; discriminate H|intros (_ & _ & _ & H); discriminate].
    + split; [intros _; repeat split; assumption|reflexivity].
Qed.

End Execute.

(** ** Witnesses *)

(** A shell that accepts every script and runs every non-empty one to
    exit code 0. *)
Local Abbreviation sh_ok := (fun _ : string => true).
Local Abbreviation sh_run := (fun cmd : string => if String.eqb cmd "" then None else Some 0%Z).

(** A run of [echo a] while the path field already shows [echo b]. *)
Local Abbreviation s_run :=
  (mk "echo b" true "echo a" Running "echo a" 0 false false false "Stop" [Started]).

(** The state after a run of [false]: exit code 1, path cleared. *)
Local Abbreviation s_done :=
  (mk "" true "false" NotRunning "false" 1 false true true "Execute" [Finished 1; Started]).

Lemma reachable_ui_witness : ui_inv (setPath sh_ok "echo a" (create true)).
Proof.
  apply (reachable_ui sh_ok true). apply (reach_step sh_ok _ (SetPath "echo a") (create true)).
  - apply reach_init.
  - reflexivity.
Defined.

Lemma stale_script_witness :
  exists s2, proc_finished 3 (setPath sh_ok "echo c" s_run) = Some s2 /\ path s2 = "echo c" /\
    file s2 = "echo a" /\
    let (ok, s3) := start s2 in ok = true /\ proc s3 = Starting /\ command s3 = "echo a".
Proof. apply (stale_script sh_ok s_run "echo c" 3); [reflexivity|reflexivity|discriminate|discriminate]. Defined.

Lemma execute_empty_path_witness : execute sh_run s_done = Some (1%Z, s_done).
Proof. apply (execute_empty_path sh_run s_done); reflexivity. Defined.

End ScriptFacts.

(** ** The column width *)

Module ColumnResizerFacts.
Import ColumnResizer.
Local Open Scope list_scope.

Section Facts.
Variable hint : nat -> Z.
Variable rows : nat -> nat.
Variable cell : nat -> nat -> nat -> option (option nat).
Local Open Scope Z_scope.

(** The widgets of column [col] of layout [l], rows [rs] in order. *)
Definition column_widgets (l col : nat) (rs : list nat) : list nat :=
  flat_map (fun row => match cell l row col with Some (Some w) => [w] | _ => [] end) rs.

Lemma add_rows_widgets (l col : nat) (rs : list nat) (r : t) :
  widgets (add_rows cell l col rs r) = widgets r ++ column_widgets l col rs /\
  columns (add_rows cell l col rs r) = columns r.
Proof.
  revert r. induction rs as [|row rs IH]; intros r; cbn [add_rows column_widgets flat_map].
  - rewrite app_nil_r. split; reflexivity.
  - destruct (cell l row col) as [[w|]|]; rewrite (proj1 (IH _)), (proj2 (IH _)); cbn;
      (split; [unfold column_widgets; rewrite <- ?app_assoc; reflexivity|reflexivity]).
Qed.

Lemma fold_max_spec (ws : list nat) (acc : Z) :
  let m := fold_left (fun a w => Z.max (hint w) a) ws acc in
  acc <= m /\ (forall w, In w ws -> hint w <= m) /\ (m = acc \/ exists w, In w ws /\ m = hint w).
Proof.
  revert acc. induction ws as [|w ws IH]; intros acc; cbn zeta; cbn [fold_left].
  - split; [lia|split; [intros ? []|left; reflexivity]].
  - destruct (IH (Z.max (hint w) acc)) as (H1 & H2 & H3). split; [lia|split].
    + intros v [<-|Hv]; [lia|exact (H2 v Hv)].
    + destruct H3 as [E|(v & Hv & E)].
      * destruct (Z.max_spec (hint w) acc) as [[_ M]|[_ M]];
          [left; rewrite E; exact M|right; exists w; split; [left; reflexivity|rewrite E; exact M]].
      * right. exists v. split; [right; exact Hv|exact E].
Qed.

(** [addWidgetsFromGridLayout(l, col)] appends the widgets of the
    column's cells, row by row, skipping empty cells and items without
    a widget, and registers the column; once the timer fires, every
    registered column gets as minimum width the widest size hint of all
    widgets (0 without widgets), so no widget is narrower than its
    column's minimum. *)
Theorem resizer_columns (l col : nat) (r : t) :
  let r1 := addWidgetsFromGridLayout rows cell l col r in
  widgets r1 = widgets r ++ column_widgets l col (seq 0 (rows l)) /\
  columns r1 = columns r ++ [(l, col)] /\
  forall g x, In (g, x) (updateWidth hint r1) ->
    In g (columns r1) /\ (forall w, In w (widgets r1) -> hint w <= x) /\
    (x = 0 \/ exists w, In w (widgets r1) /\ x = hint w).
Proof.
  cbv zeta. unfold addWidgetsFromGridLayout. cbn [widgets columns].
  destruct (add_rows_widgets l col (seq 0 (rows l)) r) as [W C]. rewrite W, C.
  split; [reflexivity|split; [reflexivity|]].
  intros g x Hg. unfold updateWidth in Hg. apply in_map_iff in Hg as (g' & E & Hg'). injection E as <- <-.
  split; [exact Hg'|]. cbn [widgets]. destruct (fold_max_spec (widgets r ++ column_widgets l col (seq 0 (rows l))) 0)
    as (_ & H2 & H3). exact (conj H2 H3).
Qed.

End Facts.

(** A layout of three rows whose row 1 is empty; the widget of row [r]
    is [r + 10], as wide as its number. *)
Lemma resizer_columns_witness :
  let r1 := addWidgetsFromGridLayout (fun _ => 3) (fun _ r _ => if Nat.eqb r 1 then None else Some (Some (r + 10)))
              0 1 (mk [] [] false) in
  widgets r1 = [10; 12] /\ columns r1 = [(0, 1)] /\
  forall g x, In (g, x) (updateWidth (fun w => Z.of_nat w) r1) ->
    In g (columns r1) /\ (forall w, In w (widgets r1) -> (Z.of_nat w <= x)%Z) /\
    (x = 0%Z \/ exists w, In w (widgets r1) /\ x = Z.of_nat w).
Proof.
  exact (resizer_columns (fun w => Z.of_nat w) (fun _ => 3)
           (fun _ r _ => if Nat.eqb r 1 then None else Some (Some (r + 10))) 0 1 (mk [] [] false)).
Defined.

End ColumnResizerFacts.
