(* ===== verification/Legacy.v ===== *)
(** * Legacy: the older [QChartMX] of [src/qchartmx.cpp]

    [src/qchartmx.cpp] is the earlier, single-window version of the chart
    that [src/lib/timescan.cpp] replaced.  Its [Signal] keeps public
    [min]/[max] members, reads the PV without a connection test and has
    [prep(double)]/[prep()] for the normalised values;
    [Signal::preparePlot(norma, log)] recomputes the extrema with
    [blitz::min]/[blitz::max] before [prep()], and [resetData] goes
    through it.  The chart rebuilds the axis in [updateTimes] when the
    spin boxes are edited, and picks the data file in [prepareAutoSave].

    [LSignal] models the legacy signal and relates it to the library's
    [Channel.Signal]; [LChart] models [updateTimes] and
    [prepareAutoSave] over the file system of [Panel]. *)

From Stdlib Require Import QArith Qround ZArith String Bool Lia Lqa.
From stdpp Require Import base list gmap strings.
From S2P Require Import Prelude Double Blitz Channel TimeAxis ScanDriver Panel.

Module LSignal.

(** The members of the legacy [QChartMX::Signal] the engine uses. *)
Record t := mk {
  min : double;
  max : double;
  data : Line;
  normal_data : Line;
  normalized : bool;
  logscaled : bool
}.

Definition with_normal_data (s : t) (nd : Line) : t :=
  mk (min s) (max s) (data s) nd (normalized s) (logscaled s).

(** [Signal::prep(double value)]. *)
Definition prep_value (value : double) (s : t) : double :=
  if logscaled s then
    let norma := qMax (qAbs (min s)) (qAbs (max s)) in
    if deq norma (Fin 0) then value else ddiv value norma
  else if deq (max s) (min s) then (if deq (max s) (Fin 0) then Fin 0 else Fin 1)
  else ddiv (dsub value (min s)) (dsub (max s) (min s)).

(** [Signal::prep()]. *)
Definition prep (s : t) : t :=
  if logscaled s then
    let norma := qMax (qAbs (min s)) (qAbs (max s)) in
    if dne norma (Fin 0) then with_normal_data s (map (fun x => ddiv x norma) (data s)) else s
  else if deq (max s) (min s) then
    with_normal_data s (line_assign (if deq (max s) (Fin 0) then Fin 0 else Fin 1) (normal_data s))
  else with_normal_data s (map (fun x => ddiv (dsub x (min s)) (dsub (max s) (min s))) (data s)).

(** [Signal::get]: [value = pv->get().toDouble()], [points =
    xData->size()]; [None] is an out-of-range array access. *)
Definition get (value : double) (points : nat) (s : t) : option (t * double) :=
  match shift points value (data s) with
  | None => None
  | Some (deleted_value, d) =>
      let oldMin := min s in
      let oldMax := max s in
      let mn1 := if negb (isnan deleted_value) && dle deleted_value oldMin then blitz_min d else oldMin in
      let mx1 := if negb (isnan deleted_value) && dle oldMax deleted_value then blitz_max d else oldMax in
      let mn := if isnan mn1 || dlt value mn1 then value else mn1 in
      let mx := if isnan mx1 || dlt mx1 value then value else mx1 in
      let s1 := mk mn mx d (normal_data s) (normalized s) (logscaled s) in
      if normalized s then
        if dne mn oldMin || dne mx oldMax then Some (prep s1, value)
        else
          match shift points (prep_value value s1) (normal_data s) with
          | Some (_, nd) => Some (with_normal_data s1 nd, value)
          | None => None
          end
      else Some (s1, value)
  end.

(** [Signal::preparePlot(norma, log)]: the flags, the extrema of the
    buffer, then [prep()]; [curve->setRawData] is display. *)
Definition preparePlot (norma log : bool) (s : t) : t :=
  prep (mk (blitz_min (data s)) (blitz_max (data s)) (data s) (normal_data s) norma log).

(** [Signal::resetData(norm, log)]. *)
Definition resetData (norm log : bool) (points : nat) (s : t) : t :=
  preparePlot norm log (mk NaN NaN (line_fill points NaN) (line_fill points NaN) (normalized s) (logscaled s)).

(** The legacy view of a library signal: the same members without the
    curve size. *)
Definition of_signal (s : Signal.t) : t :=
  mk (Signal._min s) (Signal._max s) (Signal.data s) (Signal.normal_data s) (Signal.normalized s)
     (Signal.logscaled s).

End LSignal.

Module LChart.
Local Open Scope string_scope.

(** [QChartMX::updateTimes], run by [editingFinished] of either spin box
    ([from_interval]: the sender is [ui->interval]): fewer than two
    points move the other box; then [preparePlot]. *)
Definition updateTimes (from_interval : bool) (iv pd : Q) : Q * Q :=
  if Z.ltb (Axis.points_of pd iv) 2 then
    (if from_interval then (iv, 2 * iv)%Q else (pd / 2, pd)%Q)
  else (iv, pd).

(** [QChartMX::prepareAutoSave]: ["/dev/null"] without automatic name
    and file name; otherwise the directory with a trailing slash, a fresh
    [time_scan_<now>] name written into [ui->saveName] when the box is
    checked (the [textChanged] it emits runs [prepareAutoSave] again,
    which finds the same name and changes only the styles), and the path
    when directory and file are usable, [""] when not.  The second
    component is [ui->saveName]'s text afterwards. *)
Definition prepareAutoSave (fs : gmap string Panel.entry) (now : string) (auto : bool) (dir name : string)
    : string * string :=
  if negb auto && String.eqb name "" then ("/dev/null", name)
  else
    let dn := Driver.saveDir dir in
    let dirOK := Panel.exists_ fs dn && Panel.writable_ fs dn in
    let name' := if auto then default name (Panel.auto_name_for fs now dn) else name in
    let f := dn +:+ name' in
    let fileOK := negb (Panel.exists_ fs f) || (negb (Panel.is_dir_ fs f) && Panel.writable_ fs f) in
    (if dirOK && fileOK then f else "", name').

End LChart.

(** ** The legacy signal and the library signal *)

Module LegacyFacts.
Import LSignal.

Lemma update_min_legacy (value m : double) :
  (if isnan m || dlt value m then value else m) = Signal.update_min value m.
Proof. unfold Signal.update_min. destruct value, m; reflexivity. Qed.

Lemma update_max_legacy (value m : double) :
  (if isnan m || dlt m value then value else m) = Signal.update_max value m.
Proof. unfold Signal.update_max. destruct value, m; reflexivity. Qed.

Lemma prep_of_signal (s : Signal.t) : prep (of_signal s) = of_signal (Signal.preparePlot s).
Proof.
  destruct s as [mn mx d nd nz lg cs].
  unfold prep, Signal.preparePlot, Signal.norma, of_signal. cbn.
  destruct lg; [destruct (dne _ _)|destruct (deq _ _)]; reflexivity.
Qed.

(** C18: On a connected PV the library's [Signal::get] computes what the
    legacy one computes: the same buffer, the same extrema and the same
    normalised buffer (the library adds the [!isnan(value)] test to the
    update of the extrema, which changes nothing, and the curve size),
    and the same out-of-range failures. *)
Theorem get_refines (v : double) (points : nat) (s : Signal.t) :
  option_map (fun r => (of_signal r.1, r.2)) (Signal.get true v points s) = get v points (of_signal s).
Proof.
  unfold Signal.get, get. cbn [of_signal data min max normalized logscaled normal_data].
  destruct (shift points v (Signal.data s)) as [[dl d]|]; [|reflexivity].
  unfold Signal.track_min, Signal.track_max, Signal.rescan_min, Signal.rescan_max.
  rewrite update_min_legacy, update_max_legacy.
  destruct (Signal.normalized s); [|reflexivity].
  destruct (_ || _).
  - cbn. match goal with |- context [Signal.preparePlot ?S1] =>
      transitivity (Some (prep (of_signal S1), v)); [rewrite prep_of_signal; reflexivity|reflexivity] end.
  - unfold prep_value, Signal.norm_value, Signal.norma. cbn.
    destruct (shift points _ (Signal.normal_data s)) as [[? nd]|]; reflexivity.
Qed.

Lemma prep_extrema (s : t) : min (prep s) = min s /\ max (prep s) = max s.
Proof. unfold prep. destruct (logscaled s); [destruct (dne _ _)|destruct (deq _ _)]; split; reflexivity. Qed.

Lemma blitz_extrema_nan (n : nat) : blitz_min (line_fill n NaN) = huge /\ blitz_max (line_fill n NaN) = neghuge.
Proof.
  unfold blitz_min, blitz_max, line_fill. induction n as [|n [IH1 IH2]]; [split; reflexivity|].
  cbn [replicate fold_left]. split; [exact IH1|exact IH2].
Qed.

(** After [resetData] the legacy signal's extrema are [DBL_MAX] and
    [-DBL_MAX], what [blitz::min]/[blitz::max] return on a buffer of
    NaNs, where the library's [resetData] leaves them NaN: until the
    first defined sample, the legacy [QChartMX::min()] sees a minimum of
    [DBL_MAX]. *)
Theorem resetData_extrema (norm log : bool) (points : nat) (s : t) (s' : Signal.t) :
  min (resetData norm log points s) = huge /\ max (resetData norm log points s) = neghuge /\
  Signal._min (Signal.resetData points s') = NaN /\ Signal._max (Signal.resetData points s') = NaN.
Proof.
  unfold resetData, preparePlot. rewrite (proj1 (prep_extrema _)), (proj2 (prep_extrema _)). cbn [min max data].
  destruct (blitz_extrema_nan points) as [-> ->]. split; [reflexivity|split; [reflexivity|]].
  unfold Signal.resetData. cbn [Signal._min Signal._max].
  destruct (Signal.preparePlot_fields (Signal.mk NaN NaN (line_fill points NaN) (line_fill points NaN)
              (Signal.normalized s') (Signal.logscaled s') (Signal.curve_size s'))) as (-> & -> & _).
  split; reflexivity.
Qed.

End LegacyFacts.

Module LChartFacts.
Import LChart.
Local Open Scope string_scope.

(** [int points = period/interval] is 2 for a quotient equal to 2. *)
Lemma trunc_two (q : Q) : (q == 2)%Q -> Axis.trunc q = 2%Z.
Proof.
  intros E. unfold Axis.trunc. replace (Qle_bool 0 q) with true by (symmetry; apply Qle_bool_iff; lra).
  rewrite (Qfloor_comp q 2 E). reflexivity.
Qed.

(** After [updateTimes] the window has at least two points, whichever
    spin box was edited: a period below two intervals becomes two
    intervals, or an interval above half the period becomes half of it. *)
Theorem updateTimes_points (from_interval : bool) (iv pd : Q) :
  (0 < iv)%Q -> (0 < pd)%Q ->
  let (iv', pd') := updateTimes from_interval iv pd in
  (2 <= Axis.points_of pd' iv')%Z /\ (0 < iv')%Q /\ (0 < pd')%Q.
Proof.
  intros Hi Hp. unfold updateTimes. destruct (Z.ltb_spec (Axis.points_of pd iv) 2) as [L|L].
  - unfold Axis.points_of. destruct from_interval.
    + rewrite trunc_two by (field; lra). split; [lia|split; lra].
    + rewrite trunc_two by (field; lra). split; [lia|split; [|exact Hp]].
      apply Qlt_shift_div_l; lra.
  - split; [exact L|split; assumption].
Qed.

(** With the automatic name checked and a writable directory, the
    legacy [prepareAutoSave] (run by every [startStop] that starts a
    scan) returns a file in that directory that does not exist yet, and
    writes its name into [ui->saveName]: a new scan never truncates the
    data file of an earlier one. *)
Theorem prepareAutoSave_fresh (fs : gmap string Panel.entry) (now dir name : string) :
  Panel.exists_ fs (Driver.saveDir dir) = true -> Panel.writable_ fs (Driver.saveDir dir) = true ->
  exists n, prepareAutoSave fs now true dir name = (Driver.saveDir dir +:+ n, n) /\
    Panel.exists_ fs (Driver.saveDir dir +:+ n) = false.
Proof.
  intros De Dw. unfold prepareAutoSave. cbn [negb andb].
  destruct (Panel.auto_name_for fs now (Driver.saveDir dir)) as [n|] eqn:E;
    [|exfalso; exact (PanelFacts.auto_name_for_some fs now _ E)].
  pose proof (PanelFacts.name_loop_fresh _ _ _ _ _ _ _ _ E) as F.
  exists n. cbn [default from_option]. unfold id. rewrite De, Dw, F. split; reflexivity.
Qed.

(** ** Witnesses *)

Lemma updateTimes_points_witness :
  let (iv', pd') := updateTimes true 1 1 in (2 <= Axis.points_of pd' iv')%Z /\ (0 < iv')%Q /\ (0 < pd')%Q.
Proof. apply (updateTimes_points true 1 1); reflexivity. Defined.

(** The directory [/tmp/] already holds the file of 12:00:00: the name
    gets the suffix [_(1)]. *)
Local Abbreviation fs_tmp := (<["/tmp/" := Panel.mkEntry true true]> PanelDemo.fs).

Lemma prepareAutoSave_fresh_witness :
  exists n, prepareAutoSave fs_tmp "2026-11-09_12-00-00" true "/tmp" "" = (Driver.saveDir "/tmp" +:+ n, n) /\
    Panel.exists_ fs_tmp (Driver.saveDir "/tmp" +:+ n) = false.
Proof. apply prepareAutoSave_fresh; vm_compute; reflexivity. Defined.

End LChartFacts.
