(* ===== verification/PanelLife.v ===== *)
(** * PanelLife: the end of a [QChartMX] and its static lists

    [src/lib/timescan.cpp]: the destructor [QChartMX::~QChartMX]
    ([delete ui; delete timer;] then, with the signals blocked,
    [removeSignal(signalsE.at(0)->pv())] until no signal is left), and the
    static initialisers [initQti] (the output of [command -v qtiplot]
    without its last character) and [initDetectors] (the lines of
    [/etc/listOfSignals.txt], each without its newline).

    [delete ui] frees the [Ui::TimeScan] object; [removeSignal] reads
    [ui->dataTable] and [ui->signalsL] once it has found a signal, so the
    model ends the loop in [UseAfterFree] there.  The destructor is not
    run by a signal, so [sender()] is null: a first signal with an empty
    PV (the "+" button adds one) sends [removeSignal] down its
    [sender()] branch, which finds nothing and returns, and the loop
    never ends.  The loop is written with fuel and ends in [OutOfFuel]
    when the fuel runs out. *)

From Stdlib Require Import String Ascii Bool Lia.
From stdpp Require Import base list gmap strings.
From S2P Require Import Prelude Channel ScanDriver DataFile Panel.

Module Life.
Import Driver Panel.

(** How the destructor's loop ends. *)
Inductive outcome := Done (p : t) | UseAfterFree | OutOfFuel.

(** [removeSignal(pv)] called from the destructor: no [sender()], and the
    [Ui] object freed.  Finding no signal it returns before touching
    [ui] ([if (!sg) return;]); finding one it reads [ui->dataTable]. *)
Definition removeSignal_freed (pv : string) (p : t) : option t :=
  match find_signal None pv p with
  | None => Some p
  | Some _ => None
  end.

(** [while ( ! signalsE.isEmpty() ) removeSignal(signalsE.at(0)->pv());] *)
Fixpoint remove_all (fuel : nat) (p : t) : outcome :=
  match fuel with
  | 0 => OutOfFuel
  | S f =>
      match signals (chart p) with
      | [] => Done p
      | (pv, _) :: _ =>
          match removeSignal_freed pv p with
          | Some p' => remove_all f p'
          | None => UseAfterFree
          end
      end
  end.

(** [QChartMX::~QChartMX]: the loop runs after [delete ui]. *)
Definition destructor (p : t) : outcome := remove_all (S (length (signals (chart p)))) p.

End Life.

Module Detectors.
Import Driver.
Local Open Scope string_scope.

(** [QString::chop(1)]: the last character removed. *)
Definition chop1 (s : string) : string := substring 0 (String.length s - 1) s.

(** [QChartMX::initQti]: the output of [bash -c "command -v qtiplot"]
    without its last character (the newline). *)
Definition initQti (output : string) : string := chop1 output.

(** [QFile::readLine]: the text up to and including the next newline,
    and the rest. *)
Fixpoint readLine (s : string) : string * string :=
  match s with
  | EmptyString => ("", "")
  | String c s' =>
      if Ascii.eqb c nlc then (String c "", s')
      else let (l, r) := readLine s' in (String c l, r)
  end.

(** [if ( ln.at(ln.length()-1) == '\n') ln.chop(1);] *)
Definition chop_nl (ln : string) : string :=
  match String.get (String.length ln - 1) ln with
  | Some c => if Ascii.eqb c nlc then chop1 ln else ln
  | None => ln
  end.

(** [QChartMX::initDetectors]: [while (!detFile.atEnd())] with fuel the
    length of the file, each [readLine] taking at least one character. *)
Fixpoint read_lines (fuel : nat) (s : string) : list string :=
  match fuel with
  | 0 => []
  | S f =>
      match s with
      | EmptyString => []
      | _ => let (ln, r) := readLine s in chop_nl ln :: read_lines f r
      end
  end.

(** The file opens ([Some] content) or not ([None]: an empty list). *)
Definition initDetectors (file : option string) : list string :=
  match file with Some s => read_lines (String.length s) s | None => [] end.

(** The detector file: one line per detector, each ended by a newline,
    and maybe a last line without one. *)
Definition detector_file (ls : list string) (last : string) : string :=
  DataFile.text (map (fun l => l +:+ nl) ls) +:+ last.

End Detectors.

(** ** The destructor *)

Module LifeFacts.
Import Driver Panel Life.

Lemma last_index_head (pv : string) (l : list string) : last_index pv (pv :: l) <> None.
Proof. cbn. destruct (last_index pv l); [discriminate|]. now rewrite String.eqb_refl. Qed.

(** A turn of the loop that finds nothing leaves the panel as it is, so
    every later turn finds nothing either. *)
Lemma remove_all_stuck (pv : string) (sg : Signal.t) (rest : list (string * Signal.t)) (p : t) :
  signals (chart p) = (pv, sg) :: rest -> removeSignal_freed pv p = Some p ->
  forall fuel, remove_all fuel p = OutOfFuel.
Proof. intros S R fuel. induction fuel as [|f IH]; [reflexivity|]. cbn [remove_all]. now rewrite S, R. Qed.

(** C20: The destructor runs its loop after [delete ui] and outside any
    signal.  Without signals it ends at once.  When the first signal has
    a PV, the first [removeSignal] finds it and reads the freed [Ui]
    object (undefined behaviour).  When the first signal has an empty
    PV, [removeSignal("")] takes its [sender()] branch, finds nothing,
    and the loop runs forever: no fuel is enough. *)
Theorem destructor_outcome (p : t) :
  match signals (chart p) with
  | [] => destructor p = Done p
  | (pv, _) :: _ =>
      if String.eqb pv "" then forall fuel, remove_all fuel p = OutOfFuel
      else destructor p = UseAfterFree
  end.
Proof.
  unfold destructor. destruct (signals (chart p)) as [|[pv sg] rest] eqn:S; cbn [remove_all length]; rewrite ?S;
    [reflexivity|].
  destruct (String.eqb_spec pv "") as [->|Hn].
  - apply (remove_all_stuck "" sg rest p S). reflexivity.
  - unfold removeSignal_freed, find_signal.
    destruct (String.eqb_spec pv "") as [|_]; [contradiction|].
    destruct (last_index pv _) eqn:F; [reflexivity|].
    exfalso. rewrite S in F. exact (last_index_head pv _ F).
Qed.

(** The "+" button ([addSignal()] with its empty default name) on the
    demonstration panel, then closing it: the destructor never ends. *)
Lemma destructor_outcome_witness :
  remove_all 1000 (addSignal PanelDemo.black "" PanelDemo.panel0) = OutOfFuel.
Proof.
  pose proof (destructor_outcome (addSignal PanelDemo.black "" PanelDemo.panel0)) as H.
  assert (E : exists sg, signals (chart (addSignal PanelDemo.black "" PanelDemo.panel0)) = [(""%string, sg)])
    by (eexists; vm_compute; reflexivity).
  destruct E as [sg E]. rewrite E in H. exact (H 1000).
Defined.

End LifeFacts.

(** ** The list of detectors *)

Module DetectorsFacts.
Import Driver Detectors.
Local Open Scope string_scope.

Lemma length_append (x y : string) : String.length (x +:+ y) = String.length x + String.length y.
Proof. induction x as [|c x IH]; [reflexivity|]. exact (f_equal S IH). Qed.

Lemma readLine_line (l r : string) : has_nl l = false -> readLine (l +:+ nl +:+ r) = (l +:+ nl, r).
Proof.
  induction l as [|c l IH]; intros H; [reflexivity|]. simpl in H |- *.
  apply orb_false_iff in H as [H1 H2]. rewrite H1, IH by exact H2. reflexivity.
Qed.

Lemma readLine_last (l : string) : has_nl l = false -> readLine l = (l, "").
Proof.
  induction l as [|c l IH]; intros H; [reflexivity|]. simpl in H |- *.
  apply orb_false_iff in H as [H1 H2]. rewrite H1, IH by exact H2. reflexivity.
Qed.

Lemma get_line_end (l : string) : String.get (String.length l) (l +:+ nl) = Some nlc.
Proof. induction l as [|c l IH]; [reflexivity|exact IH]. Qed.

Lemma substring_prefix (l r : string) : substring 0 (String.length l) (l +:+ r) = l.
Proof. induction l as [|c l IH]; simpl; [now destruct r|]. now rewrite IH. Qed.

Lemma get_no_nl (l : string) (n : nat) (c : ascii) :
  has_nl l = false -> String.get n l = Some c -> Ascii.eqb c nlc = false.
Proof.
  revert n. induction l as [|d l IH]; intros n H G; [discriminate G|].
  cbn [has_nl] in H. apply orb_false_iff in H as [H1 H2]. destruct n as [|n]; cbn [String.get] in G.
  - injection G as <-. exact H1.
  - exact (IH n H2 G).
Qed.

(** [chop_nl] takes the newline off a line that ends with one ... *)
Lemma chop_nl_line (l : string) : chop_nl (l +:+ nl) = l.
Proof.
  unfold chop_nl. rewrite length_append. cbn [String.length nl].
  replace (String.length l + 1 - 1) with (String.length l) by lia.
  rewrite get_line_end. cbn [Ascii.eqb nlc]. rewrite Ascii.eqb_refl.
  unfold chop1. rewrite length_append. cbn [String.length nl].
  replace (String.length l + 1 - 1) with (String.length l) by lia. apply substring_prefix.
Qed.

(** ... and keeps a last line without newline whole. *)
Lemma chop_nl_last (l : string) : has_nl l = false -> chop_nl l = l.
Proof.
  intros H. unfold chop_nl. destruct (String.get (String.length l - 1) l) as [c|] eqn:G; [|reflexivity].
  now rewrite (get_no_nl l _ c H G).
Qed.

Lemma read_lines_cons (f : nat) (s : string) :
  s <> "" -> read_lines (S f) s = let (ln, r) := readLine s in chop_nl ln :: read_lines f r.
Proof. destruct s; [intros H; contradiction|reflexivity]. Qed.

Lemma read_lines_file (ls : list string) (last : string) (fuel : nat) :
  Forall (fun l => has_nl l = false) ls -> has_nl last = false ->
  String.length (detector_file ls last) <= fuel ->
  read_lines fuel (detector_file ls last) = (ls ++ if String.eqb last "" then [] else [last])%list.
Proof.
  unfold detector_file. revert fuel. induction ls as [|l ls IH]; intros fuel F H L; cbn [map DataFile.text fold_right app] in *.
  - destruct last as [|c r]; simpl String.eqb; simpl String.append in *; [now destruct fuel|].
    destruct fuel as [|f]; [simpl in L; lia|]. rewrite read_lines_cons by discriminate.
    rewrite readLine_last, chop_nl_last by exact H. now destruct f.
  - inversion F as [|? ? Hl F']; subst. fold (DataFile.text (map (fun l => l +:+ nl) ls)) in *.
    rewrite !length_append in L. simpl String.length in L.
    destruct fuel as [|f]; [lia|]. rewrite 2!DataFile.append_assoc', read_lines_cons by (destruct l; discriminate).
    rewrite readLine_line, chop_nl_line by exact Hl. f_equal. apply IH; [exact F'|exact H|].
    rewrite length_append. lia.
Qed.

(** C22: [initDetectors] gives back the lines of [/etc/listOfSignals.txt],
    each without its newline, and a last line without newline whole:
    writing the detectors one per line and reading them back is the
    identity, whatever the lines hold but a newline. *)
Theorem initDetectors_roundtrip (ls : list string) (last : string) :
  Forall (fun l => has_nl l = false) ls -> has_nl last = false ->
  initDetectors (Some (detector_file ls last)) = (ls ++ if String.eqb last "" then [] else [last])%list.
Proof. intros F H. apply read_lines_file; [exact F|exact H|lia]. Qed.

Lemma initDetectors_roundtrip_witness :
  initDetectors (Some (detector_file ["TEST:AI1"; ""; "TEST:AI2"] "TEST:AI3")) =
  ["TEST:AI1"; ""; "TEST:AI2"; "TEST:AI3"].
Proof.
  exact (initDetectors_roundtrip ["TEST:AI1"; ""; "TEST:AI2"] "TEST:AI3" ltac:(repeat constructor) eq_refl).
Defined.

End DetectorsFacts.
