(* ===== verification/LegacyWindow.v ===== *)
(** * LegacyWindow: the window of the legacy [QChartMX] and its settings

    [src/qchartmx.cpp] and [src/qchartmx.h]: the legacy chart is a
    [QMainWindow] that keeps its own settings.  Its constructor restores
    them from [~/.TimeScanMX] when no option is given, or applies the
    options of [clargs] otherwise; from then on [storeSettings], connected
    to every widget that holds configuration, writes the widgets back.

    [QS] models [QSettings] with its group stack: [beginReadArray],
    [beginWriteArray], [setArrayIndex] and [endArray] push, index and pop
    a group, and [setValue], [value], [contains] and [remove] act on the
    key under the current prefix, as Qt's [QSettingsPrivate] lays it out
    ([prefix/<i+1>/key], [prefix/size] written by [endArray] of an array
    of unknown size).

    [LWindow] models the window: the widgets holding configuration, the
    signals with their engine ([Legacy.LSignal]) and pens, the colour
    pool, the range widgets ([RangePolicy.Ranges.t]), the time axis and
    [localSettings] ([None] while the pointer is null).  Each programmatic
    [setValue]/[setChecked]/[setText] runs the slots connected to the
    signal it emits (only on a change), and [storeSettings] runs only once
    the constructor has made its connections ([wired]).

    [addSignal] calls [constructSignalsLayout], which calls
    [storeSettings].  In the restore branch [localSettings] is already set
    when the detectors are added, inside [beginReadArray("detectors")]:
    each of these [storeSettings] runs under the prefix
    [detectors/<i+1>/]. *)

From Stdlib Require Import QArith ZArith String Ascii Bool Lia.
From stdpp Require Import base list gmap strings pretty.
From S2P Require Import Prelude Double Blitz Channel RangePolicy ChannelSet TimeAxis ScanDriver Panel MainWindow Legacy.

Module QS.
Import Settings.
Local Open Scope string_scope.

(** One level of the group stack ([QSettingsGroup]): the name, the array
    index plus one ([num]; 0 before [setArrayIndex]) and, for an array
    written without a size, the size guessed so far ([maxNum]; [None] for
    an array read). *)
Record grp := mkg { g_name : string; g_num : nat; g_max : option nat }.

(** The settings file and the group stack, innermost group first. *)
Record t := mk { st : store; stack : list grp }.

(** [QSettingsGroup::toString]. *)
Definition grp_str (g : grp) : string :=
  match g_num g with 0 => g_name g | n => g_name g +:+ "/" +:+ pretty (N.of_nat n) end.

(** [groupPrefix]: the groups from the outermost, each followed by [/]. *)
Definition prefix (s : t) : string := foldr (fun g acc => acc +:+ grp_str g +:+ "/") "" (stack s).

(** [new QSettings(file, IniFormat)] on a file holding [st0]. *)
Definition open (st0 : store) : t := mk st0 [].

Definition setValue (k : string) (v : value) (s : t) : t := mk (<[prefix s +:+ k := v]> (st s)) (stack s).
Definition value (k : string) (s : t) : option value := st s !! (prefix s +:+ k).
Definition contains (k : string) (s : t) : bool := bool_decide (is_Some (value k s)).

(** [remove(key)]: the key and every key under it. *)
Definition remove (k : string) (s : t) : t :=
  let key := prefix s +:+ k in
  mk (filter (fun kv => negb (String.eqb kv.1 key || String.prefix (key +:+ "/") kv.1) = true) (st s))
     (stack s).

(** [beginWriteArray(prefix)] (no size): the group, then [remove("size")]. *)
Definition beginWriteArray (p : string) (s : t) : t := remove "size" (mk (st s) (mkg p 0 (Some 0) :: stack s)).

(** [beginReadArray(prefix)]: the group, and [value("size").toInt()]. *)
Definition beginReadArray (p : string) (s : t) : Z * t :=
  let s' := mk (st s) (mkg p 0 None :: stack s) in (toInt (value "size" s'), s').

(** [setArrayIndex(i)]: [num = i + 1], and the guessed size raised to it. *)
Definition setArrayIndex (i : nat) (s : t) : t :=
  match stack s with
  | [] => s
  | g :: gs => mk (st s) (mkg (g_name g) (S i) (option_map (fun m => Nat.max m (S i)) (g_max g)) :: gs)
  end.

(** [endArray()]: the group popped, then [prefix/size] for an array
    written without a size. *)
Definition endArray (s : t) : t :=
  match stack s with
  | [] => s
  | g :: gs =>
      let s' := mk (st s) gs in
      match g_max g with Some n => setValue (g_name g +:+ "/size") (VInt (Z.of_nat n)) s' | None => s' end
  end.

(** Whether a key holds a slash. *)
Fixpoint has_slash (s : string) : bool :=
  match s with EmptyString => false | String c s' => Ascii.eqb c "/"%char || has_slash s' end.

(** Two files that agree on every key outside [P]. *)
Definition agree_out (P : string) (s1 s2 : store) : Prop :=
  forall k, String.prefix P k = false -> s2 !! k = s1 !! k.

(** The prefix of a stack, innermost group first. *)
Definition pfx (gs : list grp) : string := foldr (fun g acc => acc +:+ grp_str g +:+ "/") "" gs.

End QS.

(** The legacy signal as a channel of [ChannelSet]: its window is [data]
    and its extrema the public [min]/[max] members, which
    [Signal::preparePlot] sets with [blitz::min]/[blitz::max]. *)
#[export] Program Instance legacy_channel : ChannelSpec LSignal.t := {
  ch_inv s := Signal.min_ok (LSignal.min s) (LSignal.data s) /\ Signal.max_ok (LSignal.max s) (LSignal.data s);
  ch_window := LSignal.data;
  ch_min := LSignal.min;
  ch_max := LSignal.max
}.
Next Obligation. intros s [H _]. exact H. Qed.
Next Obligation. intros s [_ H]. exact H. Qed.

Module LWindow.
Import Settings.
Local Open Scope string_scope.

(** The members of [QChartMX] and the widgets of [Ui::TimeScanMX] the
    window reads and writes. *)
Record t := mk {
  interval : Q;                         (* ui->interval *)
  period : Q;                           (* ui->period *)
  cont : bool;                          (* ui->cont *)
  saveDir : string;                     (* ui->saveDir *)
  saveName : string;                    (* ui->saveName *)
  autoName : bool;                      (* ui->autoName *)
  dirOK : bool;                         (* ui->saveDir's style sheet is goodStyle *)
  nameOK : bool;                        (* ui->saveName's style sheet is goodStyle *)
  signals : list (string * LSignal.t);  (* signalsE: sig->currentText() and the engine *)
  pens : list Panel.color;              (* sg->pen.color() of each signal *)
  colorsLeft : list Panel.color;
  addOK : bool;                         (* ui->addSignal's style sheet is goodStyle *)
  ranges : Ranges.t;                    (* ui->logY, norma, autoMin, min, autoMax, max, the y axis *)
  showGrid : bool;                      (* ui->showGrid *)
  gridOn : bool;                        (* grid attached to the plot *)
  collapsed : bool;                     (* control panel collapsed by the splitter *)
  timeData : list Z;
  local : option QS.t;                  (* localSettings *)
  wired : bool                          (* the storeSettings connections are made *)
}.

Definition with_interval (v : Q) (w : t) : t :=
  mk v (period w) (cont w) (saveDir w) (saveName w) (autoName w) (dirOK w) (nameOK w) (signals w) (pens w)
     (colorsLeft w) (addOK w) (ranges w) (showGrid w) (gridOn w) (collapsed w) (timeData w) (local w) (wired w).
Definition with_period (v : Q) (w : t) : t :=
  mk (interval w) v (cont w) (saveDir w) (saveName w) (autoName w) (dirOK w) (nameOK w) (signals w) (pens w)
     (colorsLeft w) (addOK w) (ranges w) (showGrid w) (gridOn w) (collapsed w) (timeData w) (local w) (wired w).
Definition with_cont (b : bool) (w : t) : t :=
  mk (interval w) (period w) b (saveDir w) (saveName w) (autoName w) (dirOK w) (nameOK w) (signals w) (pens w)
     (colorsLeft w) (addOK w) (ranges w) (showGrid w) (gridOn w) (collapsed w) (timeData w) (local w) (wired w).
Definition with_files (d n : string) (a dok nok : bool) (w : t) : t :=
  mk (interval w) (period w) (cont w) d n a dok nok (signals w) (pens w)
     (colorsLeft w) (addOK w) (ranges w) (showGrid w) (gridOn w) (collapsed w) (timeData w) (local w) (wired w).
Definition with_sigs (sg : list (string * LSignal.t)) (ps cl : list Panel.color) (aok : bool) (w : t) : t :=
  mk (interval w) (period w) (cont w) (saveDir w) (saveName w) (autoName w) (dirOK w) (nameOK w) sg ps cl aok
     (ranges w) (showGrid w) (gridOn w) (collapsed w) (timeData w) (local w) (wired w).
Definition with_ranges (r : Ranges.t) (w : t) : t :=
  mk (interval w) (period w) (cont w) (saveDir w) (saveName w) (autoName w) (dirOK w) (nameOK w) (signals w)
     (pens w) (colorsLeft w) (addOK w) r (showGrid w) (gridOn w) (collapsed w) (timeData w) (local w) (wired w).
Definition with_view (sg gon col : bool) (td : list Z) (w : t) : t :=
  mk (interval w) (period w) (cont w) (saveDir w) (saveName w) (autoName w) (dirOK w) (nameOK w) (signals w)
     (pens w) (colorsLeft w) (addOK w) (ranges w) sg gon col td (local w) (wired w).
Definition with_local (l : option QS.t) (wd : bool) (w : t) : t :=
  mk (interval w) (period w) (cont w) (saveDir w) (saveName w) (autoName w) (dirOK w) (nameOK w) (signals w)
     (pens w) (colorsLeft w) (addOK w) (ranges w) (showGrid w) (gridOn w) (collapsed w) (timeData w) l wd.

Definition with_signals (sg : list (string * LSignal.t)) (w : t) : t :=
  with_sigs sg (pens w) (colorsLeft w) (addOK w) w.

(** The range widgets with one of them changed. *)
Definition r_log (b : bool) (r : Ranges.t) : Ranges.t :=
  Ranges.mk b (Ranges.norma r) (Ranges.autoMin r) (Ranges.min r) (Ranges.autoMax r) (Ranges.max r)
    (Ranges.lower r) (Ranges.upper r).
Definition r_norma (b : bool) (r : Ranges.t) : Ranges.t :=
  Ranges.mk (Ranges.logY r) b (Ranges.autoMin r) (Ranges.min r) (Ranges.autoMax r) (Ranges.max r)
    (Ranges.lower r) (Ranges.upper r).
Definition r_min (a : bool) (m : double) (r : Ranges.t) : Ranges.t :=
  Ranges.mk (Ranges.logY r) (Ranges.norma r) a m (Ranges.autoMax r) (Ranges.max r)
    (Ranges.lower r) (Ranges.upper r).
Definition r_max (a : bool) (m : double) (r : Ranges.t) : Ranges.t :=
  Ranges.mk (Ranges.logY r) (Ranges.norma r) (Ranges.autoMin r) (Ranges.min r) a m
    (Ranges.lower r) (Ranges.upper r).

(** [isLog()] and [isNorm()]. *)
Definition isLog (w : t) : bool := Ranges.logY (ranges w).
Definition isNorm (w : t) : bool := Ranges.norma (ranges w).

(** A call on [*localSettings] when the pointer is set. *)
Definition on_local (f : QS.t -> QS.t) (w : t) : t :=
  match local w with Some q => with_local (Some (f q)) (wired w) w | None => w end.
Definition lvalue (k : string) (w : t) : option value :=
  match local w with Some q => QS.value k q | None => None end.
Definition lcontains (k : string) (w : t) : bool :=
  match local w with Some q => QS.contains k q | None => false end.

(** The loop of [storeSettings] over the signals: [setArrayIndex(i);
    setValue("detector", signalsE[i]->sig->currentText())]. *)
Fixpoint write_detectors (i : nat) (xs : list string) (q : QS.t) : QS.t :=
  match xs with
  | [] => q
  | x :: xs' => write_detectors (S i) xs' (QS.setValue "detector" (VString x) (QS.setArrayIndex i q))
  end.

(** The writes of [QChartMX::storeSettings] on [*localSettings]. *)
Definition store_qs (w : t) (q : QS.t) : QS.t :=
  let r := ranges w in
  let q := QS.setValue "interval" (VDouble (Fin (interval w))) q in
  let q := QS.setValue "period" (VDouble (Fin (period w))) q in
  let q := QS.setValue "continue" (VBool (cont w)) q in
  let q := QS.setValue "saveDir" (VString (saveDir w)) q in
  let q := QS.setValue "saveName" (VString (saveName w)) q in
  let q := QS.setValue "autoName" (VBool (autoName w)) q in
  let q := QS.beginWriteArray "detectors" q in
  let q := write_detectors 0 (map fst (signals w)) q in
  let q := QS.endArray q in
  let q := QS.setValue "autoMin" (VBool (Ranges.autoMin r)) q in
  let q := QS.setValue "min" (VDouble (Ranges.min r)) q in
  let q := QS.setValue "autoMax" (VBool (Ranges.autoMax r)) q in
  let q := QS.setValue "max" (VDouble (Ranges.max r)) q in
  let q := QS.setValue "log" (VBool (Ranges.logY r)) q in
  let q := QS.setValue "norma" (VBool (Ranges.norma r)) q in
  QS.setValue "grid" (VBool (showGrid w)) q.

(** [QChartMX::storeSettings]: nothing while [localSettings] is null. *)
Definition storeSettings (w : t) : t := on_local (store_qs w) w.

(** [storeSettings] as a slot: run only once connected. *)
Definition stored (w : t) : t := if wired w then storeSettings w else w.

(** [QChartMX::constructSignalsLayout]: the style of [ui->addSignal],
    then [storeSettings()] (a direct call). *)
Definition constructSignalsLayout (w : t) : t :=
  storeSettings (with_sigs (signals w) (pens w) (colorsLeft w) (negb (bool_decide (signals w = []))) w).

(** [QChartMX::preparePlot]: the axis rebuilt ([timeData.resize(points)]
    and its fill loop) and every signal reset. *)
Definition preparePlot (w : t) : t :=
  let td := Axis.build (Axis.points_of (period w) (interval w)) 0 in
  with_view (showGrid w) (gridOn w) (collapsed w) td
    (with_signals (map (fun ps => (ps.1, LSignal.resetData (isNorm w) (isLog w) (length td) ps.2)) (signals w)) w).

(** [QFileInfo(dn)]: [exists() && isWritable()]; [QFileInfo(f)]:
    [!exists() || (!isDir() && isWritable())]. *)
Definition dir_ok (fs : gmap string Panel.entry) (dn : string) : bool :=
  Panel.exists_ fs dn && Panel.writable_ fs dn.
Definition file_ok (fs : gmap string Panel.entry) (f : string) : bool :=
  negb (Panel.exists_ fs f) || (negb (Panel.is_dir_ fs f) && Panel.writable_ fs f).

(** [QChartMX::prepareAutoSave] as a slot: what it returns
    ([LChart.prepareAutoSave]) and the widgets it changes, the styles and,
    with the automatic name, [ui->saveName].  The [textChanged] of that
    [setText] runs the slot again, which finds the same name and sets the
    same styles. *)
Definition autoSave (fs : gmap string Panel.entry) (now : string) (w : t) : string * t :=
  let (ret, name') := LChart.prepareAutoSave fs now (autoName w) (saveDir w) (saveName w) in
  if negb (autoName w) && String.eqb (saveName w) "" then (ret, w)
  else
    let dn := Driver.saveDir (saveDir w) in
    (ret, with_files (saveDir w) name' (autoName w) (dir_ok fs dn) (file_ok fs (dn +:+ name')) w).

(** [QChartMX::showGrid(show)]. *)
Definition showGrid_slot (b : bool) (w : t) : t := with_view (showGrid w) b (collapsed w) (timeData w) w.

(** [QChartMX::normalizePlots(norm)]: every signal re-prepared. *)
Definition normalizePlots (norm : bool) (w : t) : t :=
  with_signals (map (fun ps => (ps.1, LSignal.preparePlot norm (isLog w) ps.2)) (signals w)) w.

(** [QChartMX::logScale()]. *)
Definition logScale (w : t) : t :=
  with_signals (map (fun ps => (ps.1, LSignal.preparePlot (isNorm w) (isLog w) ps.2)) (signals w)) w.

(** [min()] and [max()]: the aggregate of the signals' [min]/[max]
    members, the fold of [ChannelSet] through the legacy channel. *)
Definition lmin (w : t) : double := dataMin (map snd (signals w)).
Definition lmax (w : t) : double := dataMax (map snd (signals w)).

(** [QChartMX::setRanges]: the code of [RangePolicy] on [min()] and
    [max()]. *)
Definition setRanges (w : t) : t := with_ranges (Ranges.setRanges (ranges w) (lmin w) (lmax w)) w.

(** The programmatic setters, each with the slots its signal runs.  A
    spin box's [valueChanged] is connected to nothing; [toggled] and
    [textChanged] are emitted only on a change. *)
Definition set_interval (v : Q) (w : t) : t := with_interval v w.
Definition set_period (v : Q) (w : t) : t := with_period v w.
Definition set_cont (b : bool) (w : t) : t :=
  if Bool.eqb b (cont w) then w else stored (with_cont b w).
Definition set_saveDir (fs : gmap string Panel.entry) (now d : string) (w : t) : t :=
  if String.eqb d (saveDir w) then w
  else snd (autoSave fs now (with_files d (saveName w) (autoName w) (dirOK w) (nameOK w) w)).
Definition set_saveName (fs : gmap string Panel.entry) (now n : string) (w : t) : t :=
  if String.eqb n (saveName w) then w
  else snd (autoSave fs now (with_files (saveDir w) n (autoName w) (dirOK w) (nameOK w) w)).
Definition set_autoName (fs : gmap string Panel.entry) (now : string) (b : bool) (w : t) : t :=
  if Bool.eqb b (autoName w) then w
  else stored (snd (autoSave fs now (with_files (saveDir w) (saveName w) b (dirOK w) (nameOK w) w))).
Definition set_autoMin (b : bool) (w : t) : t :=
  if Bool.eqb b (Ranges.autoMin (ranges w)) then w
  else stored (with_ranges (r_min b (Ranges.min (ranges w)) (ranges w)) w).
Definition set_min (m : double) (w : t) : t :=
  with_ranges (r_min (Ranges.autoMin (ranges w)) m (ranges w)) w.
Definition set_autoMax (b : bool) (w : t) : t :=
  if Bool.eqb b (Ranges.autoMax (ranges w)) then w
  else stored (with_ranges (r_max b (Ranges.max (ranges w)) (ranges w)) w).
Definition set_max (m : double) (w : t) : t :=
  with_ranges (r_max (Ranges.autoMax (ranges w)) m (ranges w)) w.
Definition set_log (b : bool) (w : t) : t :=
  if Bool.eqb b (isLog w) then w else stored (logScale (with_ranges (r_log b (ranges w)) w)).
Definition set_norma (b : bool) (w : t) : t :=
  if Bool.eqb b (isNorm w) then w else stored (normalizePlots b (with_ranges (r_norma b (ranges w)) w)).
Definition set_grid (b : bool) (w : t) : t :=
  if Bool.eqb b (showGrid w) then w
  else stored (showGrid_slot b (with_view b (gridOn w) (collapsed w) (timeData w) w)).

(** A new [Signal]: [min] and [max] NaN, empty buffers, flags down. *)
Definition new_signal : LSignal.t := LSignal.mk NaN NaN [] [] false false.

(** [QChartMX::addSignal(pvName)]: the first colour of the pool taken
    (the text colour when the pool is empty), the signal appended, then
    [constructSignalsLayout()] and [preparePlot()]. *)
Definition addSignal (text : Panel.color) (pv : string) (w : t) : t :=
  let (col, left) := match colorsLeft w with c :: l => (c, l) | [] => (text, []) end in
  let w1 := with_sigs (signals w ++ [(pv, new_signal)])%list (pens w ++ [col])%list left (addOK w) w in
  preparePlot (constructSignalsLayout w1).

(** [QChartMX::removeSignal()], run by the [remove()] of the signal at
    [i] ([None]: no sender): its colour back to the pool unless it is the
    text colour, the signal gone, then [constructSignalsLayout()]. *)
Definition removeSignal (text : Panel.color) (i : option nat) (w : t) : t :=
  match i with
  | None => w
  | Some i =>
      match signals w !! i, pens w !! i with
      | Some _, Some col =>
          let left := if Z.eqb col text then colorsLeft w else (colorsLeft w ++ [col])%list in
          constructSignalsLayout (with_sigs (delete i (signals w)) (delete i (pens w)) left (addOK w) w)
      | _, _ => w
      end
  end.

(** What [table.parse] leaves in the legacy [clargs]: [None] for an
    option not given ([table.count(&x) == 0]); a switch is [true] when
    given; the positional arguments are the detectors. *)
Record args := mkArgs {
  a_start : bool;
  a_interval : option Q;
  a_period : option Q;
  a_cont : bool;
  a_saveDir : option string;
  a_saveName : option string;
  a_detectors : list string;
  a_min : option double;
  a_max : option double;
  a_log : bool;
  a_norma : bool;
  a_grid : bool;
  a_collapse : bool
}.

(** [args.table.count()]: some option or argument was given. *)
Definition any_given (a : args) : bool :=
  a_start a || Args.is_Some_b (a_interval a) || Args.is_Some_b (a_period a) || a_cont a ||
  Args.is_Some_b (a_saveDir a) || Args.is_Some_b (a_saveName a) || Args.is_Some_b (a_min a) ||
  Args.is_Some_b (a_max a) || a_log a || a_norma a || a_grid a || a_collapse a ||
  negb (bool_decide (a_detectors a = [])).

(** [if ( args.table.count(&x) ) widget->set(args.x)]. *)
Definition given {A} (o : option A) (f : A -> t -> t) (w : t) : t :=
  match o with Some v => f v w | None => w end.

(** [for (i < args.detectors.size()) addSignal(args.detectors[i])]. *)
Definition add_all (text : Panel.color) (pvs : list string) (w : t) : t :=
  fold_left (fun w pv => addSignal text pv w) pvs w.

(** The [if ( args.table.count() )] branch of the constructor. *)
Definition args_branch (text : Panel.color) (fs : gmap string Panel.entry) (now : string) (a : args) (w : t) : t :=
  let w := given (a_interval a) set_interval w in
  let w := given (a_period a) set_period w in
  let w := (if a_cont a then set_cont true else id) w in
  let w := given (a_saveDir a) (set_saveDir fs now) w in
  let w := set_autoName fs now (negb (Args.is_Some_b (a_saveName a))) w in
  let w := given (a_saveName a) (set_saveName fs now) w in
  let w := add_all text (a_detectors a) w in
  let w := set_autoMin (negb (Args.is_Some_b (a_min a))) w in
  let w := given (a_min a) set_min w in
  let w := set_autoMax (negb (Args.is_Some_b (a_max a))) w in
  let w := given (a_max a) set_max w in
  let w := set_log (a_log a) w in
  let w := set_norma (a_norma a) w in
  let w := set_grid (a_grid a) w in
  (if a_collapse a then fun w => with_view (showGrid w) (gridOn w) true (timeData w) w else id) w.

(** The loop of the restore branch: [setArrayIndex(i);
    addSignal(localSettings->value("detector").toString())], [k] turns
    left. *)
Fixpoint read_detectors (text : Panel.color) (k i : nat) (w : t) : t :=
  match k with
  | 0 => w
  | S k' =>
      let w := on_local (QS.setArrayIndex i) w in
      read_detectors text k' (S i) (addSignal text (toString (lvalue "detector" w)) w)
  end.

(** [if ( localSettings->contains(k) ) widget->set(localSettings->value(k))]. *)
Definition restore_if (k : string) (f : option value -> t -> t) (w : t) : t :=
  if lcontains k w then f (lvalue k w) w else w.

(** The directory: the stored one, or [QDir::homePath()]. *)
Definition restore_saveDir (fs : gmap string Panel.entry) (now home : string) (w : t) : t :=
  set_saveDir fs now (if lcontains "saveDir" w then toString (lvalue "saveDir" w) else home) w.

(** [size = localSettings->beginReadArray("detectors")], the loop, then
    [endArray()]. *)
Definition restore_detectors (text : Panel.color) (w : t) : t :=
  match local w with
  | Some q =>
      let (size, q1) := QS.beginReadArray "detectors" q in
      on_local QS.endArray (read_detectors text (Z.to_nat size) 0 (with_local (Some q1) (wired w) w))
  | None => w
  end.

(** The [else] branch of the constructor: [localSettings] opened on the
    file [~/.TimeScanMX] holding [file], then each setting it contains
    passed to its widget, in the order of the code. *)
Definition restore_branch (text : Panel.color) (fs : gmap string Panel.entry) (now home : string) (file : store)
    (w : t) : t :=
  let w := with_local (Some (QS.open file)) (wired w) w in
  let w := restore_if "interval" (fun v => set_interval (Window.spin (toDouble v))) w in
  let w := restore_if "period" (fun v => set_period (Window.spin (toDouble v))) w in
  let w := restore_if "continue" (fun v => set_cont (toBool v)) w in
  let w := restore_saveDir fs now home w in
  let w := restore_if "saveName" (fun v => set_saveName fs now (toString v)) w in
  let w := restore_if "autoName" (fun v => set_autoName fs now (toBool v)) w in
  let w := restore_detectors text w in
  let w := restore_if "autoMin" (fun v => set_autoMin (toBool v)) w in
  let w := restore_if "min" (fun v => set_min (toDouble v)) w in
  let w := restore_if "autoMax" (fun v => set_autoMax (toBool v)) w in
  let w := restore_if "max" (fun v => set_max (toDouble v)) w in
  let w := restore_if "log" (fun v => set_log (toBool v)) w in
  let w := restore_if "norma" (fun v => set_norma (toBool v)) w in
  restore_if "grid" (fun v => set_grid (toBool v)) w.

(** The loop over the global settings [/etc/timeScanMX]: each
    [detector] appended to [Signal::knownDetectors]. *)
Fixpoint read_global (k i : nat) (q : QS.t) (acc : list string) : list string :=
  match k with
  | 0 => acc
  | S k' => let q := QS.setArrayIndex i q in read_global k' (S i) q (acc ++ [toString (QS.value "detector" q)])
  end.

Definition global_detectors (global : store) : list string :=
  let (size, q) := QS.beginReadArray "detectors" (QS.open global) in read_global (Z.to_nat size) 0 q [].

(** [QChartMX::QChartMX(args)] on the designer's widgets [form]: the
    colour pool without the text colour, [showGrid] of the box's state,
    one of the two branches, the [storeSettings] connections, then
    [preparePlot()].  [args.start]'s [singleShot(startStop)] runs a scan
    after the constructor and is not part of it. *)
Definition create (text : Panel.color) (fs : gmap string Panel.entry) (now home : string) (a : args)
    (file : store) (form : t) : t :=
  let w := with_local None false form in
  let w := with_sigs (signals w) (pens w) (List.filter (fun c => negb (Z.eqb c text)) Panel.palette) (addOK w) w in
  let w := showGrid_slot (showGrid w) w in
  let w := if any_given a then args_branch text fs now a w else restore_branch text fs now home file w in
  preparePlot (with_local (local w) true w).

(** The configuration [storeSettings] writes: the view of a window its
    settings keep. *)
Record config := mkc {
  c_interval : Q; c_period : Q; c_cont : bool; c_saveDir : string; c_saveName : string; c_autoName : bool;
  c_names : list string; c_autoMin : bool; c_min : double; c_autoMax : bool; c_max : double;
  c_log : bool; c_norma : bool; c_grid : bool
}.

Definition config_of (w : t) : config :=
  let r := ranges w in
  mkc (interval w) (period w) (cont w) (saveDir w) (saveName w) (autoName w) (map fst (signals w))
      (Ranges.autoMin r) (Ranges.min r) (Ranges.autoMax r) (Ranges.max r) (Ranges.logY r) (Ranges.norma r)
      (showGrid w).

(** One entry of a configuration changed. *)
Definition cf_interval v c := mkc v (c_period c) (c_cont c) (c_saveDir c) (c_saveName c) (c_autoName c) (c_names c) (c_autoMin c) (c_min c) (c_autoMax c) (c_max c) (c_log c) (c_norma c) (c_grid c).
Definition cf_period v c := mkc (c_interval c) v (c_cont c) (c_saveDir c) (c_saveName c) (c_autoName c) (c_names c) (c_autoMin c) (c_min c) (c_autoMax c) (c_max c) (c_log c) (c_norma c) (c_grid c).
Definition cf_cont v c := mkc (c_interval c) (c_period c) v (c_saveDir c) (c_saveName c) (c_autoName c) (c_names c) (c_autoMin c) (c_min c) (c_autoMax c) (c_max c) (c_log c) (c_norma c) (c_grid c).
Definition cf_saveDir v c := mkc (c_interval c) (c_period c) (c_cont c) v (c_saveName c) (c_autoName c) (c_names c) (c_autoMin c) (c_min c) (c_autoMax c) (c_max c) (c_log c) (c_norma c) (c_grid c).
Definition cf_saveName v c := mkc (c_interval c) (c_period c) (c_cont c) (c_saveDir c) v (c_autoName c) (c_names c) (c_autoMin c) (c_min c) (c_autoMax c) (c_max c) (c_log c) (c_norma c) (c_grid c).
Definition cf_autoName v c := mkc (c_interval c) (c_period c) (c_cont c) (c_saveDir c) (c_saveName c) v (c_names c) (c_autoMin c) (c_min c) (c_autoMax c) (c_max c) (c_log c) (c_norma c) (c_grid c).
Definition cf_names v c := mkc (c_interval c) (c_period c) (c_cont c) (c_saveDir c) (c_saveName c) (c_autoName c) v (c_autoMin c) (c_min c) (c_autoMax c) (c_max c) (c_log c) (c_norma c) (c_grid c).
Definition cf_autoMin v c := mkc (c_interval c) (c_period c) (c_cont c) (c_saveDir c) (c_saveName c) (c_autoName c) (c_names c) v (c_min c) (c_autoMax c) (c_max c) (c_log c) (c_norma c) (c_grid c).
Definition cf_min v c := mkc (c_interval c) (c_period c) (c_cont c) (c_saveDir c) (c_saveName c) (c_autoName c) (c_names c) (c_autoMin c) v (c_autoMax c) (c_max c) (c_log c) (c_norma c) (c_grid c).
Definition cf_autoMax v c := mkc (c_interval c) (c_period c) (c_cont c) (c_saveDir c) (c_saveName c) (c_autoName c) (c_names c) (c_autoMin c) (c_min c) v (c_max c) (c_log c) (c_norma c) (c_grid c).
Definition cf_max v c := mkc (c_interval c) (c_period c) (c_cont c) (c_saveDir c) (c_saveName c) (c_autoName c) (c_names c) (c_autoMin c) (c_min c) (c_autoMax c) v (c_log c) (c_norma c) (c_grid c).
Definition cf_log v c := mkc (c_interval c) (c_period c) (c_cont c) (c_saveDir c) (c_saveName c) (c_autoName c) (c_names c) (c_autoMin c) (c_min c) (c_autoMax c) (c_max c) v (c_norma c) (c_grid c).
Definition cf_norma v c := mkc (c_interval c) (c_period c) (c_cont c) (c_saveDir c) (c_saveName c) (c_autoName c) (c_names c) (c_autoMin c) (c_min c) (c_autoMax c) (c_max c) (c_log c) v (c_grid c).
Definition cf_grid v c := mkc (c_interval c) (c_period c) (c_cont c) (c_saveDir c) (c_saveName c) (c_autoName c) (c_names c) (c_autoMin c) (c_min c) (c_autoMax c) (c_max c) (c_log c) (c_norma c) v.

(** What [prepareAutoSave] does to the configuration: the file name it
    leaves in [ui->saveName]. *)
Definition cf_autoSave (fs : gmap string Panel.entry) (now : string) (c : config) : config :=
  cf_saveName (snd (LChart.prepareAutoSave fs now (c_autoName c) (c_saveDir c) (c_saveName c))) c.

(** The file widgets' setters on the configuration: nothing without a
    change, otherwise the new text or state and [prepareAutoSave]. *)
Definition cfs_saveDir fs now (d : string) (c : config) : config :=
  if String.eqb d (c_saveDir c) then c else cf_autoSave fs now (cf_saveDir d c).
Definition cfs_saveName fs now (n : string) (c : config) : config :=
  if String.eqb n (c_saveName c) then c else cf_autoSave fs now (cf_saveName n c).
Definition cfs_autoName fs now (b : bool) (c : config) : config :=
  if Bool.eqb b (c_autoName c) then c else cf_autoSave fs now (cf_autoName b c).

(** [addSignal] of each name of a list on the configuration. *)
Definition cfs_names (l : list string) (c : config) : config := cf_names (c_names c ++ l) c.

(** [args_branch] on the configuration, step for step (the collapse of
    the plot changes none of it). *)
Definition args_cfg fs now (a : args) (c : config) : config :=
  cf_grid (a_grid a) (cf_norma (a_norma a) (cf_log (a_log a)
  ((match a_max a with Some v => cf_max v | None => id end) (cf_autoMax (negb (Args.is_Some_b (a_max a)))
  ((match a_min a with Some v => cf_min v | None => id end) (cf_autoMin (negb (Args.is_Some_b (a_min a)))
  (cfs_names (a_detectors a)
  ((match a_saveName a with Some v => cfs_saveName fs now v | None => id end)
  (cfs_autoName fs now (negb (Args.is_Some_b (a_saveName a)))
  ((match a_saveDir a with Some v => cfs_saveDir fs now v | None => id end)
  ((if a_cont a then cf_cont true else id)
  ((match a_period a with Some v => cf_period v | None => id end)
  ((match a_interval a with Some v => cf_interval v | None => id end) c))))))))))))).

(** What a setter leaves: the configuration as given, the settings
    pointer, and no connection. *)
Definition frame (f : config -> config) (w w' : t) : Prop :=
  config_of w' = f (config_of w) /\ local w' = local w /\ wired w' = wired w.

End LWindow.

(** ** A concrete window: the designer's form, a directory, two command lines *)
Module LDemo.
Import LWindow.
Local Open Scope string_scope.

Definition form : t :=
  mk (1#10) 1 false "" "" false true true [] [] [] false
     (Ranges.mk false false true (Fin 0) true (Fin 1) (Fin 0) (Fin 1)) false false false [] None false.
Definition fs : gmap string Panel.entry := {["/tmp/" := Panel.mkEntry true true]}.
Definition a1 : args :=
  mkArgs false (Some (1#2)) (Some 5%Q) true (Some "/tmp") (Some "x.dat") ["A"; "B"] (Some (Fin 3)) None
         true false true false.
Definition none : args := mkArgs false None None false None None [] None None false false false false.
Definition w1 : t := create 0%Z fs "now" "/home" a1 ∅ form.

End LDemo.

(** ** Keys: decimal indices hold no slash *)

Module Keys.
Import QS.
Local Open Scope string_scope.
Local Arguments ascii_dec : simpl never.

Lemma pretty_N_go_no_slash (x : N) (s : string) : has_slash (pretty_N_go x s) = has_slash s.
Proof.
  revert s. induction (N.lt_wf_0 x) as [x _ IH]; intros s.
  destruct (decide (x = 0)%N) as [->|Hx]; [reflexivity|].
  rewrite pretty_N_go_step by lia. rewrite IH by (apply N.div_lt; lia). cbn [has_slash].
  unfold pretty_N_char. by repeat case_match.
Qed.

Lemma pretty_no_slash (n : N) : has_slash (pretty n) = false.
Proof. unfold pretty, pretty_N. case_decide; [reflexivity|]. apply pretty_N_go_no_slash. Qed.

Lemma has_slash_app (u v : string) : has_slash (u +:+ v) = has_slash u || has_slash v.
Proof. induction u as [|c u IH]; simpl; [reflexivity|]. now rewrite IH, orb_assoc. Qed.

Lemma prefix_app (p x : string) : String.prefix p (p +:+ x) = true.
Proof. induction p as [|c p IH]; simpl; [now destruct x|]. destruct (ascii_dec c c); [exact IH|congruence]. Qed.

Lemma prefix_app_l (p x k : string) : String.prefix (p +:+ x) k = true -> String.prefix p k = true.
Proof.
  revert k. induction p as [|c p IH]; intros [|d k]; simpl; try easy.
  destruct (ascii_dec c d); [apply IH|easy].
Qed.

Lemma prefix_app_cancel (p y z : string) : String.prefix (p +:+ y) (p +:+ z) = String.prefix y z.
Proof. induction p as [|c p IHp]; simpl; [reflexivity|]. destruct (ascii_dec c c); [apply IHp|congruence]. Qed.

(** A prefix ending in a slash is not a prefix of a text without one. *)
Lemma prefix_slash_none (u v : string) : has_slash v = false -> String.prefix (u +:+ "/") v = false.
Proof.
  revert v. induction u as [|c u IH]; intros [|d v] H; simpl in *; try reflexivity.
  - apply orb_false_iff in H as [H _]. destruct (ascii_dec "/"%char d) as [<-|]; [discriminate H|reflexivity].
  - apply orb_false_iff in H as [_ H]. destruct (ascii_dec c d); [exact (IH v H)|reflexivity].
Qed.

(** Two slash-free words, each followed by a slash, one a prefix of the
    other: the same word. *)
Lemma prefix_slash_eq (u v x : string) :
  has_slash u = false -> has_slash v = false -> String.prefix (u +:+ "/") (v +:+ "/" +:+ x) = true -> u = v.
Proof.
  revert v. induction u as [|c u IH]; intros [|d v] Hu Hv H; simpl in *; try reflexivity.
  - apply orb_false_iff in Hv as [Hv _]. destruct (ascii_dec "/"%char d) as [<-|]; [discriminate Hv|discriminate H].
  - apply orb_false_iff in Hu as [Hu _]. destruct (ascii_dec c "/"%char) as [->|]; [discriminate Hu|discriminate H].
  - apply orb_false_iff in Hu as [_ Hu]. apply orb_false_iff in Hv as [_ Hv].
    destruct (ascii_dec c d) as [<-|]; [|discriminate H]. f_equal. exact (IH v Hu Hv H).
Qed.

(** The prefix of index [a] of an array is not a prefix of a key of
    index [b <> a]. *)
Lemma index_prefix_ne (name : string) (a b : N) (x : string) :
  a <> b -> String.prefix (name +:+ "/" +:+ pretty a +:+ "/") (name +:+ "/" +:+ pretty b +:+ "/" +:+ x) = false.
Proof.
  intros Hab. destruct (String.prefix _ _) eqn:E; [exfalso|reflexivity].
  rewrite prefix_app_cancel, (prefix_app_cancel "/") in E. apply prefix_slash_eq in E; [|apply pretty_no_slash|apply pretty_no_slash].
  exact (Hab (pretty_N_inj a b E)).
Qed.

End Keys.

(** ** [QSettings]: writes stay under the current prefix *)

Module QSFacts.
Import Settings QS Keys.
Local Open Scope string_scope.

Lemma agree_out_refl (P : string) (s : store) : agree_out P s s.
Proof. intros k _. reflexivity. Qed.

Lemma agree_out_trans (P : string) (s1 s2 s3 : store) :
  agree_out P s1 s2 -> agree_out P s2 s3 -> agree_out P s1 s3.
Proof. intros H1 H2 k Hk. rewrite (H2 k Hk). exact (H1 k Hk). Qed.

Lemma agree_out_weaken (P x : string) (s1 s2 : store) : agree_out (P +:+ x) s1 s2 -> agree_out P s1 s2.
Proof.
  intros H k Hk. apply H. destruct (String.prefix (P +:+ x) k) eqn:E; [|reflexivity].
  rewrite (prefix_app_l P x k E) in Hk. discriminate Hk.
Qed.

Lemma agree_out_insert (P x : string) (v : Settings.value) (s : store) : agree_out P s (<[P +:+ x := v]> s).
Proof.
  intros k Hk. apply lookup_insert_ne. intros <-. rewrite prefix_app in Hk. discriminate Hk.
Qed.

(** Inside a group the prefix extends the group's name and a slash. *)
Lemma pfx_cons (g : grp) (gs : list grp) : exists r, pfx (g :: gs) = (pfx gs +:+ g_name g +:+ "/") +:+ r.
Proof.
  cbn [pfx foldr]. fold (pfx gs). unfold grp_str. destruct (g_num g) as [|n].
  - exists "". rewrite str_app_nil_r. reflexivity.
  - exists (pretty (N.of_nat (S n)) +:+ "/"). rewrite !str_app_assoc. reflexivity.
Qed.

Lemma setValue_in (k : string) (v : Settings.value) (q : t) (g : grp) (gs : list grp) :
  stack q = g :: gs -> agree_out (pfx gs +:+ g_name g +:+ "/") (st q) (st (setValue k v q)).
Proof.
  intros S. unfold setValue, prefix. cbn [st]. rewrite S. fold (pfx (g :: gs)).
  destruct (pfx_cons g gs) as [r ->]. rewrite str_app_assoc. apply agree_out_insert.
Qed.

Lemma remove_out (k : string) (q : t) : agree_out (prefix q) (st q) (st (remove k q)).
Proof.
  intros k' Hk. unfold remove. cbn [st]. rewrite map_lookup_filter.
  destruct (st q !! k') as [v|]; [cbn|reflexivity].
  rewrite option_guard_True; [reflexivity|]. apply negb_true_iff, orb_false_iff. split.
  - apply String.eqb_neq. intros ->. rewrite prefix_app in Hk. discriminate Hk.
  - destruct (String.prefix ((prefix q +:+ k) +:+ "/") k') eqn:E; [|reflexivity].
    apply prefix_app_l, prefix_app_l in E. rewrite E in Hk. discriminate Hk.
Qed.

(** The loop of [storeSettings] over the signals keeps the group, raises
    its guessed size to the number of entries, and writes inside it. *)
Lemma write_detectors_frame (xs : list string) (i : nat) (q : t) (g : grp) (gs : list grp) :
  stack q = g :: gs -> g_max g = Some i ->
  exists g', stack (LWindow.write_detectors i xs q) = g' :: gs /\ g_name g' = g_name g /\
    g_max g' = Some (i + length xs) /\
    agree_out (pfx gs +:+ g_name g +:+ "/") (st q) (st (LWindow.write_detectors i xs q)).
Proof.
  revert i q g. induction xs as [|x xs IH]; intros i q g Hs M.
  - exists g. rewrite Nat.add_0_r. split; [exact Hs|]. split; [reflexivity|]. split; [exact M|apply agree_out_refl].
  - cbn [LWindow.write_detectors length]. set (q1 := setArrayIndex i q).
    set (g1 := mkg (g_name g) (S i) (option_map (fun m => Nat.max m (S i)) (g_max g))).
    assert (S1 : stack q1 = g1 :: gs) by (unfold q1, setArrayIndex; rewrite Hs; reflexivity).
    assert (T1 : st q1 = st q) by (unfold q1, setArrayIndex; rewrite Hs; reflexivity).
    assert (M1 : g_max g1 = Some (S i)) by (cbn; rewrite M; cbn; f_equal; lia).
    destruct (IH (S i) (setValue "detector" (VString x) q1) g1 S1 M1) as (g' & S' & N' & M' & A').
    exists g'. split; [exact S'|split; [exact N'|split; [rewrite M'; f_equal; lia|]]].
    eapply agree_out_trans; [|exact A'].
    rewrite <- T1. exact (setValue_in "detector" (VString x) q1 g1 gs S1).
Qed.

(** [beginWriteArray(p)], the loop and [endArray()]: the stack back, the
    size written under [p/size], every write under [p/]. *)
Lemma write_array_frame (p : string) (xs : list string) (q : t) :
  let q' := endArray (LWindow.write_detectors 0 xs (beginWriteArray p q)) in
  stack q' = stack q /\ agree_out (prefix q +:+ p +:+ "/") (st q) (st q') /\
  (exists s, st q' = <[prefix q +:+ p +:+ "/size" := VInt (Z.of_nat (length xs))]> s).
Proof.
  cbn zeta. set (q0 := beginWriteArray p q).
  assert (S0 : stack q0 = mkg p 0 (Some 0) :: stack q) by reflexivity.
  destruct (write_detectors_frame xs 0 q0 _ _ S0 eq_refl) as (g' & S' & N' & M' & A').
  unfold endArray. rewrite S', M'. cbn [g_name] in N'. rewrite N'. cbn [Nat.add].
  split; [reflexivity|]. split; [|eexists; reflexivity].
  unfold setValue. cbn [st stack].
  change (prefix (mk (st (LWindow.write_detectors 0 xs q0)) (stack q))) with (prefix q).
  replace (prefix q +:+ p +:+ "/size") with ((prefix q +:+ p +:+ "/") +:+ "size")
    by (rewrite !str_app_assoc; reflexivity).
  eapply agree_out_trans; [|apply agree_out_insert].
  cbn [g_name] in A'. change (pfx (stack q)) with (prefix q) in A'. eapply agree_out_trans; [|exact A'].
  exact (remove_out "size" (mk (st q) (mkg p 0 (Some 0) :: stack q))).
Qed.

(** One [setValue] more, at a stack equal to the one of [q]. *)
Lemma sv_frame (q q' : t) (k : string) (v : Settings.value) :
  stack q' = stack q /\ agree_out (prefix q) (st q) (st q') ->
  stack (setValue k v q') = stack q /\ agree_out (prefix q) (st q) (st (setValue k v q')).
Proof.
  intros [Hs A]. split; [exact Hs|]. eapply agree_out_trans; [exact A|].
  unfold setValue, prefix. cbn [st stack]. rewrite Hs. apply agree_out_insert.
Qed.

Lemma block_frame (q q' : t) (p : string) (xs : list string) :
  stack q' = stack q /\ agree_out (prefix q) (st q) (st q') ->
  let q'' := endArray (LWindow.write_detectors 0 xs (beginWriteArray p q')) in
  stack q'' = stack q /\ agree_out (prefix q) (st q) (st q'').
Proof.
  intros [Hs A]. destruct (write_array_frame p xs q') as (S' & A' & _). cbn zeta in *.
  split; [congruence|]. eapply agree_out_trans; [exact A|].
  apply agree_out_weaken in A'. unfold prefix in A' |- *. rewrite Hs in A'. exact A'.
Qed.

(** [storeSettings] keeps the group stack and writes under its prefix. *)
Lemma store_qs_frame (w : LWindow.t) (q : t) :
  stack (LWindow.store_qs w q) = stack q /\ agree_out (prefix q) (st q) (st (LWindow.store_qs w q)).
Proof.
  unfold LWindow.store_qs. cbv zeta.
  repeat apply sv_frame. apply block_frame. repeat apply sv_frame.
  split; [reflexivity|apply agree_out_refl].
Qed.

(** ** The keys [storeSettings] writes at the top level *)

Lemma stack_block (p : string) (xs : list string) (q : t) :
  stack (endArray (LWindow.write_detectors 0 xs (beginWriteArray p q))) = stack q.
Proof. exact (proj1 (write_array_frame p xs q)). Qed.

Lemma st_setValue_top (k : string) (v : Settings.value) (q : t) :
  stack q = [] -> st (setValue k v q) = <[k := v]> (st q).
Proof. intros H. unfold setValue, prefix. rewrite H. reflexivity. Qed.

Lemma block_out_top (p : string) (xs : list string) (q : t) (k : string) :
  stack q = [] -> String.prefix (p +:+ "/") k = false ->
  st (endArray (LWindow.write_detectors 0 xs (beginWriteArray p q))) !! k = st q !! k.
Proof.
  intros H Hk. destruct (write_array_frame p xs q) as (_ & A & _). apply A.
  unfold prefix. rewrite H. exact Hk.
Qed.

Lemma block_size_top (p : string) (xs : list string) (q : t) :
  stack q = [] ->
  st (endArray (LWindow.write_detectors 0 xs (beginWriteArray p q))) !! (p +:+ "/size") =
  Some (VInt (Z.of_nat (length xs))).
Proof.
  intros H. destruct (write_array_frame p xs q) as (_ & _ & s & ->).
  unfold prefix. rewrite H. apply lookup_insert_eq.
Qed.

(** Under [setArrayIndex(i)] of the array [p] a key is [p/<i+1>/key]. *)
Lemma prefix_index (p k : string) (i : nat) (q : t) (g : grp) :
  stack q = [g] -> g_name g = p -> prefix (setArrayIndex i q) +:+ k = array_key p i k.
Proof.
  intros H N. unfold setArrayIndex. rewrite H. unfold prefix, array_key. cbn [stack foldr grp_str g_num g_name].
  rewrite N. simpl String.append at 1. rewrite !str_app_assoc. reflexivity.
Qed.

(** One turn of the loop of [storeSettings] at the top level. *)
Lemma sv_index (i : nat) (v : Settings.value) (q : t) (g : grp) :
  stack q = [g] -> g_name g = "detectors" ->
  exists g1, stack (setValue "detector" v (setArrayIndex i q)) = [g1] /\ g_name g1 = "detectors" /\
    st (setValue "detector" v (setArrayIndex i q)) = <[array_key "detectors" i "detector" := v]> (st q).
Proof.
  intros H N. unfold setValue. rewrite (prefix_index _ _ i q g H N). unfold setArrayIndex. rewrite H.
  eexists. split; [reflexivity|]. split; [exact N|reflexivity].
Qed.

Lemma write_detectors_below (xs : list string) (i j : nat) (q : t) (g : grp) :
  stack q = [g] -> g_name g = "detectors" -> j < i ->
  st (LWindow.write_detectors i xs q) !! array_key "detectors" j "detector" =
  st q !! array_key "detectors" j "detector".
Proof.
  revert i q g. induction xs as [|x xs IH]; intros i q g H N Hj; [reflexivity|]. cbn [LWindow.write_detectors].
  destruct (sv_index i (VString x) q g H N) as (g1 & H1 & N1 & E1).
  rewrite (IH (S i) _ g1 H1 N1) by lia. rewrite E1. apply lookup_insert_ne.
  intros E. apply WindowFacts.array_key_inj in E. lia.
Qed.

Lemma write_detectors_entry (xs : list string) (i j : nat) (q : t) (g : grp) (x : string) :
  stack q = [g] -> g_name g = "detectors" -> xs !! j = Some x ->
  st (LWindow.write_detectors i xs q) !! array_key "detectors" (i + j) "detector" = Some (VString x).
Proof.
  revert i j q g. induction xs as [|y xs IH]; intros i j q g H N Hx; [discriminate Hx|].
  cbn [LWindow.write_detectors]. destruct (sv_index i (VString y) q g H N) as (g1 & H1 & N1 & E1).
  destruct j as [|j]; cbn in Hx.
  - injection Hx as ->. rewrite Nat.add_0_r, (write_detectors_below _ _ _ _ g1 H1 N1) by lia.
    rewrite E1. apply lookup_insert_eq.
  - rewrite <- Nat.add_succ_comm. exact (IH (S i) j _ g1 H1 N1 Hx).
Qed.

Lemma block_entry_top (xs : list string) (q : t) (j : nat) (x : string) :
  stack q = [] -> xs !! j = Some x ->
  st (endArray (LWindow.write_detectors 0 xs (beginWriteArray "detectors" q))) !!
    array_key "detectors" j "detector" = Some (VString x).
Proof.
  intros H Hx. set (q0 := beginWriteArray "detectors" q).
  assert (S0 : stack q0 = [mkg "detectors" 0 (Some 0)]) by (unfold q0, beginWriteArray, remove; cbn; now rewrite H).
  destruct (write_detectors_frame xs 0 q0 _ _ S0 eq_refl) as (g' & S' & N' & M' & _).
  unfold endArray. rewrite S', M'. cbn [g_name] in N'. rewrite N'.
  rewrite st_setValue_top by reflexivity. rewrite lookup_insert_ne by (intros E; symmetry in E; exact (WindowFacts.array_key_size j E)).
  exact (write_detectors_entry xs 0 j q0 _ x S0 eq_refl Hx).
Qed.

(** The value [storeSettings] writes under the current prefix for
    [interval]. *)
Lemma sv_lookup_ne (q' : t) (k' k P : string) (v : Settings.value) :
  prefix q' = P -> k' <> k -> st (setValue k' v q') !! (P +:+ k) = st q' !! (P +:+ k).
Proof. intros HP Hk. unfold setValue. cbn [st]. rewrite HP. apply lookup_insert_ne. intros E. apply Hk, (str_app_inv_l P), E. Qed.

Lemma block_at (q' : t) (xs : list string) (P k : string) :
  prefix q' = P -> String.prefix ("detectors" +:+ "/") k = false ->
  st (endArray (LWindow.write_detectors 0 xs (beginWriteArray "detectors" q'))) !! (P +:+ k) = st q' !! (P +:+ k).
Proof.
  intros HP Hk. destruct (write_array_frame "detectors" xs q') as (_ & A & _). apply A.
  rewrite HP, prefix_app_cancel. exact Hk.
Qed.

Lemma store_qs_at (w : LWindow.t) (q : t) :
  st (LWindow.store_qs w q) !! (prefix q +:+ "interval") = Some (VDouble (Fin (LWindow.interval w))).
Proof.
  unfold LWindow.store_qs. cbv zeta.
  repeat first
    [ rewrite sv_lookup_ne by (try discriminate; unfold prefix; cbn [stack setValue]; rewrite ?stack_block; reflexivity)
    | rewrite block_at by (try reflexivity; unfold prefix; cbn [stack setValue]; reflexivity) ].
  unfold setValue. cbn [st]. apply lookup_insert_eq.
Qed.

End QSFacts.

(** ** The setters before the connections *)

Module LWindowFacts.
Import Settings LWindow.
Local Open Scope string_scope.

Local Ltac unfold_cfg := cbv [config_of cf_interval cf_period cf_cont cf_saveDir cf_saveName cf_autoName cf_names cf_autoMin
  cf_min cf_autoMax cf_max cf_log cf_norma cf_grid r_log r_norma r_min r_max with_interval with_period with_cont
  with_files with_sigs with_signals with_ranges with_view with_local logScale normalizePlots showGrid_slot id
  c_interval c_period c_cont c_saveDir c_saveName c_autoName c_names c_autoMin c_min c_autoMax c_max c_log c_norma
  c_grid] in *.

Section Setters.
Variable text : Panel.color.
Variable fs : gmap string Panel.entry.
Variable now : string.

(** Nothing is stored before the connections. *)
Lemma stored_unwired (w : t) : wired w = false -> stored w = w.
Proof. unfold stored. now intros ->. Qed.

Lemma autoSave_frame (w : t) :
  let w' := snd (autoSave fs now w) in
  config_of w' = cf_autoSave fs now (config_of w) /\ local w' = local w /\ wired w' = wired w.
Proof.
  unfold autoSave, cf_autoSave. destruct (LChart.prepareAutoSave _ _ _ _ _) as [ret name'] eqn:P.
  destruct (negb (autoName w) && String.eqb (saveName w) "") eqn:B.
  - unfold LChart.prepareAutoSave in P. rewrite B in P. injection P as _ <-. destruct w. repeat split.
  - destruct w. unfold_cfg. repeat split.
Qed.

(** With the automatic name unchecked, [prepareAutoSave] leaves the name. *)
Lemma prep_name_false (d n : string) : snd (LChart.prepareAutoSave fs now false d n) = n.
Proof. unfold LChart.prepareAutoSave. cbn [negb andb]. destruct (String.eqb n ""); reflexivity. Qed.

Lemma fst_engines (f : LSignal.t -> LSignal.t) (l : list (string * LSignal.t)) :
  map fst (map (fun ps => (ps.1, f ps.2)) l) = map fst l.
Proof. rewrite map_map. reflexivity. Qed.

Local Ltac close w := destruct w; unfold_cfg; cbn in *; subst; rewrite ?fst_engines; repeat split; reflexivity.
Local Ltac close_w := match goal with w : t |- _ => close w end.
Local Ltac eq_case := match goal with
  | |- context [Bool.eqb ?b ?c] => destruct (Bool.eqb_spec b c) as [->|_]; [close_w|]
  | |- context [String.eqb ?b ?c] => destruct (String.eqb_spec b c) as [->|_]; [close_w|] end.

Lemma set_cont_frame (b : bool) (w : t) : wired w = false -> frame (cf_cont b) w (set_cont b w).
Proof. intros Hw. unfold frame, set_cont. eq_case. rewrite stored_unwired by exact Hw. close_w. Qed.

Lemma set_autoMin_frame (b : bool) (w : t) : wired w = false -> frame (cf_autoMin b) w (set_autoMin b w).
Proof. intros Hw. unfold frame, set_autoMin. eq_case. rewrite stored_unwired by exact Hw. close_w. Qed.

Lemma set_autoMax_frame (b : bool) (w : t) : wired w = false -> frame (cf_autoMax b) w (set_autoMax b w).
Proof. intros Hw. unfold frame, set_autoMax. eq_case. rewrite stored_unwired by exact Hw. close_w. Qed.

Lemma set_log_frame (b : bool) (w : t) : wired w = false -> frame (cf_log b) w (set_log b w).
Proof. intros Hw. unfold frame, set_log, isLog. eq_case. rewrite stored_unwired by exact Hw. close_w. Qed.

Lemma set_norma_frame (b : bool) (w : t) : wired w = false -> frame (cf_norma b) w (set_norma b w).
Proof. intros Hw. unfold frame, set_norma, isNorm. eq_case. rewrite stored_unwired by exact Hw. close_w. Qed.

Lemma set_grid_frame (b : bool) (w : t) : wired w = false -> frame (cf_grid b) w (set_grid b w).
Proof. intros Hw. unfold frame, set_grid. eq_case. rewrite stored_unwired by exact Hw. close_w. Qed.

Lemma set_min_frame (m : double) (w : t) : frame (cf_min m) w (set_min m w).
Proof. unfold frame. close_w. Qed.

Lemma set_max_frame (m : double) (w : t) : frame (cf_max m) w (set_max m w).
Proof. unfold frame. close_w. Qed.

Lemma set_interval_frame (v : Q) (w : t) : frame (cf_interval v) w (set_interval v w).
Proof. unfold frame. close_w. Qed.

Lemma set_period_frame (v : Q) (w : t) : frame (cf_period v) w (set_period v w).
Proof. unfold frame. close_w. Qed.

Lemma set_saveDir_frame (d : string) (w : t) : frame (cfs_saveDir fs now d) w (set_saveDir fs now d w).
Proof.
  unfold frame, set_saveDir, cfs_saveDir. change (c_saveDir (config_of w)) with (saveDir w). eq_case.
  destruct (autoSave_frame (with_files d (saveName w) (autoName w) (dirOK w) (nameOK w) w)) as (C & L & W).
  rewrite C, L, W. close_w.
Qed.

Lemma set_saveName_frame (n : string) (w : t) : frame (cfs_saveName fs now n) w (set_saveName fs now n w).
Proof.
  unfold frame, set_saveName, cfs_saveName. change (c_saveName (config_of w)) with (saveName w). eq_case.
  destruct (autoSave_frame (with_files (saveDir w) n (autoName w) (dirOK w) (nameOK w) w)) as (C & L & W).
  rewrite C, L, W. close_w.
Qed.

Lemma set_autoName_frame (b : bool) (w : t) :
  wired w = false -> frame (cfs_autoName fs now b) w (set_autoName fs now b w).
Proof.
  intros Hw. unfold frame, set_autoName, cfs_autoName. change (c_autoName (config_of w)) with (autoName w). eq_case.
  destruct (autoSave_frame (with_files (saveDir w) (saveName w) b (dirOK w) (nameOK w) w)) as (C & L & W).
  rewrite stored_unwired by (rewrite W; exact Hw). rewrite C, L, W. close_w.
Qed.

Lemma frame_trans (f g : config -> config) (w1 w2 w3 : t) :
  frame f w1 w2 -> frame g w2 w3 -> frame (fun c => g (f c)) w1 w3.
Proof. intros (C1 & L1 & W1) (C2 & L2 & W2). split; [congruence|split; congruence]. Qed.

Lemma lcontains_lvalue (k : string) (w : t) : lcontains k w = bool_decide (is_Some (lvalue k w)).
Proof. unfold lcontains, lvalue. destruct (local w); reflexivity. Qed.

Lemma restore_if_some (k : string) (f : option value -> t -> t) (w : t) (v : value) :
  lvalue k w = Some v -> restore_if k f w = f (Some v) w.
Proof. intros H. unfold restore_if. rewrite lcontains_lvalue, H. reflexivity. Qed.

(** A step of the restore that finds its key. *)
Lemma restore_if_frame (k : string) (f : option value -> t -> t) (g : config -> config) (w : t) (v : value) :
  lvalue k w = Some v -> frame g w (f (Some v) w) -> frame g w (restore_if k f w).
Proof. intros H F. rewrite (restore_if_some k f w v H). exact F. Qed.

Lemma lvalue_frame (f : config -> config) (w w' : t) (k : string) : frame f w w' -> lvalue k w' = lvalue k w.
Proof. intros (_ & L & _). unfold lvalue. now rewrite L. Qed.

Lemma preparePlot_keep (w : t) :
  config_of (preparePlot w) = config_of w /\ local (preparePlot w) = local w /\ wired (preparePlot w) = wired w /\
  saveName (preparePlot w) = saveName w.
Proof. unfold preparePlot. destruct w. unfold_cfg. cbn [signals]. rewrite fst_engines. repeat split. Qed.

Lemma storeSettings_keep (w : t) :
  config_of (storeSettings w) = config_of w /\ local (storeSettings w) = option_map (store_qs w) (local w) /\
  wired (storeSettings w) = wired w /\ saveName (storeSettings w) = saveName w.
Proof. unfold storeSettings, on_local. destruct (local w) eqn:L; repeat split. exact L. Qed.

(** [addSignal]: the PV appended to the names, the rest of the
    configuration kept, and [storeSettings] writing under the current
    prefix of [localSettings]. *)
Lemma addSignal_spec (pv : string) (w : t) :
  let w' := addSignal text pv w in
  config_of w' = cf_names (c_names (config_of w) ++ [pv]) (config_of w) /\ wired w' = wired w /\
  saveName w' = saveName w /\ (local w = None -> local w' = None) /\
  (forall q, local w = Some q -> exists q', local w' = Some q' /\ QS.stack q' = QS.stack q /\
     QS.agree_out (QS.prefix q) (QS.st q) (QS.st q') /\
     QS.st q' !! (QS.prefix q +:+ "interval") = Some (VDouble (Fin (interval w)))).
Proof.
  cbn zeta. unfold addSignal.
  match goal with |- context [match ?M with pair _ _ => _ end] => destruct M as [col left] end.
  cbv beta iota zeta;
  match goal with |- context [constructSignalsLayout ?x] => set (w1 := x) end;
  (assert (C1 : config_of w1 = cf_names (c_names (config_of w) ++ [pv]) (config_of w) /\ local w1 = local w /\
               wired w1 = wired w /\ saveName w1 = saveName w)
    by (unfold w1; destruct w; unfold_cfg; cbn; rewrite map_app; repeat split));
  clearbody w1; unfold constructSignalsLayout;
  match goal with |- context [storeSettings ?x] => set (w2 := x) end.
  assert (C2 : config_of w2 = config_of w1 /\ local w2 = local w1 /\ wired w2 = wired w1 /\ saveName w2 = saveName w1)
    by (unfold w2; destruct w1; repeat split).
  destruct (preparePlot_keep (storeSettings w2)) as (P1 & P2 & P3 & P4).
  destruct (storeSettings_keep w2) as (S1 & S2 & S3 & S4).
  destruct C1 as (C1 & L1 & W1 & N1), C2 as (C2 & L2 & W2 & N2).
  split; [congruence|split; [congruence|split; [congruence|]]].
  split; [intros L; rewrite P2, S2, L2, L1, L; reflexivity|].
  intros q L. exists (store_qs w2 q). rewrite P2, S2, L2, L1, L. split; [reflexivity|].
  destruct (QSFacts.store_qs_frame w2 q) as [F1 F2]. split; [exact F1|split; [exact F2|]].
  rewrite QSFacts.store_qs_at.
  change (interval w2) with (c_interval (config_of w2)). rewrite C2, C1. reflexivity.
Qed.

(** Under [setArrayIndex(i)] of [detectors] the prefix is
    [detectors/<i+1>/]. *)
Lemma idx_prefix (i : nat) (q : QS.t) (g : QS.grp) :
  QS.stack q = [g] -> QS.g_name g = "detectors" ->
  QS.prefix (QS.setArrayIndex i q) = "detectors" +:+ "/" +:+ pretty (N.of_nat (S i)) +:+ "/".
Proof.
  intros H N. unfold QS.setArrayIndex. rewrite H. unfold QS.prefix.
  cbn [QS.stack foldr QS.grp_str QS.g_num QS.g_name]. rewrite N. simpl String.append at 1.
  rewrite !str_app_assoc. reflexivity.
Qed.

Lemma cf_names_app (c : config) (l1 l2 : list string) :
  cf_names (c_names (cf_names (c_names c ++ l1) c) ++ l2) (cf_names (c_names c ++ l1) c) =
  cf_names (c_names c ++ l1 ++ l2) c.
Proof. destruct c. cbn. now rewrite app_assoc. Qed.

(** The loop of the restore branch from index [i]: it adds the
    detectors the file holds at [i], [i+1], ..., keeps the group, and
    writes only under [detectors/<i'+1>/] for the indices it runs. *)
Lemma read_detectors_spec (names : list string) (i : nat) (w : t) (q : QS.t) (g : QS.grp) :
  local w = Some q -> QS.stack q = [g] -> QS.g_name g = "detectors" -> QS.g_max g = None ->
  (forall j x, names !! j = Some x -> QS.st q !! array_key "detectors" (i + j) "detector" = Some (VString x)) ->
  let w' := read_detectors text (length names) i w in
  config_of w' = cf_names (c_names (config_of w) ++ names) (config_of w) /\ wired w' = wired w /\
  saveName w' = saveName w /\
  exists q' g', local w' = Some q' /\ QS.stack q' = [g'] /\ QS.g_name g' = "detectors" /\ QS.g_max g' = None /\
    (forall key, (forall i', i <= i' -> i' < i + length names ->
                  String.prefix ("detectors" +:+ "/" +:+ pretty (N.of_nat (S i')) +:+ "/") key = false) ->
      QS.st q' !! key = QS.st q !! key) /\
    (names <> [] -> QS.st q' !! ("detectors" +:+ "/" +:+ pretty (N.of_nat (S i)) +:+ "/" +:+ "interval") =
                    Some (VDouble (Fin (interval w)))).
Proof.
  revert i w q g. induction names as [|x names IH]; intros i w q g L Hs N M E; cbn zeta.
  - cbn [read_detectors length]. rewrite app_nil_r. split; [now destruct (config_of w)|].
    split; [reflexivity|split; [reflexivity|]]. exists q, g. repeat split; auto. intros H. contradiction.
  - cbn [read_detectors length]. set (w1 := on_local (QS.setArrayIndex i) w).
    set (q1 := QS.setArrayIndex i q).
    assert (L1 : local w1 = Some q1) by (unfold w1, on_local; now rewrite L).
    assert (K1 : config_of w1 = config_of w /\ wired w1 = wired w /\ saveName w1 = saveName w)
      by (unfold w1, on_local; rewrite L; repeat split).
    assert (S1 : QS.stack q1 = [QS.mkg "detectors" (S i) None]) by (unfold q1, QS.setArrayIndex; rewrite Hs, N, M; reflexivity).
    assert (P1 : QS.prefix q1 = "detectors" +:+ "/" +:+ pretty (N.of_nat (S i)) +:+ "/") by exact (idx_prefix i q g Hs N).
    assert (V1 : lvalue "detector" w1 = Some (VString x)).
    { unfold lvalue. rewrite L1. unfold QS.value, q1. rewrite (QSFacts.prefix_index "detectors" "detector" i q g Hs N).
      replace (QS.st (QS.setArrayIndex i q)) with (QS.st q) by (unfold QS.setArrayIndex; now rewrite Hs).
      rewrite <- (Nat.add_0_r i). exact (E 0 x eq_refl). }
    rewrite V1. cbn [toString].
    destruct (addSignal_spec x w1) as (C2 & W2 & N2 & _ & A2). destruct (A2 q1 L1) as (q2 & L2 & S2 & A2' & J2).
    rewrite S1 in S2.
    assert (E2 : forall j y, names !! j = Some y ->
                 QS.st q2 !! array_key "detectors" (S i + j) "detector" = Some (VString y)).
    { intros j y Hy. rewrite A2'.
      - unfold q1, QS.setArrayIndex. rewrite Hs. cbn [QS.st]. replace (S i + j) with (i + S j) by lia. exact (E (S j) y Hy).
      - rewrite P1. unfold array_key. apply Keys.index_prefix_ne. lia. }
    destruct (IH (S i) _ q2 _ L2 S2 eq_refl eq_refl E2) as (C3 & W3 & N3 & q3 & g3 & L3 & S3 & N3' & M3 & A3 & _).
    split; [rewrite C3, C2, (proj1 K1); apply cf_names_app|].
    split; [rewrite W3, W2; exact (proj1 (proj2 K1))|split; [rewrite N3, N2; exact (proj2 (proj2 K1))|]].
    exists q3, g3. split; [exact L3|]. split; [exact S3|]. split; [exact N3'|]. split; [exact M3|]. split.
    + intros key Hk. rewrite A3 by (intros i' H1 H2; apply Hk; lia).
      rewrite A2' by (rewrite P1; apply Hk; lia). unfold q1, QS.setArrayIndex. rewrite Hs. reflexivity.
    + intros _. rewrite A3.
      * rewrite P1 in J2. rewrite ?str_app_assoc in J2. rewrite J2.
        change (interval w1) with (c_interval (config_of w1)). rewrite (proj1 K1). reflexivity.
      * intros i' H1 _. apply Keys.index_prefix_ne. intros Ei. apply Nat2N.inj in Ei. lia.
Qed.

Local Ltac top_lookup :=
  unfold store_qs; cbv zeta;
  repeat first
    [ rewrite QSFacts.st_setValue_top by (cbn [QS.stack QS.setValue]; rewrite ?QSFacts.stack_block; reflexivity)
    | rewrite lookup_insert_eq
    | rewrite lookup_insert_ne by (apply not_eq_sym, WindowFacts.array_key_d; discriminate)
    | rewrite lookup_insert_ne by discriminate
    | rewrite QSFacts.block_out_top by reflexivity ].

(** The scalar keys of the file [storeSettings] writes at the top level. *)
Lemma store_top (w : t) (st0 : store) :
  let F := QS.st (store_qs w (QS.open st0)) in
  F !! "interval" = Some (VDouble (Fin (interval w))) /\ F !! "period" = Some (VDouble (Fin (period w))) /\
  F !! "continue" = Some (VBool (cont w)) /\ F !! "saveDir" = Some (VString (saveDir w)) /\
  F !! "saveName" = Some (VString (saveName w)) /\ F !! "autoName" = Some (VBool (autoName w)) /\
  F !! "autoMin" = Some (VBool (Ranges.autoMin (ranges w))) /\ F !! "min" = Some (VDouble (Ranges.min (ranges w))) /\
  F !! "autoMax" = Some (VBool (Ranges.autoMax (ranges w))) /\ F !! "max" = Some (VDouble (Ranges.max (ranges w))) /\
  F !! "log" = Some (VBool (Ranges.logY (ranges w))) /\ F !! "norma" = Some (VBool (Ranges.norma (ranges w))) /\
  F !! "grid" = Some (VBool (showGrid w)).
Proof. cbn zeta. repeat split; top_lookup; reflexivity. Qed.

(** Its array of detectors. *)
Lemma store_detectors (w : t) (st0 : store) :
  let F := QS.st (store_qs w (QS.open st0)) in
  F !! "detectors/size" = Some (VInt (Z.of_nat (length (map fst (signals w))))) /\
  (forall j x, map fst (signals w) !! j = Some x -> F !! array_key "detectors" j "detector" = Some (VString x)).
Proof.
  cbn zeta. split.
  - top_lookup. apply QSFacts.block_size_top. reflexivity.
  - intros j x Hx. top_lookup. apply QSFacts.block_entry_top; [reflexivity|exact Hx].
Qed.

(** The array part of the restore on the file [F]: the detectors it
    lists added in order, the group closed, and the file changed only
    under [detectors/<i+1>/]. *)
Lemma restore_detectors_spec (F : store) (names : list string) (w : t) :
  local w = Some (QS.open F) -> F !! "detectors/size" = Some (VInt (Z.of_nat (length names))) ->
  (forall j x, names !! j = Some x -> F !! array_key "detectors" j "detector" = Some (VString x)) ->
  let w' := restore_detectors text w in
  config_of w' = cf_names (c_names (config_of w) ++ names) (config_of w) /\ wired w' = wired w /\
  saveName w' = saveName w /\
  exists q', local w' = Some q' /\ QS.stack q' = [] /\
    (forall key, (forall i', String.prefix ("detectors" +:+ "/" +:+ pretty (N.of_nat (S i')) +:+ "/") key = false) ->
      QS.st q' !! key = F !! key) /\
    (names <> [] -> QS.st q' !! "detectors/1/interval" = Some (VDouble (Fin (interval w)))).
Proof.
  intros L Hs E. cbn zeta. unfold restore_detectors. rewrite L. unfold QS.beginReadArray. cbn [QS.open QS.st QS.stack].
  change (QS.value "size" (QS.mk F [QS.mkg "detectors" 0 None])) with (F !! "detectors/size").
  rewrite Hs. cbn [toInt]. rewrite Nat2Z.id.
  set (w0 := with_local _ _ w).
  destruct (read_detectors_spec names 0 w0 (QS.mk F [QS.mkg "detectors" 0 None]) (QS.mkg "detectors" 0 None)
              eq_refl eq_refl eq_refl eq_refl E) as (C & W & N & q3 & g3 & L3 & S3 & _ & M3 & A3 & J3).
  unfold on_local. rewrite L3. split; [exact C|split; [exact W|split; [exact N|]]].
  eexists. split; [reflexivity|]. unfold QS.endArray. rewrite S3, M3. split; [reflexivity|].
  split; [intros key Hk; cbn [QS.st]; apply A3; intros i' _ _; apply Hk|].
  intros Hn. exact (J3 Hn).
Qed.

Lemma lvalue_top (k : string) (w : t) (q : QS.t) :
  local w = Some q -> QS.stack q = [] -> lvalue k w = QS.st q !! k.
Proof. intros L S. unfold lvalue, QS.value, QS.prefix. now rewrite L, S. Qed.

Local Ltac eqb_case :=
  match goal with
  | |- context [String.eqb ?a ?b] => destruct (String.eqb_spec a b) as [?|]; try subst
  | |- context [Bool.eqb ?a ?b] => destruct (Bool.eqb_spec a b) as [?|]; try subst
  end.

Local Ltac frame_lem :=
  cbv beta; cbn [Window.spin toDouble toBool toString];
  first [ apply set_interval_frame | apply set_period_frame | apply set_min_frame | apply set_max_frame
        | apply set_saveName_frame
        | apply set_cont_frame; assumption | apply set_autoName_frame; assumption
        | apply set_autoMin_frame; assumption | apply set_autoMax_frame; assumption
        | apply set_log_frame; assumption | apply set_norma_frame; assumption
        | apply set_grid_frame; assumption ].

(** One [if (contains(k)) set(value(k))] of the restore, on a window
    whose settings read [v] at [k]: the running facts moved to the next
    window. *)
Local Ltac rstep k g v look :=
  match goal with
  | HC : config_of ?x = ?e, HL : local ?x = Some ?q, HS : QS.stack ?q = [], HW : wired ?x = false
    |- context [restore_if k ?f ?x] =>
      let y := fresh "w" in
      let Hy := fresh "Hy" in
      assert (Hy : frame g x (restore_if k f x))
        by (apply (restore_if_frame k f g x v); [rewrite (lvalue_top k x q HL HS); exact look|frame_lem]);
      set (y := restore_if k f x) in *; clearbody y;
      let C := fresh "C" in let L := fresh "L" in let W := fresh "W" in
      destruct Hy as (C & L & W); rewrite HC in C; rewrite HL in L; rewrite HW in W;
      clear HC HL HW; rename C into HC; rename L into HL; rename W into HW
  end.

(** The restore branch, run on the file [storeSettings] wrote for [w],
    gives back [w]'s configuration, the file name apart; the name too
    when the automatic name is unchecked in the form and in [w]. *)
Lemma restore_roundtrip (home : string) (w w0 : t) (st0 : store) :
  wired w0 = false -> signals w0 = [] ->
  let w' := restore_branch text fs now home (QS.st (store_qs w (QS.open st0))) w0 in
  config_of w' = cf_saveName (saveName w') (config_of w) /\
  (autoName w0 = false -> autoName w = false -> saveName w' = saveName w) /\ wired w' = false /\
  (signals w <> [] -> exists q, local w' = Some q /\
     QS.st q !! "detectors/1/interval" = Some (VDouble (Fin (interval w)))).
Proof.
  intros W0 S0. cbn zeta.
  destruct (store_top w st0) as (Fi & Fp & Fc & Fd & Fn & Fa & Fmi & Fm & Fma & Fx & Fl & Fno & Fg).
  destruct (store_detectors w st0) as [Fs Fe].
  set (F := QS.st (store_qs w (QS.open st0))) in *. clearbody F.
  unfold restore_branch. cbv zeta.
  set (x := with_local (Some (QS.open F)) (wired w0) w0).
  assert (HC : config_of x = config_of w0) by reflexivity.
  assert (HL : local x = Some (QS.open F)) by reflexivity.
  assert (HS : QS.stack (QS.open F) = []) by reflexivity.
  assert (HW : wired x = false) by exact W0.
  clearbody x.
  rstep "interval" (cf_interval (interval w)) (VDouble (Fin (interval w))) Fi.
  rstep "period" (cf_period (period w)) (VDouble (Fin (period w))) Fp.
  rstep "continue" (cf_cont (cont w)) (VBool (cont w)) Fc.
  match goal with |- context [restore_saveDir fs now home ?x] =>
    assert (Hy : frame (cfs_saveDir fs now (saveDir w)) x (restore_saveDir fs now home x))
      by (unfold restore_saveDir; rewrite lcontains_lvalue, (lvalue_top _ _ _ HL HS); cbn [QS.st QS.open];
          rewrite Fd; apply set_saveDir_frame);
    let y := fresh "w" in set (y := restore_saveDir fs now home x) in *; clearbody y;
    destruct Hy as (C & L & W); rewrite HC in C; rewrite HL in L; rewrite HW in W;
    clear HC HL HW; rename C into HC; rename L into HL; rename W into HW
  end.
  rstep "saveName" (cfs_saveName fs now (saveName w)) (VString (saveName w)) Fn.
  rstep "autoName" (cfs_autoName fs now (autoName w)) (VBool (autoName w)) Fa.
  match goal with |- context [restore_detectors text ?x] =>
    destruct (restore_detectors_spec F (map fst (signals w)) x HL Fs Fe) as (C & W & _ & q' & L & S' & A' & J');
    assert (I : interval x = interval w)
      by (change (interval x) with (c_interval (config_of x)); rewrite HC;
          unfold cfs_autoName, cfs_saveName, cfs_saveDir, cf_autoSave; repeat case_match; reflexivity);
    rewrite I in J'; clear I;
    let y := fresh "w" in set (y := restore_detectors text x) in *; clearbody y; rewrite HC in C; rewrite HW in W;
    clear HC HL HW HS; rename C into HC; rename L into HL; rename W into HW; rename S' into HS
  end.
  assert (G : forall k v, F !! k = Some v -> String.get 0 k <> Some "d"%char -> QS.st q' !! k = Some v).
  { intros k v Hk Hd. rewrite A'; [exact Hk|]. intros i'. destruct k as [|c k]; [reflexivity|].
    cbn [String.get] in Hd. change ("detectors" +:+ ?r) with (String "d" ("etectors" +:+ r)).
    cbn [String.prefix]. destruct (ascii_dec "d" c) as [<-|]; [easy|reflexivity]. }
  rstep "autoMin" (cf_autoMin (Ranges.autoMin (ranges w))) (VBool (Ranges.autoMin (ranges w))) (G _ _ Fmi ltac:(discriminate)).
  rstep "min" (cf_min (Ranges.min (ranges w))) (VDouble (Ranges.min (ranges w))) (G _ _ Fm ltac:(discriminate)).
  rstep "autoMax" (cf_autoMax (Ranges.autoMax (ranges w))) (VBool (Ranges.autoMax (ranges w))) (G _ _ Fma ltac:(discriminate)).
  rstep "max" (cf_max (Ranges.max (ranges w))) (VDouble (Ranges.max (ranges w))) (G _ _ Fx ltac:(discriminate)).
  rstep "log" (cf_log (Ranges.logY (ranges w))) (VBool (Ranges.logY (ranges w))) (G _ _ Fl ltac:(discriminate)).
  rstep "norma" (cf_norma (Ranges.norma (ranges w))) (VBool (Ranges.norma (ranges w))) (G _ _ Fno ltac:(discriminate)).
  rstep "grid" (cf_grid (showGrid w)) (VBool (showGrid w)) (G _ _ Fg ltac:(discriminate)).
  match goal with |- context [saveName ?y] => change (saveName y) with (c_saveName (config_of y)) end.
  rewrite HC. split; [|split; [|split; [exact HW|]]].
  3:{ intros Hw. exists q'. split; [exact HL|]. apply J'. destruct (signals w); [contradiction|discriminate]. }
  all: clear J'.
  all: assert (N0 : c_names (config_of w0) = []) by (unfold config_of; now rewrite S0).
  all: change (autoName w0) with (c_autoName (config_of w0)).
  all: revert N0; generalize (config_of w0) as c0; intros [] N0; cbn in N0; subst;
    cbv [cfs_saveDir cfs_saveName cfs_autoName cf_autoSave config_of cf_interval cf_period cf_cont
      cf_saveDir cf_saveName cf_autoName cf_names cf_autoMin cf_min cf_autoMax cf_max cf_log cf_norma cf_grid
      c_interval c_period c_cont c_saveDir c_saveName c_autoName c_names c_autoMin c_min c_autoMax c_max
      c_log c_norma c_grid].
  - repeat (eqb_case; cbv [c_interval c_period c_cont c_saveDir c_saveName c_autoName c_names c_autoMin c_min
                             c_autoMax c_max c_log c_norma c_grid]); reflexivity.
  - intros -> A. rewrite A.
    repeat (eqb_case; cbv [c_saveName c_autoName c_saveDir]); rewrite ?prep_name_false in *; congruence.
Qed.

Lemma given_frame {A} (o : option A) (f : A -> t -> t) (g : A -> config -> config) (w : t) :
  (forall v, frame (g v) w (f v w)) -> frame (match o with Some v => g v | None => id end) w (given o f w).
Proof. intros H. destruct o as [v|]; [apply H|]. unfold frame. repeat split. Qed.

(** [addSignal] for each PV of a list, [localSettings] still null. *)
Lemma add_all_frame (l : list string) (w : t) :
  local w = None -> frame (cfs_names l) w (add_all text l w).
Proof.
  unfold cfs_names. revert w. induction l as [|pv l IH]; intros w L.
  - unfold frame, add_all. cbn [fold_left]. rewrite app_nil_r. split; [|split; reflexivity].
    destruct (config_of w); reflexivity.
  - unfold add_all. cbn [fold_left]. fold (add_all text l (addSignal text pv w)).
    destruct (addSignal_spec pv w) as (C & W & _ & L1 & _). specialize (L1 L).
    destruct (IH _ L1) as (C' & L' & W'). split; [rewrite C', C; apply cf_names_app|].
    split; congruence.
Qed.

(** [prepareAutoSave] after a setter changes the file name only. *)
Lemma cfs_saveDir_shape (d : string) (c : config) :
  exists v, cfs_saveDir fs now d c = cf_saveName v (cf_saveDir d c).
Proof.
  unfold cfs_saveDir. destruct (String.eqb_spec d (c_saveDir c)) as [->|_].
  - exists (c_saveName c). destruct c; reflexivity.
  - eexists. reflexivity.
Qed.

Lemma cfs_autoName_shape (b : bool) (c : config) :
  exists v, cfs_autoName fs now b c = cf_saveName v (cf_autoName b c).
Proof.
  unfold cfs_autoName. destruct (Bool.eqb_spec b (c_autoName c)) as [->|_].
  - exists (c_saveName c). destruct c; reflexivity.
  - eexists. reflexivity.
Qed.

Lemma cfs_saveName_shape (n : string) (c : config) :
  exists v, cfs_saveName fs now n c = cf_saveName v c /\ (c_autoName c = false -> v = n).
Proof.
  unfold cfs_saveName. destruct (String.eqb_spec n (c_saveName c)) as [->|_].
  - exists (c_saveName c). split; [destruct c; reflexivity|reflexivity].
  - eexists. split; [reflexivity|]. unfold cf_autoSave. cbn [c_autoName c_saveDir c_saveName cf_saveName].
    intros ->. apply prep_name_false.
Qed.

Lemma frame_seq (f g : config -> config) (w1 w2 w3 : t) :
  frame f w1 w2 -> (local w2 = local w1 -> wired w2 = wired w1 -> frame g w2 w3) ->
  frame (fun c => g (f c)) w1 w3.
Proof. intros F G. destruct F as (C1 & L1 & W1). exact (frame_trans _ _ _ _ _ (conj C1 (conj L1 W1)) (G L1 W1)). Qed.

Lemma collapse_frame (b : bool) (f : config -> config) (w w' : t) :
  frame f w w' ->
  frame f w ((if b then fun w => with_view (showGrid w) (gridOn w) true (timeData w) w else id) w').
Proof. destruct b; exact id. Qed.

Local Ltac arg_step :=
  eapply frame_seq; [|intros ?L2 ?W2;
    first [ apply given_frame; intros ?v;
              first [apply set_interval_frame | apply set_period_frame | apply set_saveDir_frame
                    | apply set_saveName_frame | apply set_min_frame | apply set_max_frame]
          | apply add_all_frame; congruence
          | apply set_autoName_frame; congruence | apply set_autoMin_frame; congruence
          | apply set_autoMax_frame; congruence | apply set_log_frame; congruence
          | apply set_norma_frame; congruence | apply set_grid_frame; congruence ]].

(** The options branch of the constructor, on a window not yet connected
    and without settings, is [args_cfg] on the configuration. *)
Lemma args_branch_frame (a : args) (w : t) :
  local w = None -> wired w = false -> frame (args_cfg fs now a) w (args_branch text fs now a w).
Proof.
  intros L W. unfold args_branch, args_cfg. cbv beta zeta. apply collapse_frame.
  do 11 arg_step.
  eapply frame_seq; [|intros ?L2 ?W2; destruct (a_cont a); [apply set_cont_frame; congruence|split; auto]].
  arg_step. apply given_frame. intros v. apply set_interval_frame.
Qed.

End Setters.

Section Create.
Variable text : Panel.color.
Variable fs : gmap string Panel.entry.
Variables now home : string.

(** C23: The legacy window keeps its configuration across a restart: the
    constructor, started without options on the file [storeSettings]
    wrote for a window [w], gives back [w]'s intervals, continuous box,
    directory, check boxes, detectors in order, range widgets and grid.
    The file name comes back too when the automatic name is unchecked in
    [w] and in the designer's form; otherwise [prepareAutoSave] replaces
    it, because the restore sets [saveDir] and [saveName] before
    [autoName]. *)
Theorem legacy_settings_roundtrip (a : args) (st0 : store) (w form : t) :
  any_given a = false -> signals form = [] ->
  let w' := create text fs now home a (QS.st (store_qs w (QS.open st0))) form in
  config_of w' = cf_saveName (saveName w') (config_of w) /\
  (autoName form = false -> autoName w = false -> saveName w' = saveName w).
Proof.
  intros A S. cbn zeta. unfold create. rewrite A.
  match goal with |- context [restore_branch text fs now home ?F ?w0] =>
    destruct (restore_roundtrip text fs now home w w0 st0 eq_refl S) as (C & N & _ & _);
    set (r := restore_branch text fs now home F w0) in *; clearbody r end.
  destruct (preparePlot_keep (with_local (local r) true r)) as (P1 & _ & _ & P4).
  rewrite P1, P4. exact (conj C N).
Qed.

(** C25: Restoring a file that lists a detector writes a whole copy of
    the configuration under [detectors/1/] of that file: [addSignal]
    runs [constructSignalsLayout], whose [storeSettings] runs while
    [beginReadArray("detectors")] has the group [detectors/1] open. *)
Theorem restore_writes_into_array (a : args) (st0 : store) (w form : t) :
  any_given a = false -> signals form = [] -> signals w <> [] ->
  exists q, local (create text fs now home a (QS.st (store_qs w (QS.open st0))) form) = Some q /\
    QS.st q !! "detectors/1/interval" = Some (VDouble (Fin (interval w))).
Proof.
  intros A S Hw. unfold create. rewrite A.
  match goal with |- context [restore_branch text fs now home ?F ?w0] =>
    destruct (restore_roundtrip text fs now home w w0 st0 eq_refl S) as (_ & _ & _ & J);
    set (r := restore_branch text fs now home F w0) in *; clearbody r end.
  destruct (J Hw) as (q & L & V). exists q. split; [|exact V].
  destruct (preparePlot_keep (with_local (local r) true r)) as (_ & P2 & _ & _). rewrite P2. exact L.
Qed.

(** C24: Started with options, the legacy window takes its configuration
    from them: each option given replaces the designer's value, the
    continuous box is checked by [-c] and never unchecked, the detectors
    are the positional arguments in order, an automatic range stays on
    exactly when no [-min]/[-max] is given, the automatic name exactly
    when no [-o] is given, and a name given by [-o] is the one kept.
    [localSettings] stays null, so nothing of the session is saved. *)
Theorem legacy_args_config (a : args) (file : store) (form : t) :
  any_given a = true ->
  let w' := create text fs now home a file form in
  local w' = None /\
  config_of w' = cf_saveName (saveName w')
    (mkc (default (interval form) (a_interval a)) (default (period form) (a_period a)) (a_cont a || cont form)
       (default (saveDir form) (a_saveDir a)) (saveName form) (negb (Args.is_Some_b (a_saveName a)))
       (map fst (signals form) ++ a_detectors a)
       (negb (Args.is_Some_b (a_min a))) (default (Ranges.min (ranges form)) (a_min a))
       (negb (Args.is_Some_b (a_max a))) (default (Ranges.max (ranges form)) (a_max a))
       (a_log a) (a_norma a) (a_grid a)) /\
  (forall n, a_saveName a = Some n -> saveName w' = n).
Proof.
  intros A. cbn zeta. unfold create. rewrite A.
  match goal with |- context [args_branch text fs now a ?w0] =>
    destruct (args_branch_frame text fs now a w0 eq_refl eq_refl) as (C & L & _);
    set (r := args_branch text fs now a w0) in *; clearbody r end.
  destruct (preparePlot_keep (with_local (local r) true r)) as (P1 & P2 & _ & P4).
  split; [rewrite P2; exact L|]. rewrite P1, P4.
  change (saveName (with_local (local r) true r)) with (c_saveName (config_of r)).
  change (config_of (with_local (local r) true r)) with (config_of r). rewrite C.
  match goal with |- context [args_cfg fs now a ?c] => change c with (config_of form) end.
  set (c0 := config_of form). unfold args_cfg. clear C P1 P4.
  destruct (a_cont a), (a_interval a), (a_period a), (a_saveDir a) as [d|], (a_saveName a) as [n|], (a_min a), (a_max a);
  repeat match goal with
  | |- context [cfs_saveDir fs now ?d ?c] => destruct (cfs_saveDir_shape fs now d c) as [? ->]
  | |- context [cfs_autoName fs now ?b ?c] => destruct (cfs_autoName_shape fs now b c) as [? ->]
  | |- context [cfs_saveName fs now ?n ?c] =>
      let N := fresh in destruct (cfs_saveName_shape fs now n c) as [? [-> N]]; specialize (N eq_refl)
  end;
  cbv [cfs_names id default Args.is_Some_b negb]; unfold_cfg; split; try reflexivity;
  intros ? E; inversion E; congruence.
Qed.

End Create.

Lemma legacy_settings_roundtrip_witness :
  let w' := create 0%Z LDemo.fs "now" "/home" LDemo.none (QS.st (store_qs LDemo.w1 (QS.open ∅))) LDemo.form in
  config_of w' = cf_saveName (saveName w') (config_of LDemo.w1) /\
  (autoName LDemo.form = false -> autoName LDemo.w1 = false -> saveName w' = saveName LDemo.w1).
Proof. exact (legacy_settings_roundtrip 0%Z LDemo.fs "now" "/home" LDemo.none ∅ LDemo.w1 LDemo.form eq_refl eq_refl). Defined.

Lemma restore_writes_into_array_witness :
  exists q, local (create 0%Z LDemo.fs "now" "/home" LDemo.none (QS.st (store_qs LDemo.w1 (QS.open ∅))) LDemo.form)
    = Some q /\ QS.st q !! "detectors/1/interval" = Some (VDouble (Fin (interval LDemo.w1))).
Proof.
  exact (restore_writes_into_array 0%Z LDemo.fs "now" "/home" LDemo.none ∅ LDemo.w1 LDemo.form eq_refl eq_refl
           ltac:(vm_compute; congruence)).
Defined.

Lemma legacy_args_config_witness :
  let w' := create 0%Z LDemo.fs "now" "/home" LDemo.a1 ∅ LDemo.form in
  local w' = None /\
  config_of w' = cf_saveName (saveName w')
    (mkc (1#2) 5 true "/tmp" "" false ["A"; "B"] false (Fin 3) true (Fin 1) true false true) /\
  (forall n, Some "x.dat" = Some n -> saveName w' = n).
Proof. exact (legacy_args_config 0%Z LDemo.fs "now" "/home" LDemo.a1 ∅ LDemo.form eq_refl). Defined.

End LWindowFacts.
