(* ===== verification/LegacyScan.v ===== *)
(** * LegacyScan: the scan of the legacy [QChartMX]

    [QChartMX::startStop] and [QChartMX::getData] of [src/qchartmx.cpp]
    on the legacy window of [LegacyWindow].  The control flow is the
    library's ([ScanDriver]): [startStop] starts a scan with one sample
    and the timer, or stops it; [getData], guarded by its static
    [gettingData] flag, takes one sample and calls [startStop] at the end
    of a fixed window.  The legacy code differs in what it reads and
    writes: [prepareAutoSave()] picks the data file at every start, a PV
    is read as [pv->get().toDouble()] without a connection test, the
    table shows [QString::number(value)] and the time [dt.time()], the
    file [QString::number(value, 'e')] and [dt.toString()], and the
    signals are reset with the normalisation and log flags.

    [LScan] holds the scan state around the window, the two slots as a
    mutual fuel-bounded [Fixpoint], the two events that reach them (a
    timeout of the timer, a click on [ui->startStop]) and the
    abstraction [alpha] into the specification's machine
    [ScanRun.Abstract].  [LScanFacts] proves that, on a window of at
    least two points, every event refines the specification's step, and
    what the code does on windows of zero and one point, which the
    command line can produce. *)

From Stdlib Require Import QArith Lqa ZArith String Bool Lia.
From stdpp Require Import base list gmap strings.
From S2P Require Import Prelude Double Blitz Channel RangePolicy ChannelSet TimeAxis ScanDriver ScanRun.
From S2P Require Import Panel Legacy LegacyWindow.

Module LScan.
Local Open Scope string_scope.

(** What one event sees of the world: the file system and the clock of
    [prepareAutoSave], the date and time of the file header, the time
    of the sample as [dt.time().toString()] and [dt.toString()], and
    each PV's [pv->get().toDouble()]. *)
Record input := mkInput {
  fs : gmap string Panel.entry;
  now : string;
  date : string;
  clock : string;
  time_text : string;
  stamp : string;
  read : string -> double
}.

(** The members of the legacy [QChartMX] a scan reads and writes, around
    the window's widgets. *)
Record t := mk {
  win : LWindow.t;
  running : bool;             (* timer->isActive() *)
  gettingData : bool;         (* static bool gettingData of getData *)
  point : Z;                  (* int point *)
  table : list Driver.row;    (* ui->dataTable *)
  file_open : bool;           (* dataFile.isOpen() *)
  file : list string;         (* what dataStr wrote into dataFile *)
  control : bool;             (* ui->control->isEnabled() *)
  saved_to : string           (* tableWasSavedTo *)
}.

(** The window as the constructor leaves it: no timer, an empty table,
    no data file. *)
Definition of_window (w : LWindow.t) : t := mk w false false 0 [] false [] true "".

Definition set_win (w : LWindow.t) (s : t) : t :=
  mk w (running s) (gettingData s) (point s) (table s) (file_open s) (file s) (control s) (saved_to s).
Definition set_run (r g : bool) (s : t) : t :=
  mk (win s) r g (point s) (table s) (file_open s) (file s) (control s) (saved_to s).
Definition set_point (p : Z) (s : t) : t :=
  mk (win s) (running s) (gettingData s) p (table s) (file_open s) (file s) (control s) (saved_to s).
Definition set_output (tbl : list Driver.row) (fo : bool) (f : list string) (s : t) : t :=
  mk (win s) (running s) (gettingData s) (point s) tbl fo f (control s) (saved_to s).
Definition set_control (c : bool) (to : string) (s : t) : t :=
  mk (win s) (running s) (gettingData s) (point s) (table s) (file_open s) (file s) c to.

Section Scan.

(** The text conversions: [QTextStream << int], [QTextStream << double]
    (the interval of the header), [QString::number(v)] and
    [QString::number(v, 'e')]. *)
Variable show_int : Z -> string.
Variable show_real : Q -> string.
Variable show_g : double -> string.
Variable show_e : double -> string.

(** [dataStr << ...]: the text reaches the file only while it is open. *)
Definition write (chunks : list string) (s : t) : t :=
  if file_open s then set_output (table s) true (file s ++ chunks) s else s.

(** [dataFile.setFileName(path); dataFile.open(Truncate | WriteOnly)]:
    an open file keeps its name and stays open (Qt warns), an empty
    name does not open, any other name is opened empty. *)
Definition open_file (path : string) (s : t) : t :=
  if file_open s then s
  else if String.eqb path "" then set_output (table s) false (file s) s
  else set_output (table s) true [] s.

(** The header [startStop] writes; as in the library, the lines on the
    number of points and the interval end without a newline. *)
Definition header (inp : input) (s : t) : list string :=
  let w := win s in
  ["# Time Scan" +:+ Driver.nl; "#" +:+ Driver.nl; "# Date: "; date inp; Driver.nl;
   "# Time: "; clock inp; Driver.nl; "#" +:+ Driver.nl;
   "# Number of scan points: ";
   (if LWindow.cont w then "continious scan" else show_int (Z.of_nat (length (LWindow.timeData w))));
   "# Interval (sec): "; show_real (LWindow.interval w);
   "# Signals:" +:+ Driver.nl; "#" +:+ Driver.nl] ++
  flat_map (fun ps => ["# PV: " +:+ Driver.quote; ps.1; Driver.quote +:+ Driver.nl]) (LWindow.signals w) ++
  ["#" +:+ Driver.nl] ++
  ["# Data columns:" +:+ Driver.nl; "# "; "%Point "; "%Time "] ++
  flat_map (fun ps => ["%"; ps.1; " "]) (LWindow.signals w) ++ [Driver.nl].

(** The stop branch of [startStop]: [timer->stop()], the control panel
    enabled, the data file closed. *)
Definition stop (s : t) : t :=
  set_output (table s) false (file s) (set_control true (saved_to s) (set_run false (gettingData s) s)).

(** The start branch of [startStop] up to [getData()]: [preparePlot()],
    [point = 0], the control panel disabled, [tableWasSavedTo =
    prepareAutoSave()] and the file opened on it, the table emptied
    ([setRowCount(0)]), the header. *)
Definition start_prepare (inp : input) (s : t) : t :=
  let s1 := set_control false (saved_to s) (set_point 0 (set_win (LWindow.preparePlot (win s)) s)) in
  let r := LWindow.autoSave (fs inp) (now inp) (win s1) in
  let s2 := open_file r.1 (set_control false r.1 (set_win r.2 s1)) in
  write (header inp s2) (set_output [] (file_open s2) (file s2) s2).

(** The foreach of [getData]: [sig->get()] on every signal in order;
    [None] is an access outside a buffer shorter than the axis. *)
Fixpoint get_signals (points : nat) (rd : string -> double) (sigs : list (string * LSignal.t))
    : option (list (string * LSignal.t) * list double) :=
  match sigs with
  | [] => Some ([], [])
  | (pv, sg) :: rest =>
      match LSignal.get (rd pv) points sg with
      | None => None
      | Some (sg', v) =>
          match get_signals points rd rest with
          | None => None
          | Some (rest', vals) => Some ((pv, sg') :: rest', v :: vals)
          end
      end
  end.

(** The reads of [getData], in its order: [timeData(points-1)] for the
    plot's axis ([None]: out of range on an empty axis), then the
    foreach of [sig->get()]. *)
Definition read_tick (inp : input) (w : LWindow.t) : option (list (string * LSignal.t) * list double) :=
  let points := Z.of_nat (length (LWindow.timeData w)) in
  if (points - 1 <? 0)%Z then None
  else get_signals (length (LWindow.timeData w)) (read inp) (LWindow.signals w).

(** The line of a sample: [point+1], [dt.toString()], each value with
    [QString::number(value, 'e')], the end of line. *)
Definition data_line (p : Z) (st : string) (vals : list double) : list string :=
  [show_int (p + 1); " "; st; " "] ++ flat_map (fun v => [show_e v; " "]) vals ++ [Driver.nl].

(** The body of [getData] after [gettingData = true], once the signals
    gave their values: the table row ([removeRow(0)] when a continuous
    scan filled its window), its label and cells, the axis moved by one
    ([timeData += 1]), the new signals, the line of the file and
    [setRanges()]. *)
Definition record_tick (inp : input) (sigs : list (string * LSignal.t)) (vals : list double) (s : t) : t :=
  let points := Z.of_nat (length (LWindow.timeData (win s))) in
  let wrap := LWindow.cont (win s) && (points - 1 <? point s)%Z in
  let table_row := if wrap then (points - 1)%Z else point s in
  let tbl := Driver.insertRow table_row (if wrap then Driver.removeFirstRow (table s) else table s) in
  let tbl := Driver.setCells table_row (time_text inp :: map show_g vals)
               (Driver.setHeader (point s) (point s + 1) tbl) in
  let w := LWindow.with_signals sigs (win s) in
  let w := LWindow.with_view (LWindow.showGrid w) (LWindow.gridOn w) (LWindow.collapsed w)
             (Axis.advance (LWindow.timeData w)) w in
  write (data_line (point s) (stamp inp) vals)
    (set_win (LWindow.setRanges w) (set_output tbl (file_open s) (file s) (set_run (running s) true s))).

(** [if (!ui->cont->isChecked() && point >= points-1) startStop();] *)
Definition auto_stop (s : t) : bool :=
  negb (LWindow.cont (win s)) && (Z.of_nat (length (LWindow.timeData (win s))) - 1 <=? point s)%Z.

(** [point++; gettingData = false;] *)
Definition finish_tick (s : t) : t := set_run (running s) false (set_point (point s + 1) s).

(** [QChartMX::startStop] and [QChartMX::getData]; [None] is running out
    of fuel or an out-of-range access.  The timer starts after the first
    [getData()], so a [startStop()] from inside it finds the timer
    stopped and starts again. *)
Fixpoint startStop (fuel : nat) (inp : input) (s : t) : option t :=
  match fuel with
  | 0 => None
  | S f =>
      if running s then Some (stop s)
      else
        match getData f inp (start_prepare inp s) with
        | None => None
        | Some s5 => Some (set_run true (gettingData s5) s5)
        end
  end
with getData (fuel : nat) (inp : input) (s : t) : option t :=
  match fuel with
  | 0 => None
  | S f =>
      if gettingData s then Some s
      else
        match read_tick inp (win s) with
        | None => None
        | Some (sigs, vals) =>
            let s1 := record_tick inp sigs vals s in
            match (if auto_stop s then startStop f inp s1 else Some s1) with
            | None => None
            | Some s2 => Some (finish_tick s2)
            end
        end
  end.

(** The events that reach the scan: a timeout of the running timer
    ([connect(timer, timeout(), getData())]) and a click on
    [ui->startStop]. *)
Inductive event := Tick | ClickStartStop.

(** The fuel of one event: [startStop], [getData], [startStop] again
    from a window of one point, and its [getData]. *)
Definition fuel : nat := 4.

Definition step (inp : input) (e : event) (s : t) : option t :=
  match e with
  | Tick => if running s then getData fuel inp s else Some s
  | ClickStartStop => startStop fuel inp s
  end.

End Scan.

(** ** The specification's machine *)

(** The event of the specification a legacy event is. *)
Definition spec_event (e : event) : Scan.event :=
  match e with Tick => Scan.Tick | ClickStartStop => Scan.ClickStartStop end.

(** A legacy PV reading, as the specification's (connected, value). *)
Definition reading (inp : input) (pv : string) : bool * double := (true, read inp pv).

(** The abstraction of a legacy scan: the timer gives the phase, [point]
    the index, each signal's [data] its window. *)
Definition alpha (s : t) : Abstract.t :=
  Abstract.mk (if running s then Abstract.Running (Z.to_nat (point s)) else Abstract.Idle)
    (LWindow.interval (win s)) (LWindow.period (win s)) (LWindow.cont (win s))
    (map (fun ps => (ps.1, LSignal.data ps.2)) (LWindow.signals (win s))).

(** The number of points of the window's spin boxes. *)
Definition points (s : t) : Z := Axis.points_of (LWindow.period (win s)) (LWindow.interval (win s)).

(** A legacy signal whose two buffers have [n] samples. *)
Definition sig_ok (n : nat) (sg : LSignal.t) : Prop :=
  length (LSignal.data sg) = n /\ length (LSignal.normal_data sg) = n.

(** The invariant of a legacy scan on a window of at least two points:
    the tick flag down between events and, while the timer runs, the
    axis and every buffer of [points] samples, [point] not negative. *)
Definition inv (s : t) : Prop :=
  gettingData s = false /\ (2 <= points s)%Z /\
  (running s = true ->
     length (LWindow.timeData (win s)) = Z.to_nat (points s) /\
     Forall (fun ps => sig_ok (Z.to_nat (points s)) ps.2) (LWindow.signals (win s)) /\
     (0 <= point s)%Z).

End LScan.

(** ** Concrete legacy windows started from the command line *)

Module LScanDemo.
Import LScan.
Local Open Scope string_scope.

Definition show_int (z : Z) : string := "n".
Definition show_real (q : Q) : string := "x".
Definition show_g (d : double) : string := if isnan d then "nan" else "g".
Definition show_e (d : double) : string := if isnan d then "nan" else "e".

(** An event at noon, every PV reading 1, the directory [/tmp/] writable. *)
Definition inp : input :=
  mkInput LDemo.fs "2026-11-09_12-00-00" "Mon Nov 9 2026" "12:00:00" "12:00:00" "Mon Nov 9 12:00:00 2026"
          (fun _ => Fin 1).

(** [timescanmx -i 0.5 -p 5 -c -d /tmp -f x.dat -m 3 -l -g A B]. *)
Definition ten : t := of_window LDemo.w1.

(** [timescanmx -i 2 -p 1 A]: a period shorter than the interval. *)
Definition args_zero : LWindow.args :=
  LWindow.mkArgs false (Some 2%Q) (Some 1%Q) false None None ["A"] None None false false false false.
Definition zero : t := of_window (LWindow.create 0%Z LDemo.fs "now" "/home" args_zero ∅ LDemo.form).

(** [timescanmx -i 1 -p 1 A]: a window of one point. *)
Definition args_one : LWindow.args :=
  LWindow.mkArgs false (Some 1%Q) (Some 1%Q) false None None ["A"] None None false false false false.
Definition one : t := of_window (LWindow.create 0%Z LDemo.fs "now" "/home" args_one ∅ LDemo.form).

(** The designer's form with automatic names on, a detector, the
    directory [/tmp] and ten points. *)
Definition auto : t :=
  of_window (LWindow.with_files "/tmp" "" true true true
    (LWindow.create 0%Z LDemo.fs "now" "/home"
       (LWindow.mkArgs false None None false None None ["A"] None None false false false false) ∅ LDemo.form)).

End LScanDemo.

(** ** The legacy signal keeps its buffers at the axis length *)

Module LSigFacts.
Import LSignal LScan.

Lemma prep_ok (n : nat) (s : LSignal.t) :
  sig_ok n s -> sig_ok n (prep s) /\ data (prep s) = data s.
Proof.
  intros [D N]. unfold prep, with_normal_data, line_assign, sig_ok.
  destruct (logscaled s); [destruct (dne _ _)|destruct (deq _ _)]; cbn [data normal_data];
    rewrite ?length_map; auto.
Qed.

(** [resetData] on an axis of [n] points: both buffers of [n] NaNs. *)
Lemma reset_ok (norm log : bool) (n : nat) (s : LSignal.t) :
  sig_ok n (resetData norm log n s) /\ data (resetData norm log n s) = line_fill n NaN.
Proof.
  unfold resetData, preparePlot. cbn [data normal_data].
  destruct (prep_ok n (LSignal.mk (blitz_min (line_fill n NaN)) (blitz_max (line_fill n NaN)) (line_fill n NaN)
              (line_fill n NaN) norm log)) as [H ->];
    [unfold sig_ok, line_fill; cbn [data normal_data]; now rewrite length_replicate|].
  split; [exact H|reflexivity].
Qed.

(** [Signal::get] on buffers of the axis length pushes the value and
    returns it. *)
Lemma get_ok (v : double) (p : nat) (s : LSignal.t) :
  sig_ok (S p) s ->
  exists s', get v (S p) s = Some (s', v) /\ sig_ok (S p) s' /\ data s' = v :: removelast (data s).
Proof.
  intros [D N]. unfold get. rewrite (shift_full p v (data s) D).
  set (d := v :: removelast (data s)).
  assert (Ld : length d = S p) by (subst d; cbn [length]; rewrite length_removelast; lia).
  cbv zeta.
  match goal with |- context [LSignal.mk ?a ?b d (normal_data s) ?c ?e] =>
    set (s1 := LSignal.mk a b d (normal_data s) c e) end.
  assert (O1 : sig_ok (S p) s1) by (split; assumption).
  destruct (normalized s);
    [match goal with |- context [if dne ?x ?y || ?z then _ else _] => destruct (dne x y || z) end|].
  - destruct (prep_ok _ _ O1) as [O2 D2]. eexists. split; [reflexivity|]. split; [exact O2|exact D2].
  - rewrite (shift_full p _ (normal_data s) N). eexists. split; [reflexivity|].
    split; [|reflexivity]. split; [exact Ld|]. cbn [normal_data with_normal_data].
    cbn [length]. rewrite length_removelast. lia.
  - eexists. split; [reflexivity|]. split; [exact O1|reflexivity].
Qed.

End LSigFacts.

(** ** Legacy scans refine the specification's machine *)

Module LScanFacts.
Import LScan LSigFacts.
Local Open Scope string_scope.

(** The foreach of [getData] on buffers of the axis length: every signal
    pushes its PV's value, and the values are the readings. *)
Lemma get_signals_ok (p : nat) (rd : string -> double) (sigs : list (string * LSignal.t)) :
  Forall (fun ps => sig_ok (S p) ps.2) sigs ->
  exists sigs', get_signals (S p) rd sigs = Some (sigs', map (fun ps => rd ps.1) sigs) /\
    Forall (fun ps => sig_ok (S p) ps.2) sigs' /\
    map (fun ps => (ps.1, LSignal.data ps.2)) sigs' =
      map (fun ps => (ps.1, rd ps.1 :: removelast (LSignal.data ps.2))) sigs.
Proof.
  induction 1 as [|[pv sg] rest H _ (rest' & E & F & M)]; [exists []; auto|].
  destruct (get_ok (rd pv) p sg H) as (sg' & G & O & D).
  exists ((pv, sg') :: rest'). cbn [get_signals]. rewrite G, E.
  split; [reflexivity|]. split; [constructor; assumption|]. cbn [map fst snd]. now rewrite D, M.
Qed.

(** On an axis of no point the first [Signal::get] reads outside its
    buffer ([data(points-1)] is [data(-1)]). *)
(** The reads of a tick on an axis of [S p] points: the axis read is in
    range, the signals are read with [points = S p]. *)
Lemma read_tick_S (inp : input) (w : LWindow.t) (p : nat) :
  length (LWindow.timeData w) = S p -> read_tick inp w = get_signals (S p) (read inp) (LWindow.signals w).
Proof.
  intros L. unfold read_tick. rewrite L.
  replace (Z.of_nat (S p) - 1 <? 0)%Z with false by (symmetry; apply Z.ltb_ge; lia). reflexivity.
Qed.

Lemma read_tick_empty (inp : input) (w : LWindow.t) : LWindow.timeData w = [] -> read_tick inp w = None.
Proof. intros E. unfold read_tick. now rewrite E. Qed.

(** [preparePlot] and [prepareAutoSave] on the window: the spin boxes
    and the continuous box kept, the axis of [points_of] points, every
    signal reset on it. *)
Lemma prepare_win (fs : gmap string Panel.entry) (now : string) (w : LWindow.t) :
  let w' := (LWindow.autoSave fs now (LWindow.preparePlot w)).2 in
  LWindow.interval w' = LWindow.interval w /\ LWindow.period w' = LWindow.period w /\
  LWindow.cont w' = LWindow.cont w /\
  LWindow.timeData w' = Axis.axis_ref (Z.to_nat (Axis.points_of (LWindow.period w) (LWindow.interval w))) /\
  LWindow.signals w' =
    map (fun ps => (ps.1, LSignal.resetData (LWindow.isNorm w) (LWindow.isLog w)
                     (Z.to_nat (Axis.points_of (LWindow.period w) (LWindow.interval w))) ps.2))
        (LWindow.signals w).
Proof.
  cbn zeta. unfold LWindow.autoSave.
  destruct (LChart.prepareAutoSave _ _ _ _ _) as [ret name'].
  destruct (_ && _); cbn; rewrite AxisFacts.build_axis, ?AxisFacts.length_axis_ref; repeat split.
Qed.

(** [int points = period/interval] and the test [point >= points-1] of
    [getData], against the specification's [len - 1 <= k]. *)
Lemma last_point_leb (n : nat) (p : Z) :
  (0 <= p)%Z -> (Z.of_nat n - 1 <=? p)%Z = Nat.leb (n - 1) (Z.to_nat p).
Proof.
  intros P. destruct (Z.leb_spec (Z.of_nat n - 1) p), (Nat.leb_spec (n - 1) (Z.to_nat p)); lia.
Qed.

(** The windows after one push, as the specification pushes them. *)
Lemma windows_push (inp : input) (sigs sigs' : list (string * LSignal.t)) :
  map (fun ps => (ps.1, LSignal.data ps.2)) sigs' =
    map (fun ps => (ps.1, read inp ps.1 :: removelast (LSignal.data ps.2))) sigs ->
  map (fun ps => (ps.1, LSignal.data ps.2)) sigs' =
    Abstract.push_all (reading inp) (map (fun ps => (ps.1, LSignal.data ps.2)) sigs).
Proof. intros ->. unfold Abstract.push_all. rewrite map_map. reflexivity. Qed.

(** What [prepareAutoSave()] returns, whatever it does to the widgets. *)
Lemma autoSave_ret (fs : gmap string Panel.entry) (now : string) (w : LWindow.t) :
  (LWindow.autoSave fs now w).1 =
    (LChart.prepareAutoSave fs now (LWindow.autoName w) (LWindow.saveDir w) (LWindow.saveName w)).1.
Proof.
  unfold LWindow.autoSave. destruct (LChart.prepareAutoSave _ _ _ _ _). destruct (_ && _); reflexivity.
Qed.

(** A path under [saveDir()] is never empty: the directory ends with a
    slash. *)
Lemma saveDir_app_nonempty (d n : string) : String.eqb (Driver.saveDir d +:+ n) "" = false.
Proof.
  apply String.eqb_neq. unfold Driver.saveDir.
  destruct (String.length d) eqn:L; [discriminate|].
  destruct (String.eqb _ _); destruct d as [|c d']; cbn in *; discriminate.
Qed.

Section Steps.
Variable show_int : Z -> string.
Variable show_real : Q -> string.
Variable show_g : double -> string.
Variable show_e : double -> string.

Local Abbreviation record_tick := (record_tick show_int show_g show_e).
Local Abbreviation start_prepare := (start_prepare show_int show_real).
Local Abbreviation startStop := (startStop show_int show_real show_g show_e).
Local Abbreviation getData := (getData show_int show_real show_g show_e).
Local Abbreviation step := (step show_int show_real show_g show_e).

(** What a tick changes of the state besides the table and the file. *)
Lemma lrecord_tick_fields (inp : input) sigs vals (s : t) :
  let s1 := record_tick inp sigs vals s in
  running s1 = running s /\ gettingData s1 = true /\ point s1 = point s /\
  saved_to s1 = saved_to s /\ file_open s1 = file_open s /\
  LWindow.interval (win s1) = LWindow.interval (win s) /\ LWindow.period (win s1) = LWindow.period (win s) /\
  LWindow.cont (win s1) = LWindow.cont (win s) /\ LWindow.signals (win s1) = sigs /\
  LWindow.timeData (win s1) = Axis.advance (LWindow.timeData (win s)).
Proof. cbn zeta. unfold LScan.record_tick, write. destruct (file_open s); repeat split. Qed.

(** [dataStr << ...] and [dataFile.open] change only the output. *)
Lemma write_fields (c : list string) (s : t) :
  win (write c s) = win s /\ running (write c s) = running s /\ gettingData (write c s) = gettingData s /\
  point (write c s) = point s /\ saved_to (write c s) = saved_to s /\ table (write c s) = table s /\
  file_open (write c s) = file_open s.
Proof. unfold write. destruct (file_open s) eqn:F; repeat split. exact F. Qed.

Lemma open_file_fields (path : string) (s : t) :
  win (open_file path s) = win s /\ running (open_file path s) = running s /\
  gettingData (open_file path s) = gettingData s /\ point (open_file path s) = point s /\
  saved_to (open_file path s) = saved_to s /\ table (open_file path s) = table s /\
  file_open (open_file path s) = file_open s || negb (String.eqb path "").
Proof. unfold open_file. destruct (file_open s) eqn:F; [|destruct (String.eqb path "")]; repeat split; exact F. Qed.

(** What the start branch changes before [getData]. *)
Lemma start_prepare_fields (inp : input) (s : t) :
  let s1 := start_prepare inp s in
  let r := LWindow.autoSave (fs inp) (now inp) (LWindow.preparePlot (win s)) in
  win s1 = r.2 /\ running s1 = running s /\ gettingData s1 = gettingData s /\ point s1 = 0%Z /\
  saved_to s1 = r.1 /\ table s1 = [] /\
  file_open s1 = file_open s || negb (String.eqb r.1 "").
Proof.
  cbn zeta. unfold LScan.start_prepare. cbv zeta.
  match goal with |- context [write ?c ?x] => destruct (write_fields c x) as (W1 & W2 & W3 & W4 & W5 & W6 & W7) end.
  rewrite W1, W2, W3, W4, W5, W6, W7. clear.
  match goal with |- context [open_file ?p ?x] =>
    destruct (open_file_fields p x) as (O1 & O2 & O3 & O4 & O5 & O6 & O7); set (o := open_file p x) in * end.
  cbn [win running gettingData point saved_to table file_open set_output].
  rewrite O1, O2, O3, O4, O5, O7. repeat split.
Qed.

(** One call of each slot, as the code reads. *)
Lemma startStop_S (f : nat) (inp : input) (s : t) :
  startStop (S f) inp s =
    if running s then Some (stop s)
    else match getData f inp (start_prepare inp s) with
         | None => None
         | Some s5 => Some (set_run true (gettingData s5) s5)
         end.
Proof. reflexivity. Qed.

Lemma getData_S (f : nat) (inp : input) (s : t) :
  getData (S f) inp s =
    if gettingData s then Some s
    else match read_tick inp (win s) with
         | None => None
         | Some (sigs, vals) =>
             match (if auto_stop s then startStop f inp (record_tick inp sigs vals s)
                    else Some (record_tick inp sigs vals s)) with
             | None => None
             | Some s2 => Some (finish_tick s2)
             end
         end.
Proof. reflexivity. Qed.

(** [getData] on a running scan whose signals all answer: one sample,
    then [startStop()] (which stops the timer) at the end of a fixed
    window. *)
Lemma getData_run (f : nat) (inp : input) (s : t) sigs vals :
  gettingData s = false -> running s = true ->
  read_tick inp (win s) = Some (sigs, vals) ->
  getData (S (S f)) inp s =
    Some (finish_tick (if auto_stop s then stop (record_tick inp sigs vals s) else record_tick inp sigs vals s)).
Proof.
  intros G R E. cbn [LScan.getData]. rewrite G, E. destruct (auto_stop s); [|reflexivity].
  cbn [LScan.startStop]. rewrite (proj1 (lrecord_tick_fields inp sigs vals s)), R. reflexivity.
Qed.

(** [startStop] on a stopped scan whose first sample does not end it. *)
Lemma lstartStop_start (f : nat) (inp : input) (s : t) sigs vals :
  running s = false -> gettingData s = false ->
  read_tick inp (win (start_prepare inp s)) = Some (sigs, vals) ->
  auto_stop (start_prepare inp s) = false ->
  startStop (S (S f)) inp s = Some (set_run true false (finish_tick (record_tick inp sigs vals (start_prepare inp s)))).
Proof.
  intros R G E A. destruct (start_prepare_fields inp s) as (_ & _ & G1 & _).
  cbn [LScan.startStop LScan.getData]. rewrite R, G1, G, E, A. reflexivity.
Qed.

(** The alpha of a scan whose timer has just stopped or moved on. *)
Lemma alpha_tick (s1 : t) (r : bool) :
  alpha (finish_tick (if r then stop s1 else s1)) =
  Abstract.mk (if r then Abstract.Idle else if running s1 then Abstract.Running (Z.to_nat (point s1 + 1))
               else Abstract.Idle)
    (LWindow.interval (win s1)) (LWindow.period (win s1)) (LWindow.cont (win s1))
    (map (fun ps => (ps.1, LSignal.data ps.2)) (LWindow.signals (win s1))).
Proof. destruct r; reflexivity. Qed.

(** A tick of a running scan refines the specification's tick. *)
Lemma lrefine_tick (inp : input) (s : t) :
  inv s -> running s = true ->
  exists s', getData fuel inp s = Some s' /\ inv s' /\
    alpha s' = Abstract.tick (reading inp) (Z.to_nat (point s)) (alpha s).
Proof.
  intros (G & P2 & RUN) R. destruct (RUN R) as (L & F & P0).
  destruct (Z.to_nat (points s)) as [|p] eqn:Np; [lia|].
  destruct (get_signals_ok p (read inp) _ F) as (sigs & E & F' & M). rewrite <- (read_tick_S inp _ _ L) in E.
  unfold fuel. rewrite (getData_run 2 inp s _ _ G R E).
  destruct (lrecord_tick_fields inp sigs (map (fun ps => read inp ps.1) (LWindow.signals (win s))) s)
    as (T1 & _ & T3 & _ & _ & T6 & T7 & T8 & T9 & T10).
  match goal with |- context [record_tick ?a ?b ?c s] => remember (record_tick a b c s) as s1 eqn:Hs1 end.
  clear Hs1.
  assert (Pp : points s1 = points s) by (unfold points; rewrite T6, T7; reflexivity).
  assert (A : auto_stop s = negb (LWindow.cont (win s)) && Nat.leb (Z.to_nat (points s) - 1) (Z.to_nat (point s)))
    by (unfold auto_stop; rewrite L, Np, last_point_leb by exact P0; reflexivity).
  eexists. split; [reflexivity|]. split.
  - split; [destruct (auto_stop s); reflexivity|]. rewrite <- Pp in P2. split; [destruct (auto_stop s); exact P2|].
    destruct (auto_stop s); [discriminate|]. intros _. change (points (finish_tick s1)) with (points s1).
    unfold finish_tick, set_run, set_point. cbn [win point].
    rewrite T10, T9. unfold Axis.advance. rewrite length_map, L, Pp, Np. split; [reflexivity|].
    split; [exact F'|]. rewrite T3. lia.
  - rewrite alpha_tick, T1, R, T3, T6, T7, T8, T9, (windows_push inp _ _ M).
    unfold Abstract.tick, alpha. rewrite R. cbn [Abstract.continuous Abstract.windows Abstract.interval Abstract.period].
    change (Abstract.len _) with (Z.to_nat (points s)). rewrite <- A.
    destruct (auto_stop s); [reflexivity|]. do 2 f_equal. lia.
Qed.

(** The window of a started scan: [points] samples of axis, every
    signal reset on it. *)
Lemma start_window (inp : input) (s : t) (p : nat) :
  Z.to_nat (points s) = S p ->
  let w := win (start_prepare inp s) in
  length (LWindow.timeData w) = S p /\ Forall (fun ps => sig_ok (S p) ps.2) (LWindow.signals w) /\
  map (fun ps => (ps.1, read inp ps.1 :: removelast (LSignal.data ps.2))) (LWindow.signals w) =
    Abstract.push_all (reading inp)
      (Abstract.reset_all (S p) (map (fun ps => (ps.1, LSignal.data ps.2)) (LWindow.signals (win s)))) /\
  LWindow.interval w = LWindow.interval (win s) /\ LWindow.period w = LWindow.period (win s) /\
  LWindow.cont w = LWindow.cont (win s).
Proof.
  intros Np. cbn zeta. destruct (start_prepare_fields inp s) as (S1 & _). rewrite S1.
  destruct (prepare_win (fs inp) (now inp) (win s)) as (W1 & W2 & W3 & W4 & W5).
  rewrite W1, W2, W3, W4, W5. fold (points s). rewrite Np, AxisFacts.length_axis_ref.
  split; [reflexivity|]. split; [|split; [|auto]].
  - clear. induction (LWindow.signals (win s)) as [|ps l IH]; cbn [map]; constructor; [apply reset_ok|exact IH].
  - unfold Abstract.push_all, Abstract.reset_all. rewrite !map_map. apply map_ext. intros [pv sg].
    cbn [fst snd]. rewrite (proj2 (reset_ok _ _ _ _)). reflexivity.
Qed.

(** The alpha of a scan just started on a window of [S p] points. *)
Lemma alpha_start (inp : input) (s s1 : t) (p : nat) sigs :
  running s = false -> Z.to_nat (points s) = S p -> 1 <= p -> point s1 = 0%Z ->
  LWindow.interval (win s1) = LWindow.interval (win s) -> LWindow.period (win s1) = LWindow.period (win s) ->
  LWindow.cont (win s1) = LWindow.cont (win s) -> LWindow.signals (win s1) = sigs ->
  map (fun ps => (ps.1, LSignal.data ps.2)) sigs =
    Abstract.push_all (reading inp)
      (Abstract.reset_all (S p) (map (fun ps => (ps.1, LSignal.data ps.2)) (LWindow.signals (win s)))) ->
  alpha (set_run true false (finish_tick s1)) = Abstract.start (reading inp) (alpha s).
Proof.
  intros R Np P1 T3 T6 T7 T8 T9 M. unfold alpha at 1. cbn [win point running set_run finish_tick set_point].
  rewrite T3, T6, T7, T8, T9, M. unfold Abstract.start, Abstract.tick, alpha. rewrite R.
  cbn [Abstract.continuous Abstract.windows Abstract.interval Abstract.period].
  change (Abstract.len _) with (Z.to_nat (points s)). rewrite Np.
  replace (Nat.leb (S p - 1) 0) with false by (symmetry; apply Nat.leb_gt; lia).
  rewrite andb_false_r. reflexivity.
Qed.

(** The fields of a scan after [point++; gettingData = false] and the
    timer set. *)
Lemma end_fields (b g : bool) (s1 : t) :
  let s' := set_run b g (finish_tick s1) in
  running s' = b /\ gettingData s' = g /\ point s' = (point s1 + 1)%Z /\ win s' = win s1 /\
  table s' = table s1 /\ saved_to s' = saved_to s1 /\ file_open s' = file_open s1.
Proof. repeat split. Qed.

(** [timer->start()] and the tick flag leave the rest. *)
Lemma set_run_fields (b g : bool) (s1 : t) :
  point (set_run b g s1) = point s1 /\ table (set_run b g s1) = table s1 /\ win (set_run b g s1) = win s1.
Proof. repeat split. Qed.

(** The invariant after the first sample of a scan. *)
Lemma inv_start_end (s1 : t) (p : nat) sigs :
  (2 <= points s1)%Z -> Z.to_nat (points s1) = S p -> point s1 = 0%Z -> LWindow.signals (win s1) = sigs ->
  Forall (fun ps => sig_ok (S p) ps.2) sigs -> length (LWindow.timeData (win s1)) = S p ->
  inv (set_run true false (finish_tick s1)).
Proof.
  intros P2 Np T3 T9 F L. split; [reflexivity|]. split; [exact P2|]. intros _.
  change (points (set_run true false (finish_tick s1))) with (points s1).
  cbn [win point set_run finish_tick set_point]. rewrite T9, Np, T3.
  split; [exact L|]. split; [exact F|]. apply Z.le_0_1.
Qed.

(** A click on a stopped scan refines the specification's start. *)
Lemma lrefine_start (inp : input) (s : t) :
  inv s -> running s = false ->
  exists s', startStop fuel inp s = Some s' /\ inv s' /\ alpha s' = Abstract.start (reading inp) (alpha s) /\
    saved_to s' = saved_to (start_prepare inp s) /\ file_open s' = file_open (start_prepare inp s).
Proof.
  intros (G & P2 & _) R. destruct (Z.to_nat (points s)) as [|p] eqn:Np; [lia|].
  assert (P1 : 1 <= p) by lia.
  destruct (start_window inp s p Np) as (L & F & Wn & W1 & W2 & W3).
  destruct (get_signals_ok p (read inp) _ F) as (sigs & E & F' & M). rewrite <- (read_tick_S inp _ _ L) in E.
  destruct (start_prepare_fields inp s) as (_ & _ & _ & S4 & _).
  assert (A : auto_stop (start_prepare inp s) = false).
  { unfold auto_stop. rewrite L, S4. destruct (negb _); [|reflexivity]. apply Z.leb_gt. lia. }
  unfold fuel. rewrite (lstartStop_start 2 inp s _ _ R G E A).
  destruct (lrecord_tick_fields inp sigs (map (fun ps => read inp ps.1) (LWindow.signals (win (start_prepare inp s))))
              (start_prepare inp s)) as (_ & _ & T3 & T4 & T5 & T6 & T7 & T8 & T9 & T10).
  rewrite S4 in T3. rewrite W1 in T6. rewrite W2 in T7. rewrite W3 in T8. rewrite Wn in M.
  match goal with T6 : LWindow.interval (win ?x) = _ |- _ =>
    assert (Pp : points x = points s) by (unfold points; rewrite T6, T7; reflexivity);
    assert (L' : length (LWindow.timeData (win x)) = S p)
      by (rewrite T10; unfold Axis.advance; rewrite length_map; exact L);
    exists (set_run true false (finish_tick x)); split; [reflexivity|];
    split; [apply (inv_start_end x p sigs); [rewrite Pp; exact P2|rewrite Pp; exact Np|exact T3|exact T9|exact F'|exact L']|];
    split; [exact (alpha_start inp s x p sigs R Np P1 T3 T6 T7 T8 T9 M)|];
    destruct (end_fields true false x) as (_ & _ & _ & _ & _ & -> & ->); split; [exact T4|exact T5] end.
Qed.

(** A click on a running scan: [timer->stop()], the phase idle, the
    windows kept. *)
Lemma lrefine_stop (inp : input) (s : t) :
  inv s -> running s = true ->
  exists s', startStop fuel inp s = Some s' /\ inv s' /\
    alpha s' = Abstract.mk Abstract.Idle (LWindow.interval (win s)) (LWindow.period (win s))
                 (LWindow.cont (win s)) (map (fun ps => (ps.1, LSignal.data ps.2)) (LWindow.signals (win s))).
Proof.
  intros (G & P2 & _) R. unfold fuel. cbn [LScan.startStop]. rewrite R. eexists. split; [reflexivity|].
  split; [|reflexivity]. split; [exact G|]. split; [exact P2|]. discriminate.
Qed.

(** [startStop] on a stopped scan whose first sample ends its window:
    [getData]'s [startStop()] finds the timer not yet started and runs
    the start branch again, whose [getData()] returns at once. *)
Lemma startStop_restart (f : nat) (inp : input) (s : t) sigs vals :
  running s = false -> gettingData s = false ->
  read_tick inp (win (start_prepare inp s)) = Some (sigs, vals) ->
  auto_stop (start_prepare inp s) = true ->
  startStop (S (S (S (S f)))) inp s =
    Some (set_run true false
      (finish_tick (set_run true true (start_prepare inp (record_tick inp sigs vals (start_prepare inp s)))))).
Proof.
  intros R G E A. destruct (start_prepare_fields inp s) as (_ & R1 & G1 & _).
  destruct (lrecord_tick_fields inp sigs vals (start_prepare inp s)) as (T1 & T2 & _).
  destruct (start_prepare_fields inp (record_tick inp sigs vals (start_prepare inp s))) as (_ & _ & G2 & _).
  rewrite startStop_S, R, getData_S, G1, G, E, A, startStop_S, T1, R1, R, getData_S, G2, T2.
  cbv beta iota. rewrite G2, T2. reflexivity.
Qed.

(** The state a one-point restart leaves: running, [point = 1], the
    table emptied and every buffer reset by the second start. *)
Lemma restart_end (inp : input) (x : t) :
  Z.to_nat (points x) = 1 ->
  let s' := set_run true false (finish_tick (set_run true true (start_prepare inp x))) in
  running s' = true /\ point s' = 1%Z /\ table s' = [] /\
  Forall (fun ps => LSignal.data ps.2 = [NaN]) (LWindow.signals (win s')).
Proof.
  intros Nx. cbn zeta. destruct (start_prepare_fields inp x) as (Sx1 & _ & _ & Sx4 & _ & Sx6 & _).
  destruct (prepare_win (fs inp) (now inp) (win x)) as (_ & _ & _ & _ & Wx).
  destruct (end_fields true false (set_run true true (start_prepare inp x))) as (E1 & _ & E3 & E4 & E5 & _).
  destruct (set_run_fields true true (start_prepare inp x)) as (R1 & R2 & R3).
  rewrite E1, E3, E4, E5, R1, R2, R3.
  rewrite Sx4, Sx6, Sx1, Wx. change (Axis.points_of _ _) with (points x). rewrite Nx.
  split; [reflexivity|]. split; [reflexivity|]. split; [reflexivity|].
  clear. induction (LWindow.signals (win x)) as [|ps l IH]; cbn [map]; constructor;
    [exact (proj2 (reset_ok _ _ 1 ps.2))|exact IH].
Qed.

(** C26: The legacy scan refines the specification's machine: on a window
    of at least two points, a timer tick and a click on Start/Stop always
    complete (no fuel runs out, no buffer is read out of range), keep
    the invariant, and move the abstraction ([alpha]: the timer as the
    phase, [point] as the index, each signal's buffer as its window)
    exactly as the specification's step moves it. *)
Theorem legacy_step_refines (inp : input) (e : event) (s : t) :
  inv s ->
  exists s', step inp e s = Some s' /\ inv s' /\ alpha s' = Abstract.step (reading inp) (spec_event e) (alpha s).
Proof.
  intros H. destruct e; cbn [LScan.step spec_event]; destruct (running s) eqn:R.
  - destruct (lrefine_tick inp s H R) as (s' & E & I & A). exists s'.
    split; [exact E|]. split; [exact I|]. rewrite A. unfold alpha. rewrite R. reflexivity.
  - exists s. split; [reflexivity|]. split; [exact H|]. unfold alpha. rewrite R. reflexivity.
  - destruct (lrefine_stop inp s H R) as (s' & E & I & A). exists s'.
    split; [exact E|]. split; [exact I|]. rewrite A. unfold alpha. rewrite R. reflexivity.
  - destruct (lrefine_start inp s H R) as (s' & E & I & A & _). exists s'.
    split; [exact E|]. split; [exact I|]. rewrite A. unfold alpha at 2. rewrite R. reflexivity.
Qed.

(** C28: A window whose period is shorter than its interval has no point,
    and starting its scan reads out of range: the first [getData] reads
    [timeData(points-1)] with [points = 0] (and each signal's buffer
    after it), whatever the signals.  [updateTimes] prevents such a
    window when the spin boxes are edited, but not the options [-i] and
    [-p], which the constructor passes to [setValue]. *)
Theorem legacy_start_no_point (inp : input) (s : t) :
  running s = false -> gettingData s = false -> (points s <= 0)%Z ->
  step inp ClickStartStop s = None.
Proof.
  intros R G P. destruct (start_prepare_fields inp s) as (S1 & _ & S3 & _).
  destruct (prepare_win (fs inp) (now inp) (win s)) as (_ & _ & _ & W4 & _).
  unfold LScan.step, fuel. rewrite startStop_S, R, getData_S, S3, G.
  rewrite read_tick_empty; [reflexivity|]. rewrite S1, W4.
  fold (points s). replace (Z.to_nat (points s)) with 0 by lia. reflexivity.
Qed.

(** C27: A fixed scan of a one-point window restarts inside its first
    sample: [getData] reaches the end of the window and calls
    [startStop()] before the timer was started, so the start branch runs
    again; the scan keeps running, the table is empty and every signal's
    buffer is reset, the first sample lost. *)
Theorem legacy_single_point_restart (inp : input) (s : t) :
  running s = false -> gettingData s = false -> LWindow.cont (win s) = false -> points s = 1%Z ->
  exists s', step inp ClickStartStop s = Some s' /\ running s' = true /\ point s' = 1%Z /\ table s' = [] /\
    Forall (fun ps => LSignal.data ps.2 = [NaN]) (LWindow.signals (win s')).
Proof.
  intros R G C P. assert (Np : Z.to_nat (points s) = 1) by (rewrite P; reflexivity).
  destruct (start_window inp s 0 Np) as (L & F & _ & W1 & W2 & W3).
  destruct (get_signals_ok 0 (read inp) _ F) as (sigs & E & _ & _). rewrite <- (read_tick_S inp _ _ L) in E.
  destruct (start_prepare_fields inp s) as (_ & _ & _ & S4 & _).
  assert (A : auto_stop (start_prepare inp s) = true) by (unfold auto_stop; rewrite L, S4, W3, C; reflexivity).
  unfold LScan.step, fuel. rewrite (startStop_restart 0 inp s _ _ R G E A).
  match goal with |- context [set_run true true (start_prepare inp ?x)] =>
    destruct (lrecord_tick_fields inp sigs (map (fun ps => read inp ps.1)
                (LWindow.signals (win (start_prepare inp s)))) (start_prepare inp s))
      as (_ & _ & _ & _ & _ & T6 & T7 & _);
    assert (Nx : Z.to_nat (points x) = 1) by (unfold points; rewrite T6, T7, W1, W2; exact Np);
    eexists; split; [reflexivity|]; exact (restart_end inp x Nx) end.
Qed.

(** C29: With automatic names on and a writable directory, every start of
    a legacy scan opens a data file that does not exist yet: the file of
    an earlier scan, which exists, is never truncated.  (The library's
    [startStop] reuses the name when the box is already checked:
    [Panel.PanelFacts.autoName_start_same_file].) *)
Theorem legacy_start_fresh_file (inp : input) (s : t) :
  inv s -> running s = false -> file_open s = false -> LWindow.autoName (win s) = true ->
  Panel.exists_ (fs inp) (Driver.saveDir (LWindow.saveDir (win s))) = true ->
  Panel.writable_ (fs inp) (Driver.saveDir (LWindow.saveDir (win s))) = true ->
  exists s', step inp ClickStartStop s = Some s' /\ file_open s' = true /\
    Panel.exists_ (fs inp) (saved_to s') = false.
Proof.
  intros H R F A De Dw. destruct (lrefine_start inp s H R) as (s' & E & _ & _ & Sv & Fo).
  exists s'. split; [exact E|]. destruct (start_prepare_fields inp s) as (_ & _ & _ & _ & S5 & _ & S7).
  rewrite Fo, Sv, S7, S5, F, autoSave_ret.
  change (LWindow.autoName (LWindow.preparePlot (win s))) with (LWindow.autoName (win s)).
  change (LWindow.saveDir (LWindow.preparePlot (win s))) with (LWindow.saveDir (win s)).
  rewrite A. destruct (LChartFacts.prepareAutoSave_fresh (fs inp) (now inp) _
                         (LWindow.saveName (LWindow.preparePlot (win s))) De Dw) as (n & Pn & Fr).
  rewrite Pn. cbn [fst orb]. rewrite saveDir_app_nonempty. split; [reflexivity|exact Fr].
Qed.

End Steps.

(** ** Witnesses *)

Import LScanDemo.

Lemma legacy_step_refines_witness :
  exists s', LScan.step show_int show_real show_g show_e inp ClickStartStop ten = Some s' /\ inv s' /\
    alpha s' = Abstract.step (reading inp) (spec_event ClickStartStop) (alpha ten).
Proof.
  apply (legacy_step_refines show_int show_real show_g show_e inp ClickStartStop ten).
  split; [reflexivity|]. split; [vm_compute; discriminate|intros Hr; discriminate Hr].
Defined.

Lemma legacy_start_no_point_witness :
  LScan.step show_int show_real show_g show_e inp ClickStartStop zero = None.
Proof.
  apply (legacy_start_no_point show_int show_real show_g show_e inp zero);
    [reflexivity|reflexivity|vm_compute; discriminate].
Defined.

Lemma legacy_single_point_restart_witness :
  exists s', LScan.step show_int show_real show_g show_e inp ClickStartStop one = Some s' /\
    running s' = true /\ point s' = 1%Z /\ table s' = [] /\
    Forall (fun ps => LSignal.data ps.2 = [NaN]) (LWindow.signals (win s')).
Proof.
  apply (legacy_single_point_restart show_int show_real show_g show_e inp one);
    [reflexivity|reflexivity|vm_compute; reflexivity|vm_compute; reflexivity].
Defined.

Lemma legacy_start_fresh_file_witness :
  exists s', LScan.step show_int show_real show_g show_e inp ClickStartStop auto = Some s' /\
    file_open s' = true /\ Panel.exists_ (fs inp) (saved_to s') = false.
Proof.
  apply (legacy_start_fresh_file show_int show_real show_g show_e inp auto);
    [split; [reflexivity|split; [vm_compute; discriminate|intros Hr; discriminate Hr]]
    |reflexivity|reflexivity|vm_compute; reflexivity|vm_compute; reflexivity|vm_compute; reflexivity].
Defined.

End LScanFacts.
